(** * AirQo forecasting workflows: feature engineering, model registry,
      temporal split, recursive forecasts and the forecast sink.

    A shallow embedding of [src/workflows/airqo_etl_utils/ml_utils.py].

    The Python code works on pandas DataFrames.  A DataFrame is embedded as
    an ordered list of named columns, a column as a list of cells, and the
    pandas primitives the code calls ([shift], [groupby().shift],
    [groupby().transform], [rolling().agg], [interpolate], [resample],
    [dropna], [concat], ...) as list functions.  Rows are addressed by
    position: every assignment [df[c] = series] in the source assigns a
    series computed from [df] itself, so index alignment is the identity.

    Conventions.
    - pandas is the 2.x line without Copy-on-Write: the module sets
      [pd.options.mode.chained_assignment] and calls [drop] with [columns]
      and [axis] together, which pandas 3 refuses.  A frame made by
      [df.copy()], [df[mask]], [df.dropna(...)], [df.drop(...)] or
      [pd.concat] shares no cell with the frame it was made from.
      [df.tail(1)] is a view of the last row: an in-place operation on a
      series read from it ([+=]) changes the cell of [df]; assigning a
      column into the view leaves [df] as it is.
    - the dtype of a column is read off its cells: numbers and missing
      cells make a float column, timestamps and missing cells a datetime
      column, and any other column holds Python objects.
    - a character of a name stands for the Unicode code point of the same
      number (names range over the code points below 256).
    - [pm2_5] and every other float is an exact rational [Q]; the rolling
      reducers, [sin], [cos], [pi], the timestamp parser and the regressor
      are parameters of the development.
    - timestamps are nanoseconds since the epoch, calendar fields are read
      in UTC. *)

From Stdlib Require Import ZArith QArith Lia Ascii String List Bool.
From stdpp Require Import base option list gmap strings pretty.

Close Scope Q_scope.
Set Default Proof Using "Type".

(* ================================================================== *)
(** * Part I: the embedding *)
(* ================================================================== *)

(** ** Cells, columns, frames *)

Inductive Cell :=
| CNull                 (* None, NaN or NaT *)
| CStr (s : string)     (* a Python string *)
| CNum (q : Q)          (* a float, idealised *)
| CTime (t : Z).        (* datetime64[ns] *)

#[global] Instance Q_eq_dec : EqDecision Q.
Proof. solve_decision. Defined.

#[global] Instance Cell_eq_dec : EqDecision Cell.
Proof. solve_decision. Defined.

Abbreviation Column := (list Cell) (only parsing).

(** Columns in their order; a name occurs once in a well-formed frame. *)
Abbreviation Frame := (list (string * Column)) (only parsing).

Definition is_null (c : Cell) : bool :=
  match c with CNull => true | _ => false end.

Definition notna (c : Cell) : bool := negb (is_null c).

Definition as_num (c : Cell) : option Q :=
  match c with CNum q => Some q | _ => None end.

(** dtype tests: a float column holds numbers and NaN, a datetime column
    holds timestamps and NaT. *)
Definition is_numeric (c : Column) : bool :=
  forallb (λ x, match x with CNum _ | CNull => true | _ => false end) c.

Definition is_datetime (c : Column) : bool :=
  forallb (λ x, match x with CTime _ | CNull => true | _ => false end) c.

Definition columns (df : Frame) : list string := df.*1.

Fixpoint getcol (name : string) (df : Frame) : option Column :=
  match df with
  | [] => None
  | (n, c) :: rest => if decide (n = name) then Some c else getcol name rest
  end.

(** [df[name] = c]: overwrite in place when the column exists, append it as
    the last column otherwise. *)
Fixpoint setitem (name : string) (c : Column) (df : Frame) : Frame :=
  match df with
  | [] => [(name, c)]
  | (n, c0) :: rest =>
      if decide (n = name) then (n, c) :: rest
      else (n, c0) :: setitem name c rest
  end.

Definition has_columns (names : list string) (df : Frame) : bool :=
  forallb (λ n, bool_decide (n ∈ columns df)) names.

Definition nrows (df : Frame) : nat :=
  match df with [] => 0 | (_, c) :: _ => length c end.

(** [df.empty] *)
Definition empty (df : Frame) : bool := bool_decide (nrows df = 0).

Definition wf_frame (df : Frame) : Prop :=
  NoDup (columns df) ∧ Forall (λ p, length p.2 = nrows df) df.

Definition map_columns (f : Column → Column) (df : Frame) : Frame :=
  fmap (λ p, (p.1, f p.2)) df.

Fixpoint mask_select {A} (mask : list bool) (xs : list A) : list A :=
  match mask, xs with
  | b :: m, x :: r => if b then x :: mask_select m r else mask_select m r
  | _, _ => []
  end.

(** [df[mask]] *)
Definition filter_rows (mask : list bool) (df : Frame) : Frame :=
  map_columns (mask_select mask) df.

(** [df.iloc[start:]] for a start already resolved to a position. *)
Definition drop_rows (start : nat) (df : Frame) : Frame :=
  map_columns (drop start) df.

(** Python's [df.iloc[start:]]: a negative start counts from the end, and
    both are clipped to the frame. *)
Definition iloc_from (start : Z) (df : Frame) : Frame :=
  let n := Z.of_nat (nrows df) in
  let s := if (start <? 0)%Z then Z.max 0 (n + start) else Z.min n start in
  drop_rows (Z.to_nat s) df.

(** [df.tail(n)] is [df.iloc[-n:]] (and no row when [n = 0]). *)
Definition tail (n : nat) (df : Frame) : Frame :=
  drop_rows (nrows df - n) df.

(** [df.drop(columns=names)]; [None] is pandas' KeyError. *)
Definition drop_columns (names : list string) (df : Frame) : option Frame :=
  if forallb (λ n, bool_decide (n ∈ columns df)) names
  then Some (filter (λ p, p.1 ∉ names) df)
  else None.

(** [df[names]] *)
Definition select_columns (names : list string) (df : Frame) : option Frame :=
  mapM (λ n, (λ c, (n, c)) <$> getcol n df) names.

(** [pd.concat([a, b])] on rows: the columns of [a], then the new ones of
    [b]; a frame lacking a column contributes missing cells. *)
Definition concat2 (a b : Frame) : Frame :=
  let names := columns a ++ filter (λ n, n ∉ columns a) (columns b) in
  fmap (λ n, (n, default (replicate (nrows a) CNull) (getcol n a)
                  ++ default (replicate (nrows b) CNull) (getcol n b))) names.

(** pandas' [unique()]: distinct values in order of first appearance. *)
Fixpoint unique {A} `{EqDecision A} (xs : list A) : list A :=
  match xs with
  | [] => []
  | x :: r => x :: filter (λ y, y ≠ x) (unique r)
  end.

(** [series == v], elementwise; a missing cell equals nothing. *)
Definition eq_mask (v : Cell) (c : Column) : list bool :=
  fmap (λ x, notna x && bool_decide (x = v)) c.

(** [df.dropna(subset=names)] *)
Definition dropna (names : list string) (df : Frame) : option Frame :=
  cols ← mapM (λ n, getcol n df) names;
  let keep i := forallb (λ c : Column, notna (default CNull (c !! i))) cols in
  Some (filter_rows (fmap keep (seq 0 (nrows df))) df).

(** ** Shifts and group keys *)

(** [series.shift(periods)], [periods >= 0]. *)
Definition shift (periods : nat) (c : Column) : Column :=
  take (length c) (replicate periods CNull ++ c).

Abbreviation Key := (list Cell) (only parsing).

Definition null_key (k : Key) : bool := existsb is_null k.

(** The key tuple of every row, read from the columns named: the keys of
    [df.groupby(name)] for a single name; [None] is pandas' KeyError. *)
Definition column_keys (by_ : list string) (df : Frame) : option (list Key) :=
  cols ← mapM (λ n, getcol n df) by_;
  Some (fmap (λ i, fmap (λ c : Column, default CNull (c !! i)) cols)
            (seq 0 (nrows df))).

(** The key of every row for [df.groupby(by)] with a list [by].  When the
    frame has all the columns named, the keys are read from them.  When
    it lacks one and the list is as long as the frame, pandas takes the
    list itself as one array of row labels: row [i] gets the [i]-th name
    as its key.  Otherwise the missing column is a KeyError. *)
Definition row_keys (by_ : list string) (df : Frame) : option (list Key) :=
  if has_columns by_ df then column_keys by_ df
  else if decide (length by_ = nrows df) then Some ((λ n, [CStr n]) <$> by_)
  else None.

Definition take_cells (idx : list (option nat)) (c : Column) : Column :=
  fmap (λ oi, match oi with
             | Some i => default CNull (c !! i)
             | None => CNull
             end) idx.

(** pandas' group shift indexer: one pass over the rows, remembering for
    every key the positions already seen (latest first).  Row [i] reads
    the row [periods] places back in its own group; rows whose key has a
    missing component belong to no group. *)
Fixpoint group_shift_indexer (periods : nat) (seen : Key → list nat)
    (i : nat) (keys : list Key) : list (option nat) :=
  match keys with
  | [] => []
  | k :: rest =>
      if null_key k
      then None :: group_shift_indexer periods seen (S i) rest
      else ((i :: seen k) !! periods)
             :: group_shift_indexer periods
                  (λ k', if decide (k' = k) then i :: seen k else seen k')
                  (S i) rest
  end.

(** [df.groupby(by)[col].shift(periods)] *)
Definition group_shift (periods : nat) (keys : list Key) (c : Column) : Column :=
  take_cells (group_shift_indexer periods (λ _, []) 0 keys) c.

(** The sub-series of one group and the place of row [t] in it. *)
Definition group_series (k : Key) (keys : list Key) (c : Column) : Column :=
  mask_select (fmap (λ k', bool_decide (k' = k)) keys) c.

Definition group_rank (k : Key) (keys : list Key) (t : nat) : nat :=
  length (filter (λ k', k' = k) (take t keys)).

(** [df.groupby(by)[col].transform(f)]: [f] runs on every group's
    sub-series and the results go back to the rows they came from. *)
Definition group_transform (f : Column → Column)
    (keys : list Key) (c : Column) : Column :=
  imap (λ t k, if null_key k then CNull
               else default CNull (f (group_series k keys c) !! group_rank k keys t))
       keys.

(** ** External functions *)

(** The statistics named in [.rolling(s).agg(f)]. *)
Inductive Stat := Mean | Std | Max | Min | Median | Skew.

#[global] Instance Stat_eq_dec : EqDecision Stat.
Proof. solve_decision. Defined.

Definition stat_name (f : Stat) : string :=
  match f with
  | Mean => "mean" | Std => "std" | Max => "max"
  | Min => "min" | Median => "median" | Skew => "skew"
  end.

(** What pandas and numpy compute and this development does not look
    into: the rolling reducers on a full window, the conversion of one
    non-datetime value by [pd.to_datetime] ([None]: it raises; [Some None]:
    NaT), and the trigonometry. *)
Class Externals := {
  agg : Stat → list Q → Q;
  parse_timestamp : Cell → option (option Z);
  np_sin : Q → Q;
  np_cos : Q → Q;
  np_pi : Q;
}.

(** ** Rolling windows *)

Section Rolling.
Context `{Externals}.

(** [series.rolling(s).agg(f)] at row [t]: the window is the [s] rows
    ending at [t]; with the default [min_periods = s] the result is
    missing unless the window is complete and free of missing values. *)
Definition rolling_at (s : nat) (f : Stat) (xs : Column) (t : nat) : Cell :=
  if decide (s ≤ S t) then
    match mapM as_num (take s (drop (S t - s) xs)) with
    | Some w => CNum (agg f w)
    | None => CNull
    end
  else CNull.

Definition rolling (s : nat) (f : Stat) (xs : Column) : Column :=
  fmap (rolling_at s f xs) (seq 0 (length xs)).
End Rolling.

(** ** Linear interpolation *)

(** Offset and value of the first number of a list. *)
Fixpoint first_valid (xs : Column) : option (nat * Q) :=
  match xs with
  | [] => None
  | CNum q :: _ => Some (0, q)
  | _ :: r => (λ p, (S p.1, p.2)) <$> first_valid r
  end.

Definition next_valid (xs : Column) (i : nat) : option (nat * Q) :=
  first_valid (drop (S i) xs).

Definition prev_valid (xs : Column) (i : nat) : option (nat * Q) :=
  first_valid (rev (take i xs)).

(** The point [a] steps after [y0] and [b] steps before [y1] on the line
    through both. *)
Definition lerp (y0 y1 : Q) (a b : nat) : Q :=
  Qred (y0 + (y1 - y0) * (inject_Z (Z.of_nat a) / inject_Z (Z.of_nat (a + b))))%Q.

(** [x.interpolate(method="linear", limit_direction="both")]: the rows are
    taken as equally spaced; a missing value between two numbers lies on
    the line through them, a missing value before the first number takes
    the first number and one after the last number takes the last number;
    a series without any number is left as it is. *)
Definition interpolate_at (xs : Column) (i : nat) (x : Cell) : Cell :=
  match x with
  | CNull =>
      match prev_valid xs i, next_valid xs i with
      | Some (dp, y0), Some (dn, y1) => CNum (lerp y0 y1 (S dp) (S dn))
      | None, Some (_, y1) => CNum y1
      | Some (_, y0), None => CNum y0
      | None, None => CNull
      end
  | _ => x
  end.

Definition interpolate (xs : Column) : Column := imap (interpolate_at xs) xs.

(** ** Calendar *)

Definition HOUR_NS : Z := 3600 * 10 ^ 9.
Definition DAY_NS : Z := 86400 * 10 ^ 9.

(** Days since 1970-01-01 of a timestamp, and midnight of its day. *)
Definition day_number (t : Z) : Z := (t / DAY_NS)%Z.
Definition day_floor (t : Z) : Z := (day_number t * DAY_NS)%Z.

(** Year, month and day of a day number (proleptic Gregorian calendar). *)
Definition civil_from_days (z : Z) : Z * Z * Z :=
  (let z := z + 719468 in
   let era := z / 146097 in
   let doe := z - era * 146097 in
   let yoe := (doe - doe / 1460 + doe / 36524 - doe / 146096) / 365 in
   let doy := doe - (365 * yoe + yoe / 4 - yoe / 100) in
   let mp := (5 * doy + 2) / 153 in
   let d := doy - (153 * mp + 2) / 5 + 1 in
   let m := if mp <? 10 then mp + 3 else mp - 9 in
   (yoe + era * 400 + (if m <=? 2 then 1 else 0), m, d))%Z.

Definition days_from_civil (y m d : Z) : Z :=
  (let y := if m <=? 2 then y - 1 else y in
   let era := y / 400 in
   let yoe := y - era * 400 in
   let doy := (153 * (if m >? 2 then m - 3 else m + 9) + 2) / 5 + d - 1 in
   let doe := yoe * 365 + yoe / 4 - yoe / 100 + doy in
   era * 146097 + doe - 719468)%Z.

Definition dt_year (t : Z) : Z := (civil_from_days (day_number t)).1.1.
Definition dt_month (t : Z) : Z := (civil_from_days (day_number t)).1.2.
Definition dt_day (t : Z) : Z := (civil_from_days (day_number t)).2.
Definition dt_hour (t : Z) : Z := ((t mod DAY_NS) / HOUR_NS)%Z.

(** Monday is 0. *)
Definition dt_dayofweek (t : Z) : Z := ((day_number t + 3) mod 7)%Z.

(** ISO 8601 week number. *)
Definition iso_weeks_in_year (y : Z) : Z :=
  (let p y := (y + y / 4 - y / 100 + y / 400) mod 7 in
   if (p y =? 4) || (p (y - 1) =? 3) then 53 else 52)%Z.

Definition dt_isoweek (t : Z) : Z :=
  (let y := dt_year t in
   let doy := day_number t - days_from_civil y 1 1 + 1 in
   let w := (doy - (dt_dayofweek t + 1) + 10) / 7 in
   if w <? 1 then iso_weeks_in_year (y - 1)
   else if w >? iso_weeks_in_year y then 1
   else w)%Z.

Inductive Attr := Year | Month | Day | DayOfWeek | Hour.

Definition attr_name (a : Attr) : string :=
  match a with
  | Year => "year" | Month => "month" | Day => "day"
  | DayOfWeek => "dayofweek" | Hour => "hour"
  end.

Definition dt_attr (a : Attr) (t : Z) : Z :=
  match a with
  | Year => dt_year t | Month => dt_month t | Day => dt_day t
  | DayOfWeek => dt_dayofweek t | Hour => dt_hour t
  end.

(** [series.dt.<attribute>] on a datetime column *)
Definition dt_column (f : Z → Z) (c : Column) : Column :=
  fmap (λ x, match x with CTime t => CNum (inject_Z (f t)) | _ => CNull end) c.

(** ** Daily resampling *)

Definition cell_leb (a b : Cell) : bool :=
  match a, b with
  | CNull, _ => true
  | _, CNull => false
  | CNum x, CNum y => Qle_bool x y
  | CNum _, _ => true
  | _, CNum _ => false
  | CStr x, CStr y => String.leb x y
  | CStr _, _ => true
  | _, CStr _ => false
  | CTime x, CTime y => (x <=? y)%Z
  end.

(** Tuples compare component by component. *)
Fixpoint key_leb (a b : Key) : bool :=
  match a, b with
  | [], _ => true
  | _ :: _, [] => false
  | x :: a', y :: b' =>
      if decide (x = y) then key_leb a' b' else cell_leb x y
  end.

Fixpoint insert_key (k : Key) (ks : list Key) : list Key :=
  match ks with
  | [] => [k]
  | k' :: r => if key_leb k k' then k :: ks else k' :: insert_key k r
  end.

Definition sort_keys (ks : list Key) : list Key := foldr insert_key [] ks.

(** The mean of the numbers of a bin, missing for a bin without any. *)
Definition nanmean (xs : list Cell) : Cell :=
  match omap as_num xs with
  | [] => CNull
  | v :: vs =>
      CNum (Qred (foldr Qplus 0%Q (v :: vs) / inject_Z (Z.of_nat (length (v :: vs)))))
  end.

(** The day numbers of the rows of group [k] (rows without a timestamp
    fall into no bin). *)
Definition group_days (k : Key) (keys : list Key) (ts : Column) : list Z :=
  omap (λ p, match p with
             | (k', CTime t) => if decide (k' = k) then Some (day_number t) else None
             | _ => None
             end) (zip keys ts).

(** Every day from the first to the last one of the group. *)
Definition day_range (ds : list Z) : list Z :=
  match ds with
  | [] => []
  | d :: r =>
      let lo := foldr Z.min d r in
      let hi := foldr Z.max d r in
      seqZ lo (hi - lo + 1)
  end.

(** The cells of column [c] on the rows of group [k] that fall on day [d]. *)
Definition bin_cells (k : Key) (d : Z) (keys : list Key) (ts c : Column) : list Cell :=
  omap (λ p, match p with
             | (k', (CTime t, x)) =>
                 if decide (k' = k ∧ day_number t = d) then Some x else None
             | _ => None
             end) (zip keys (zip ts c)).

(** The result of [groupby(by).resample("D", on="timestamp")
    .mean(numeric_only=True)]: the index levels (the group key, then the
    day) and the value columns.  The groups come in sorted key order.
    The means are taken of every numeric column but the timestamp, the
    columns of the key included.  A key made of row labels is one level
    without a name, which [reset_index] calls [level_0]. *)
Record Resampled := { rs_index : Frame; rs_values : Frame }.

Definition groupby_resample_mean (by_ : list string) (df : Frame) : option Resampled :=
  keys ← row_keys by_ df;
  ts ← getcol "timestamp" df;
  let groups := sort_keys (unique (filter (λ k, null_key k = false) keys)) in
  let bins k := day_range (group_days k keys ts) in
  let levels := if has_columns by_ df then by_ else ["level_0"] in
  let level j n :=
    (n, flat_map (λ k : Key, replicate (length (bins k)) (default CNull (k !! j))) groups) in
  let days :=
    ("timestamp", flat_map (λ k, fmap (λ d, CTime (d * DAY_NS)) (bins k)) groups) in
  let value (p : string * Column) :=
    (p.1, flat_map (λ k, fmap (λ d, nanmean (bin_cells k d keys ts p.2)) (bins k)) groups) in
  Some {| rs_index := imap level levels ++ [days];
          rs_values := fmap value
            (filter (λ p, (p.1 ≠ "timestamp") ∧ is_numeric p.2 = true) df) |}.

(** ** Exceptions and the object store *)

Inductive Exn :=
| ValueError (msg : string)
| KeyError (msg : string)
| TypeError (msg : string)
| IndexError (msg : string)
| AttributeError (msg : string)
| FileNotFoundError (msg : string)
| DataError (msg : string).

Inductive Result (A : Type) :=
| Ok (a : A)
| Raise (e : Exn).
Arguments Ok {A} a.
Arguments Raise {A} e.

#[global] Instance Result_ret : MRet Result := λ A a, Ok a.
#[global] Instance Result_bind : MBind Result :=
  λ A B f r, match r with Ok a => f a | Raise e => Raise e end.
#[global] Instance Result_fmap : FMap Result :=
  λ A B f r, match r with Ok a => Ok (f a) | Raise e => Raise e end.

(** A missing column is a KeyError. *)
Definition need {A} (what : string) (o : option A) : Result A :=
  match o with Some a => Ok a | None => Raise (KeyError what) end.

(** [reset_index]: the index levels become the leading columns.  They
    are inserted one by one, the last level first, each in front of the
    columns; a level whose name is taken already cannot be inserted. *)
Definition insert_level (level : string * Column) (table : Result Frame)
    : Result Frame :=
  table ← table;
  if decide (level.1 ∈ columns table)
  then Raise (ValueError ("cannot insert " +:+ level.1 +:+ ", already exists"))
  else Ok (level :: table).

Definition reset_index (r : Resampled) : Result Frame :=
  foldr insert_level (Ok (rs_values r)) (rs_index r).

Fixpoint foldM {A B} (f : A → B → Result A) (a : A) (bs : list B) : Result A :=
  match bs with
  | [] => Ok a
  | b :: r => a' ← f a b; foldM f a' r
  end.

(** DataFrames are Python objects: a function that assigns into the frame
    it was given changes the caller's frame.  The store holds the frames
    by reference.  A frame built inside a function enters the store when
    the function hands it out. *)
Abbreviation loc := nat (only parsing).
Abbreviation Store := (list Frame) (only parsing).

Definition M (A : Type) : Type := Store → Result A * Store.

#[global] Instance M_ret : MRet M := λ A a σ, (Ok a, σ).
#[global] Instance M_bind : MBind M :=
  λ A B f m σ, match m σ with
               | (Ok a, σ') => f a σ'
               | (Raise e, σ') => (Raise e, σ')
               end.

Definition raise {A} (e : Exn) : M A := λ σ, (Raise e, σ).

Definition lift {A} (r : Result A) : M A := λ σ, (r, σ).

Definition load (l : loc) : M Frame :=
  λ σ, match σ !! l with
       | Some df => (Ok df, σ)
       | None => (Raise (KeyError "dangling reference"), σ)
       end.

(** Replace the contents of the object at [l]: an in-place update. *)
Definition store (l : loc) (df : Frame) : M unit :=
  λ σ, (Ok (), <[l := df]> σ).

(** A new object. *)
Definition alloc (df : Frame) : M loc :=
  λ σ, (Ok (length σ), σ ++ [df]).

(** [df[name] = c] on the object at [l]. *)
Definition setitem_at (l : loc) (name : string) (c : Column) : M unit :=
  df ← load l; store l (setitem name c df).

(** ** BaseMlUtils: the feature engineer *)

Definition additional_columns : list string := ["site_id"].

(** The grouping of [preprocess_data]. *)
Definition group_columns (job_type : string) : list string :=
  if decide (job_type = "prediction")
  then ["device_id"] ++ additional_columns
  else ["device_id"].

Definition lag_name (s : nat) (unit_ : string) : string :=
  "pm2_5_last_" +:+ pretty s +:+ "_" +:+ unit_.

Definition roll_name (f : Stat) (s : nat) (unit_ : string) : string :=
  "pm2_5_" +:+ stat_name f +:+ "_" +:+ pretty s +:+ "_" +:+ unit_.

Section FeatureEngineer.
Context `{Externals}.

(** [pd.to_datetime(series)]; [None] when a value cannot be converted. *)
Definition to_datetime (c : Column) : option Column :=
  mapM (λ x, match x with
             | CNull => Some CNull
             | CTime t => Some (CTime t)
             | _ => (λ o, match o with Some t => CTime t | None => CNull end)
                      <$> parse_timestamp x
             end) c.

Definition timestamp_to_datetime (df : Frame) : Result Column :=
  match getcol "timestamp" df ≫= to_datetime with
  | Some ts => Ok ts
  | None => Raise (ValueError "timestamp cannot be parsed")
  end.

(** [data.groupby(group_columns)["pm2_5"].transform(
      lambda x: x.interpolate(method="linear", limit_direction="both"))] *)
Definition interpolate_groups (by_ : list string) (df : Frame) : Result Column :=
  keys ← need "group column" (row_keys by_ df);
  c ← need "pm2_5" (getcol "pm2_5" df);
  if is_numeric c then Ok (group_transform interpolate keys c)
  else Raise (TypeError "cannot interpolate a non-numeric column").

Definition preprocess_data (data : loc) (data_frequency job_type : string) : M loc :=
  df ← load data;
  if negb (has_columns ["device_id"; "pm2_5"; "timestamp"] df)
  then raise (ValueError "Provided dataframe missing necessary columns")
  else
    match getcol "timestamp" df ≫= to_datetime with
    | None =>
        raise (ValueError
          "datetime conversion error, please provide timestamp in valid format")
    | Some ts =>
        setitem_at data "timestamp" ts;;
        df ← load data;
        v ← lift (interpolate_groups (group_columns job_type) df);
        setitem_at data "pm2_5" v;;
        data ← (if decide (data_frequency = "daily")
                then
                  df ← load data;
                  r ← lift (need "group column"
                              (groupby_resample_mean (group_columns job_type) df));
                  table ← lift (reset_index r);
                  alloc table
                else mret data);
        df ← load data;
        v ← lift (interpolate_groups (group_columns job_type) df);
        setitem_at data "pm2_5" v;;
        df ← load data;
        out ← lift (need "pm2_5" (dropna ["pm2_5"] df));
        alloc out
    end.

(** [df1[f"pm2_5_last_{s}_<unit>"] =
      df1.groupby(["device_id"])[target_col].shift(s)] *)
Definition add_lag (target_col unit_ : string) (df1 : Frame) (s : nat) : Result Frame :=
  keys ← need "device_id" (row_keys ["device_id"] df1);
  c ← need target_col (getcol target_col df1);
  Ok (setitem (lag_name s unit_) (group_shift s keys c) df1).

(** [df1[f"pm2_5_{f}_{s}_<unit>"] =
      df1.groupby(["device_id"])[target_col].shift(1).rolling(s).agg(f)]:
    the shift is by group, the window then runs over the shifted column
    in frame order. *)
Definition add_roll (target_col unit_ : string) (s : nat) (df1 : Frame) (f : Stat)
    : Result Frame :=
  keys ← need "device_id" (row_keys ["device_id"] df1);
  c ← need target_col (getcol target_col df1);
  if is_numeric c
  then Ok (setitem (roll_name f s unit_) (rolling s f (group_shift 1 keys c)) df1)
  else Raise (DataError "No numeric types to aggregate").

Definition lag_and_roll (target_col unit_ : string) (lags windows : list nat)
    (functions : list Stat) (df1 : Frame) : Result Frame :=
  df1 ← foldM (add_lag target_col unit_) df1 lags;
  foldM (λ df1 s, foldM (add_roll target_col unit_ s) df1 functions) df1 windows.

Definition get_lag_and_roll_features (df : loc) (target_col freq : string) : M loc :=
  d ← load df;
  if empty d then raise (ValueError "Empty dataframe provided")
  else if negb (has_columns [target_col; "timestamp"; "device_id"] d)
  then raise (ValueError "Required columns missing")
  else
    ts ← lift (timestamp_to_datetime d);
    setitem_at df "timestamp" ts;;
    df1 ← load df;
    if decide (freq = "daily") then
      r ← lift (lag_and_roll target_col "day" [1; 2; 3; 7] [2; 3; 7]
                  [Mean; Std; Max; Min] df1);
      alloc r
    else if decide (freq = "hourly") then
      r ← lift (lag_and_roll target_col "hour" [1; 2; 6; 12] [3; 6; 12; 24]
                  [Mean; Std; Median; Skew] df1);
      alloc r
    else raise (ValueError "Invalid frequency").

Definition time_attributes (freq : string) : list Attr :=
  [Year; Month; Day; DayOfWeek] ++ (if decide (freq = "hourly") then [Hour] else []).

Definition get_time_features (df : loc) (freq : string) : M loc :=
  d ← load df;
  if empty d then raise (ValueError "Empty dataframe provided")
  else if negb (has_columns ["timestamp"] d)
  then raise (ValueError "Required columns missing")
  else
    ts ← lift (timestamp_to_datetime d);
    setitem_at df "timestamp" ts;;
    if negb (bool_decide (freq ∈ ["daily"; "hourly"]))
    then raise (ValueError "Invalid frequency")
    else
      df1 ← load df;
      let df1 := foldl (λ df1 a, setitem (attr_name a) (dt_column (dt_attr a) ts) df1)
                       df1 (time_attributes freq) in
      let df1 := setitem "week" (dt_column dt_isoweek ts) df1 in
      alloc df1.

Definition max_val (a : Attr) : Z :=
  match a with
  | Year => 2023 | Month => 12 | Day => 30 | DayOfWeek => 7 | Hour => 23
  end.

(** [trig(2 * np.pi * series / m)] *)
Definition cyclic (trig : Q → Q) (m : Z) (c : Column) : Column :=
  fmap (λ x, match x with
            | CNum q => CNum (trig (2 * np_pi * q / inject_Z m)%Q)
            | _ => CNull
            end) c.

Definition add_cyclic (name : string) (m : Z) (df1 : Frame) : Result Frame :=
  c ← need name (getcol name df1);
  Ok (setitem (name +:+ "_cos") (cyclic np_cos m c)
        (setitem (name +:+ "_sin") (cyclic np_sin m c) df1)).

Definition get_cyclic_features (df : loc) (freq : string) : M loc :=
  df1 ← get_time_features df freq;
  d ← load df1;
  d ← lift (foldM (λ d a, add_cyclic (attr_name a) (max_val a) d) d
                  (time_attributes freq));
  d ← lift (add_cyclic "week" 52 d);
  d ← lift (need "calendar column"
              (drop_columns (fmap attr_name (time_attributes freq) ++ ["week"]) d));
  store df1 d;;
  mret df1.

(** [np.cos(series)], [np.sin(series)] and the product of two series. *)
Definition np_map (f : Q → Q) (c : Column) : Result Column :=
  if is_numeric c
  then Ok (fmap (λ x, match x with CNum q => CNum (f q) | _ => CNull end) c)
  else Raise (TypeError "not a numeric column").

Definition col_mul (a b : Column) : Column :=
  zip_with (λ x y, match x, y with
                   | CNum p, CNum q => CNum (p * q)%Q
                   | _, _ => CNull
                   end) a b.

(** Adds its columns to the frame it was given and returns that frame. *)
Definition get_location_features (df : loc) : M loc :=
  d ← load df;
  if empty d then raise (ValueError "Empty dataframe provided")
  else
    match filter (λ n, n ∉ columns d) ["timestamp"; "latitude"; "longitude"] with
    | column_name :: _ => raise (ValueError (column_name +:+ " column is missing"))
    | [] =>
        ts ← lift (timestamp_to_datetime d);
        setitem_at df "timestamp" ts;;
        d ← load df;
        lat ← lift (need "latitude" (getcol "latitude" d));
        lon ← lift (need "longitude" (getcol "longitude" d));
        cos_lat ← lift (np_map np_cos lat);
        cos_lon ← lift (np_map np_cos lon);
        setitem_at df "x_cord" (col_mul cos_lat cos_lon);;
        d ← load df;
        lat ← lift (need "latitude" (getcol "latitude" d));
        lon ← lift (need "longitude" (getcol "longitude" d));
        cos_lat ← lift (np_map np_cos lat);
        sin_lon ← lift (np_map np_sin lon);
        setitem_at df "y_cord" (col_mul cos_lat sin_lon);;
        d ← load df;
        lat ← lift (need "latitude" (getcol "latitude" d));
        sin_lat ← lift (np_map np_sin lat);
        setitem_at df "z_cord" sin_lat;;
        mret df
    end.
End FeatureEngineer.

(** ** GCSUtils: the model registry *)

Section GCSUtils.
Context {A : Type}.

(** The blob store as a map from paths to artifacts; [fs.rename] moves a
    blob and raises when there is none. *)
Definition fs_rename (src dst : string) (fs : gmap string A) : Result (gmap string A) :=
  match fs !! src with
  | Some a => Ok (<[dst := a]> (delete src fs))
  | None => Raise (FileNotFoundError src)
  end.

Definition get_trained_model_from_gcs (fs : gmap string A)
    (project_name bucket_name source_blob_name : string) : Result A :=
  match fs !! (bucket_name +:+ "/" +:+ source_blob_name) with
  | Some job => Ok job
  | None => Raise (FileNotFoundError (bucket_name +:+ "/" +:+ source_blob_name))
  end.

(** [now] is [str(datetime.now())].  Returns the store and what was
    printed. *)
Definition upload_trained_model_to_gcs (trained_model : A)
    (project_name bucket_name source_blob_name now : string)
    (fs : gmap string A) : gmap string A * string :=
  let renamed :=
    match fs_rename (bucket_name +:+ "/" +:+ source_blob_name)
                    (bucket_name +:+ "/" +:+ now +:+ "-" +:+ source_blob_name) fs with
    | Ok fs' => (fs', "Bucket: previous model is backed up")
    | Raise _ => (fs, "Bucket: No file to updated")
    end in
  (<[bucket_name +:+ "/" +:+ source_blob_name := trained_model]> renamed.1, renamed.2).
End GCSUtils.

(** ** ForecastUtils *)

(** The regressor is opaque: it maps the feature values of one row to a
    prediction. *)
Record Model := { predict : list Cell → Q }.

Record Configuration := {
  HOURLY_FORECAST_HORIZON : Z;
  DAILY_FORECAST_HORIZON : Z;
}.

(** [series.isin(values)] *)
Definition isin (values : list Cell) (c : Column) : list bool :=
  fmap (λ x, bool_decide (x ∈ values)) c.

(** [x + timedelta] on a timestamp; NaT stays NaT. *)
Definition add_timedelta (d : Z) (x : Cell) : Cell :=
  match x with CTime t => CTime (t + d) | _ => CNull end.

(** Assign the cell of the last row; [None] on a column without rows. *)
Definition set_last (x : Cell) (c : Column) : option Column :=
  match c with
  | [] => None
  | _ => Some (<[length c - 1 := x]> c)
  end.

(** [str.strip()]: Python's white space among the code points below 256
    is TAB to CR, FS to US and the space, NEL and the no-break space. *)
Definition is_space (a : ascii) : bool :=
  let n := nat_of_ascii a in
  (bool_decide (9 ≤ n) && bool_decide (n ≤ 13))
  || (bool_decide (28 ≤ n) && bool_decide (n ≤ 32))
  || bool_decide (n = 133) || bool_decide (n = 160).

Fixpoint lstrip (s : list ascii) : list ascii :=
  match s with
  | a :: r => if is_space a then lstrip r else s
  | [] => []
  end.

Definition strip (s : string) : string :=
  string_of_list_ascii (rev (lstrip (rev (lstrip (list_ascii_of_string s))))).

Section ForecastUtils.
Context `{Externals}.

(** The months of one device's rows and the three month lists. *)
Definition month_column (device_df : Frame) : Result Column :=
  ts ← need "timestamp" (getcol "timestamp" device_df);
  Ok (dt_column dt_month ts).

Definition train_months (months : list Cell) : list Cell := take 8 months.
Definition val_months (months : list Cell) : list Cell := take 1 (drop 8 months).
Definition test_months (months : list Cell) : list Cell := drop 9 months.

Definition split_device (device_df : Frame) : Result (Frame * Frame * Frame) :=
  month ← month_column device_df;
  let months := unique month in
  Ok (filter_rows (isin (train_months months) month) device_df,
      filter_rows (isin (val_months months) month) device_df,
      filter_rows (isin (test_months months) month) device_df).

(** [train_and_save_forecast_models] up to the point where the three
    tables are handed to the hyperparameter search: the temporal split.
    (The source drops the rows without a device and converts the
    timestamps in the caller's frame; only the tables matter here.) *)
Definition train_and_save_forecast_models_split (training_data : Frame) : Result (Frame * Frame * Frame) :=
  training_data ← need "device_id" (dropna ["device_id"] training_data);
  ts ← timestamp_to_datetime training_data;
  let training_data := setitem "timestamp" ts training_data in
  dev ← need "device_id" (getcol "device_id" training_data);
  foldM (λ acc device,
           let device_df := filter_rows (eq_mask device dev) training_data in
           parts ← split_device device_df;
           Ok (concat2 acc.1.1 parts.1.1,
               concat2 acc.1.2 parts.1.2,
               concat2 acc.2 parts.2))
        ([], [], []) (unique dev).

(** [df_tmp[f"pm2_5_last_{s}_<unit>"] = df_tmp.shift(s, axis=0)["pm2_5"]] *)
Definition forecast_lag (unit_ : string) (df_tmp : Frame) (s : nat) : Result Frame :=
  c ← need "pm2_5" (getcol "pm2_5" df_tmp);
  Ok (setitem (lag_name s unit_) (shift s c) df_tmp).

(** The name of a column's dtype. *)
Definition dtype (c : Column) : string :=
  if is_numeric c then "float64"
  else if is_datetime c then "datetime64[ns]"
  else "object".

(** [df.rolling(s).agg(f)] on a frame aggregates every column and raises
    on the first one that does not hold numbers. *)
Definition rolling_frame_check (df : Frame) : Result unit :=
  match filter (λ p : string * Column, is_numeric p.2 = false) df with
  | p :: _ => Raise (DataError ("Cannot aggregate non-numeric type: " +:+ dtype p.2))
  | [] => Ok ()
  end.

(** [df_tmp[f"pm2_5_{f}_{s}_<unit>"] =
      df_tmp_no_ts.shift(1, axis=0).rolling(s).agg(f)["pm2_5"]]: the
    windows run over all the columns of [df_tmp_no_ts], and [pm2_5] is
    read from the result. *)
Definition forecast_roll (unit_ : string) (df_tmp_no_ts : Frame) (s : nat)
    (df_tmp : Frame) (f : Stat) : Result Frame :=
  rolling_frame_check df_tmp_no_ts;;
  c ← need "pm2_5" (getcol "pm2_5" df_tmp_no_ts);
  Ok (setitem (roll_name f s unit_) (rolling s f (shift 1 c)) df_tmp).

Definition forecast_features (unit_ : string) (lags windows : list nat)
    (functions : list Stat) (df_tmp_no_ts df_tmp : Frame) : Result Frame :=
  df_tmp ← foldM (forecast_lag unit_) df_tmp lags;
  foldM (λ df_tmp s, foldM (forecast_roll unit_ df_tmp_no_ts s) df_tmp functions)
        df_tmp windows.

Definition excluded_columns : list string :=
  ["device_id"; "site_id"; "pm2_5"; "timestamp"; "latitude"; "longitude"].

(** The feature values handed to [predict]: the last row without the
    excluded columns, in column order. *)
Definition last_row (df : Frame) : list Cell :=
  fmap (λ p, default CNull (last p.2)) df.

(** One pass of the loop body of [get_forecasts].  Adding a timedelta to
    a column that does not hold datetimes, and reading [.dt] from one,
    raise. *)
Definition forecast_step (forecast_model : Model) (frequency : string)
    (df_tmp : Frame) : Result Frame :=
  let df_tmp := concat2 df_tmp (tail 1 df_tmp) in
  df_tmp_no_ts ← need "timestamp, device_id, site_id"
                   (drop_columns ["timestamp"; "device_id"; "site_id"] df_tmp);
  df_tmp ←
    (if decide (frequency = "daily") then
       (* [df_tmp.tail(1)["timestamp"] += timedelta(days=1)]: the series
          read from the view is added to in place, which changes the
          last timestamp of [df_tmp]; the assignment that follows goes
          into the view. *)
       tail_ts ← need "timestamp" (getcol "timestamp" (tail 1 df_tmp));
       if is_datetime tail_ts then
         ts ← need "timestamp" (getcol "timestamp" df_tmp);
         let ts := alter (add_timedelta DAY_NS) (length ts - 1) ts in
         let df_tmp := setitem "timestamp" ts df_tmp in
         forecast_features "day" [1; 2; 3; 7] [2; 3; 7] [Mean; Std; Max; Min]
           df_tmp_no_ts df_tmp
       else Raise (TypeError "unsupported operand type(s) for +")
     else if decide (frequency = "hourly") then
       (* [df_tmp.iloc[-1, ts] = df_tmp.iloc[-2, ts] + pd.Timedelta(hours=1)] *)
       ts ← need "timestamp" (getcol "timestamp" df_tmp);
       match ts !! (length ts - 2), decide (2 ≤ length ts) with
       | Some previous, left _ =>
           if is_datetime [previous] then
             let ts := <[length ts - 1 := add_timedelta HOUR_NS previous]> ts in
             let df_tmp := setitem "timestamp" ts df_tmp in
             forecast_features "hour" [1; 2; 6; 12] [3; 6; 12; 24]
               [Mean; Std; Median; Skew] df_tmp_no_ts df_tmp
           else Raise (TypeError "unsupported operand type(s) for +")
       | _, _ => Raise (IndexError "single positional indexer is out-of-bounds")
       end
     else Ok df_tmp);
  (* The cyclic features are computed from [df_tmp.tail(1)["timestamp"].dt]
     and assigned into [df_tmp.tail(1)] as well:
     [df_tmp.tail(1)[f"{a}_sin"] = ...]; the last row keeps the values
     it was copied with. *)
  ts ← need "timestamp" (getcol "timestamp" df_tmp);
  if is_datetime ts then
    features ← need "excluded columns" (drop_columns excluded_columns df_tmp);
    pm ← need "pm2_5" (getcol "pm2_5" df_tmp);
    match set_last (CNum (predict forecast_model (last_row features))) pm with
    | Some pm => Ok (setitem "pm2_5" pm df_tmp)
    | None => Raise (IndexError "index -1 is out of bounds")
    end
  else Raise (AttributeError "Can only use .dt accessor with datetimelike values").

Fixpoint forecast_loop (forecast_model : Model) (frequency : string)
    (n : nat) (df_tmp : Frame) : Result Frame :=
  match n with
  | 0 => Ok df_tmp
  | S n =>
      df_tmp ← forecast_step forecast_model frequency df_tmp;
      forecast_loop forecast_model frequency n df_tmp
  end.

(** [for i in range(int(horizon)): ...; return df_tmp.iloc[-int(horizon):, :]] *)
Definition get_forecasts (df_tmp : Frame) (forecast_model : Model)
    (frequency : string) (horizon : Z) : Result Frame :=
  df_tmp ← forecast_loop forecast_model frequency (Z.to_nat horizon) df_tmp;
  Ok (iloc_from (- horizon) df_tmp).

Definition generate_forecasts (configuration : Configuration)
    (fs : gmap string Model) (data : Frame)
    (project_name bucket_name frequency : string) : Result Frame :=
  data ← need "device_id" (dropna ["device_id"] data);
  ts ← timestamp_to_datetime data;
  let data := setitem "timestamp" ts data in
  let data := fmap (λ p, (strip p.1, p.2)) data in
  forecast_model ← get_trained_model_from_gcs fs project_name bucket_name
                     (frequency +:+ "_forecast_model.pkl");
  let df_tmp := data in
  dev ← need "device_id" (getcol "device_id" df_tmp);
  forecasts ←
    foldM (λ forecasts device,
             let test_copy := filter_rows (eq_mask device dev) df_tmp in
             let horizon :=
               if decide (frequency = "hourly")
               then HOURLY_FORECAST_HORIZON configuration
               else DAILY_FORECAST_HORIZON configuration in
             device_forecasts ← get_forecasts test_copy forecast_model frequency horizon;
             Ok (concat2 forecasts device_forecasts))
          [] (unique dev);
  pm ← need "pm2_5" (getcol "pm2_5" forecasts);
  if is_numeric pm
  then need "device_id, site_id, timestamp, pm2_5"
         (select_columns ["device_id"; "site_id"; "timestamp"; "pm2_5"] forecasts)
  else Raise (ValueError "could not convert string to float").
End ForecastUtils.

(** ** The forecast sink *)

(** A MongoDB document is a map from field names to values; a collection
    keeps its documents in insertion order. *)
Inductive Value :=
| VCell (c : Cell)
| VList (cs : list Cell)
| VStr (s : string).

#[global] Instance Value_eq_dec : EqDecision Value.
Proof. solve_decision. Defined.

Record Database := {
  hourly_forecasts_1 : list (gmap string Value);
  daily_forecasts_1 : list (gmap string Value);
}.

(** A filter of equalities selects the documents that carry every field
    with the given value. *)
Definition matches (filter_query : list (string * Value)) (doc : gmap string Value) : bool :=
  forallb (λ kv, bool_decide (doc !! kv.1 = Some kv.2)) filter_query.

Definition set_fields (fields : list (string * Value)) (doc : gmap string Value)
    : gmap string Value :=
  foldl (λ d kv, <[kv.1 := kv.2]> d) doc fields.

(** [collection.update_one(filter_query, {"$set": fields}, upsert=True)]:
    the first matching document gets the fields; without a match a new
    document is made of the filter's fields and the [$set] fields. *)
Definition update_one (filter_query fields : list (string * Value))
    (collection : list (gmap string Value)) : list (gmap string Value) :=
  match list_find (λ doc, matches filter_query doc = true) collection with
  | Some (i, doc) => <[i := set_fields fields doc]> collection
  | None => collection ++ [set_fields fields (set_fields filter_query ∅)]
  end.

(** The [doc] built for one device. *)
Record ForecastDoc := {
  doc_device_id : Cell;
  doc_created_at : string;
  doc_site_id : Cell;
  doc_pm2_5 : list Cell;
  doc_timestamp : list Cell;
}.

Definition filter_query (doc : ForecastDoc) : list (string * Value) :=
  [("device_id", VCell (doc_device_id doc)); ("site_id", VCell (doc_site_id doc))].

Definition update_query (doc : ForecastDoc) : list (string * Value) :=
  [("pm2_5", VList (doc_pm2_5 doc));
   ("timestamp", VList (doc_timestamp doc));
   ("created_at", VStr (doc_created_at doc))].

(** The document of device [i]: its first site, and the values and
    timestamps of all its rows. *)
Definition forecast_doc (data : Frame) (created_at : string) (i : Cell) : Result ForecastDoc :=
  dev ← need "device_id" (getcol "device_id" data);
  let rows := filter_rows (eq_mask i dev) data in
  site ← need "site_id" (getcol "site_id" rows);
  pm ← need "pm2_5" (getcol "pm2_5" rows);
  ts ← need "timestamp" (getcol "timestamp" rows);
  match unique site with
  | site_id :: _ =>
      Ok {| doc_device_id := i; doc_created_at := created_at; doc_site_id := site_id;
            doc_pm2_5 := pm; doc_timestamp := ts |}
  | [] => Raise (IndexError "index 0 is out of bounds for axis 0 with size 0")
  end.

Fixpoint mapM_result {A B} (f : A → Result B) (xs : list A) : Result (list B) :=
  match xs with
  | [] => Ok []
  | x :: r => y ← f x; ys ← mapM_result f r; Ok (y :: ys)
  end.

(** The write loop.  [failure doc] is the exception, if any, that the
    driver raises on the write of [doc]; it is caught, the line
    [Failed to update forecast for device <device_id>: <exception>] is
    printed (kept here as the pair), and the loop goes on. *)
Fixpoint write_forecasts (failure : ForecastDoc → option string)
    (forecast_results : list ForecastDoc)
    (collection : list (gmap string Value))
    : list (gmap string Value) * list (Cell * string) :=
  match forecast_results with
  | [] => (collection, [])
  | doc :: rest =>
      match failure doc with
      | None =>
          write_forecasts failure rest
            (update_one (filter_query doc) (update_query doc) collection)
      | Some e =>
          let r := write_forecasts failure rest collection in
          (r.1, (doc_device_id doc, e) :: r.2)
      end
  end.

(** [created_at] is [pd.to_datetime(datetime.now()).isoformat()].  Returns
    the database and the printed lines. *)
Definition save_forecasts_to_mongo (db : Database)
    (failure : ForecastDoc → option string) (created_at : string)
    (data : Frame) (frequency : string) : Result (Database * list (Cell * string)) :=
  dev ← need "device_id" (getcol "device_id" data);
  let device_ids := unique dev in
  forecast_results ← mapM_result (forecast_doc data created_at) device_ids;
  if decide (frequency = "hourly") then
    let r := write_forecasts failure forecast_results (hourly_forecasts_1 db) in
    Ok ({| hourly_forecasts_1 := r.1; daily_forecasts_1 := daily_forecasts_1 db |}, r.2)
  else if decide (frequency = "daily") then
    let r := write_forecasts failure forecast_results (daily_forecasts_1 db) in
    Ok ({| hourly_forecasts_1 := hourly_forecasts_1 db; daily_forecasts_1 := r.1 |}, r.2)
  else Raise (ValueError "Invalid frequency argument").

(** ** Words of the specification *)

(** The rows of one device, in frame order: its ordered series of the
    target, and the place of row [t] in it. *)
Definition device_series (device : Cell) (dev target : Column) : Column :=
  mask_select (fmap (λ x, bool_decide (x = device)) dev) target.

Definition device_rank (device : Cell) (dev : Column) (t : nat) : nat :=
  length (filter (λ x, x = device) (take t dev)).

(** The positions of the rows with key [k], counted from [i]. *)
Fixpoint positions_from {A} `{EqDecision A} (i : nat) (k : A) (keys : list A) : list nat :=
  match keys with
  | [] => []
  | k' :: r =>
      if decide (k' = k) then i :: positions_from (S i) k r
      else positions_from (S i) k r
  end.

(** ** Derived forms used in the statements *)

(** A run of [m] from [σ] ends in a result and a store that satisfy [Q]. *)
Definition wp {A} (m : M A) (Q : Result A → Store → Prop) (σ : Store) : Prop :=
  Q (m σ).1 (m σ).2.

(** Successive assignments [df[name] = column]. *)
Definition assign (cols : list (string * Column)) (df : Frame) : Frame :=
  foldl (λ d p, setitem p.1 p.2 d) df cols.

Definition lag_columns (unit_ : string) (lags : list nat)
    (keys : list Key) (c : Column) : list (string * Column) :=
  (λ s, (lag_name s unit_, group_shift s keys c)) <$> lags.

Definition roll_columns `{Externals} (unit_ : string) (windows : list nat)
    (functions : list Stat) (keys : list Key) (c : Column) : list (string * Column) :=
  windows ≫= λ s,
    (λ f, (roll_name f s unit_, rolling s f (group_shift 1 keys c))) <$> functions.

(** The names of the columns that [get_lag_and_roll_features] assigns. *)
Definition feature_names (unit_ : string) (lags windows : list nat)
    (functions : list Stat) : list string :=
  ((λ s, lag_name s unit_) <$> lags)
  ++ (windows ≫= λ s, (λ f, roll_name f s unit_) <$> functions).

Definition hourly_feature_names : list string :=
  feature_names "hour" [1; 2; 6; 12] [3; 6; 12; 24] [Mean; Std; Median; Skew].

Definition daily_feature_names : list string :=
  feature_names "day" [1; 2; 3; 7] [2; 3; 7] [Mean; Std; Max; Min].

(** What the loops of [get_lag_and_roll_features] need of the frame they
    assign into. *)
Definition lag_frame (target : string) (dev c : Column) (df : Frame) : Prop :=
  df ≠ [] ∧ wf_frame df ∧ nrows df = length dev
  ∧ getcol "device_id" df = Some dev ∧ getcol target df = Some c.

(** The vocabulary of the specification, by frequency. *)
Definition spec_unit (freq : string) : string :=
  if decide (freq = "hourly") then "hour" else "day".

Definition spec_lags (freq : string) : list nat :=
  if decide (freq = "hourly") then [1; 2; 6; 12] else [1; 2; 3; 7].

Definition spec_windows (freq : string) : list nat :=
  if decide (freq = "hourly") then [3; 6; 12; 24] else [2; 3; 7].

Definition spec_stats (freq : string) : list Stat :=
  if decide (freq = "hourly") then [Mean; Std; Median; Skew] else [Mean; Std; Max; Min].

Definition spec_feature_names (freq : string) : list string :=
  feature_names (spec_unit freq) (spec_lags freq) (spec_windows freq) (spec_stats freq).

(** ** Sample data

    Concrete stand-ins for the external functions, and small tables; the
    examples and witnesses below run on them. *)

Definition q_sum (w : list Q) : Q := foldr Qplus 0%Q w.

Definition q_mean (w : list Q) : Q :=
  Qred (q_sum w / inject_Z (Z.of_nat (length w)))%Q.

Definition q_max (w : list Q) : Q :=
  match w with
  | [] => 0%Q
  | x :: r => foldr (λ a b, if Qle_bool a b then b else a) x r
  end.

Definition q_min (w : list Q) : Q :=
  match w with
  | [] => 0%Q
  | x :: r => foldr (λ a b, if Qle_bool a b then a else b) x r
  end.

Fixpoint q_insert (x : Q) (w : list Q) : list Q :=
  match w with
  | [] => [x]
  | y :: r => if Qle_bool x y then x :: w else y :: q_insert x r
  end.

Definition q_median (w : list Q) : Q :=
  let s := foldr q_insert [] w in
  let n := length s in
  if Nat.even n
  then Qred ((default 0 (s !! (n / 2 - 1)%nat) + default 0 (s !! (n / 2)%nat)) / 2)%Q
  else default 0%Q (s !! (n / 2)).

(** The [k]-th central moment; the sample reducers use the second one for
    [std] and the third one for [skew], since the true ones are not
    rational. *)
Definition q_moment (k : positive) (w : list Q) : Q :=
  let m := q_mean w in
  Qred (q_sum ((λ x, Qpower_positive (x - m) k) <$> w)
        / inject_Z (Z.of_nat (length w)))%Q.

(** Digits of a fixed-width decimal field. *)
Fixpoint digits_value (acc : Z) (s : list ascii) : option Z :=
  match s with
  | [] => Some acc
  | a :: r =>
      let n := nat_of_ascii a in
      if bool_decide (48 ≤ n) && bool_decide (n ≤ 57)
      then digits_value (10 * acc + Z.of_nat (n - 48)) r
      else None
  end.

(** Reads [YYYY-MM-DD hh:mm:ss]. *)
Definition parse_iso (s : string) : option Z :=
  let cs := list_ascii_of_string s in
  if bool_decide (length cs = 19) then
    y ← digits_value 0 (take 4 cs);
    m ← digits_value 0 (take 2 (drop 5 cs));
    d ← digits_value 0 (take 2 (drop 8 cs));
    hh ← digits_value 0 (take 2 (drop 11 cs));
    mm ← digits_value 0 (take 2 (drop 14 cs));
    ss ← digits_value 0 (take 2 (drop 17 cs));
    Some ((days_from_civil y m d * 86400 + hh * 3600 + mm * 60 + ss) * 10 ^ 9)%Z
  else None.

#[global] Instance sample_externals : Externals := {|
  agg f w :=
    match f with
    | Mean => q_mean w
    | Std => q_moment 2 w
    | Max => q_max w
    | Min => q_min w
    | Median => q_median w
    | Skew => q_moment 3 w
    end;
  parse_timestamp c :=
    match c with
    | CStr s => if decide (s = "NaT") then Some None else Some <$> parse_iso s
    | _ => None
    end;
  np_sin x := Qred (x - x * x * x / 6)%Q;
  np_cos x := Qred (1 - x * x / 2)%Q;
  np_pi := (355 # 113)%Q;
|}.

Definition num (z : Z) : Cell := CNum (inject_Z z).

(** Hour [n] after the epoch. *)
Definition hour (n : Z) : Cell := CTime (n * HOUR_NS).

(** Two devices, device [a] reporting through two sites, with gaps. *)
Definition sample_observations : Frame :=
  [("device_id", [CStr "a"; CStr "a"; CStr "b"; CStr "a"; CStr "b"; CStr "a"]);
   ("site_id", [CStr "s1"; CStr "s2"; CStr "s1"; CStr "s1"; CStr "s1"; CStr "s2"]);
   ("timestamp", [hour 0; hour 1; hour 1; hour 2; hour 2; hour 3]);
   ("pm2_5", [CNull; num 4; CNull; num 8; CNull; CNull]);
   ("latitude", [num 0; num 0; num 1; num 0; num 1; num 0]);
   ("longitude", [num 0; num 0; num 1; num 0; num 1; num 0])].

(** One device at one site, interleaved with a second device. *)
Definition sample_series : Frame :=
  [("device_id", [CStr "a"; CStr "b"; CStr "a"; CStr "a"; CStr "b"; CStr "a"]);
   ("site_id", [CStr "s1"; CStr "s2"; CStr "s1"; CStr "s1"; CStr "s2"; CStr "s1"]);
   ("timestamp", [hour 0; hour 0; hour 1; hour 2; hour 1; hour 3]);
   ("pm2_5", [num 10; num 20; num 11; num 12; num 21; num 13]);
   ("latitude", [num 0; num 1; num 0; num 0; num 1; num 0]);
   ("longitude", [num 0; num 1; num 0; num 0; num 1; num 0])].

(** [sample_series] with other targets from row 3 on. *)
Definition sample_series_changed : Frame :=
  setitem "pm2_5" [num 10; num 20; num 11; num 99; num 98; num 97] sample_series.

(** ** The fill rule, in words

    What [interpolate(method="linear", limit_direction="both")] leaves at
    place [r] of a series [s]. *)

Definition observed (s : Column) (j : nat) : Prop := ∃ q, s !! j = Some (CNum q).

(** The nearest observed value before [r] is [y], [a] places back. *)
Definition nearest_before (s : Column) (r a : nat) (y : Q) : Prop :=
  1 ≤ a ≤ r ∧ s !! (r - a) = Some (CNum y)
  ∧ ∀ j, r - a < j < r → ¬ observed s j.

(** The nearest observed value after [r] is [y], [b] places on. *)
Definition nearest_after (s : Column) (r b : nat) (y : Q) : Prop :=
  1 ≤ b ∧ s !! (r + b) = Some (CNum y)
  ∧ ∀ j, r < j < r + b → ¬ observed s j.

Inductive fill_rule (s : Column) (r : nat) : Cell → Prop :=
| fill_observed q :
    s !! r = Some (CNum q) → fill_rule s r (CNum q)
| fill_between a b y0 y1 :
    s !! r = Some CNull → nearest_before s r a y0 → nearest_after s r b y1 →
    fill_rule s r (CNum (lerp y0 y1 a b))
| fill_leading b y1 :
    s !! r = Some CNull → (∀ j, j < r → ¬ observed s j) → nearest_after s r b y1 →
    fill_rule s r (CNum y1)
| fill_trailing a y0 :
    s !! r = Some CNull → nearest_before s r a y0 → (∀ j, r < j → ¬ observed s j) →
    fill_rule s r (CNum y0)
| fill_nothing :
    s !! r = Some CNull → (∀ j, ¬ observed s j) → fill_rule s r CNull.

(** The caller's frame after the first half of [preprocess_data], common
    to both frequencies: the timestamps converted and [pm2_5] interpolated
    by group. *)
Definition interpolated (d : Frame) (keys : list Key) (pm ts : Column) : Frame :=
  setitem "pm2_5" (group_transform interpolate keys pm) (setitem "timestamp" ts d).

(** The grouping columns hold text: none of them is a column of numbers.
    (pandas averages a numeric grouping column with the other numeric
    columns of a daily table.) *)
Definition text_keys (by_ : list string) (df : Frame) : Prop :=
  ∀ n c, n ∈ by_ → getcol n df = Some c → is_numeric c = false.

(** The reading of the specification: only a gap bounded on both sides is
    interpolated. *)
Definition spec_interpolate_inside (xs : Column) : Column :=
  imap (λ i x, match x with
               | CNull =>
                   match prev_valid xs i, next_valid xs i with
                   | Some (dp, y0), Some (dn, y1) => CNum (lerp y0 y1 (S dp) (S dn))
                   | _, _ => CNull
                   end
               | _ => x
               end) xs.

(** One device with a leading, an inner and a trailing gap. *)
Definition sample_gaps : Frame :=
  [("device_id", [CStr "a"; CStr "a"; CStr "a"; CStr "a"; CStr "a"]);
   ("site_id", [CStr "s1"; CStr "s1"; CStr "s1"; CStr "s1"; CStr "s1"]);
   ("timestamp", [hour 0; hour 1; hour 2; hour 3; hour 4]);
   ("pm2_5", [CNull; num 5; CNull; num 7; CNull])].

(** The lag column as the specification words it: the grouping key
    follows the job type, as in [preprocess_data]. *)
Definition spec_lag_column (job_type target : string) (k : nat) (df : Frame)
    : option Column :=
  keys ← row_keys (group_columns job_type) df;
  c ← getcol target df;
  Some (group_shift k keys c).

(** [sample_observations] after [preprocess_data] for a prediction job. *)
Definition sample_prediction_data : Frame :=
  [("device_id", [CStr "a"; CStr "a"; CStr "a"; CStr "a"]);
   ("site_id", [CStr "s1"; CStr "s2"; CStr "s1"; CStr "s2"]);
   ("timestamp", [hour 0; hour 1; hour 2; hour 3]);
   ("pm2_5", [num 8; num 4; num 8; num 4]);
   ("latitude", [num 0; num 0; num 0; num 0]);
   ("longitude", [num 0; num 0; num 0; num 0])].

(** ** Frame conditions on the store *)

(** From [σ] to [σ'] no object of [σ] other than [l] has changed, objects
    may have been added, and the table at [l] has kept all its columns,
    unchanged but for those named in [names]. *)
Definition only_assigns (names : list string) (l : loc) (σ σ' : Store) : Prop :=
  length σ ≤ length σ'
  ∧ (∀ l', l' < length σ → l' ≠ l → σ' !! l' = σ !! l')
  ∧ ∀ d, σ !! l = Some d →
      ∃ d', σ' !! l = Some d'
            ∧ (∀ n, n ∉ names → getcol n d' = getcol n d)
            ∧ (∀ n, n ∈ columns d → n ∈ columns d').

(** String timestamps, as a warehouse export has them. *)
Definition sample_raw : Frame :=
  [("device_id", [CStr "a"; CStr "a"]);
   ("site_id", [CStr "s1"; CStr "s1"]);
   ("timestamp", [CStr "2024-01-01 00:00:00"; CStr "2024-01-01 01:00:00"]);
   ("pm2_5", [CNull; num 9]);
   ("latitude", [num 0; num 0]);
   ("longitude", [num 0; num 0])].

(** The outcome of a feature function started in a store that [σ0] has
    led to: still within the frame, and the result is a new object. *)
Definition in_frame_fresh (names : list string) (l : loc) (σ0 : Store)
    (r : Result loc) (σ' : Store) : Prop :=
  only_assigns names l σ0 σ' ∧ ∀ l', r = Ok l' → length σ0 ≤ l'.

(** The outcome when the function hands back the object it was given. *)
Definition in_frame_same (names : list string) (l : loc) (σ0 : Store)
    (r : Result loc) (σ' : Store) : Prop :=
  only_assigns names l σ0 σ' ∧ ∀ l', r = Ok l' → l' = l.

(** Closes the goal at an exit of a run. *)
Ltac frame_exit :=
  first [ done
        | split; [assumption | intros ? ?; first [done | by simplify_eq] ] ].

(** ** The registry and the split: the specification's key and samples *)

(** The backup key in the words of the specification: the model key
    followed by the timestamp. *)
Definition spec_backup_key (bucket_name source_blob_name now : string) : string :=
  bucket_name +:+ "/" +:+ source_blob_name +:+ "-" +:+ now.

(** A registry holding one earlier hourly model. *)
Definition sample_registry : gmap string nat :=
  {[ "models/hourly_forecast_model.pkl" := 1 ]}.

(** One device observed in ten months of 2024, with a second January row
    at the end. *)
Definition month_start (y m : Z) : Cell := CTime (days_from_civil y m 1 * DAY_NS).

Definition sample_ten_months : Frame :=
  [("device_id", replicate 11 (CStr "a"));
   ("timestamp", (month_start 2024 <$> [1; 2; 3; 4; 5; 6; 7; 8; 9; 10]%Z)
                 ++ [CTime (days_from_civil 2024 1 15 * DAY_NS)]);
   ("pm2_5", num <$> [10; 11; 12; 13; 14; 15; 16; 17; 18; 19; 20]%Z)].

(** Two rows of one device, without a site. *)
Definition sample_two_rows : Frame :=
  [("device_id", [CStr "a"; CStr "a"]);
   ("timestamp", [CTime 0; CTime HOUR_NS]);
   ("pm2_5", [CNull; CNum 9])].

(** ** Derived forms for the sink *)

(** The document of device [i], from the columns of the forecast table. *)
Definition device_doc (created_at : string) (dev site pm ts : Column) (i : Cell)
    : ForecastDoc :=
  {| doc_device_id := i;
     doc_created_at := created_at;
     doc_site_id := default CNull (head (mask_select (eq_mask i dev) site));
     doc_pm2_5 := mask_select (eq_mask i dev) pm;
     doc_timestamp := mask_select (eq_mask i dev) ts |}.

(** Upserting a list of documents in order. *)
Definition upsert_all (docs : list ForecastDoc)
    (collection : list (gmap string Value)) : list (gmap string Value) :=
  foldl (λ c doc, update_one (filter_query doc) (update_query doc) c)
        collection docs.

(** The collection named by a frequency. *)
Definition forecast_collection (frequency : string) (db : Database)
    : list (gmap string Value) :=
  if decide (frequency = "hourly") then hourly_forecasts_1 db
  else daily_forecasts_1 db.

(** The groups of the specification: the distinct pairs of device and
    site. *)
Definition spec_forecast_groups (data : Frame) : list (Cell * Cell) :=
  match getcol "device_id" data, getcol "site_id" data with
  | Some dev, Some site => unique (zip dev site)
  | _, _ => []
  end.

(** The rows of one pair of device and site, and the document of the
    pair: the values and timestamps of its rows. *)
Definition pair_mask (p : Cell * Cell) (dev site : Column) : list bool :=
  (λ q, bool_decide (q = p)) <$> zip dev site.

Definition pair_doc (created_at : string) (dev site pm ts : Column) (p : Cell * Cell)
    : ForecastDoc :=
  {| doc_device_id := p.1;
     doc_created_at := created_at;
     doc_site_id := p.2;
     doc_pm2_5 := mask_select (pair_mask p dev site) pm;
     doc_timestamp := mask_select (pair_mask p dev site) ts |}.

(** The forecast table that the sink receives from [generate_forecasts]
    has one site for every device. *)
Definition one_site_per_device (dev site : Column) : Prop :=
  ∀ i j x, dev !! i = Some x → dev !! j = Some x → site !! i = site !! j.

(** Forecasts of two devices, two hours each. *)
Definition sample_forecasts : Frame :=
  [("device_id", [CStr "a"; CStr "a"; CStr "b"; CStr "b"]);
   ("site_id", [CStr "s1"; CStr "s1"; CStr "s3"; CStr "s3"]);
   ("timestamp", [hour 1; hour 2; hour 1; hour 2]);
   ("pm2_5", [num 10; num 20; num 30; num 40])].

(** Forecasts of a device that reports through two sites and of a second
    device. *)
Definition sample_two_sites : Frame :=
  [("device_id", [CStr "a"; CStr "a"; CStr "b"]);
   ("site_id", [CStr "s1"; CStr "s2"; CStr "s3"]);
   ("timestamp", [hour 1; hour 2; hour 1]);
   ("pm2_5", [num 10; num 20; num 30])].

(** A driver that fails on every write for device [b]. *)
Definition sample_failure (doc : ForecastDoc) : option string :=
  if decide (doc_device_id doc = CStr "b") then Some "timed out" else None.

(** What one upsert of [doc] makes of a collection: one document, the
    first that carries the document's device and site or else a new last
    one, carries the new values, timestamps and creation time in place of
    any earlier ones; its other fields and all other documents are as
    before. *)
Definition replaces_wholesale (doc : ForecastDoc)
    (collection collection' : list (gmap string Value)) : Prop :=
  ∃ i d',
    collection' !! i = Some d'
    ∧ d' !! "device_id" = Some (VCell (doc_device_id doc))
    ∧ d' !! "site_id" = Some (VCell (doc_site_id doc))
    ∧ d' !! "pm2_5" = Some (VList (doc_pm2_5 doc))
    ∧ d' !! "timestamp" = Some (VList (doc_timestamp doc))
    ∧ d' !! "created_at" = Some (VStr (doc_created_at doc))
    ∧ (∀ j, j ≠ i → collection' !! j = collection !! j)
    ∧ (∀ d, collection !! i = Some d →
         matches (filter_query doc) d = true
         ∧ (∀ j dj, j < i → collection !! j = Some dj →
              matches (filter_query doc) dj = false)
         ∧ ∀ k, k ∉ ["pm2_5"; "timestamp"; "created_at"] → d' !! k = d !! k)
    ∧ (collection !! i = None →
         i = length collection
         ∧ (∀ dj, dj ∈ collection → matches (filter_query doc) dj = false)
         ∧ ∀ k, k ∉ ["device_id"; "site_id"; "pm2_5"; "timestamp"; "created_at"] →
             d' !! k = None).

Definition empty_database : Database :=
  {| hourly_forecasts_1 := []; daily_forecasts_1 := [] |}.

(** ** Sample forecasts *)

Definition day (n : Z) : Cell := CTime (n * DAY_NS).

(** A regressor that returns the first feature, the last value seen. *)
Definition sample_model : Model :=
  {| predict row := match row with CNum q :: _ => q | _ => 0%Q end |}.

Definition sample_models : gmap string Model :=
  {[ "models/hourly_forecast_model.pkl" := sample_model;
     "models/daily_forecast_model.pkl" := sample_model ]}.

Definition sample_configuration : Configuration :=
  {| HOURLY_FORECAST_HORIZON := 2; DAILY_FORECAST_HORIZON := 2 |}.

(** The feature rows of one device on 1 and 2 January 2024. *)
Definition sample_seed : Frame :=
  [("device_id", [CStr "a"; CStr "a"]);
   ("site_id", [CStr "s1"; CStr "s1"]);
   ("timestamp", [day 19723; day 19724]);
   ("pm2_5", [num 10; num 12]);
   ("latitude", [num 0; num 0]);
   ("longitude", [num 32; num 32])].

(** The timestamps of the specification: [horizon] steps of the frequency,
    the first one step after the seed's last timestamp. *)
Definition spec_forecast_timestamps (step : Z) (seed_last : Cell) (horizon : Z)
    : list Cell :=
  (λ k, add_timedelta (k * step) seed_last) <$> seqZ 1 horizon.

(** ** The fill rule by group *)

(** The fill rule on every group of a table: [filled] has a missing cell
    on the rows without a group, and on the other rows the cell that the
    fill rule gives at the row's rank in the series of its group, a number
    whenever the group has an observed value. *)
Definition group_fill_rule (keys : list Key) (pm filled : Column) : Prop :=
  length filled = length pm
  ∧ (∀ t k, keys !! t = Some k → null_key k = true → filled !! t = Some CNull)
  ∧ ∀ t k, keys !! t = Some k → null_key k = false →
      let s := group_series k keys pm in
      let r := group_rank k keys t in
      s !! r = pm !! t
      ∧ ∃ x, filled !! t = Some x
             ∧ fill_rule s r x
             ∧ ((∃ j, observed s j) → ∃ q, x = CNum q).

(** Hourly readings of one device over five days: none on the third day,
    and a missing first and last reading. *)
Definition sample_daily_gaps : Frame :=
  [("device_id", [CStr "a"; CStr "a"; CStr "a"; CStr "a"; CStr "a"]);
   ("site_id", [CStr "s1"; CStr "s1"; CStr "s1"; CStr "s1"; CStr "s1"]);
   ("timestamp", [hour 1; hour 25; hour 26; hour 73; hour 97]);
   ("pm2_5", [CNull; num 4; num 6; num 7; CNull])].

(** ** Derived forms for the forecast loop *)

(** The lag and rolling columns that one pass of the loop assigns, from
    the [pm2_5] column [c] of the frame. *)
Definition forecast_columns `{Externals} (unit_ : string) (lags windows : list nat)
    (functions : list Stat) (c : Column) : list (string * Column) :=
  ((λ s, (lag_name s unit_, shift s c)) <$> lags)
  ++ (windows ≫= λ s,
        (λ f, (roll_name f s unit_, rolling s f (shift 1 c))) <$> functions).

(** The columns that the loop sets aside before it runs windows over the
    frame. *)
Definition no_ts_columns : list string := ["timestamp"; "device_id"; "site_id"].

(** Every column that the windows run over holds numbers. *)
Definition numeric_features (df : Frame) : Prop :=
  ∀ n c, n ∉ no_ts_columns → getcol n df = Some c → is_numeric c = true.

(** What the loop needs of its frame, and keeps: columns of one length, at
    least one row, the columns that are set aside before predicting, and
    numbers in every column but [timestamp], [device_id] and [site_id]. *)
Definition forecast_frame (df : Frame) : Prop :=
  wf_frame df
  ∧ 0 < nrows df
  ∧ (∀ n, n ∈ excluded_columns → n ∈ columns df)
  ∧ numeric_features df
  ∧ ∃ pm, getcol "pm2_5" df = Some pm ∧ is_numeric pm = true.

(** The timestamp that one pass of the loop leaves on the new row: the
    hourly branch assigns the previous row's timestamp plus one hour, the
    daily branch adds one day to the copy of the previous row's
    timestamp, and any other frequency leaves the copy. *)
Definition next_timestamp (frequency : string) (x : Cell) : Cell :=
  if decide (frequency = "daily") then add_timedelta DAY_NS x
  else if decide (frequency = "hourly") then add_timedelta HOUR_NS x
  else x.

(** The timestamps of [n] passes after a row with timestamp [x]. *)
Fixpoint next_timestamps (frequency : string) (n : nat) (x : Cell) : list Cell :=
  match n with
  | 0 => []
  | S n => next_timestamp frequency x
           :: next_timestamps frequency n (next_timestamp frequency x)
  end.

(** ** Derived forms for the temporal split *)

(** The three parts of one device's rows, from the months of its rows. *)
Definition device_parts (device_df : Frame) (month : Column) : Frame * Frame * Frame :=
  let months := unique month in
  (filter_rows (isin (train_months months) month) device_df,
   filter_rows (isin (val_months months) month) device_df,
   filter_rows (isin (test_months months) month) device_df).

(** The rows of one device in a table with device column [dev], and the
    months of these rows when the table's timestamps are [ts]. *)
Definition device_rows (device : Cell) (dev : Column) (data : Frame) : Frame :=
  filter_rows (eq_mask device dev) data.

Definition device_months (device : Cell) (dev ts : Column) : Column :=
  dt_column dt_month (mask_select (eq_mask device dev) ts).

(** The feature columns that one pass of the loop assigns for a
    frequency. *)
Definition step_feature_names (frequency : string) : list string :=
  if decide (frequency = "daily")
  then feature_names "day" [1; 2; 3; 7] [2; 3; 7] [Mean; Std; Max; Min]
  else if decide (frequency = "hourly")
  then feature_names "hour" [1; 2; 6; 12] [3; 6; 12; 24] [Mean; Std; Median; Skew]
  else [].

(** The horizon that [generate_forecasts] reads for a frequency. *)
Definition forecast_horizon (configuration : Configuration) (frequency : string) : Z :=
  if decide (frequency = "hourly")
  then HOURLY_FORECAST_HORIZON configuration
  else DAILY_FORECAST_HORIZON configuration.

(** The last cell of column [c] on the rows of [device]. *)
Definition device_last (device : Cell) (dev c : Column) : Cell :=
  default CNull (last (mask_select (eq_mask device dev) c)).

(** The columns of the forecast table that do not depend on the
    regressor: for every device, in order of first appearance, [h] rows
    with the device, its last site and the timestamps of the loop. *)
Definition forecast_rows (frequency : string) (h : nat) (dev site ts : Column)
    : Frame :=
  [("device_id", unique dev ≫= λ d, replicate h d);
   ("site_id", unique dev ≫= λ d, replicate h (device_last d dev site));
   ("timestamp",
    unique dev ≫= λ d, next_timestamps frequency h (device_last d dev ts))].

(** Feature rows of two devices and one row without a device. *)
Definition sample_two_devices : Frame :=
  [("device_id", [CStr "a"; CStr "b"; CNull; CStr "a"]);
   ("site_id", [CStr "s1"; CStr "s2"; CStr "s3"; CStr "s1"]);
   ("timestamp", [hour 10; hour 10; hour 11; hour 11]);
   ("pm2_5", [num 10; num 30; num 50; num 12]);
   ("latitude", [num 0; num 1; num 2; num 0]);
   ("longitude", [num 32; num 33; num 34; num 32])].

(** ** Derived forms for repeated runs of the sink *)

(** The document that an upsert of [doc] updates: the first one with the
    device and site of [doc]. *)
Definition document_of (doc : ForecastDoc) (collection : list (gmap string Value))
    : option (nat * gmap string Value) :=
  list_find (λ d, matches (filter_query doc) d = true) collection.

(** The document [d] holds the values, timestamps and creation time of
    [doc]. *)
Definition carries (doc : ForecastDoc) (d : gmap string Value) : Prop :=
  d !! "pm2_5" = Some (VList (doc_pm2_5 doc))
  ∧ d !! "timestamp" = Some (VList (doc_timestamp doc))
  ∧ d !! "created_at" = Some (VStr (doc_created_at doc)).

(** Forecasts of a later run for the devices of [sample_two_sites]. *)
Definition sample_two_sites_later : Frame :=
  [("device_id", [CStr "a"; CStr "a"; CStr "b"]);
   ("site_id", [CStr "s1"; CStr "s2"; CStr "s3"]);
   ("timestamp", [hour 25; hour 26; hour 25]);
   ("pm2_5", [num 11; num 21; num 31])].

(** ** Derived forms for training and the registry *)

(** The last statement of [train_and_save_forecast_models]:
    [GCSUtils.upload_trained_model_to_gcs(clf, project_id, bucket,
    f"{frequency}_forecast_model.pkl")], for the regressor [clf] that the
    search has fitted. *)
Definition save_forecast_model (clf : Model) (project_id bucket frequency now : string)
    (fs : gmap string Model) : gmap string Model * string :=
  upload_trained_model_to_gcs clf project_id bucket
    (frequency +:+ "_forecast_model.pkl") now fs.

(** A regressor that differs from [sample_model]. *)
Definition sample_model_retrained : Model :=
  {| predict := λ _, 7%Q |}.

(** ** Derived forms for the calendar features *)

(** The columns that [get_time_features] assigns, in order. *)
Definition calendar_columns (freq : string) (ts : Column) : list (string * Column) :=
  ((λ a, (attr_name a, dt_column (dt_attr a) ts)) <$> time_attributes freq)
  ++ [("week", dt_column dt_isoweek ts)].

(** Their names: what [get_cyclic_features] drops. *)
Definition calendar_names (freq : string) : list string :=
  (attr_name <$> time_attributes freq) ++ ["week"].

(** The columns that [get_cyclic_features] assigns, in order. *)
Definition cyclic_columns `{Externals} (freq : string) (ts : Column)
    : list (string * Column) :=
  (time_attributes freq ≫= λ a,
     [(attr_name a +:+ "_sin", cyclic np_sin (max_val a) (dt_column (dt_attr a) ts));
      (attr_name a +:+ "_cos", cyclic np_cos (max_val a) (dt_column (dt_attr a) ts))])
  ++ [("week_sin", cyclic np_sin 52 (dt_column dt_isoweek ts));
      ("week_cos", cyclic np_cos 52 (dt_column dt_isoweek ts))].

(** The table that a run hands back, if it hands one back. *)
Definition returned_frame (run : Result loc * Store) : option Frame :=
  match run.1 with
  | Ok l => run.2 !! l
  | Raise _ => None
  end.

(** ** SatelliteUtils *)

(** [for b in bs: body(b)], on the store. *)
Fixpoint for_each {B} (body : B → M unit) (bs : list B) : M unit :=
  match bs with
  | [] => mret ()
  | b :: rest => body b;; for_each body rest
  end.

(** [data[f"pm2_5_last_{s}_{time_unit}"] =
      data.groupby(["city"])[target_col].shift(s)] *)
Definition lag_feature (data : loc) (target_col time_unit : string) (s : nat)
    : M unit :=
  d ← load data;
  keys ← lift (need "city" (row_keys ["city"] d));
  c ← lift (need target_col (getcol target_col d));
  setitem_at data (lag_name s time_unit) (group_shift s keys c).

(** Assigns into the frame it was given and returns that frame. *)
Definition lag_features (data : loc) (frequency target_col : string) : M loc :=
  if decide (frequency = "hourly") then
    for_each (lag_feature data target_col "hour") [1; 2; 6; 12];;
    mret data
  else if decide (frequency = "daily") then
    for_each (lag_feature data target_col "day") [1; 2; 3; 7];;
    mret data
  else raise (ValueError "freq must be daily or hourly").

(** Satellite readings of two cities, interleaved. *)
Definition sample_cities : Frame :=
  [("city", [CStr "kampala"; CStr "nairobi"; CStr "kampala"; CStr "kampala";
             CStr "nairobi"]);
   ("device_id", [CStr "a"; CStr "c"; CStr "b"; CStr "a"; CStr "c"]);
   ("pm2_5", [num 10; num 20; num 11; num 12; num 21])].

(** ** FaultDetectionUtils *)

(** [x == y] on two cells; a missing cell equals nothing. *)
Definition cell_eqb (x y : Cell) : bool :=
  match x, y with
  | CNum p, CNum q => Qeq_bool p q
  | CStr s, CStr t => bool_decide (s = t)
  | CTime s, CTime t => bool_decide (s = t)
  | _, _ => false
  end.

(** [a != b], elementwise. *)
Definition ne_mask (a b : Column) : list bool :=
  zip_with (λ x y, negb (cell_eqb x y)) a b.

(** [mask.cumsum()]: the number of [True] up to and including each row. *)
Fixpoint cumsum_from (acc : nat) (mask : list bool) : list nat :=
  match mask with
  | [] => []
  | b :: rest =>
      let acc := if b then S acc else acc in
      acc :: cumsum_from acc rest
  end.

Definition count_cell (n : nat) : Cell := CNum (inject_Z (Z.of_nat n)).

Definition cumsum (mask : list bool) : Column := count_cell <$> cumsum_from 0 mask.

(** [series == v] for a number [v]. *)
Definition eq_scalar (v : Q) (c : Column) : list bool :=
  (λ x, cell_eqb x (CNum v)) <$> c.

(** [groupby(by).cumcount()]: for every row the number of earlier rows of
    its group; a row whose key has a missing component is in no group. *)
Definition cumcount (keys : list Key) : Column :=
  imap (λ i k, if null_key k then CNull else count_cell (group_rank k keys i)) keys.

(** [series + v] on a numeric column. *)
Definition add_scalar (v : Q) (c : Column) : Column :=
  (λ x, match x with CNum q => CNum (Qred (q + v)) | _ => CNull end) <$> c.

(** [df[name] = series] for a series that has the index of [df[mask]]:
    the rows outside the mask get missing cells. *)
Fixpoint align (mask : list bool) (values : Column) : Column :=
  match mask with
  | [] => []
  | true :: m =>
      match values with
      | v :: vs => v :: align m vs
      | [] => CNull :: align m []
      end
  | false :: m => CNull :: align m values
  end.

(** [series.fillna(v)] *)
Definition fillna (v : Q) (c : Column) : Column :=
  (λ x, if is_null x then CNum v else x) <$> c.

(** [max()] of a group of a numeric column: missing cells are skipped,
    and a group without a number has a missing maximum. *)
Definition nanmax (xs : list Cell) : Cell :=
  match omap as_num xs with
  | [] => CNull
  | v :: vs => CNum (foldl (λ m q, if Qle_bool m q then q else m) v vs)
  end.

(** [series >= v] on a numeric column; a missing cell is not [>=]. *)
Definition ge_scalar (v : Q) (c : Column) : list bool :=
  (λ x, match x with CNum q => Qle_bool v q | _ => false end) <$> c.

(** [df.columns = names] *)
Definition set_columns (names : list string) (df : Frame) : Frame :=
  zip names df.*2.

(** The function assigns [group] and [anomaly_sequence_length] into the
    caller's table and returns a new table.  [copy_on_write] tells
    whether [df["anomaly_sequence_length"].fillna(0, inplace=True)]
    reaches the table: under Copy-on-Write it fills a temporary, without
    it the column of the table. *)
Definition process_faulty_devices_fault_sequence (copy_on_write : bool) (df : loc)
    : M loc :=
  d ← load df;
  a ← lift (need "anomaly_value" (getcol "anomaly_value" d));
  setitem_at df "group" (cumsum (ne_mask a (shift 1 a)));;
  d ← load df;
  a ← lift (need "anomaly_value" (getcol "anomaly_value" d));
  let selected := eq_scalar (-1) a in
  keys ← lift (need "device_id"
                 (row_keys ["device_id"; "group"] (filter_rows selected d)));
  setitem_at df "anomaly_sequence_length"
    (align selected (add_scalar 1 (cumcount keys)));;
  (if copy_on_write then mret ()
   else
     d ← load df;
     c ← lift (need "anomaly_sequence_length"
                 (getcol "anomaly_sequence_length" d));
     setitem_at df "anomaly_sequence_length" (fillna 0 c));;
  d ← load df;
  keys ← lift (need "device_id" (column_keys ["device_id"] d));
  c ← lift (need "anomaly_sequence_length" (getcol "anomaly_sequence_length" d));
  let groups := sort_keys (unique (filter (λ k, null_key k = false) keys)) in
  let maxima := (λ k, nanmax (group_series k keys c)) <$> groups in
  let device_max_anomaly_sequence :=
    [("device_id", (λ k : Key, default CNull (k !! 0)) <$> groups);
     ("anomaly_sequence_length", maxima)] in
  let faulty_devices_df :=
    filter_rows (ge_scalar 80 maxima) device_max_anomaly_sequence in
  alloc (set_columns ["device_id"; "fault_count"] faulty_devices_df).

(** The words for a fault sequence: a row is anomalous when its
    [anomaly_value] is [-1]; a run is a stretch of consecutive rows of the
    table that are all anomalous. *)
Definition anomalous (a : Column) (t : nat) : Prop :=
  ∃ q, a !! t = Some (CNum q) ∧ Qeq q (-1).

Definition anomaly_run (a : Column) (i j : nat) : Prop :=
  i ≤ j ∧ ∀ t, i ≤ t ≤ j → anomalous a t.

(** The number of rows of device [x] among the rows [i] to [j]. *)
Definition rows_between (x : Cell) (dev : Column) (i j : nat) : nat :=
  length (filter (λ y, y = x) (take (S j - i) (drop i dev))).

(** The number of [True] in a mask. *)
Definition count_true (mask : list bool) : nat :=
  length (filter (λ b : bool, b = true) mask).

(** The rows at which the anomaly value changes, and the group number of
    a row. *)
Definition changes (a : Column) : list bool := ne_mask a (shift 1 a).

Definition group_of (a : Column) (t : nat) : nat :=
  count_true (take (S t) (changes a)).

(** A hundred and sixty flagged readings: eighty anomalies in a row for
    device [a]; for device [b] one normal reading, then seventy-nine
    anomalies. *)
Definition sample_anomalies : Frame :=
  [("device_id", replicate 80 (CStr "a") ++ replicate 80 (CStr "b"));
   ("anomaly_value",
    replicate 80 (num (-1)) ++ [num 1] ++ replicate 79 (num (-1)))].

(** [series.isna()] *)
Definition isna (c : Column) : list bool := is_null <$> c.

(** [mask.rolling(window=w).sum()]: the number of [True] among the last
    [w] rows, missing until [w] rows have been seen. *)
Definition rolling_sum (w : nat) (mask : list bool) : Column :=
  imap (λ t _, if decide (w ≤ S t)
               then count_cell (count_true (take w (drop (S t - w) mask)))
               else CNull) mask.

(** [a | b], elementwise. *)
Definition or_mask (a b : list bool) : list bool := zip_with orb a b.

Section RuleBasedFaults.
(** [s1.corr(s2)]: Pearson's correlation coefficient, computed by pandas;
    [None] is NaN, and the call raises on columns that are not numbers. *)
Variable corr : Column → Column → Result (option Q).

(** The row of [result] that the loop makes for one device. *)
Definition flag_device (df : Frame) (device : Cell) : Result (list Cell) :=
  dev ← need "device_id" (getcol "device_id" df);
  let device_df := filter_rows (eq_mask device dev) df in
  s1 ← need "s1_pm2_5" (getcol "s1_pm2_5" device_df);
  s2 ← need "s2_pm2_5" (getcol "s2_pm2_5" device_df);
  corr_value ← corr s1 s2;
  let correlation_fault :=
    match corr_value with
    | Some q => if Qle_bool (9 # 10) q then 0 else 1
    | None => 0
    end in
  let missing_data_fault :=
    if existsb (λ col, existsb id (ge_scalar 60 (rolling_sum 60 (isna col))))
         [s1; s2]
    then 1 else 0 in
  Ok [device; count_cell correlation_fault;
      match corr_value with Some q => CNum q | None => CNull end;
      count_cell missing_data_fault].

Definition flag_rule_based_faults (df : Frame) : Result Frame :=
  if negb (has_columns ["device_id"; "s1_pm2_5"; "s2_pm2_5"] df)
  then Raise (ValueError
         "Input must have the following columns: ['device_id', 's1_pm2_5', 's2_pm2_5']")
  else
    dev ← need "device_id" (getcol "device_id" df);
    rows ← mapM_result (flag_device df) (unique dev);
    let column (j : nat) := (λ row : list Cell, default CNull (row !! j)) <$> rows in
    let result :=
      [("device_id", column 0); ("correlation_fault", column 1);
       ("correlation_value", column 2); ("missing_data_fault", column 3)] in
    Ok (filter_rows (or_mask (eq_scalar 1 (column 1)) (eq_scalar 1 (column 3)))
          result).
End RuleBasedFaults.

(** The words for the two rules: a device's sensors disagree when their
    correlation is a number below 0.9; a column has a gap of [w] rows when
    [w] consecutive cells of it are missing. *)
Definition sensors_disagree (corr : Column → Column → Result (option Q))
    (s1 s2 : Column) : Prop :=
  ∃ q, corr s1 s2 = Ok (Some q) ∧ (q < 9 # 10)%Q.

Definition has_gap (w : nat) (c : Column) : Prop :=
  ∃ i, ∀ k, k < w → c !! (i + k) = Some CNull.

(** Two devices with perfectly correlated sensors; the first sensor of
    device [a] is silent for sixty readings. *)
Definition sample_sensors : Frame :=
  [("device_id", replicate 60 (CStr "a") ++ replicate 60 (CStr "b"));
   ("s1_pm2_5", replicate 60 CNull ++ replicate 59 CNull ++ [num 5]);
   ("s2_pm2_5", replicate 120 (num 5))].

(** ** The forecast job *)

(** The tasks of the DAG [make_forecasts] for one frequency, from the
    historical data to the forecasts: every task hands its table to the
    next one. *)
Definition make_forecasts `{Externals} (configuration : Configuration)
    (fs : gmap string Model) (project_id bucket frequency : string) (data : loc)
    : M Frame :=
  data ← preprocess_data data frequency "prediction";
  data ← get_lag_and_roll_features data "pm2_5" frequency;
  data ← get_time_features data frequency;
  data ← get_cyclic_features data frequency;
  data ← get_location_features data;
  d ← load data;
  lift (generate_forecasts configuration fs d project_id bucket frequency).

(** A table between two tasks of the job: it has rows, columns of one
    length and stripped names, and the six columns that the job reads. *)
Definition job_frame (D : Frame) (dev site pm lat lon ts : Column) : Prop :=
  wf_frame D ∧ nrows D ≠ 0
  ∧ (∀ n, n ∈ columns D → strip n = n)
  ∧ getcol "device_id" D = Some dev ∧ getcol "site_id" D = Some site
  ∧ getcol "pm2_5" D = Some pm ∧ getcol "latitude" D = Some lat
  ∧ getcol "longitude" D = Some lon ∧ getcol "timestamp" D = Some ts.

(* ================================================================== *)
(** * Part II: properties *)
(* ================================================================== *)

(** ** Frames *)

Lemma getcol_setitem_eq n c df : getcol n (setitem n c df) = Some c.
Proof.
  induction df as [|[m c0] df IH]; simpl.
  - by rewrite decide_True.
  - destruct (decide (m = n)) as [->|Hne]; simpl.
    + by rewrite decide_True.
    + by rewrite decide_False.
Qed.

Lemma getcol_setitem_ne n m c df :
  n ≠ m → getcol m (setitem n c df) = getcol m df.
Proof.
  intros Hnm. induction df as [|[k c0] df IH]; simpl.
  - by rewrite decide_False.
  - destruct (decide (k = n)) as [->|Hne]; simpl.
    + by rewrite !decide_False.
    + destruct (decide (k = m)); done.
Qed.

Lemma getcol_Some_elem n c df : getcol n df = Some c → (n, c) ∈ df.
Proof.
  induction df as [|[m c0] df IH]; simpl; [done|].
  destruct (decide (m = n)) as [->|Hne].
  - intros [= ->]. apply list_elem_of_here.
  - intros Hg. apply list_elem_of_further. by apply IH.
Qed.

Lemma getcol_is_Some n df : is_Some (getcol n df) ↔ n ∈ columns df.
Proof.
  unfold columns. induction df as [|[m c0] df IH]; simpl.
  - split; [by intros [? ?]|by intros ?%elem_of_nil].
  - destruct (decide (m = n)) as [->|Hne].
    + split; [intros _; apply list_elem_of_here|by eauto].
    + rewrite IH. split.
      * intros Hin. by apply list_elem_of_further.
      * intros [Heq|Hin]%elem_of_cons; [by subst|done].
Qed.

Lemma getcol_None n df : getcol n df = None ↔ n ∉ columns df.
Proof.
  rewrite <- getcol_is_Some. rewrite eq_None_not_Some. done.
Qed.

#[global] Arguments columns : simpl never.

Lemma columns_cons n c df : columns ((n, c) :: df) = n :: columns df.
Proof. done. Qed.

Lemma columns_setitem_in n c df :
  n ∈ columns df → columns (setitem n c df) = columns df.
Proof.
  induction df as [|[m c0] df IH]; simpl.
  - by intros ?%elem_of_nil.
  - destruct (decide (m = n)) as [->|Hne]; [done|].
    rewrite !columns_cons.
    intros [Heq|Hin]%elem_of_cons; [by subst|]. by rewrite IH.
Qed.

Lemma columns_setitem_notin n c df :
  n ∉ columns df → columns (setitem n c df) = columns df ++ [n].
Proof.
  induction df as [|[m c0] df IH]; simpl; [done|].
  rewrite columns_cons. intros Hnin.
  apply not_elem_of_cons in Hnin as [Hne Hnin].
  rewrite decide_False by done. rewrite columns_cons. simpl. by rewrite IH.
Qed.

Lemma columns_setitem_incl n m c df :
  m ∈ columns df → m ∈ columns (setitem n c df).
Proof.
  intros Hm. destruct (decide (n ∈ columns df)).
  - by rewrite columns_setitem_in.
  - rewrite columns_setitem_notin by done. apply elem_of_app. by left.
Qed.

Lemma elem_getcol n c (df : Frame) :
  NoDup (columns df) → (n, c) ∈ df → getcol n df = Some c.
Proof.
  induction df as [|[m c0] df IH]; intros Hnd Hin; [by apply elem_of_nil in Hin|].
  rewrite columns_cons in Hnd. apply NoDup_cons in Hnd as [Hm Hnd].
  simpl. apply elem_of_cons in Hin as [[= -> ->]|Hin].
  - by rewrite decide_True.
  - rewrite decide_False; [by apply IH|].
    intros ->. apply Hm. apply list_elem_of_fmap. by exists (n, c).
Qed.

Lemma has_columns_spec names df :
  has_columns names df = true ↔ ∀ n, n ∈ names → n ∈ columns df.
Proof.
  unfold has_columns. rewrite forallb_forall. split.
  - intros Hall n Hn. apply list_elem_of_In in Hn.
    specialize (Hall n Hn). by apply bool_decide_eq_true in Hall.
  - intros Hall n Hn. apply bool_decide_eq_true. apply Hall.
    by apply list_elem_of_In.
Qed.

Lemma nrows_setitem n c df :
  df ≠ [] → length c = nrows df → nrows (setitem n c df) = nrows df.
Proof.
  destruct df as [|[m c0] df]; [done|]. simpl. intros _ Hlen.
  destruct (decide (m = n)); simpl; done.
Qed.

Lemma wf_frame_setitem n c df :
  wf_frame df → df ≠ [] → length c = nrows df → wf_frame (setitem n c df).
Proof.
  intros [Hnd Hlen] Hne Hc. split.
  - destruct (decide (n ∈ columns df)).
    + by rewrite columns_setitem_in.
    + rewrite columns_setitem_notin by done.
      apply NoDup_app. split_and!; [done| |apply NoDup_singleton].
      intros x Hx ->%list_elem_of_singleton. done.
  - rewrite nrows_setitem by done.
    generalize (nrows df) Hlen Hc. clear. intros N Hlen Hc.
    induction df as [|[m c0] df IH]; simpl.
    + constructor; [done|constructor].
    + inversion Hlen as [|? ? Hh Ht]; subst.
      destruct (decide (m = n)) as [->|Hmn].
      * constructor; [done|done].
      * constructor; [done|]. by apply IH.
Qed.

Lemma wf_frame_getcol_length n c df :
  wf_frame df → getcol n df = Some c → length c = nrows df.
Proof.
  intros [_ Hlen] Hg. apply getcol_Some_elem in Hg.
  rewrite Forall_forall in Hlen. by apply (Hlen (n, c)).
Qed.

Lemma getcol_map_columns n f df :
  getcol n (map_columns f df) = f <$> getcol n df.
Proof.
  unfold map_columns. induction df as [|[m c0] df IH]; simpl; [done|].
  destruct (decide (m = n)); done.
Qed.

Lemma columns_map_columns f df : columns (map_columns f df) = columns df.
Proof.
  unfold columns, map_columns. rewrite <- list_fmap_compose.
  by apply list_fmap_ext.
Qed.

(** ** Group positions and the shift indexer *)

Lemma positions_from_app {A} `{EqDecision A} i (k : A) l1 l2 :
  positions_from i k (l1 ++ l2)
  = positions_from i k l1 ++ positions_from (i + length l1) k l2.
Proof.
  revert i. induction l1 as [|x l1 IH]; intros i; simpl.
  - by rewrite Nat.add_0_r.
  - rewrite IH. replace (S i + length l1) with (i + S (length l1)) by lia.
    by destruct (decide (x = k)).
Qed.

Lemma length_positions_from {A} `{EqDecision A} i (k : A) l :
  length (positions_from i k l) = length (filter (λ x, x = k) l).
Proof.
  revert i. induction l as [|x l IH]; intros i; simpl; [done|].
  rewrite filter_cons. destruct (decide (x = k)); simpl; by rewrite IH.
Qed.

Lemma positions_from_bounds {A} `{EqDecision A} i (k : A) l j pos :
  positions_from i k l !! j = Some pos → i ≤ pos < i + length l ∧ l !! (pos - i) = Some k.
Proof.
  revert i j. induction l as [|x l IH]; intros i j; simpl; [done|].
  destruct (decide (x = k)) as [->|Hne].
  - destruct j as [|j]; simpl.
    + intros [= <-]. rewrite Nat.sub_diag. split; [lia|done].
    + intros Hj. apply IH in Hj as [Hb Hl]. split; [lia|].
      replace (pos - i) with (S (pos - S i)) by lia. done.
  - intros Hj. apply IH in Hj as [Hb Hl]. split; [lia|].
    replace (pos - i) with (S (pos - S i)) by lia. done.
Qed.

Lemma mask_select_positions {A} `{EqDecision A} (k : A) keys (c : Column) i j pos :
  length keys ≤ length c →
  positions_from i k keys !! j = Some pos →
  mask_select (fmap (λ k', bool_decide (k' = k)) keys) c !! j = c !! (pos - i).
Proof.
  revert c i j. induction keys as [|x keys IH]; intros c i j Hlen; csimpl; [done|].
  destruct c as [|y c]; csimpl in Hlen; [lia|].
  destruct (decide (x = k)) as [->|Hne].
  - rewrite bool_decide_eq_true_2 by done.
    destruct j as [|j]; csimpl.
    + intros [= <-]. by rewrite Nat.sub_diag.
    + intros Hj. pose proof (positions_from_bounds _ _ _ _ _ Hj) as [Hb _].
      rewrite (IH c (S i) j) by (done || lia).
      replace (pos - i) with (S (pos - S i)) by lia. done.
  - rewrite bool_decide_eq_false_2 by done.
    intros Hj. pose proof (positions_from_bounds _ _ _ _ _ Hj) as [Hb _].
    rewrite (IH c (S i) j) by (done || lia).
    replace (pos - i) with (S (pos - S i)) by lia. done.
Qed.

Lemma null_key_neq k k' : null_key k = true → null_key k' = false → k ≠ k'.
Proof. intros H1 H2 ->. congruence. Qed.

Lemma group_shift_indexer_lookup p keys : ∀ seen i t k,
  keys !! t = Some k → null_key k = false →
  group_shift_indexer p seen i keys !! t
  = Some ((rev (positions_from i k (take (S t) keys)) ++ seen k) !! p).
Proof.
  induction keys as [|k0 keys IH]; intros seen i t k Ht Hk; [done|].
  destruct t as [|t]; simpl in Ht.
  - injection Ht as ->. simpl. rewrite Hk. simpl.
    by rewrite decide_True.
  - cbn [group_shift_indexer]. destruct (null_key k0) eqn:Hk0.
    + simpl. rewrite (IH seen (S i) t k) by done.
      rewrite decide_False; [done|]. by apply null_key_neq.
    + simpl. rewrite (IH _ (S i) t k) by done. f_equal.
      destruct (decide (k0 = k)) as [->|Hne].
      * rewrite decide_True by done. simpl. by rewrite <- app_assoc.
      * by rewrite decide_False by done.
Qed.

Lemma rev_snoc_lookup {A} (P : list A) (x : A) p :
  rev (P ++ [x]) !! p
  = if decide (p ≤ length P) then (P ++ [x]) !! (length P - p) else None.
Proof.
  destruct (decide (p ≤ length P)) as [Hle|Hgt].
  - rewrite <- (rev_involutive (P ++ [x])) at 2.
    set (R := rev (P ++ [x])).
    assert (HR : length R = S (length P)).
    { unfold R. rewrite length_rev, length_app. simpl. lia. }
    destruct (lookup_lt_is_Some_2 R p) as [y Hy]; [lia|].
    rewrite Hy. symmetry.
    assert (Hnth : ∀ d, nth (length P - p) (rev R) d = nth p R d).
    { intros d. rewrite rev_nth by lia. f_equal. lia. }
    apply nth_lookup_Some with (d := y) in Hy as Hy'.
    rewrite <- Hy'. rewrite <- Hnth.
    destruct (lookup_lt_is_Some_2 (rev R) (length P - p)) as [z Hz].
    { rewrite length_rev. lia. }
    rewrite Hz. f_equal. by rewrite nth_lookup, Hz.
  - apply lookup_ge_None_2. rewrite length_rev, length_app. simpl. lia.
Qed.

(** On a frame that has the columns, a list of names groups by them. *)
Lemma row_keys_columns by_ df :
  has_columns by_ df = true → row_keys by_ df = column_keys by_ df.
Proof. intros Hc. unfold row_keys. by rewrite Hc. Qed.

Lemma has_columns_single n (df : Frame) c :
  getcol n df = Some c → has_columns [n] df = true.
Proof.
  intros Hc. apply has_columns_spec. intros m Hm.
  apply list_elem_of_singleton in Hm as ->. apply getcol_is_Some. eauto.
Qed.

Lemma column_keys_single n (df : Frame) c :
  wf_frame df → getcol n df = Some c →
  column_keys [n] df = Some (fmap (λ x, [x]) c).
Proof.
  intros Hwf Hc. unfold column_keys. simpl. rewrite Hc. simpl. f_equal.
  rewrite <- (wf_frame_getcol_length _ _ _ Hwf Hc).
  apply list_eq. intros i. rewrite !list_lookup_fmap.
  destruct (decide (i < length c)) as [Hlt|Hge].
  - rewrite lookup_seq_lt by done. simpl.
    destruct (lookup_lt_is_Some_2 c i Hlt) as [x Hx].
    by rewrite Hx.
  - rewrite lookup_seq_ge by lia. simpl.
    rewrite (lookup_ge_None_2 c i) by lia. done.
Qed.

Lemma row_keys_single n (df : Frame) c :
  wf_frame df → getcol n df = Some c →
  row_keys [n] df = Some (fmap (λ x, [x]) c).
Proof.
  intros Hwf Hc. rewrite row_keys_columns by (by eapply has_columns_single).
  by apply column_keys_single.
Qed.

(** Row [t] of a grouped shift holds the value [p] places back in the
    sub-series of its group. *)
Lemma group_shift_lookup p keys (c : Column) t k :
  length keys = length c →
  keys !! t = Some k → null_key k = false →
  group_shift p keys c !! t
  = Some (if decide (p ≤ group_rank k keys t)
          then default CNull (group_series k keys c !! (group_rank k keys t - p))
          else CNull).
Proof.
  intros Hlen Ht Hk. unfold group_shift, take_cells.
  rewrite list_lookup_fmap, (group_shift_indexer_lookup p keys _ 0 t k) by done.
  simpl. f_equal. rewrite app_nil_r.
  rewrite (take_S_r _ _ _ Ht), positions_from_app. simpl.
  rewrite decide_True by done.
  set (P := positions_from 0 k (take t keys)).
  assert (HP : length P = group_rank k keys t).
  { unfold P, group_rank. apply length_positions_from. }
  rewrite length_take_le by (apply lookup_lt_Some in Ht; lia).
  rewrite rev_snoc_lookup, HP.
  destruct (decide (p ≤ group_rank k keys t)) as [Hle|Hgt]; [|done].
  assert (Hall : positions_from 0 k keys
                 = P ++ [t] ++ positions_from (S t) k (drop (S t) keys)).
  { rewrite <- (take_drop (S t) keys) at 1.
    rewrite (take_S_r _ _ _ Ht), !positions_from_app. simpl.
    rewrite decide_True by done. rewrite <- app_assoc. simpl.
    rewrite !length_app, !length_take_le by (apply lookup_lt_Some in Ht; lia).
    simpl. replace (t + 1) with (S t) by lia. done. }
  destruct (lookup_lt_is_Some_2 (P ++ [t]) (group_rank k keys t - p)) as [pos Hpos].
  { rewrite length_app. simpl. lia. }
  rewrite Hpos.
  unfold group_series.
  rewrite (mask_select_positions k keys c 0 (group_rank k keys t - p) pos).
  - by rewrite Nat.sub_0_r.
  - lia.
  - rewrite Hall, app_assoc. by apply lookup_app_l_Some.
Qed.

(** ** Successive assignments *)

Lemma filter_ext_in {A} (P1 P2 : A → Prop)
    `{!∀ x, Decision (P1 x), !∀ x, Decision (P2 x)} (l : list A) :
  (∀ x, x ∈ l → P1 x ↔ P2 x) → filter P1 l = filter P2 l.
Proof.
  induction l as [|a l IH]; intros Hiff; [done|].
  rewrite !filter_cons.
  assert (Ha : P1 a ↔ P2 a) by (apply Hiff, list_elem_of_here).
  assert (Hl : filter P1 l = filter P2 l).
  { apply IH. intros x Hx. by apply Hiff, list_elem_of_further. }
  destruct (decide (P1 a)), (decide (P2 a)); try tauto; by rewrite Hl.
Qed.

Lemma assign_app l1 l2 df : assign (l1 ++ l2) df = assign l2 (assign l1 df).
Proof. unfold assign. by rewrite foldl_app. Qed.

Lemma assign_cons n c l df : assign ((n, c) :: l) df = assign l (setitem n c df).
Proof. done. Qed.

Lemma setitem_nonempty n c df : setitem n c df ≠ [].
Proof. destruct df as [|[m c0] df]; simpl; [done|]. by destruct (decide (m = n)). Qed.

Lemma getcol_assign_notin n l df :
  n ∉ l.*1 → getcol n (assign l df) = getcol n df.
Proof.
  revert df. induction l as [|[m c] l IH]; intros df Hn; [done|].
  rewrite fmap_cons in Hn. apply not_elem_of_cons in Hn as [Hne Hn].
  rewrite assign_cons, IH by done. by apply getcol_setitem_ne.
Qed.

Lemma getcol_assign_in n c l df :
  NoDup l.*1 → (n, c) ∈ l → getcol n (assign l df) = Some c.
Proof.
  revert df. induction l as [|[m c0] l IH]; intros df Hnd Hin.
  - by apply elem_of_nil in Hin.
  - rewrite fmap_cons in Hnd. apply NoDup_cons in Hnd as [Hm Hnd].
    rewrite assign_cons. apply elem_of_cons in Hin as [[= -> ->]|Hin].
    + rewrite getcol_assign_notin by done. apply getcol_setitem_eq.
    + by apply IH.
Qed.

Lemma columns_assign l df :
  NoDup l.*1 →
  columns (assign l df) = columns df ++ filter (λ n, n ∉ columns df) l.*1.
Proof.
  revert df. induction l as [|[m c] l IH]; intros df Hnd.
  - simpl. by rewrite filter_nil, app_nil_r.
  - rewrite fmap_cons in Hnd. apply NoDup_cons in Hnd as [Hm Hnd].
    rewrite assign_cons, IH by done. rewrite fmap_cons, filter_cons. simpl.
    destruct (decide (m ∈ columns df)) as [Hin|Hnin].
    + rewrite columns_setitem_in by done.
      rewrite decide_False by (intros Hc; by apply Hc). done.
    + rewrite columns_setitem_notin by done.
      rewrite decide_True by done. rewrite <- app_assoc. simpl. do 2 f_equal.
      apply filter_ext_in. intros x Hx.
      rewrite elem_of_app, list_elem_of_singleton.
      split; [tauto|]. intros Hn [?| ->]; [done|]. done.
Qed.

Lemma nrows_assign l df :
  df ≠ [] → Forall (λ p, length p.2 = nrows df) l → nrows (assign l df) = nrows df.
Proof.
  revert df. induction l as [|[m c] l IH]; intros df Hne Hl; [done|].
  apply Forall_cons in Hl as [Hc Hl]. simpl in Hc.
  rewrite assign_cons, IH.
  - by apply nrows_setitem.
  - apply setitem_nonempty.
  - by rewrite nrows_setitem.
Qed.

Lemma wf_frame_assign l df :
  wf_frame df → df ≠ [] → Forall (λ p, length p.2 = nrows df) l →
  wf_frame (assign l df).
Proof.
  revert df. induction l as [|[m c] l IH]; intros df Hwf Hne Hl; [done|].
  apply Forall_cons in Hl as [Hc Hl]. simpl in Hc.
  rewrite assign_cons. apply IH.
  - by apply wf_frame_setitem.
  - apply setitem_nonempty.
  - by rewrite nrows_setitem.
Qed.

Lemma assign_nonempty l df : df ≠ [] → assign l df ≠ [].
Proof.
  revert df. induction l as [|[m c] l IH]; intros df Hne; [done|].
  rewrite assign_cons. apply IH, setitem_nonempty.
Qed.

(** A loop of assignments whose steps keep an invariant. *)
Lemma foldM_assign {B} (step : Frame → B → Result Frame)
    (col : B → string * Column) (P : Frame → Prop) bs df :
  P df →
  (∀ d b, b ∈ bs → P d →
     step d b = Ok (setitem (col b).1 (col b).2 d) ∧ P (setitem (col b).1 (col b).2 d)) →
  foldM step df bs = Ok (assign (col <$> bs) df) ∧ P (assign (col <$> bs) df).
Proof.
  revert df. induction bs as [|b bs IH]; intros df HP Hstep; [done|].
  destruct (Hstep df b) as [Hs HP']; [apply list_elem_of_here|done|].
  cbn [foldM]. rewrite Hs. cbn [mbind Result_bind]. rewrite fmap_cons.
  unfold assign at 1 2. cbn [foldl]. fold (assign (col <$> bs)).
  apply IH; [done|].
  intros d b' Hb' Hd. apply Hstep; [by apply list_elem_of_further|done].
Qed.

Lemma foldM_assigns {B} (step : Frame → B → Result Frame)
    (cols : B → list (string * Column)) (P : Frame → Prop) bs df :
  P df →
  (∀ d b, b ∈ bs → P d → step d b = Ok (assign (cols b) d) ∧ P (assign (cols b) d)) →
  foldM step df bs = Ok (assign (bs ≫= cols) df) ∧ P (assign (bs ≫= cols) df).
Proof.
  revert df. induction bs as [|b bs IH]; intros df HP Hstep; [done|].
  destruct (Hstep df b) as [Hs HP']; [apply list_elem_of_here|done|].
  cbn [foldM]. rewrite Hs. cbn [mbind Result_bind].
  rewrite bind_cons, assign_app.
  apply IH; [done|].
  intros d b' Hb' Hd. apply Hstep; [by apply list_elem_of_further|done].
Qed.

(** ** Lag and rolling columns *)

Lemma length_group_shift_indexer p keys : ∀ seen i,
  length (group_shift_indexer p seen i keys) = length keys.
Proof.
  induction keys as [|k keys IH]; intros seen i; [done|].
  cbn [group_shift_indexer]. destruct (null_key k); simpl; by rewrite IH.
Qed.

Lemma length_group_shift p keys c : length (group_shift p keys c) = length keys.
Proof.
  unfold group_shift, take_cells. by rewrite length_fmap, length_group_shift_indexer.
Qed.

Lemma length_rolling `{Externals} s f xs : length (rolling s f xs) = length xs.
Proof. unfold rolling. by rewrite length_fmap, length_seq. Qed.

Lemma length_shift p c : length (shift p c) = length c.
Proof.
  unfold shift. rewrite length_take, length_app, length_replicate. lia.
Qed.

Lemma lag_frame_setitem target dev c df n x :
  lag_frame target dev c df → n ≠ target → n ≠ "device_id" →
  length x = length dev →
  lag_frame target dev c (setitem n x df).
Proof.
  intros (Hne & Hwf & Hn & Hdev & Hc) Hnt Hnd Hx. split_and!.
  - apply setitem_nonempty.
  - apply wf_frame_setitem; [done|done|lia].
  - rewrite nrows_setitem; [done|done|lia].
  - by rewrite getcol_setitem_ne.
  - by rewrite getcol_setitem_ne.
Qed.

Lemma lag_frame_keys target dev c df :
  lag_frame target dev c df →
  row_keys ["device_id"] df = Some ((λ x, [x]) <$> dev).
Proof. intros (Hne & Hwf & Hn & Hdev & Hc). by apply row_keys_single. Qed.

Section LagAndRoll.
Context `{Externals}.

Lemma add_lag_ok target u dev c df s :
  lag_frame target dev c df →
  lag_name s u ≠ target → lag_name s u ≠ "device_id" →
  add_lag target u df s
  = Ok (setitem (lag_name s u) (group_shift s ((λ x, [x]) <$> dev) c) df)
  ∧ lag_frame target dev c
      (setitem (lag_name s u) (group_shift s ((λ x, [x]) <$> dev) c) df).
Proof.
  intros Hf Hnt Hnd. split.
  - unfold add_lag. rewrite (lag_frame_keys _ _ _ _ Hf).
    destruct Hf as (_ & _ & _ & _ & Hc). rewrite Hc. done.
  - apply lag_frame_setitem; [done..|].
    by rewrite length_group_shift, length_fmap.
Qed.

Lemma add_roll_ok target u dev c df s f :
  lag_frame target dev c df → is_numeric c = true →
  roll_name f s u ≠ target → roll_name f s u ≠ "device_id" →
  add_roll target u s df f
  = Ok (setitem (roll_name f s u)
          (rolling s f (group_shift 1 ((λ x, [x]) <$> dev) c)) df)
  ∧ lag_frame target dev c
      (setitem (roll_name f s u)
         (rolling s f (group_shift 1 ((λ x, [x]) <$> dev) c)) df).
Proof.
  intros Hf Hnum Hnt Hnd. split.
  - unfold add_roll. rewrite (lag_frame_keys _ _ _ _ Hf).
    destruct Hf as (_ & _ & _ & _ & Hc). rewrite Hc. simpl. by rewrite Hnum.
  - apply lag_frame_setitem; [done..|].
    by rewrite length_rolling, length_group_shift, length_fmap.
Qed.

Lemma elem_of_feature_names_lag u lags windows functions s :
  s ∈ lags → lag_name s u ∈ feature_names u lags windows functions.
Proof.
  intros Hs. apply elem_of_app. left. apply list_elem_of_fmap. eauto.
Qed.

Lemma elem_of_feature_names_roll u lags windows functions s f :
  s ∈ windows → f ∈ functions →
  roll_name f s u ∈ feature_names u lags windows functions.
Proof.
  intros Hs Hf. apply elem_of_app. right. apply list_elem_of_bind.
  exists s. split; [|done]. apply list_elem_of_fmap. eauto.
Qed.

(** The loops assign the lag columns, then the rolling columns, all
    computed from the same device and target columns. *)
Lemma lag_and_roll_ok target u lags windows functions dev c df :
  lag_frame target dev c df → is_numeric c = true →
  (∀ n, n ∈ feature_names u lags windows functions → n ≠ target ∧ n ≠ "device_id") →
  let keys := (λ x, [x]) <$> dev in
  lag_and_roll target u lags windows functions df
  = Ok (assign (lag_columns u lags keys c ++ roll_columns u windows functions keys c) df).
Proof.
  intros Hf Hnum Hnames keys. unfold lag_and_roll.
  destruct (foldM_assign (add_lag target u)
              (λ s, (lag_name s u, group_shift s keys c))
              (lag_frame target dev c) lags df) as [Hlags Hf1]; [done| |].
  { intros d s Hs Hd.
    destruct (Hnames (lag_name s u)) as [? ?];
      [by apply elem_of_feature_names_lag|].
    by apply add_lag_ok. }
  rewrite Hlags. cbn [mbind Result_bind].
  destruct (foldM_assigns
              (λ df1 s, foldM (add_roll target u s) df1 functions)
              (λ s, (λ f, (roll_name f s u, rolling s f (group_shift 1 keys c)))
                      <$> functions)
              (lag_frame target dev c) windows
              (assign ((λ s, (lag_name s u, group_shift s keys c)) <$> lags) df))
    as [Hrolls _]; [done| |].
  { intros d s Hs Hd.
    apply (foldM_assign (add_roll target u s)
             (λ f, (roll_name f s u, rolling s f (group_shift 1 keys c)))
             (lag_frame target dev c)); [done|].
    intros d' f Hfn Hd'.
    destruct (Hnames (roll_name f s u)) as [? ?];
      [by apply elem_of_feature_names_roll|].
    by apply add_roll_ok. }
  rewrite Hrolls. by rewrite assign_app.
Qed.
End LagAndRoll.

(** ** Running a computation on a store *)

Lemma run_bind {A B} (m : M A) (k : A → M B) σ :
  (m ≫= k) σ
  = match m σ with
    | (Ok a, σ') => k a σ'
    | (Raise e, σ') => (Raise e, σ')
    end.
Proof. done. Qed.

Lemma run_load l d σ : σ !! l = Some d → load l σ = (Ok d, σ).
Proof. intros Hl. unfold load. by rewrite Hl. Qed.

Lemma run_setitem_at l n c d σ :
  σ !! l = Some d → setitem_at l n c σ = (Ok (), <[l := setitem n c d]> σ).
Proof. intros Hl. unfold setitem_at. rewrite run_bind, (run_load _ _ _ Hl). done. Qed.

Lemma run_lift {A} (r : Result A) σ : lift r σ = (r, σ).
Proof. done. Qed.

Lemma run_alloc d σ : alloc d σ = (Ok (length σ), σ ++ [d]).
Proof. done. Qed.

Lemma run_raise {A} e σ : raise (A := A) e σ = (Raise e, σ).
Proof. done. Qed.

Lemma run_ret {A} (a : A) σ : (mret a : M A) σ = (Ok a, σ).
Proof. done. Qed.

Lemma store_lookup_insert (σ : Store) l d d' :
  σ !! l = Some d → <[l := d']> σ !! l = Some d'.
Proof. intros Hl. apply list_lookup_insert_eq. by apply lookup_lt_Some in Hl. Qed.


(** ** Causality of shifts and windows *)

(** With at least one period, the row a grouped shift reads lies strictly
    before the row it is read for. *)
Lemma group_shift_indexer_lt p keys : ∀ seen i j pos,
  1 ≤ p → (∀ k x, x ∈ seen k → x < i) →
  group_shift_indexer p seen i keys !! j = Some (Some pos) → pos < i + j.
Proof.
  induction keys as [|k0 keys IH]; intros seen i j pos Hp Hseen; [done|].
  cbn [group_shift_indexer]. destruct (null_key k0).
  - destruct j as [|j]; [done|]. simpl. intros Hj.
    apply IH in Hj; [lia|done|]. intros k x Hx. apply Hseen in Hx. lia.
  - destruct j as [|j]; simpl.
    + intros [= Hpos]. destruct p as [|p]; [lia|]. simpl in Hpos.
      apply list_elem_of_lookup_2 in Hpos. apply Hseen in Hpos. lia.
    + intros Hj. apply IH in Hj; [lia|done|]. intros k x Hx.
      destruct (decide (k = k0)); [|apply Hseen in Hx; lia].
      apply elem_of_cons in Hx as [->|Hx]; [lia|]. apply Hseen in Hx. lia.
Qed.

Lemma group_shift_causal p keys (c c' : Column) j t :
  1 ≤ p → j ≤ t → take t c = take t c' →
  group_shift p keys c !! j = group_shift p keys c' !! j.
Proof.
  intros Hp Hj Htake. unfold group_shift, take_cells.
  rewrite !list_lookup_fmap.
  destruct (group_shift_indexer p (λ _, []) 0 keys !! j) as [[pos|]|] eqn:Hidx; [|done..].
  simpl. do 2 f_equal.
  apply group_shift_indexer_lt in Hidx; [|done|by intros k x ?%elem_of_nil].
  rewrite <- (lookup_take_lt c t pos), <- (lookup_take_lt c' t pos) by lia.
  by rewrite Htake.
Qed.

Lemma shift_lookup p (c : Column) j :
  j < length c →
  shift p c !! j = Some (if decide (p ≤ j) then default CNull (c !! (j - p)) else CNull).
Proof.
  intros Hj. unfold shift. rewrite lookup_take_lt by done.
  destruct (decide (p ≤ j)) as [Hle|Hgt].
  - rewrite lookup_app_r by (rewrite length_replicate; lia).
    rewrite length_replicate.
    destruct (lookup_lt_is_Some_2 c (j - p)) as [x Hx]; [lia|]. by rewrite Hx.
  - rewrite lookup_app_l by (rewrite length_replicate; lia).
    by rewrite lookup_replicate_2 by lia.
Qed.

Lemma shift_causal p (c c' : Column) j t :
  1 ≤ p → j ≤ t → length c = length c' → take t c = take t c' →
  shift p c !! j = shift p c' !! j.
Proof.
  intros Hp Hj Hlen Htake.
  destruct (decide (j < length c)) as [Hlt|Hge].
  - rewrite !shift_lookup by lia. do 2 f_equal.
    destruct (decide (p ≤ j)); [|done]. f_equal.
    rewrite <- (lookup_take_lt c t (j - p)), <- (lookup_take_lt c' t (j - p)) by lia.
    by rewrite Htake.
  - rewrite !lookup_ge_None_2; [done| |]; rewrite length_shift; lia.
Qed.

Section RollingCausal.
Context `{Externals}.

(** A window ending at row [t] reads rows up to [t] only. *)
Lemma rolling_causal s f (xs ys : Column) t :
  length xs = length ys →
  (∀ j, j ≤ t → xs !! j = ys !! j) →
  rolling s f xs !! t = rolling s f ys !! t.
Proof.
  intros Hlen Hagree. unfold rolling. rewrite !list_lookup_fmap, Hlen.
  destruct (seq 0 (length ys) !! t) as [t'|] eqn:Hseq; [|done].
  apply lookup_seq in Hseq as [-> Ht]. simpl. f_equal.
  unfold rolling_at. destruct (decide (s ≤ S t)) as [Hs|]; [|done].
  replace (take s (drop (S t - s) xs)) with (take s (drop (S t - s) ys)); [done|].
  rewrite !take_drop_commute. f_equal.
  replace (S t - s + s) with (S t) by lia.
  apply list_eq. intros j. destruct (decide (j < S t)).
  - rewrite !lookup_take_lt by done. symmetry. apply Hagree. lia.
  - by rewrite !lookup_take_ge by lia.
Qed.

(** Training: the grouped one-step shift, then the window. *)
Lemma training_rolling_causal s f keys (c c' : Column) t :
  length c = length c' → take t c = take t c' →
  rolling s f (group_shift 1 keys c) !! t
  = rolling s f (group_shift 1 keys c') !! t.
Proof.
  intros Hlen Htake. apply rolling_causal.
  - by rewrite !length_group_shift.
  - intros j Hj. by apply group_shift_causal with (t := t).
Qed.

(** Forecast loop: the plain one-step shift, then the window. *)
Lemma forecast_rolling_causal s f (c c' : Column) t :
  length c = length c' → take t c = take t c' →
  rolling s f (shift 1 c) !! t = rolling s f (shift 1 c') !! t.
Proof.
  intros Hlen Htake. apply rolling_causal.
  - by rewrite !length_shift.
  - intros j Hj. by apply shift_causal with (t := t).
Qed.
End RollingCausal.

(** ** C2: rolling features never read the row they are computed for *)

Lemma add_roll_column `{Externals} target u s df f r keys c :
  row_keys ["device_id"] df = Some keys → getcol target df = Some c →
  add_roll target u s df f = Ok r →
  getcol (roll_name f s u) r = Some (rolling s f (group_shift 1 keys c)).
Proof.
  intros Hk Hc. unfold add_roll. rewrite Hk, Hc. simpl.
  destruct (is_numeric c); [|done]. intros [= <-]. apply getcol_setitem_eq.
Qed.

Lemma forecast_roll_column `{Externals} u no_ts s df f r c :
  getcol "pm2_5" no_ts = Some c →
  forecast_roll u no_ts s df f = Ok r →
  getcol (roll_name f s u) r = Some (rolling s f (shift 1 c)).
Proof.
  intros Hc. unfold forecast_roll. rewrite Hc. simpl.
  destruct (rolling_frame_check no_ts) as [[]|]; [|done]. simpl.
  intros [= <-]. apply getcol_setitem_eq.
Qed.

(** C2.  Two runs whose target columns [c] and [c'] agree on the rows
    before [t] (and may differ at row [t] and after it) give row [t] the
    same rolling feature: in training ([add_roll], the assignment of
    [get_lag_and_roll_features], on tables with the same devices) and in
    the forecast loop ([forecast_roll], the assignment of
    [get_forecasts]), for every window, statistic and unit. *)
Theorem rolling_feature_ignores_own_row `{Externals}
    (target unit_ : string) (s : nat) (f : Stat) (t : nat) (c c' : Column)
    (keys : list Key) (df df' r r' : Frame)
    (df_tmp_no_ts df_tmp_no_ts' df_tmp df_tmp' q q' : Frame) :
  length c = length c' →
  take t c = take t c' →
  row_keys ["device_id"] df = Some keys →
  row_keys ["device_id"] df' = Some keys →
  getcol target df = Some c → getcol target df' = Some c' →
  add_roll target unit_ s df f = Ok r →
  add_roll target unit_ s df' f = Ok r' →
  getcol "pm2_5" df_tmp_no_ts = Some c →
  getcol "pm2_5" df_tmp_no_ts' = Some c' →
  forecast_roll unit_ df_tmp_no_ts s df_tmp f = Ok q →
  forecast_roll unit_ df_tmp_no_ts' s df_tmp' f = Ok q' →
  (getcol (roll_name f s unit_) r ≫= (.!! t)
   = getcol (roll_name f s unit_) r' ≫= (.!! t))
  ∧ (getcol (roll_name f s unit_) q ≫= (.!! t)
     = getcol (roll_name f s unit_) q' ≫= (.!! t)).
Proof.
  intros Hlen Htake Hk Hk' Hc Hc' Hr Hr' Hn Hn' Hq Hq'.
  rewrite (add_roll_column _ _ _ _ _ _ _ _ Hk Hc Hr).
  rewrite (add_roll_column _ _ _ _ _ _ _ _ Hk' Hc' Hr').
  rewrite (forecast_roll_column _ _ _ _ _ _ _ Hn Hq).
  rewrite (forecast_roll_column _ _ _ _ _ _ _ Hn' Hq').
  simpl. split.
  - by apply training_rolling_causal.
  - by apply forecast_rolling_causal.
Qed.

Lemma rolling_feature_ignores_own_row_witness :
  let c := [num 10; num 20; num 11; num 12; num 21; num 13] in
  let c' := [num 10; num 20; num 11; num 99; num 98; num 97] in
  let keys := (λ x, [x]) <$> [CStr "a"; CStr "b"; CStr "a"; CStr "a"; CStr "b"; CStr "a"] in
  let r := setitem "pm2_5_mean_2_day"
             [CNull; CNull; CNull; CNum (21 # 2); CNum (31 # 2); CNum 16] sample_series in
  let r' := setitem "pm2_5_mean_2_day"
              [CNull; CNull; CNull; CNum (21 # 2); CNum (31 # 2); CNum (119 # 2)]
              sample_series_changed in
  let q := setitem "pm2_5_mean_2_day"
             [CNull; CNull; CNum 15; CNum (31 # 2); CNum (23 # 2); CNum (33 # 2)]
             sample_series in
  let q' := setitem "pm2_5_mean_2_day"
              [CNull; CNull; CNum 15; CNum (31 # 2); CNum 55; CNum (197 # 2)]
              sample_series_changed in
  let no_ts :=
    default [] (drop_columns ["timestamp"; "device_id"; "site_id"] sample_series) in
  let no_ts' :=
    default [] (drop_columns ["timestamp"; "device_id"; "site_id"]
                  sample_series_changed) in
  (take 3 c = take 3 c'
   ∧ add_roll "pm2_5" "day" 2 sample_series Mean = Ok r
   ∧ add_roll "pm2_5" "day" 2 sample_series_changed Mean = Ok r'
   ∧ forecast_roll "day" no_ts 2 sample_series Mean = Ok q
   ∧ forecast_roll "day" no_ts' 2 sample_series_changed Mean = Ok q')
  ∧ (getcol "pm2_5_mean_2_day" r ≫= (.!! 3) = getcol "pm2_5_mean_2_day" r' ≫= (.!! 3)
     ∧ getcol "pm2_5_mean_2_day" q ≫= (.!! 3) = getcol "pm2_5_mean_2_day" q' ≫= (.!! 3)).
Proof.
  cbv zeta. split; [by vm_compute|].
  apply (rolling_feature_ignores_own_row "pm2_5" "day" 2 Mean 3
           [num 10; num 20; num 11; num 12; num 21; num 13]
           [num 10; num 20; num 11; num 99; num 98; num 97]
           ((λ x, [x]) <$> [CStr "a"; CStr "b"; CStr "a"; CStr "a"; CStr "b"; CStr "a"])
           sample_series sample_series_changed _ _
           (default [] (drop_columns ["timestamp"; "device_id"; "site_id"]
                          sample_series))
           (default [] (drop_columns ["timestamp"; "device_id"; "site_id"]
                          sample_series_changed))
           sample_series sample_series_changed);
    reflexivity.
Defined.

(** ** C3: the vocabulary and the lag columns *)

Lemma device_series_group device (dev c : Column) :
  group_series [device] ((λ x, [x]) <$> dev) c = device_series device dev c.
Proof.
  unfold group_series, device_series. f_equal.
  rewrite <- list_fmap_compose. apply list_fmap_ext. intros i x _. simpl.
  apply bool_decide_ext. split; [by intros [= ->]|by intros ->].
Qed.

Lemma device_rank_group device (dev : Column) t :
  group_rank [device] ((λ x, [x]) <$> dev) t = device_rank device dev t.
Proof.
  unfold group_rank, device_rank. rewrite <- fmap_take.
  induction (take t dev) as [|x l IH]; [done|].
  rewrite fmap_cons, !filter_cons.
  destruct (decide (x = device)) as [->|Hne].
  - rewrite decide_True by done. simpl. by rewrite IH.
  - rewrite decide_False by (intros [= ?]; done). done.
Qed.

Lemma to_datetime_length `{Externals} c ts : to_datetime c = Some ts → length ts = length c.
Proof. intros Hm. unfold to_datetime in Hm. by apply length_mapM in Hm. Qed.

Lemma timestamp_to_datetime_inv `{Externals} d ts :
  timestamp_to_datetime d = Ok ts →
  ∃ c, getcol "timestamp" d = Some c ∧ to_datetime c = Some ts.
Proof.
  unfold timestamp_to_datetime.
  destruct (getcol "timestamp" d) as [c|]; simpl; [|done].
  destruct (to_datetime c) as [ts'|] eqn:Hc; [|done]. intros [= <-]. eauto.
Qed.

Lemma nrows_nonzero_nonempty (d : Frame) : nrows d ≠ 0 → d ≠ [].
Proof. by destruct d. Qed.

Lemma spec_feature_names_device_id freq :
  freq = "hourly" ∨ freq = "daily" → "device_id" ∉ spec_feature_names freq.
Proof. intros [-> | ->]; by apply (bool_decide_unpack _). Qed.

Lemma spec_feature_names_NoDup freq :
  freq = "hourly" ∨ freq = "daily" → NoDup (spec_feature_names freq).
Proof. intros [-> | ->]; by apply (bool_decide_unpack _). Qed.

Lemma lag_roll_columns_names `{Externals} u lags windows functions keys c :
  (lag_columns u lags keys c ++ roll_columns u windows functions keys c).*1
  = feature_names u lags windows functions.
Proof.
  unfold lag_columns, roll_columns, feature_names.
  rewrite fmap_app. f_equal.
  - rewrite <- list_fmap_compose. by apply list_fmap_ext.
  - induction windows as [|s windows IH]; [done|].
    rewrite !bind_cons, fmap_app, IH. f_equal.
    rewrite <- list_fmap_compose. by apply list_fmap_ext.
Qed.

Section LagFeatures.
Context `{Externals}.

(** A successful run: the caller's frame gets its timestamps converted,
    and the result is a new frame with the lag and rolling columns. *)
Lemma get_lag_and_roll_features_run (σ : Store) (df : loc) (d : Frame)
    (target freq : string) (dev c ts : Column) :
  freq = "hourly" ∨ freq = "daily" →
  σ !! df = Some d → wf_frame d → nrows d ≠ 0 →
  getcol "device_id" d = Some dev → getcol target d = Some c →
  is_numeric c = true →
  timestamp_to_datetime d = Ok ts →
  target ≠ "timestamp" → target ∉ spec_feature_names freq →
  let keys := (λ x, [x]) <$> dev in
  get_lag_and_roll_features df target freq σ
  = (Ok (length σ),
     <[df := setitem "timestamp" ts d]> σ
     ++ [assign (lag_columns (spec_unit freq) (spec_lags freq) keys c
                 ++ roll_columns (spec_unit freq) (spec_windows freq)
                      (spec_stats freq) keys c)
           (setitem "timestamp" ts d)]).
Proof.
  intros Hfreq Hd Hwf Hrows Hdev Hc Hnum Hts Htt Htn keys.
  destruct (timestamp_to_datetime_inv _ _ Hts) as (c0 & Hc0 & Hconv).
  assert (Hframe : lag_frame target dev c (setitem "timestamp" ts d)).
  { split_and!.
    - apply setitem_nonempty.
    - apply wf_frame_setitem; [done|by apply nrows_nonzero_nonempty|].
      rewrite (to_datetime_length _ _ Hconv).
      by apply wf_frame_getcol_length with (n := "timestamp").
    - rewrite nrows_setitem.
      + symmetry. by apply wf_frame_getcol_length with (n := "device_id").
      + by apply nrows_nonzero_nonempty.
      + rewrite (to_datetime_length _ _ Hconv).
        by apply wf_frame_getcol_length with (n := "timestamp").
    - by rewrite getcol_setitem_ne.
    - by rewrite getcol_setitem_ne. }
  assert (Hnames : ∀ n, n ∈ spec_feature_names freq → n ≠ target ∧ n ≠ "device_id").
  { intros n Hn. split; intros ->; [done|].
    by apply (spec_feature_names_device_id freq). }
  pose proof (lag_and_roll_ok target (spec_unit freq) (spec_lags freq)
                (spec_windows freq) (spec_stats freq) dev c _ Hframe Hnum Hnames)
    as Hrun.
  unfold get_lag_and_roll_features.
  rewrite run_bind, (run_load _ _ _ Hd).
  assert (He : empty d = false) by (by apply bool_decide_eq_false).
  assert (Hcols : has_columns [target; "timestamp"; "device_id"] d = true).
  { apply has_columns_spec. intros n Hn. apply getcol_is_Some.
    repeat (apply elem_of_cons in Hn as [->|Hn]); [by eauto..|].
    by apply elem_of_nil in Hn. }
  rewrite He, Hcols. cbn [negb].
  rewrite run_bind, Hts, run_lift.
  rewrite run_bind, (run_setitem_at _ _ _ _ _ Hd).
  rewrite run_bind, (run_load _ _ _ (store_lookup_insert _ _ _ _ Hd)).
  destruct Hfreq as [-> | ->].
  - rewrite decide_False by done. rewrite decide_True by done.
    rewrite run_bind, run_lift.
    change (lag_and_roll target "hour" [1; 2; 6; 12] [3; 6; 12; 24]
              [Mean; Std; Median; Skew])
      with (lag_and_roll target (spec_unit "hourly") (spec_lags "hourly")
              (spec_windows "hourly") (spec_stats "hourly")).
    rewrite Hrun, run_alloc. by rewrite length_insert.
  - rewrite decide_True by done.
    rewrite run_bind, run_lift.
    change (lag_and_roll target "day" [1; 2; 3; 7] [2; 3; 7] [Mean; Std; Max; Min])
      with (lag_and_roll target (spec_unit "daily") (spec_lags "daily")
              (spec_windows "daily") (spec_stats "daily")).
    rewrite Hrun, run_alloc. by rewrite length_insert.
Qed.
End LagFeatures.

Example spec_feature_names_hourly :
  spec_feature_names "hourly"
  = ["pm2_5_last_1_hour"; "pm2_5_last_2_hour"; "pm2_5_last_6_hour"; "pm2_5_last_12_hour";
     "pm2_5_mean_3_hour"; "pm2_5_std_3_hour"; "pm2_5_median_3_hour"; "pm2_5_skew_3_hour";
     "pm2_5_mean_6_hour"; "pm2_5_std_6_hour"; "pm2_5_median_6_hour"; "pm2_5_skew_6_hour";
     "pm2_5_mean_12_hour"; "pm2_5_std_12_hour"; "pm2_5_median_12_hour"; "pm2_5_skew_12_hour";
     "pm2_5_mean_24_hour"; "pm2_5_std_24_hour"; "pm2_5_median_24_hour"; "pm2_5_skew_24_hour"].
Proof. reflexivity. Qed.

Example spec_feature_names_daily :
  spec_feature_names "daily"
  = ["pm2_5_last_1_day"; "pm2_5_last_2_day"; "pm2_5_last_3_day"; "pm2_5_last_7_day";
     "pm2_5_mean_2_day"; "pm2_5_std_2_day"; "pm2_5_max_2_day"; "pm2_5_min_2_day";
     "pm2_5_mean_3_day"; "pm2_5_std_3_day"; "pm2_5_max_3_day"; "pm2_5_min_3_day";
     "pm2_5_mean_7_day"; "pm2_5_std_7_day"; "pm2_5_max_7_day"; "pm2_5_min_7_day"].
Proof. reflexivity. Qed.

(** C3.  On a non-empty table with parseable timestamps and a numeric
    target, [get_lag_and_roll_features] returns a new table whose columns
    are those of the input followed by the columns of the frequency's
    vocabulary that the input did not have yet (lags 1, 2, 6, 12 and
    windows 3, 6, 12, 24 with mean, std, median, skew for hourly; lags
    1, 2, 3, 7 and windows 2, 3, 7 with mean, std, max, min for daily).
    For every row [t] that has a device, the lag-[k] column holds the
    target of the row [k] places earlier among the rows of that device,
    in table order, and is missing when the device has fewer than [k]
    earlier rows. *)
Theorem lag_columns_follow_device_series `{Externals}
    (σ : Store) (df : loc) (d : Frame) (target freq : string) (dev c ts : Column) :
  freq = "hourly" ∨ freq = "daily" →
  σ !! df = Some d → wf_frame d → nrows d ≠ 0 →
  getcol "device_id" d = Some dev → getcol target d = Some c →
  is_numeric c = true →
  timestamp_to_datetime d = Ok ts →
  target ≠ "timestamp" → target ∉ spec_feature_names freq →
  ∃ d1 σ',
    get_lag_and_roll_features df target freq σ = (Ok (length σ), σ')
    ∧ σ' !! length σ = Some d1
    ∧ columns d1 = columns d ++ filter (λ n, n ∉ columns d) (spec_feature_names freq)
    ∧ ∀ k t device,
        k ∈ spec_lags freq → dev !! t = Some device → device ≠ CNull →
        getcol (lag_name k (spec_unit freq)) d1 ≫= (.!! t)
        = Some (if decide (k ≤ device_rank device dev t)
                then default CNull
                       (device_series device dev c !! (device_rank device dev t - k))
                else CNull).
Proof.
  intros Hfreq Hd Hwf Hrows Hdev Hc Hnum Hts Htt Htn.
  pose proof (get_lag_and_roll_features_run σ df d target freq dev c ts
                Hfreq Hd Hwf Hrows Hdev Hc Hnum Hts Htt Htn) as Hrun.
  cbv zeta in Hrun.
  set (keys := (λ x, [x]) <$> dev) in *.
  set (cols := lag_columns (spec_unit freq) (spec_lags freq) keys c
               ++ roll_columns (spec_unit freq) (spec_windows freq)
                    (spec_stats freq) keys c) in *.
  assert (Hnames : cols.*1 = spec_feature_names freq)
    by apply lag_roll_columns_names.
  assert (Hnd : NoDup cols.*1)
    by (rewrite Hnames; by apply spec_feature_names_NoDup).
  destruct (timestamp_to_datetime_inv _ _ Hts) as (c0 & Hc0 & Hconv).
  eexists _, _. split; [exact Hrun|]. split_and!.
  - rewrite lookup_app_r by (rewrite length_insert; lia).
    by rewrite length_insert, Nat.sub_diag.
  - rewrite columns_assign, Hnames by done.
    rewrite columns_setitem_in; [done|]. apply getcol_is_Some. eauto.
  - intros k t device Hk Ht Hnull.
    rewrite (getcol_assign_in (lag_name k (spec_unit freq))
               (group_shift k keys c)); [|done|].
    + simpl. rewrite (group_shift_lookup k keys c t [device]).
      * unfold keys. by rewrite device_rank_group, device_series_group.
      * unfold keys. rewrite length_fmap.
        rewrite (wf_frame_getcol_length _ _ _ Hwf Hdev).
        by rewrite (wf_frame_getcol_length _ _ _ Hwf Hc).
      * unfold keys. by rewrite list_lookup_fmap, Ht.
      * simpl. by destruct device.
    + apply elem_of_app. left. unfold lag_columns.
      apply list_elem_of_fmap. eauto.
Qed.

Lemma lag_columns_follow_device_series_witness :
  ∃ d1 σ',
    get_lag_and_roll_features 0 "pm2_5" "hourly" [sample_series] = (Ok 1, σ')
    ∧ σ' !! 1 = Some d1
    ∧ columns d1
      = columns sample_series
        ++ filter (λ n, n ∉ columns sample_series) (spec_feature_names "hourly")
    ∧ ∀ k t device,
        k ∈ spec_lags "hourly" →
        [CStr "a"; CStr "b"; CStr "a"; CStr "a"; CStr "b"; CStr "a"] !! t = Some device →
        device ≠ CNull →
        getcol (lag_name k (spec_unit "hourly")) d1 ≫= (.!! t)
        = Some (if decide (k ≤ device_rank device
                                 [CStr "a"; CStr "b"; CStr "a"; CStr "a"; CStr "b"; CStr "a"] t)
                then default CNull
                       (device_series device
                          [CStr "a"; CStr "b"; CStr "a"; CStr "a"; CStr "b"; CStr "a"]
                          [num 10; num 20; num 11; num 12; num 21; num 13]
                        !! (device_rank device
                              [CStr "a"; CStr "b"; CStr "a"; CStr "a"; CStr "b"; CStr "a"] t - k))
                else CNull).
Proof.
  apply (lag_columns_follow_device_series [sample_series] 0 sample_series
           "pm2_5" "hourly"
           [CStr "a"; CStr "b"; CStr "a"; CStr "a"; CStr "b"; CStr "a"]
           [num 10; num 20; num 11; num 12; num 21; num 13]
           [hour 0; hour 0; hour 1; hour 2; hour 1; hour 3]).
  - by left.
  - reflexivity.
  - split; [by apply (bool_decide_unpack _)|].
    repeat constructor.
  - by vm_compute.
  - reflexivity.
  - reflexivity.
  - reflexivity.
  - reflexivity.
  - done.
  - by apply (bool_decide_unpack _).
Defined.

(** ** Reasoning about every outcome of a run *)

Lemma wp_run {A} (m : M A) Q σ :
  wp m Q σ ↔ ∀ r σ', m σ = (r, σ') → Q r σ'.
Proof.
  unfold wp. split.
  - intros HQ r σ' Hm. by rewrite Hm in HQ.
  - intros HQ. apply HQ. by destruct (m σ).
Qed.

Lemma wp_bind {A B} (m : M A) (k : A → M B) Q σ :
  wp m (λ r σ', match r with
                | Ok a => wp (k a) Q σ'
                | Raise e => Q (Raise e) σ'
                end) σ →
  wp (m ≫= k) Q σ.
Proof.
  unfold wp. rewrite run_bind. by destruct (m σ) as [[a|e] σ'].
Qed.

Lemma wp_ret {A} (a : A) (Q : Result A → Store → Prop) σ :
  Q (Ok a) σ → wp (mret a) Q σ.
Proof. done. Qed.

Lemma wp_raise {A} e (Q : Result A → Store → Prop) σ :
  Q (Raise e) σ → wp (raise e) Q σ.
Proof. done. Qed.

Lemma wp_lift {A} (r : Result A) (Q : Result A → Store → Prop) σ :
  Q r σ → wp (lift r) Q σ.
Proof. done. Qed.

Lemma wp_load l (Q : Result Frame → Store → Prop) σ :
  (∀ d, σ !! l = Some d → Q (Ok d) σ) →
  (σ !! l = None → Q (Raise (KeyError "dangling reference")) σ) →
  wp (load l) Q σ.
Proof.
  intros Hs Hn. unfold wp, load. destruct (σ !! l) as [d|]; simpl; auto.
Qed.

Lemma wp_alloc d (Q : Result loc → Store → Prop) σ :
  Q (Ok (length σ)) (σ ++ [d]) → wp (alloc d) Q σ.
Proof. done. Qed.

Lemma wp_store l d (Q : Result unit → Store → Prop) σ :
  Q (Ok ()) (<[l := d]> σ) → wp (store l d) Q σ.
Proof. done. Qed.

Lemma wp_setitem_at l n c (Q : Result unit → Store → Prop) σ :
  (∀ d, σ !! l = Some d → Q (Ok ()) (<[l := setitem n c d]> σ)) →
  (σ !! l = None → Q (Raise (KeyError "dangling reference")) σ) →
  wp (setitem_at l n c) Q σ.
Proof.
  intros Hs Hn. unfold setitem_at. apply wp_bind, wp_load; [|done].
  intros d Hd. apply wp_store. by apply Hs.
Qed.

Lemma wp_mono {A} (m : M A) (Q Q' : Result A → Store → Prop) σ :
  (∀ r σ', Q r σ' → Q' r σ') → wp m Q σ → wp m Q' σ.
Proof. unfold wp. auto. Qed.

(** ** The last step of [preprocess_data] *)

Lemma mask_select_Forall {A} (P : A → Prop) mask (c : list A) :
  (∀ i x, mask !! i = Some true → c !! i = Some x → P x) →
  Forall P (mask_select mask c).
Proof.
  revert c. induction mask as [|b mask IH]; intros c Hall; [constructor|].
  destruct c as [|x c]; [constructor|]. simpl.
  assert (Hrest : Forall P (mask_select mask c)).
  { apply IH. intros i y Hm Hc. by apply (Hall (S i) y). }
  destruct b; [|done]. constructor; [|done]. by apply (Hall 0 x).
Qed.

Lemma getcol_filter_rows n mask df :
  getcol n (filter_rows mask df) = mask_select mask <$> getcol n df.
Proof. apply getcol_map_columns. Qed.

Lemma mask_select_notna (c : Column) :
  mask_select (notna <$> c) c = filter (λ x, x ≠ CNull) c.
Proof.
  induction c as [|x c IH]; [done|]. csimpl. rewrite filter_cons, IH.
  by destruct x.
Qed.

Lemma dropna_target n df out :
  dropna [n] df = Some out →
  ∃ pm, getcol n out = Some pm ∧ Forall (λ x, x ≠ CNull) pm.
Proof.
  unfold dropna. simpl. destruct (getcol n df) as [c|] eqn:Hc; [|done].
  simpl. intros [= <-]. rewrite getcol_filter_rows, Hc. simpl.
  eexists. split; [done|]. apply mask_select_Forall.
  intros i x Hm Hx. rewrite list_lookup_fmap in Hm.
  destruct (seq 0 (nrows df) !! i) as [j|] eqn:Hj; [|done].
  apply lookup_seq in Hj as [-> _]. simpl in Hm.
  rewrite Hx in Hm. simpl in Hm. injection Hm as Hm.
  intros ->. done.
Qed.

(** Whatever table [preprocess_data] returns, its [pm2_5] column has no
    missing value: the last step is a [dropna] on that column. *)
Lemma preprocess_data_dropna_last `{Externals}
    (σ σ' : Store) (data l : loc) (data_frequency job_type : string) :
  preprocess_data data data_frequency job_type σ = (Ok l, σ') →
  ∃ out pm,
    σ' !! l = Some out
    ∧ getcol "pm2_5" out = Some pm
    ∧ Forall (λ x, x ≠ CNull) pm.
Proof.
  revert l σ'.
  cut (wp (preprocess_data data data_frequency job_type)
         (λ r σ', match r with
                  | Ok l => ∃ out pm, σ' !! l = Some out
                                      ∧ getcol "pm2_5" out = Some pm
                                      ∧ Forall (λ x, x ≠ CNull) pm
                  | Raise _ => True
                  end) σ).
  { intros Hwp l σ' Hrun. apply wp_run with (r := Ok l) (σ' := σ') in Hwp; done. }
  unfold preprocess_data.
  apply wp_bind, wp_load; [|done]. intros d _.
  destruct (negb _); [by apply wp_raise|].
  destruct (getcol "timestamp" d ≫= to_datetime) as [ts|]; [|by apply wp_raise].
  apply wp_bind, wp_setitem_at; [|done]. intros ? _.
  apply wp_bind, wp_load; [|done]. intros d1 _.
  apply wp_bind, wp_lift. destruct (interpolate_groups _ d1) as [v|]; [|done].
  apply wp_bind, wp_setitem_at; [|done]. intros ? _.
  match goal with |- wp _ _ ?s => generalize s end. intros σ1.
  apply wp_bind.
  apply wp_mono with (Q := λ r _, True); [|by unfold wp].
  intros [data'|e] σ2 _; [|done].
  apply wp_bind, wp_load; [|done]. intros e2 _.
  apply wp_bind, wp_lift. destruct (interpolate_groups _ e2) as [v2|]; [|done].
  apply wp_bind, wp_setitem_at; [|done]. intros ? _.
  apply wp_bind, wp_load; [|done]. intros e3 _.
  apply wp_bind, wp_lift.
  destruct (dropna ["pm2_5"] e3) as [out|] eqn:Hout; [|done]. simpl.
  apply wp_alloc.
  destruct (dropna_target _ _ _ Hout) as (pm & Hpm & Hall).
  exists out, pm. split; [|done].
  by rewrite lookup_app_r, Nat.sub_diag by lia.
Qed.

(** ** Interpolation *)

Lemma first_valid_Some xs d y :
  first_valid xs = Some (d, y) →
  xs !! d = Some (CNum y) ∧ ∀ j, j < d → ¬ observed xs j.
Proof.
  revert d. induction xs as [|x xs IH]; intros d; [done|].
  assert (Hrec : (λ p : nat * Q, (S p.1, p.2)) <$> first_valid xs = Some (d, y) →
                 x ≠ CNum y ∨ True → (∀ q, x ≠ CNum q) →
                 (x :: xs) !! d = Some (CNum y) ∧ ∀ j, j < d → ¬ observed (x :: xs) j).
  { intros Hf _ Hx. destruct (first_valid xs) as [[d' y']|]; [|done].
    simpl in Hf. injection Hf as <- <-. destruct (IH d' eq_refl) as [Hl Hb].
    split; [done|]. intros [|j] Hj [q Hq]; simpl in Hq.
    - injection Hq as ->. by apply (Hx q).
    - apply (Hb j); [lia|]. by exists q. }
  destruct x; simpl; try (intros Hf; apply Hrec; [done|by right|done]).
  intros [= <- <-]. split; [done|]. intros j Hj. lia.
Qed.

Lemma first_valid_None xs : first_valid xs = None → ∀ j, ¬ observed xs j.
Proof.
  induction xs as [|x xs IH]; intros Hf j [q Hq]; [done|].
  assert (Hrec : first_valid xs = None).
  { destruct x; simpl in Hf; try done;
      by destruct (first_valid xs) as [[? ?]|]. }
  destruct j as [|j]; simpl in Hq.
  - injection Hq as ->. done.
  - apply (IH Hrec j). by exists q.
Qed.

Lemma next_valid_Some xs i dn y :
  next_valid xs i = Some (dn, y) → nearest_after xs i (S dn) y.
Proof.
  unfold next_valid. intros Hf. apply first_valid_Some in Hf as [Hl Hb].
  rewrite lookup_drop in Hl. split_and!; [lia| |].
  - by replace (i + S dn) with (S i + dn) by lia.
  - intros j Hj [q Hq]. apply (Hb (j - S i)); [lia|]. exists q.
    rewrite lookup_drop. by replace (S i + (j - S i)) with j by lia.
Qed.

Lemma next_valid_None xs i :
  next_valid xs i = None → ∀ j, i < j → ¬ observed xs j.
Proof.
  unfold next_valid. intros Hf j Hj [q Hq].
  apply (first_valid_None _ Hf (j - S i)). exists q.
  rewrite lookup_drop. by replace (S i + (j - S i)) with j by lia.
Qed.

Lemma rev_take_lookup {A} (xs : list A) i d :
  i ≤ length xs → d < i → rev (take i xs) !! d = xs !! (i - 1 - d).
Proof.
  intros Hi Hd. rewrite <- (lookup_take_lt xs i (i - 1 - d)) by lia.
  assert (Hlen : length (take i xs) = i) by (rewrite length_take; lia).
  destruct (lookup_lt_is_Some_2 (rev (take i xs)) d) as [x Hx].
  { rewrite length_rev. lia. }
  rewrite Hx. symmetry.
  rewrite <- (nth_lookup_Some _ _ x _ Hx).
  rewrite rev_nth by lia. rewrite Hlen.
  replace (i - S d) with (i - 1 - d) by lia.
  destruct (lookup_lt_is_Some_2 (take i xs) (i - 1 - d)) as [z Hz]; [lia|].
  rewrite Hz. f_equal. by rewrite nth_lookup, Hz.
Qed.

Lemma prev_valid_Some xs i dp y :
  i ≤ length xs → prev_valid xs i = Some (dp, y) → nearest_before xs i (S dp) y.
Proof.
  unfold prev_valid. intros Hi Hf. apply first_valid_Some in Hf as [Hl Hb].
  assert (Hdp : dp < i).
  { apply lookup_lt_Some in Hl. rewrite length_rev, length_take in Hl. lia. }
  rewrite rev_take_lookup in Hl by done. split_and!; [lia|lia| |].
  - by replace (i - S dp) with (i - 1 - dp) by lia.
  - intros j Hj [q Hq]. apply (Hb (i - 1 - j)); [lia|]. exists q.
    rewrite rev_take_lookup by lia. by replace (i - 1 - (i - 1 - j)) with j by lia.
Qed.

Lemma prev_valid_None xs i :
  i ≤ length xs → prev_valid xs i = None → ∀ j, j < i → ¬ observed xs j.
Proof.
  unfold prev_valid. intros Hi Hf j Hj [q Hq].
  apply (first_valid_None _ Hf (i - 1 - j)). exists q.
  rewrite rev_take_lookup by lia. by replace (i - 1 - (i - 1 - j)) with j by lia.
Qed.

Lemma length_interpolate xs : length (interpolate xs) = length xs.
Proof. unfold interpolate. by rewrite length_imap. Qed.

Lemma is_numeric_lookup xs j x :
  is_numeric xs = true → xs !! j = Some x → x = CNull ∨ ∃ q, x = CNum q.
Proof.
  unfold is_numeric. rewrite forallb_forall. intros Hall Hx.
  apply list_elem_of_lookup_2, list_elem_of_In in Hx. specialize (Hall x Hx).
  destruct x; try done; eauto.
Qed.

(** The code follows the fill rule at every place of a numeric series. *)
Lemma interpolate_fill_rule xs r :
  is_numeric xs = true → r < length xs →
  ∃ x, interpolate xs !! r = Some x ∧ fill_rule xs r x.
Proof.
  intros Hnum Hr. destruct (lookup_lt_is_Some_2 xs r Hr) as [x Hx].
  unfold interpolate. rewrite list_lookup_imap, Hx. simpl.
  destruct (is_numeric_lookup _ _ _ Hnum Hx) as [->|[q ->]].
  - simpl.
    destruct (prev_valid xs r) as [[dp y0]|] eqn:Hp;
      destruct (next_valid xs r) as [[dn y1]|] eqn:Hn; eexists; (split; [done|]).
    + apply fill_between; [done|apply prev_valid_Some; [lia|done]|by apply next_valid_Some].
    + apply fill_trailing with (a := S dp); [done|apply prev_valid_Some; [lia|done]|by apply next_valid_None].
    + apply fill_leading with (b := S dn); [done|apply prev_valid_None; [lia|done]|by apply next_valid_Some].
    + apply fill_nothing; [done|]. intros j [q Hq].
      destruct (Nat.lt_total j r) as [Hlt|[->|Hgt]].
      * apply (prev_valid_None xs r) with (j := j); [lia|done|done|by exists q].
      * by rewrite Hx in Hq.
      * apply (next_valid_None xs r Hn j); [done|by exists q].
  - eexists. split; [done|]. by apply fill_observed.
Qed.

(** A series with an observed value comes out without any gap. *)
Lemma interpolate_filled xs r j :
  is_numeric xs = true → observed xs j → r < length xs →
  ∃ q, interpolate xs !! r = Some (CNum q).
Proof.
  intros Hnum Hobs Hr.
  destruct (interpolate_fill_rule xs r Hnum Hr) as (x & Hx & Hrule).
  destruct Hrule as [q ?|? ? ? ? ? ? ?|? ? ? ? ?|? ? ? ? ?|? Hnone]; eauto.
  by destruct (Hnone j).
Qed.

(** A series without any observed value stays as it is. *)
Lemma interpolate_unobserved xs :
  is_numeric xs = true → (∀ j, ¬ observed xs j) → interpolate xs = xs.
Proof.
  intros Hnum Hnone. apply list_eq. intros r.
  destruct (decide (r < length xs)) as [Hr|Hr].
  - destruct (interpolate_fill_rule xs r Hnum Hr) as (x & Hx & Hrule).
    rewrite Hx.
    destruct Hrule as [q Hq|? ? ? ? _ [_ [Hq _]] _|? ? _ _ [_ [Hq _]]
                       |? ? _ [_ [Hq _]] _|Hq _]; try done;
      exfalso; eapply Hnone; eexists; exact Hq.
  - rewrite !lookup_ge_None_2; [done|lia|rewrite length_interpolate; lia].
Qed.

Lemma is_numeric_Forall xs :
  is_numeric xs = true ↔ Forall (λ x, x = CNull ∨ ∃ q, x = CNum q) xs.
Proof.
  unfold is_numeric. rewrite forallb_forall, Forall_forall. split.
  - intros Hall x Hx. apply list_elem_of_In in Hx. specialize (Hall x Hx).
    destruct x; try done; eauto.
  - intros Hall x Hx. apply list_elem_of_In in Hx.
    destruct (Hall x Hx) as [->|[q ->]]; done.
Qed.

Lemma is_numeric_interpolate xs : is_numeric xs = true → is_numeric (interpolate xs) = true.
Proof.
  intros Hnum. apply is_numeric_Forall, Forall_lookup. intros r x Hx.
  assert (Hr : r < length xs).
  { apply lookup_lt_Some in Hx. by rewrite length_interpolate in Hx. }
  destruct (interpolate_fill_rule xs r Hnum Hr) as (x' & Hx' & Hrule).
  rewrite Hx in Hx'. injection Hx' as <-. destruct Hrule; eauto.
Qed.

Lemma interpolate_idemp xs :
  is_numeric xs = true → interpolate (interpolate xs) = interpolate xs.
Proof.
  intros Hnum. destruct (first_valid xs) as [[d y]|] eqn:Hf.
  - apply first_valid_Some in Hf as [Hd _].
    apply list_eq. intros r. unfold interpolate at 1.
    rewrite list_lookup_imap.
    destruct (decide (r < length xs)) as [Hr|Hr].
    + destruct (interpolate_filled xs r d Hnum (ex_intro _ y Hd) Hr) as [q Hq].
      by rewrite Hq.
    + rewrite lookup_ge_None_2; [done|rewrite length_interpolate; lia].
  - by rewrite !(interpolate_unobserved xs Hnum (first_valid_None _ Hf)).
Qed.

(** ** Transforms by group *)

Lemma length_group_transform f keys c : length (group_transform f keys c) = length keys.
Proof. unfold group_transform. by rewrite length_imap. Qed.

Lemma group_transform_lookup f keys c t k :
  keys !! t = Some k → null_key k = false →
  group_transform f keys c !! t
  = Some (default CNull (f (group_series k keys c) !! group_rank k keys t)).
Proof.
  intros Ht Hk. unfold group_transform. rewrite list_lookup_imap, Ht. simpl.
  by rewrite Hk.
Qed.

Lemma group_transform_lookup_null f keys c t k :
  keys !! t = Some k → null_key k = true → group_transform f keys c !! t = Some CNull.
Proof.
  intros Ht Hk. unfold group_transform. rewrite list_lookup_imap, Ht. simpl.
  by rewrite Hk.
Qed.

Lemma length_mask_select_positions {A} `{EqDecision A} (k : A) keys (c : Column) i :
  length keys ≤ length c →
  length (mask_select ((λ k', bool_decide (k' = k)) <$> keys) c)
  = length (positions_from i k keys).
Proof.
  revert c i. induction keys as [|x keys IH]; intros c i Hlen; [done|].
  destruct c as [|y c]; simpl in Hlen; [lia|]. csimpl.
  destruct (decide (x = k)) as [->|Hne].
  - rewrite bool_decide_eq_true_2 by done. simpl. f_equal. apply IH. lia.
  - rewrite bool_decide_eq_false_2 by done. apply IH. lia.
Qed.

(** The rows of a group come in increasing order: the row at place [j]
    of the group has exactly [j] rows of the group before it. *)
Lemma positions_from_rank {A} `{EqDecision A} (k : A) keys j pos :
  positions_from 0 k keys !! j = Some pos →
  length (filter (λ k', k' = k) (take pos keys)) = j.
Proof.
  intros Hj. pose proof (positions_from_bounds _ _ _ _ _ Hj) as [Hb Hk].
  rewrite Nat.sub_0_r in Hk.
  rewrite <- (length_positions_from 0).
  rewrite <- (take_drop pos keys), positions_from_app in Hj.
  rewrite length_take_le in Hj by lia. simpl in Hj.
  set (P := positions_from 0 k (take pos keys)) in *.
  destruct (decide (j < length P)) as [Hlt|Hge].
  - rewrite lookup_app_l in Hj by done.
    apply positions_from_bounds in Hj as [Hb' _].
    rewrite length_take in Hb'. lia.
  - rewrite lookup_app_r in Hj by lia.
    rewrite (drop_S _ _ _ Hk) in Hj. simpl in Hj.
    rewrite decide_True in Hj by done.
    destruct (j - length P) as [|j'] eqn:Hj'; [lia|].
    simpl in Hj. apply positions_from_bounds in Hj as [Hb' _]. lia.
Qed.

Lemma group_series_lookup_rank k keys (c : Column) t :
  length keys = length c → keys !! t = Some k →
  group_series k keys c !! group_rank k keys t = c !! t.
Proof.
  intros Hlen Ht. unfold group_series.
  rewrite (mask_select_positions k keys c 0 _ t); [by rewrite Nat.sub_0_r|lia|].
  replace (positions_from 0 k keys)
    with (positions_from 0 k (take t keys ++ drop t keys))
    by (by rewrite take_drop).
  rewrite positions_from_app.
  rewrite lookup_app_r; rewrite length_positions_from; [|done].
  unfold group_rank. rewrite Nat.sub_diag.
  rewrite (drop_S _ _ _ Ht). simpl. rewrite decide_True by done. simpl.
  rewrite length_take_le; [done|]. apply lookup_lt_Some in Ht. lia.
Qed.

(** Gathering a group from the transformed column gives the transformed
    sub-series. *)
Lemma group_series_transform f k keys (c : Column) :
  length keys = length c → null_key k = false →
  length (f (group_series k keys c)) = length (group_series k keys c) →
  group_series k keys (group_transform f keys c) = f (group_series k keys c).
Proof.
  intros Hlen Hk Hf. apply list_eq. intros j.
  destruct (positions_from 0 k keys !! j) as [pos|] eqn:Hpos.
  - unfold group_series at 1.
    rewrite (mask_select_positions k keys _ 0 j pos);
      [|rewrite length_group_transform; lia|done].
    rewrite Nat.sub_0_r.
    pose proof (positions_from_bounds _ _ _ _ _ Hpos) as [Hb Hkey].
    rewrite Nat.sub_0_r in Hkey.
    rewrite (group_transform_lookup f keys c pos k) by done.
    pose proof (positions_from_rank k keys j pos Hpos) as Hrank.
    fold (group_rank k keys pos) in Hrank. rewrite Hrank.
    destruct (lookup_lt_is_Some_2 (f (group_series k keys c)) j) as [x Hx].
    { rewrite Hf. unfold group_series.
      rewrite (length_mask_select_positions k keys c 0) by lia.
      by apply lookup_lt_Some in Hpos. }
    by rewrite Hx.
  - apply lookup_ge_None in Hpos.
    rewrite !lookup_ge_None_2; [done| |].
    + rewrite Hf. unfold group_series.
      by rewrite (length_mask_select_positions k keys c 0) by lia.
    + unfold group_series.
      rewrite (length_mask_select_positions k keys _ 0);
        [done|rewrite length_group_transform; lia].
Qed.

Lemma mask_select_sublist {A} mask (c : list A) x :
  x ∈ mask_select mask c → x ∈ c.
Proof.
  revert c. induction mask as [|b mask IH]; intros c; [by intros ?%elem_of_nil|].
  destruct c as [|y c]; [by intros ?%elem_of_nil|]. simpl.
  destruct b.
  - intros [->|Hx]%elem_of_cons; [apply list_elem_of_here|].
    apply list_elem_of_further. by apply IH.
  - intros Hx. apply list_elem_of_further. by apply IH.
Qed.

Lemma is_numeric_group_series k keys c :
  is_numeric c = true → is_numeric (group_series k keys c) = true.
Proof.
  rewrite !is_numeric_Forall, !Forall_forall. intros Hall x Hx.
  apply Hall. by apply mask_select_sublist in Hx.
Qed.

Lemma is_numeric_group_transform_interpolate keys c :
  is_numeric c = true → is_numeric (group_transform interpolate keys c) = true.
Proof.
  intros Hnum. apply is_numeric_Forall, Forall_lookup. intros t x Hx.
  unfold group_transform in Hx. rewrite list_lookup_imap in Hx.
  destruct (keys !! t) as [k|]; [|done]. simpl in Hx.
  destruct (null_key k); [injection Hx as <-; by left|].
  injection Hx as <-.
  destruct (interpolate (group_series k keys c) !! group_rank k keys t) as [x|] eqn:Hl;
    [|by left].
  simpl. eapply is_numeric_lookup; [|exact Hl].
  by apply is_numeric_interpolate, is_numeric_group_series.
Qed.

(** Interpolating by group a second time changes nothing. *)
Lemma group_transform_interpolate_idemp keys c :
  length keys = length c → is_numeric c = true →
  group_transform interpolate keys (group_transform interpolate keys c)
  = group_transform interpolate keys c.
Proof.
  intros Hlen Hnum. apply list_eq. intros t.
  destruct (keys !! t) as [k|] eqn:Ht.
  - destruct (null_key k) eqn:Hk.
    + by rewrite !(group_transform_lookup_null _ _ _ t k).
    + rewrite !(group_transform_lookup _ _ _ t k) by done.
      rewrite group_series_transform; [|done|done|apply length_interpolate].
      by rewrite interpolate_idemp by (by apply is_numeric_group_series).
  - apply lookup_ge_None in Ht.
    rewrite !lookup_ge_None_2; [done|..]; rewrite !length_group_transform; lia.
Qed.

(** ** Group keys of a frame *)

Lemma mapM_ext_in {A B} (f g : A → option B) l :
  (∀ x, x ∈ l → f x = g x) → mapM f l = mapM g l.
Proof.
  induction l as [|x l IH]; intros Hfg; [done|]. simpl.
  rewrite (Hfg x) by apply list_elem_of_here.
  rewrite IH; [done|]. intros y Hy. by apply Hfg, list_elem_of_further.
Qed.

Lemma has_columns_setitem by_ n c df :
  n ∉ by_ → has_columns by_ (setitem n c df) = has_columns by_ df.
Proof.
  intros Hn. apply eq_true_iff_eq. rewrite !has_columns_spec.
  split; intros Hall m Hm; specialize (Hall m Hm);
    apply getcol_is_Some; apply getcol_is_Some in Hall;
    by rewrite getcol_setitem_ne in * by (by intros ->).
Qed.

Lemma column_keys_setitem by_ n c df :
  n ∉ by_ → nrows (setitem n c df) = nrows df →
  column_keys by_ (setitem n c df) = column_keys by_ df.
Proof.
  intros Hn Hrows. unfold column_keys. rewrite Hrows.
  rewrite (mapM_ext_in (λ m, getcol m (setitem n c df)) (λ m, getcol m df)); [done|].
  intros m Hm. apply getcol_setitem_ne. by intros ->.
Qed.

Lemma row_keys_setitem by_ n c df :
  n ∉ by_ → nrows (setitem n c df) = nrows df →
  row_keys by_ (setitem n c df) = row_keys by_ df.
Proof.
  intros Hn Hrows. unfold row_keys.
  by rewrite has_columns_setitem, column_keys_setitem, Hrows.
Qed.

Lemma column_keys_length by_ df keys :
  column_keys by_ df = Some keys → length keys = nrows df.
Proof.
  unfold column_keys. destruct (mapM _ by_) as [cols|]; [|done]. simpl.
  intros [= <-]. by rewrite length_fmap, length_seq.
Qed.

Lemma row_keys_length by_ df keys :
  row_keys by_ df = Some keys → length keys = nrows df.
Proof.
  unfold row_keys. destruct (has_columns by_ df); [apply column_keys_length|].
  destruct (decide _) as [Hlen|]; [|done]. intros [= <-]. by rewrite length_fmap.
Qed.

Lemma column_keys_has_columns by_ df keys n :
  column_keys by_ df = Some keys → n ∈ by_ → n ∈ columns df.
Proof.
  unfold column_keys. destruct (mapM _ by_) as [cols|] eqn:Hm; [|done].
  intros _ Hn. apply getcol_is_Some.
  assert (Hall : Forall (is_Some ∘ (λ m, getcol m df)) by_).
  { apply mapM_is_Some. by exists cols. }
  rewrite Forall_forall in Hall. by apply Hall.
Qed.

Lemma column_keys_is_Some by_ df :
  has_columns by_ df = true → is_Some (column_keys by_ df).
Proof.
  intros Hc. unfold column_keys.
  destruct (mapM (λ n, getcol n df) by_) as [cols|] eqn:Hm; [by eexists|].
  exfalso. assert (Hs : is_Some (mapM (λ n, getcol n df) by_)); [|by rewrite Hm in Hs; destruct Hs].
  apply mapM_is_Some, Forall_forall. intros m Hm'.
  apply getcol_is_Some. by apply (proj1 (has_columns_spec _ _) Hc).
Qed.

(** A list of names that are not all columns groups the rows of a table
    of the same length by the names themselves, and no other table. *)
Lemma row_keys_labels by_ df :
  has_columns by_ df = false →
  row_keys by_ df
  = if decide (length by_ = nrows df) then Some ((λ n, [CStr n]) <$> by_) else None.
Proof. intros Hc. unfold row_keys. by rewrite Hc. Qed.

Lemma group_columns_cases job_type :
  (group_columns job_type = ["device_id"; "site_id"])
  ∨ (group_columns job_type = ["device_id"]).
Proof. unfold group_columns. destruct (decide _); [by left|by right]. Qed.

Lemma group_columns_device job_type : "device_id" ∈ group_columns job_type.
Proof.
  destruct (group_columns_cases job_type) as [-> | ->]; apply list_elem_of_here.
Qed.

Lemma group_columns_not_target job_type :
  ("pm2_5" ∉ group_columns job_type) ∧ ("timestamp" ∉ group_columns job_type).
Proof.
  destruct (group_columns_cases job_type) as [-> | ->];
    split; by apply (bool_decide_unpack _).
Qed.

Lemma setitem_setitem n c1 c2 df : setitem n c2 (setitem n c1 df) = setitem n c2 df.
Proof.
  induction df as [|[m c0] df IH]; simpl.
  - by rewrite decide_True.
  - destruct (decide (m = n)) as [->|Hne]; simpl.
    + by rewrite decide_True.
    + rewrite decide_False by done. by rewrite IH.
Qed.

Lemma columns_nonempty n (df : Frame) : n ∈ columns df → df ≠ [].
Proof. intros Hn ->. by apply elem_of_nil in Hn. Qed.

Lemma dropna_single n df c :
  getcol n df = Some c → length c = nrows df →
  dropna [n] df = Some (filter_rows (notna <$> c) df).
Proof.
  intros Hc Hlen. unfold dropna. simpl. rewrite Hc. simpl. do 2 f_equal.
  rewrite <- Hlen. apply list_eq. intros i. rewrite !list_lookup_fmap.
  destruct (decide (i < length c)) as [Hlt|Hge].
  - rewrite lookup_seq_lt by done. simpl.
    destruct (lookup_lt_is_Some_2 c i Hlt) as [x Hx]. rewrite Hx. simpl.
    by rewrite andb_true_r.
  - rewrite lookup_seq_ge by lia. simpl.
    by rewrite (lookup_ge_None_2 c i) by lia.
Qed.

Section Preprocess.
Context `{Externals}.

Lemma interpolate_groups_ok by_ df keys pm :
  row_keys by_ df = Some keys → getcol "pm2_5" df = Some pm →
  is_numeric pm = true →
  interpolate_groups by_ df = Ok (group_transform interpolate keys pm).
Proof.
  intros Hk Hpm Hnum. unfold interpolate_groups. rewrite Hk, Hpm. simpl.
  by rewrite Hnum.
Qed.

Lemma interpolated_facts d job_type keys pm ts :
  wf_frame d → getcol "pm2_5" d = Some pm →
  timestamp_to_datetime d = Ok ts →
  row_keys (group_columns job_type) d = Some keys →
  let d2 := interpolated d keys pm ts in
  length keys = length pm
  ∧ nrows (setitem "timestamp" ts d) = nrows d
  ∧ row_keys (group_columns job_type) (setitem "timestamp" ts d) = Some keys
  ∧ getcol "pm2_5" (setitem "timestamp" ts d) = Some pm
  ∧ nrows d2 = nrows d
  ∧ wf_frame d2
  ∧ row_keys (group_columns job_type) d2 = Some keys
  ∧ getcol "pm2_5" d2 = Some (group_transform interpolate keys pm).
Proof.
  intros Hwf Hpm Hts Hk d2.
  destruct (timestamp_to_datetime_inv _ _ Hts) as (c0 & Hc0 & Hconv).
  destruct (group_columns_not_target job_type) as [Hgp Hgt].
  assert (Hne : d ≠ []).
  { apply (columns_nonempty "pm2_5"), getcol_is_Some. eauto. }
  assert (Hlts : length ts = nrows d).
  { rewrite (to_datetime_length _ _ Hconv).
    by apply wf_frame_getcol_length with (n := "timestamp"). }
  assert (Hlk : length keys = length pm).
  { rewrite (row_keys_length _ _ _ Hk).
    symmetry. by apply wf_frame_getcol_length with (n := "pm2_5"). }
  assert (Hn1 : nrows (setitem "timestamp" ts d) = nrows d)
    by (by apply nrows_setitem).
  assert (Hlf : length (group_transform interpolate keys pm)
                = nrows (setitem "timestamp" ts d)).
  { rewrite length_group_transform, Hn1. by apply row_keys_length in Hk. }
  assert (Hn2 : nrows d2 = nrows d).
  { unfold d2, interpolated. rewrite nrows_setitem; [done|apply setitem_nonempty|done]. }
  split_and!; try done.
  - by rewrite row_keys_setitem.
  - by rewrite getcol_setitem_ne.
  - apply wf_frame_setitem; [|apply setitem_nonempty|done].
    by apply wf_frame_setitem.
  - unfold d2, interpolated. rewrite row_keys_setitem; [|done|].
    + by rewrite row_keys_setitem.
    + rewrite nrows_setitem; [done|apply setitem_nonempty|done].
  - apply getcol_setitem_eq.
Qed.

(** A run on hourly data: nothing is resampled, the second
    interpolation finds no gap that the first one left. *)
Lemma preprocess_data_hourly_run (σ : Store) (data : loc) (d : Frame)
    (data_frequency job_type : string) (keys : list Key) (pm ts : Column) :
  data_frequency ≠ "daily" →
  σ !! data = Some d → wf_frame d → "device_id" ∈ columns d →
  getcol "pm2_5" d = Some pm → is_numeric pm = true →
  timestamp_to_datetime d = Ok ts →
  row_keys (group_columns job_type) d = Some keys →
  let d2 := interpolated d keys pm ts in
  preprocess_data data data_frequency job_type σ
  = (Ok (length σ),
     <[data := d2]> σ
     ++ [filter_rows (notna <$> group_transform interpolate keys pm) d2]).
Proof.
  intros Hfreq Hd Hwf Hdevc Hpm Hnum Hts Hk d2.
  destruct (interpolated_facts d job_type keys pm ts Hwf Hpm Hts Hk)
    as (Hlk & Hn1 & Hk1 & Hpm1 & Hn2 & Hwf2 & Hk2 & Hpm2).
  destruct (timestamp_to_datetime_inv _ _ Hts) as (c0 & Hc0 & Hconv).
  fold d2 in Hn2, Hwf2, Hk2, Hpm2.
  assert (Hcols : has_columns ["device_id"; "pm2_5"; "timestamp"] d = true).
  { apply has_columns_spec. intros n Hn.
    repeat (apply elem_of_cons in Hn as [->|Hn]).
    - done.
    - apply getcol_is_Some. eauto.
    - apply getcol_is_Some. eauto.
    - by apply elem_of_nil in Hn. }
  unfold preprocess_data.
  rewrite run_bind, (run_load _ _ _ Hd), Hcols. cbn [negb].
  rewrite Hc0. cbn [mbind option_bind]. rewrite Hconv.
  rewrite run_bind, (run_setitem_at _ _ _ _ _ Hd).
  pose proof (store_lookup_insert _ _ _ (setitem "timestamp" ts d) Hd) as Hd1.
  rewrite run_bind, (run_load _ _ _ Hd1).
  rewrite run_bind, (interpolate_groups_ok _ _ _ _ Hk1 Hpm1 Hnum), run_lift.
  rewrite run_bind, (run_setitem_at _ _ _ _ _ Hd1).
  rewrite list_insert_insert_eq. fold (interpolated d keys pm ts). fold d2.
  rewrite decide_False by done.
  rewrite run_bind, run_ret.
  pose proof (store_lookup_insert _ _ _ d2 Hd) as Hd2.
  rewrite run_bind, (run_load _ _ _ Hd2).
  rewrite run_bind, (interpolate_groups_ok _ _ _ _ Hk2 Hpm2), run_lift
    by (by apply is_numeric_group_transform_interpolate).
  rewrite group_transform_interpolate_idemp by done.
  rewrite run_bind, (run_setitem_at _ _ _ _ _ Hd2).
  rewrite list_insert_insert_eq.
  replace (setitem "pm2_5" (group_transform interpolate keys pm) d2) with d2
    by (unfold d2, interpolated; by rewrite setitem_setitem).
  rewrite run_bind, (run_load _ _ _ Hd2).
  rewrite (dropna_single "pm2_5" d2 _ Hpm2);
    [|rewrite length_group_transform, Hn2; by apply row_keys_length in Hk].
  rewrite run_bind, run_lift. cbn [need]. rewrite run_alloc.
  by rewrite length_insert.
Qed.
End Preprocess.

(** ** C8: which gaps are filled *)

(** The claim as stated fails on [sample_gaps]: the code returns all five
    rows, the leading and the trailing one filled with the nearest
    observed value; interpolating bounded gaps only would have kept
    three. *)
Lemma leading_and_trailing_gaps_are_kept :
  ∃ σ' out,
    preprocess_data 0 "hourly" "train" [sample_gaps] = (Ok 1, σ')
    ∧ σ' !! 1 = Some out
    ∧ getcol "pm2_5" out = Some [num 5; num 5; num 6; num 7; num 7]
    ∧ getcol "timestamp" out = Some [hour 0; hour 1; hour 2; hour 3; hour 4]
    ∧ nrows out = 5
    ∧ spec_interpolate_inside [CNull; num 5; CNull; num 7; CNull]
      = [CNull; num 5; num 6; num 7; CNull]
    ∧ length (filter (λ x, x ≠ CNull)
                (spec_interpolate_inside [CNull; num 5; CNull; num 7; CNull])) = 3.
Proof. eexists _, _. by vm_compute. Qed.

(** ** C5: the grouping keys *)

Lemma spec_feature_names_site_id freq :
  freq = "hourly" ∨ freq = "daily" → "site_id" ∉ spec_feature_names freq.
Proof. intros [-> | ->]; by apply (bool_decide_unpack _). Qed.

Lemma getcol_assign_feature `{Externals} n u lags windows functions keys c df :
  NoDup (feature_names u lags windows functions) →
  n ∈ feature_names u lags windows functions →
  ∃ col,
    (n, col) ∈ lag_columns u lags keys c ++ roll_columns u windows functions keys c
    ∧ getcol n (assign (lag_columns u lags keys c
                        ++ roll_columns u windows functions keys c) df) = Some col.
Proof.
  intros Hnd Hn. rewrite <- (lag_roll_columns_names u lags windows functions keys c) in Hn, Hnd.
  apply list_elem_of_fmap in Hn as ([n' col] & -> & Hin).
  exists col. split; [done|]. by apply getcol_assign_in.
Qed.

(** C5, as the code has it.  [preprocess_data] groups by [device_id] and
    [site_id] for a prediction job and by [device_id] for any other job.
    [get_lag_and_roll_features] has no job type: its lag columns are the
    shifts by [device_id] alone and its rolling columns the windows over
    the one-step shift by [device_id] alone, and a table that differs in
    its [site_id] column only gets the same lag and rolling columns. *)
Theorem lag_and_rolling_group_by_device_only `{Externals}
    (σ : Store) (df : loc) (d : Frame) (target freq : string)
    (dev c ts site' : Column) :
  freq = "hourly" ∨ freq = "daily" →
  σ !! df = Some d → wf_frame d → nrows d ≠ 0 →
  getcol "device_id" d = Some dev → getcol target d = Some c →
  is_numeric c = true →
  timestamp_to_datetime d = Ok ts →
  target ≠ "timestamp" → target ∉ spec_feature_names freq →
  target ≠ "site_id" → length site' = nrows d →
  (group_columns "prediction" = ["device_id"; "site_id"]
   ∧ ∀ job_type, job_type ≠ "prediction" → group_columns job_type = ["device_id"])
  ∧ ∃ d1 d1' σ1 σ1',
      get_lag_and_roll_features df target freq σ = (Ok (length σ), σ1)
      ∧ σ1 !! length σ = Some d1
      ∧ get_lag_and_roll_features df target freq (<[df := setitem "site_id" site' d]> σ)
        = (Ok (length σ), σ1')
      ∧ σ1' !! length σ = Some d1'
      ∧ (∀ k, k ∈ spec_lags freq →
           getcol (lag_name k (spec_unit freq)) d1
           = Some (group_shift k ((λ x, [x]) <$> dev) c))
      ∧ (∀ s f, s ∈ spec_windows freq → f ∈ spec_stats freq →
           getcol (roll_name f s (spec_unit freq)) d1
           = Some (rolling s f (group_shift 1 ((λ x, [x]) <$> dev) c)))
      ∧ (∀ n, n ∈ spec_feature_names freq → getcol n d1' = getcol n d1).
Proof.
  intros Hfreq Hd Hwf Hrows Hdev Hc Hnum Hts Htt Htn Hts' Hsite.
  split.
  { split; [done|]. intros job Hjob. unfold group_columns.
    by rewrite decide_False. }
  set (d' := setitem "site_id" site' d).
  assert (Hne : d ≠ []) by (by apply nrows_nonzero_nonempty).
  assert (Hd' : <[df := d']> σ !! df = Some d') by (by eapply store_lookup_insert).
  assert (Hwf' : wf_frame d') by (by apply wf_frame_setitem).
  assert (Hrows' : nrows d' ≠ 0) by (unfold d'; by rewrite nrows_setitem).
  assert (Hdev' : getcol "device_id" d' = Some dev)
    by (unfold d'; by rewrite getcol_setitem_ne).
  assert (Hc' : getcol target d' = Some c)
    by (unfold d'; by rewrite getcol_setitem_ne).
  assert (Htsd' : timestamp_to_datetime d' = Ok ts).
  { unfold timestamp_to_datetime, d'. rewrite getcol_setitem_ne by done. exact Hts. }
  pose proof (get_lag_and_roll_features_run σ df d target freq dev c ts
                Hfreq Hd Hwf Hrows Hdev Hc Hnum Hts Htt Htn) as Hrun.
  pose proof (get_lag_and_roll_features_run (<[df := d']> σ) df d' target freq dev c ts
                Hfreq Hd' Hwf' Hrows' Hdev' Hc' Hnum Htsd' Htt Htn) as Hrun'.
  cbv zeta in Hrun, Hrun'. rewrite length_insert in Hrun'.
  set (keys := (λ x, [x]) <$> dev) in *.
  set (cols := lag_columns (spec_unit freq) (spec_lags freq) keys c
               ++ roll_columns (spec_unit freq) (spec_windows freq)
                    (spec_stats freq) keys c) in *.
  assert (Hnames : cols.*1 = spec_feature_names freq) by apply lag_roll_columns_names.
  assert (Hnd : NoDup cols.*1)
    by (rewrite Hnames; by apply spec_feature_names_NoDup).
  eexists _, _, _, _.
  split; [exact Hrun|]. split.
  { rewrite lookup_app_r by (rewrite length_insert; lia).
    by rewrite length_insert, Nat.sub_diag. }
  split; [exact Hrun'|]. split.
  { rewrite lookup_app_r by (rewrite !length_insert; lia).
    by rewrite !length_insert, Nat.sub_diag. }
  split_and!.
  - intros k Hk. apply getcol_assign_in; [done|].
    apply elem_of_app. left. apply list_elem_of_fmap. eauto.
  - intros s f Hs Hf. apply getcol_assign_in; [done|].
    apply elem_of_app. right. apply list_elem_of_bind. exists s. split; [|done].
    apply list_elem_of_fmap. eauto.
  - intros n Hn. rewrite <- Hnames in Hn.
    apply list_elem_of_fmap in Hn as ([n' col] & -> & Hin).
    by rewrite !(getcol_assign_in n' col cols).
Qed.

Lemma lag_and_rolling_group_by_device_only_witness :
  (group_columns "prediction" = ["device_id"; "site_id"]
   ∧ ∀ job_type, job_type ≠ "prediction" → group_columns job_type = ["device_id"])
  ∧ ∃ d1 d1' σ1 σ1',
      get_lag_and_roll_features 0 "pm2_5" "hourly" [sample_prediction_data] = (Ok 1, σ1)
      ∧ σ1 !! 1 = Some d1
      ∧ get_lag_and_roll_features 0 "pm2_5" "hourly"
          (<[0 := setitem "site_id" [CStr "s1"; CStr "s1"; CStr "s1"; CStr "s1"]
                    sample_prediction_data]> [sample_prediction_data])
        = (Ok 1, σ1')
      ∧ σ1' !! 1 = Some d1'
      ∧ (∀ k, k ∈ spec_lags "hourly" →
           getcol (lag_name k (spec_unit "hourly")) d1
           = Some (group_shift k ((λ x, [x]) <$> [CStr "a"; CStr "a"; CStr "a"; CStr "a"])
                     [num 8; num 4; num 8; num 4]))
      ∧ (∀ s f, s ∈ spec_windows "hourly" → f ∈ spec_stats "hourly" →
           getcol (roll_name f s (spec_unit "hourly")) d1
           = Some (rolling s f
                     (group_shift 1 ((λ x, [x]) <$> [CStr "a"; CStr "a"; CStr "a"; CStr "a"])
                        [num 8; num 4; num 8; num 4])))
      ∧ (∀ n, n ∈ spec_feature_names "hourly" → getcol n d1' = getcol n d1).
Proof.
  apply (lag_and_rolling_group_by_device_only [sample_prediction_data] 0
           sample_prediction_data "pm2_5" "hourly"
           [CStr "a"; CStr "a"; CStr "a"; CStr "a"]
           [num 8; num 4; num 8; num 4]
           [hour 0; hour 1; hour 2; hour 3]
           [CStr "s1"; CStr "s1"; CStr "s1"; CStr "s1"]).
  - by left.
  - reflexivity.
  - split; [by apply (bool_decide_unpack _)|repeat constructor].
  - by vm_compute.
  - reflexivity.
  - reflexivity.
  - reflexivity.
  - reflexivity.
  - done.
  - by apply (bool_decide_unpack _).
  - done.
  - reflexivity.
Defined.

(** The claim as stated fails on the prediction pipeline: after
    [preprocess_data] for a prediction job, device [a] has rows at sites
    [s1] and [s2]; the lag-1 column of the code reads across the sites,
    the one grouped by device and site does not. *)
Lemma prediction_lags_cross_sites :
  let run1 := preprocess_data 0 "hourly" "prediction" [sample_observations] in
  let run2 := get_lag_and_roll_features 1 "pm2_5" "hourly" run1.2 in
  run1.1 = Ok 1
  ∧ run1.2 !! 1 = Some sample_prediction_data
  ∧ run2.1 = Ok 2
  ∧ (run2.2 !! 2 ≫= getcol "site_id") = Some [CStr "s1"; CStr "s2"; CStr "s1"; CStr "s2"]
  ∧ (run2.2 !! 2 ≫= getcol "pm2_5_last_1_hour") = Some [CNull; num 8; num 4; num 8]
  ∧ spec_lag_column "prediction" "pm2_5" 1 sample_prediction_data
    = Some [CNull; CNull; num 8; num 4].
Proof. cbv zeta. split_and!; vm_compute; reflexivity. Qed.

(** ** C9: what the feature engineer changes in the caller's table *)

Lemma only_assigns_refl names l σ : only_assigns names l σ σ.
Proof. split_and!; [done|done|]. intros d Hd. eauto. Qed.

Lemma only_assigns_setitem names l σ0 (σ : Store) n c d :
  only_assigns names l σ0 σ → n ∈ names → σ !! l = Some d →
  only_assigns names l σ0 (<[l := setitem n c d]> σ).
Proof.
  intros (Hlen & Hother & Hl) Hn Hd. split_and!.
  - by rewrite length_insert.
  - intros l' Hl' Hne. rewrite list_lookup_insert_ne by done. by apply Hother.
  - intros d0 Hd0. destruct (Hl d0 Hd0) as (d' & Hd' & Hcols & Hkeep).
    rewrite Hd in Hd'. injection Hd' as <-.
    exists (setitem n c d). split_and!.
    + by eapply store_lookup_insert.
    + intros m Hm. rewrite getcol_setitem_ne; [by apply Hcols|]. by intros ->.
    + intros m Hm. by apply columns_setitem_incl, Hkeep.
Qed.

Lemma only_assigns_alloc names l σ0 (σ : Store) x :
  only_assigns names l σ0 σ → only_assigns names l σ0 (σ ++ [x]).
Proof.
  intros (Hlen & Hother & Hl). split_and!.
  - rewrite length_app. lia.
  - intros l' Hl' Hne. rewrite lookup_app_l by lia. by apply Hother.
  - intros d0 Hd0. destruct (Hl d0 Hd0) as (d' & Hd' & Hcols & Hkeep).
    exists d'. split_and!; [|done..]. by apply lookup_app_l_Some.
Qed.

Lemma only_assigns_store_new names l σ0 (σ : Store) l1 x :
  only_assigns names l σ0 σ → length σ0 ≤ l1 →
  only_assigns names l σ0 (<[l1 := x]> σ).
Proof.
  intros (Hlen & Hother & Hl) Hl1. split_and!.
  - by rewrite length_insert.
  - intros l' Hl' Hne. rewrite list_lookup_insert_ne by lia. by apply Hother.
  - intros d0 Hd0. destruct (Hl d0 Hd0) as (d' & Hd' & Hcols & Hkeep).
    exists d'. split_and!; [|done..].
    rewrite list_lookup_insert_ne; [done|]. apply lookup_lt_Some in Hd0. lia.
Qed.

Lemma wp_setitem_frame names l σ0 n c (Q : Result unit → Store → Prop) (σ : Store) :
  only_assigns names l σ0 σ → n ∈ names →
  (∀ σ', only_assigns names l σ0 σ' → Q (Ok ()) σ') →
  (Q (Raise (KeyError "dangling reference")) σ) →
  wp (setitem_at l n c) Q σ.
Proof.
  intros HI Hn Hok Hraise. apply wp_setitem_at; [|done].
  intros d Hd. apply Hok. by apply only_assigns_setitem.
Qed.

Lemma wp_alloc_frame names l σ0 x (Q : Result loc → Store → Prop) (σ : Store) :
  only_assigns names l σ0 σ →
  (∀ σ' l', only_assigns names l σ0 σ' → length σ0 ≤ l' → Q (Ok l') σ') →
  wp (alloc x) Q σ.
Proof.
  intros HI Hok. apply wp_alloc. apply Hok; [by apply only_assigns_alloc|].
  by destruct HI.
Qed.

Section Frames.
Context `{Externals}.

Lemma get_lag_and_roll_features_frame σ0 σ df target freq :
  only_assigns ["timestamp"] df σ0 σ →
  wp (get_lag_and_roll_features df target freq)
     (in_frame_fresh ["timestamp"] df σ0) σ.
Proof.
  intros HI. unfold get_lag_and_roll_features, in_frame_fresh.
  apply wp_bind, wp_load; [|frame_exit]. intros d _.
  destruct (empty d); [apply wp_raise; frame_exit|].
  destruct (negb _); [apply wp_raise; frame_exit|].
  apply wp_bind, wp_lift. destruct (timestamp_to_datetime d) as [ts|]; [|frame_exit].
  apply wp_bind. eapply wp_setitem_frame; [done|set_solver| |frame_exit].
  clear σ HI. intros σ HI.
  apply wp_bind, wp_load; [|frame_exit]. intros df1 _.
  repeat case_decide.
  - apply wp_bind, wp_lift. destruct (lag_and_roll _ _ _ _ _ _) as [r|]; [|frame_exit].
    eapply wp_alloc_frame; [done|]. intros σ' l' HI' Hl'. split; [done|].
    by intros ? [= <-].
  - apply wp_bind, wp_lift. destruct (lag_and_roll _ _ _ _ _ _) as [r|]; [|frame_exit].
    eapply wp_alloc_frame; [done|]. intros σ' l' HI' Hl'. split; [done|].
    by intros ? [= <-].
  - apply wp_raise. frame_exit.
Qed.
Lemma get_time_features_frame σ0 σ df freq :
  only_assigns ["timestamp"] df σ0 σ →
  wp (get_time_features df freq) (in_frame_fresh ["timestamp"] df σ0) σ.
Proof.
  intros HI. unfold get_time_features, in_frame_fresh.
  apply wp_bind, wp_load; [|frame_exit]. intros d _.
  destruct (empty d); [apply wp_raise; frame_exit|].
  destruct (negb _); [apply wp_raise; frame_exit|].
  apply wp_bind, wp_lift. destruct (timestamp_to_datetime d) as [ts|]; [|frame_exit].
  apply wp_bind. eapply wp_setitem_frame; [done|set_solver| |frame_exit].
  clear σ HI. intros σ HI.
  destruct (negb _); [apply wp_raise; frame_exit|].
  apply wp_bind, wp_load; [|frame_exit]. intros df1 _.
  eapply wp_alloc_frame; [done|]. intros σ' l' HI' Hl'. split; [done|].
  by intros ? [= <-].
Qed.

Lemma get_cyclic_features_frame σ0 σ df freq :
  only_assigns ["timestamp"] df σ0 σ →
  wp (get_cyclic_features df freq) (in_frame_fresh ["timestamp"] df σ0) σ.
Proof.
  intros HI. unfold get_cyclic_features.
  apply wp_bind.
  eapply wp_mono; [|by apply get_time_features_frame].
  intros [df1|e] σ1 [HI1 Hfresh]; [|by split].
  specialize (Hfresh df1 eq_refl). unfold in_frame_fresh.
  apply wp_bind, wp_load; [|frame_exit]. intros d _.
  apply wp_bind, wp_lift. destruct (foldM _ _ _) as [d1|]; [|frame_exit].
  apply wp_bind, wp_lift. destruct (add_cyclic _ _ _) as [d2|]; [|frame_exit].
  apply wp_bind, wp_lift. destruct (need _ _) as [d3|]; [|frame_exit].
  apply wp_bind, wp_store. apply wp_ret. split.
  - by apply only_assigns_store_new.
  - by intros ? [= <-].
Qed.

Lemma preprocess_data_frame σ0 σ data data_frequency job_type :
  only_assigns ["timestamp"; "pm2_5"] data σ0 σ →
  wp (preprocess_data data data_frequency job_type)
     (in_frame_fresh ["timestamp"; "pm2_5"] data σ0) σ.
Proof.
  intros HI. unfold preprocess_data, in_frame_fresh.
  apply wp_bind, wp_load; [|frame_exit]. intros d _.
  destruct (negb _); [apply wp_raise; frame_exit|].
  destruct (getcol "timestamp" d ≫= to_datetime) as [ts|]; [|apply wp_raise; frame_exit].
  apply wp_bind. eapply wp_setitem_frame; [done|set_solver| |frame_exit].
  clear σ HI. intros σ HI.
  apply wp_bind, wp_load; [|frame_exit]. intros d1 _.
  apply wp_bind, wp_lift. destruct (interpolate_groups _ d1) as [v|]; [|frame_exit].
  apply wp_bind. eapply wp_setitem_frame; [done|set_solver| |frame_exit].
  clear σ HI. intros σ HI.
  apply wp_bind.
  apply wp_mono with
    (Q := λ r σ', only_assigns ["timestamp"; "pm2_5"] data σ0 σ'
                  ∧ ∀ l', r = Ok l' → l' = data ∨ length σ0 ≤ l').
  { intros [data'|e] σ1 [HI1 Hdata']; [|frame_exit].
    specialize (Hdata' data' eq_refl).
    apply wp_bind, wp_load; [|frame_exit]. intros d2 Hd2.
    apply wp_bind, wp_lift. destruct (interpolate_groups _ d2) as [v2|]; [|frame_exit].
    assert (HI2 : only_assigns ["timestamp"; "pm2_5"] data σ0
                    (<[data' := setitem "pm2_5" v2 d2]> σ1)).
    { destruct Hdata' as [-> | Hnew].
      - apply only_assigns_setitem; [done|set_solver|done].
      - by apply only_assigns_store_new. }
    apply wp_bind, wp_setitem_at; [|frame_exit]. intros d2' Hd2'.
    rewrite Hd2 in Hd2'. injection Hd2' as <-.
    revert HI2. generalize (<[data' := setitem "pm2_5" v2 d2]> σ1).
    intros σ2 HI2.
    apply wp_bind, wp_load; [|frame_exit]. intros d3 _.
    apply wp_bind, wp_lift. destruct (need _ _) as [out|]; [|frame_exit].
    eapply wp_alloc_frame; [done|]. intros σ' l' HI' Hl'. split; [done|].
    by intros ? [= <-]. }
  case_decide.
  - apply wp_bind, wp_load; [|frame_exit]. intros d2 _.
    apply wp_bind, wp_lift. destruct (need _ _) as [r|]; [|frame_exit].
    apply wp_bind, wp_lift. destruct (reset_index r) as [table|]; [|frame_exit].
    eapply wp_alloc_frame; [done|]. intros σ' l' HI' Hl'. split; [done|].
    intros ? [= <-]. by right.
  - apply wp_ret. split; [done|]. intros ? [= <-]. by left.
Qed.

Lemma get_location_features_frame σ0 σ df :
  only_assigns ["timestamp"; "x_cord"; "y_cord"; "z_cord"] df σ0 σ →
  wp (get_location_features df)
     (in_frame_same ["timestamp"; "x_cord"; "y_cord"; "z_cord"] df σ0) σ.
Proof.
  intros HI. unfold get_location_features, in_frame_same.
  apply wp_bind, wp_load; [|frame_exit]. intros d _.
  destruct (empty d); [apply wp_raise; frame_exit|].
  destruct (filter _ _) as [|column_name ?]; [|apply wp_raise; frame_exit].
  apply wp_bind, wp_lift. destruct (timestamp_to_datetime d) as [ts|]; [|frame_exit].
  apply wp_bind. eapply wp_setitem_frame; [done|set_solver| |frame_exit].
  clear σ HI. intros σ HI.
  apply wp_bind, wp_load; [|frame_exit]. intros d1 _.
  apply wp_bind, wp_lift. destruct (need _ (getcol "latitude" d1)) as [lat|]; [|frame_exit].
  apply wp_bind, wp_lift. destruct (need _ (getcol "longitude" d1)) as [lon|]; [|frame_exit].
  apply wp_bind, wp_lift. destruct (np_map np_cos lat) as [cos_lat|]; [|frame_exit].
  apply wp_bind, wp_lift. destruct (np_map np_cos lon) as [cos_lon|]; [|frame_exit].
  apply wp_bind. eapply wp_setitem_frame; [done|set_solver| |frame_exit].
  clear σ HI. intros σ HI.
  apply wp_bind, wp_load; [|frame_exit]. intros d2 _.
  apply wp_bind, wp_lift. destruct (need _ (getcol "latitude" d2)) as [lat2|]; [|frame_exit].
  apply wp_bind, wp_lift. destruct (need _ (getcol "longitude" d2)) as [lon2|]; [|frame_exit].
  apply wp_bind, wp_lift. destruct (np_map np_cos lat2) as [cos_lat2|]; [|frame_exit].
  apply wp_bind, wp_lift. destruct (np_map np_sin lon2) as [sin_lon2|]; [|frame_exit].
  apply wp_bind. eapply wp_setitem_frame; [done|set_solver| |frame_exit].
  clear σ HI. intros σ HI.
  apply wp_bind, wp_load; [|frame_exit]. intros d3 _.
  apply wp_bind, wp_lift. destruct (need _ (getcol "latitude" d3)) as [lat3|]; [|frame_exit].
  apply wp_bind, wp_lift. destruct (np_map np_sin lat3) as [sin_lat3|]; [|frame_exit].
  apply wp_bind. eapply wp_setitem_frame; [done|set_solver| |frame_exit].
  clear σ HI. intros σ HI.
  apply wp_ret. split; [done|]. by intros ? [= <-].
Qed.
(** C9 (amended).  Started on the caller's table [df] in any store, each
    Feature Engineer operation leaves every other table of the store as it
    was and, in the caller's table, drops no column and changes only the
    listed ones: [timestamp] (converted in place) for the lag-and-rolling,
    time and cyclic operations, [timestamp] and [pm2_5] (interpolated in
    place) for preprocessing, and [timestamp], [x_cord], [y_cord], [z_cord]
    for the spatial operation.  The first four hand back a table that did
    not exist before the call; the spatial operation hands back the
    caller's own table.  This holds for every outcome, raised errors
    included. *)
Theorem feature_operations_change_only_listed_columns
    (σ : Store) (df : loc) (target_col freq job_type : string) :
  (let run := preprocess_data df freq job_type σ in
   in_frame_fresh ["timestamp"; "pm2_5"] df σ run.1 run.2)
  ∧ (let run := get_lag_and_roll_features df target_col freq σ in
     in_frame_fresh ["timestamp"] df σ run.1 run.2)
  ∧ (let run := get_time_features df freq σ in
     in_frame_fresh ["timestamp"] df σ run.1 run.2)
  ∧ (let run := get_cyclic_features df freq σ in
     in_frame_fresh ["timestamp"] df σ run.1 run.2)
  ∧ (let run := get_location_features df σ in
     in_frame_same ["timestamp"; "x_cord"; "y_cord"; "z_cord"] df σ
       run.1 run.2).
Proof.
  cbv zeta. split_and!.
  - apply (preprocess_data_frame σ σ), only_assigns_refl.
  - apply (get_lag_and_roll_features_frame σ σ), only_assigns_refl.
  - apply (get_time_features_frame σ σ), only_assigns_refl.
  - apply (get_cyclic_features_frame σ σ), only_assigns_refl.
  - apply (get_location_features_frame σ σ), only_assigns_refl.
Qed.

End Frames.

(** C9 as worded does not hold.  On the raw sample table the spatial
    operation returns the caller's own table, which has gained the three
    coordinate columns, and preprocessing leaves the caller's table with
    its [timestamp] column converted from text and its missing [pm2_5]
    value overwritten. *)
Example feature_operations_change_their_input :
  let σ := [sample_raw] in
  let spatial := get_location_features 0 σ in
  let preprocess := preprocess_data 0 "hourly" "train" σ in
  getcol "x_cord" sample_raw = None
  ∧ getcol "pm2_5" sample_raw = Some [CNull; num 9]
  ∧ getcol "timestamp" sample_raw
    = Some [CStr "2024-01-01 00:00:00"; CStr "2024-01-01 01:00:00"]
  ∧ spatial.1 = Ok 0
  ∧ (spatial.2 !! 0 ≫= getcol "x_cord") = Some [num 1; num 1]
  ∧ (spatial.2 !! 0 ≫= getcol "y_cord") = Some [num 0; num 0]
  ∧ (spatial.2 !! 0 ≫= getcol "z_cord") = Some [num 0; num 0]
  ∧ preprocess.1 = Ok 1
  ∧ (preprocess.2 !! 0 ≫= getcol "pm2_5") = Some [num 9; num 9]
  ∧ (preprocess.2 !! 0 ≫= getcol "timestamp")
    = Some [hour 473352; hour 473353].
Proof. cbv zeta. split_and!; vm_compute; reflexivity. Qed.

(** ** The model registry *)

Lemma length_app_string (s t : string) :
  String.length (s +:+ t) = String.length s + String.length t.
Proof. induction s as [|a s IH]; simpl; [done|by rewrite IH]. Qed.

Lemma backup_key_ne (bucket_name source_blob_name now : string) :
  bucket_name +:+ "/" +:+ now +:+ "-" +:+ source_blob_name
  ≠ bucket_name +:+ "/" +:+ source_blob_name.
Proof.
  intros Heq. apply (f_equal String.length) in Heq.
  rewrite !length_app_string in Heq. simpl in Heq. lia.
Qed.

Section Registry.
Context {A : Type}.
Implicit Types (fs : gmap string A) (trained_model old : A).

Lemma fs_rename_Some fs src dst old :
  fs !! src = Some old → fs_rename src dst fs = Ok (<[dst := old]> (delete src fs)).
Proof. unfold fs_rename. by intros ->. Qed.

Lemma fs_rename_None fs src dst :
  fs !! src = None → fs_rename src dst fs = Raise (FileNotFoundError src).
Proof. unfold fs_rename. by intros ->. Qed.

(** C4 (amended).  Saving a model writes it at the model key, so that a load
    afterwards returns it.  When an artifact was at the key before, it is
    now at the key made of the bucket, the timestamp, a dash and the blob
    name (the timestamp comes first, as a prefix of the blob name); when
    none was there, the save still succeeds and only the model key
    changes.  No other key than these two changes. *)
Theorem upload_backs_up_under_a_timestamp_prefix
    trained_model (project_name bucket_name source_blob_name now : string) fs :
  let key := bucket_name +:+ "/" +:+ source_blob_name in
  let backup := bucket_name +:+ "/" +:+ now +:+ "-" +:+ source_blob_name in
  let saved :=
    upload_trained_model_to_gcs trained_model project_name bucket_name
      source_blob_name now fs in
  get_trained_model_from_gcs saved.1 project_name bucket_name source_blob_name
  = Ok trained_model
  ∧ (∀ old, fs !! key = Some old →
       saved.1 !! backup = Some old
       ∧ saved.2 = "Bucket: previous model is backed up")
  ∧ (fs !! key = None →
       saved.1 = <[key := trained_model]> fs
       ∧ saved.2 = "Bucket: No file to updated")
  ∧ (∀ k, k ≠ key → k ≠ backup → saved.1 !! k = fs !! k).
Proof.
  cbv zeta. unfold upload_trained_model_to_gcs, get_trained_model_from_gcs.
  split_and!.
  - cbn [fst]. by rewrite lookup_insert_eq.
  - intros old Hold. rewrite (fs_rename_Some _ _ _ _ Hold). simpl. split; [|done].
    rewrite lookup_insert_ne by (intros Heq; by apply (backup_key_ne bucket_name source_blob_name now)).
    by rewrite lookup_insert_eq.
  - intros Hnone. by rewrite (fs_rename_None _ _ _ Hnone).
  - intros k Hk Hb. cbn [fst]. rewrite lookup_insert_ne by done.
    destruct (fs !! (bucket_name +:+ "/" +:+ source_blob_name)) as [old|] eqn:Hold.
    + rewrite (fs_rename_Some _ _ _ _ Hold). simpl.
      rewrite lookup_insert_ne by done. by rewrite lookup_delete_ne.
    + by rewrite (fs_rename_None _ _ _ Hold).
Qed.
End Registry.

(** C4 as worded does not hold: after a save over an earlier model, no
    artifact is at the model key followed by the timestamp; the earlier
    model is at the key whose blob name starts with the timestamp. *)
Example backup_key_is_not_a_timestamp_suffix :
  let now := "2024-01-01 00:00:00.000000" in
  let saved :=
    upload_trained_model_to_gcs 2 "airqo" "models" "hourly_forecast_model.pkl"
      now sample_registry in
  sample_registry !! "models/hourly_forecast_model.pkl" = Some 1
  ∧ spec_backup_key "models" "hourly_forecast_model.pkl" now
    = "models/hourly_forecast_model.pkl-2024-01-01 00:00:00.000000"
  ∧ saved.1 !! spec_backup_key "models" "hourly_forecast_model.pkl" now = None
  ∧ saved.1 !! "models/2024-01-01 00:00:00.000000-hourly_forecast_model.pkl"
    = Some 1
  ∧ get_trained_model_from_gcs saved.1 "airqo" "models"
      "hourly_forecast_model.pkl" = Ok 2.
Proof. cbv zeta. split_and!; vm_compute; reflexivity. Qed.

(** ** The temporal split *)

Section Unique.
Context {A : Type} `{EqDecision A}.
Implicit Types (xs vs : list A).

Lemma unique_elem_of xs x : x ∈ unique xs ↔ x ∈ xs.
Proof.
  induction xs as [|y r IH]; simpl; [done|].
  rewrite !elem_of_cons, list_elem_of_filter, IH.
  destruct (decide (x = y)); tauto.
Qed.

Lemma unique_NoDup xs : NoDup (unique xs).
Proof.
  induction xs as [|y r IH]; simpl; [constructor|].
  constructor; [|by apply NoDup_filter].
  rewrite list_elem_of_filter. by intros [? _].
Qed.








End Unique.

Lemma mask_select_fmap {A B} (f : A → B) mask (c : list A) :
  mask_select mask (f <$> c) = f <$> mask_select mask c.
Proof.
  revert c. induction mask as [|b mask IH]; intros [|x c]; try done.
  csimpl. destruct b; csimpl; by rewrite IH.
Qed.



Lemma mask_select_false {A} n (c : list A) : mask_select (replicate n false) c = [].
Proof. revert c. induction n as [|n IH]; intros [|x c]; simpl; auto. Qed.



Lemma length_dt_column f (c : Column) : length (dt_column f c) = length c.
Proof. unfold dt_column. by rewrite length_fmap. Qed.

Section Split.
Context `{Externals}.



End Split.


(** ** The forecast sink *)

Lemma mapM_result_fmap {A B} (f : A → Result B) (g : A → B) xs :
  (∀ x, x ∈ xs → f x = Ok (g x)) → mapM_result f xs = Ok (g <$> xs).
Proof.
  induction xs as [|x r IH]; intros Hf; [done|].
  simpl. rewrite (Hf x) by left. simpl.
  rewrite IH by (intros y Hy; apply Hf; by right). done.
Qed.

Lemma eq_mask_select_nonempty (i : Cell) (dev site : Column) :
  i ∈ dev → i ≠ CNull → length dev ≤ length site →
  mask_select (eq_mask i dev) site ≠ [].
Proof.
  unfold eq_mask. revert site.
  induction dev as [|x dev IH]; intros [|s site] Hin Hnull Hlen;
    try (by apply elem_of_nil in Hin); try (simpl in Hlen; lia).
  csimpl. destruct (decide (x = i)) as [->|Hne].
  - rewrite bool_decide_eq_true_2 by done.
    by destruct i.
  - apply elem_of_cons in Hin as [->|Hin]; [done|].
    destruct (notna x && bool_decide (x = i)); [done|].
    apply IH; [done..|]. simpl in Hlen. lia.
Qed.

Lemma unique_head {A} `{EqDecision A} (xs : list A) : head (unique xs) = head xs.
Proof. by destruct xs. Qed.

Lemma forecast_doc_ok data created_at dev site pm ts i :
  getcol "device_id" data = Some dev → getcol "site_id" data = Some site →
  getcol "pm2_5" data = Some pm → getcol "timestamp" data = Some ts →
  length dev ≤ length site → i ∈ dev → i ≠ CNull →
  forecast_doc data created_at i = Ok (device_doc created_at dev site pm ts i).
Proof.
  intros Hdev Hsite Hpm Hts Hlen Hin Hnull.
  unfold forecast_doc, filter_rows.
  rewrite Hdev. simpl. rewrite !getcol_map_columns, Hsite, Hpm, Hts. simpl.
  pose proof (eq_mask_select_nonempty i dev site Hin Hnull Hlen) as Hne.
  unfold device_doc.
  destruct (mask_select (eq_mask i dev) site) as [|s rest]; [done|].
  done.
Qed.

(** The write loop upserts the documents whose write does not fail, in
    order, and logs the others. *)
Lemma write_forecasts_spec failure docs collection :
  write_forecasts failure docs collection
  = (upsert_all (filter (λ doc, failure doc = None) docs) collection,
     omap (λ doc, (λ e, (doc_device_id doc, e)) <$> failure doc) docs).
Proof.
  revert collection. induction docs as [|doc rest IH]; intros collection; [done|].
  simpl. rewrite filter_cons. destruct (failure doc) as [e|] eqn:He.
  - rewrite decide_False by done. rewrite IH. simpl. rewrite ?He. reflexivity.
  - rewrite decide_True by done. rewrite IH. simpl. rewrite ?He. reflexivity.
Qed.

Lemma matches_filter_query doc (d : gmap string Value) :
  matches (filter_query doc) d = true
  ↔ d !! "device_id" = Some (VCell (doc_device_id doc))
    ∧ d !! "site_id" = Some (VCell (doc_site_id doc)).
Proof.
  unfold matches, filter_query. simpl.
  rewrite andb_true_r, andb_true_iff, !bool_decide_eq_true. done.
Qed.

Lemma set_fields_update_query doc (d : gmap string Value) k :
  set_fields (update_query doc) d !! k
  = if decide (k = "created_at") then Some (VStr (doc_created_at doc))
    else if decide (k = "timestamp") then Some (VList (doc_timestamp doc))
    else if decide (k = "pm2_5") then Some (VList (doc_pm2_5 doc))
    else d !! k.
Proof.
  unfold set_fields, update_query. simpl.
  repeat case_decide; subst;
    repeat (first [rewrite lookup_insert_eq | rewrite lookup_insert_ne by done]);
    done.
Qed.

Lemma update_one_spec doc collection :
  replaces_wholesale doc collection
    (update_one (filter_query doc) (update_query doc) collection).
Proof.
  unfold replaces_wholesale, update_one.
  destruct (list_find _ collection) as [[i d]|] eqn:Hfind.
  - apply list_find_Some in Hfind as (Hi & Hd & Hfirst).
    apply matches_filter_query in Hd as Hd'. destruct Hd' as [Hdev Hsite].
    exists i, (set_fields (update_query doc) d).
    rewrite list_lookup_insert_eq by (by eapply lookup_lt_Some).
    rewrite !set_fields_update_query. simpl.
    split_and!; try done.
    + intros j Hj. by rewrite list_lookup_insert_ne.
    + intros d0 Hd0. rewrite Hi in Hd0. injection Hd0 as <-.
      split_and!; [done| |].
      * intros j dj Hj Hdj. apply not_true_is_false, (Hfirst j dj Hdj Hj).
      * intros k Hk.
        rewrite !lookup_insert_ne; [done|..]; intros <-; apply Hk; set_solver.
    + by rewrite Hi.
  - apply list_find_None in Hfind.
    exists (length collection),
      (set_fields (update_query doc) (set_fields (filter_query doc) ∅)).
    rewrite lookup_app_r, Nat.sub_diag by lia.
    rewrite !set_fields_update_query. simpl.
    split_and!; try done.
    + intros j Hj. destruct (decide (j < length collection)) as [Hlt|Hge].
      * by rewrite lookup_app_l.
      * rewrite lookup_app_r by lia.
        rewrite (lookup_ge_None_2 collection) by lia.
        destruct (j - length collection) as [|n] eqn:Hn; [lia|done].
    + intros d Hd. apply lookup_lt_Some in Hd. lia.
    + intros _. split_and!; [done| |].
      * intros dj Hdj. rewrite Forall_forall in Hfind.
        apply not_true_is_false, (Hfind dj Hdj).
      * intros k Hk.
        rewrite !lookup_insert_ne, lookup_empty; [done|..];
          intros <-; apply Hk; set_solver.
Qed.

(** On a forecast table with the four columns, no missing device and a
    valid frequency, the sink returns normally whatever the driver does.
    It builds one document per distinct device, carrying the first site
    of the device's rows and the values and timestamps of all the
    device's rows; the documents whose write does not fail are upserted
    in order into the collection of the frequency, the other collection
    is untouched, and each failed write leaves one line in the log. *)
Lemma save_forecasts_by_device
    (db : Database) (failure : ForecastDoc → option string)
    (created_at : string) (data : Frame) (frequency : string)
    (dev site pm ts : Column) :
  getcol "device_id" data = Some dev →
  getcol "site_id" data = Some site →
  getcol "pm2_5" data = Some pm →
  getcol "timestamp" data = Some ts →
  length dev ≤ length site →
  CNull ∉ dev →
  frequency = "hourly" ∨ frequency = "daily" →
  let docs := device_doc created_at dev site pm ts <$> unique dev in
  ∃ db' log,
    save_forecasts_to_mongo db failure created_at data frequency = Ok (db', log)
    ∧ length docs = length (unique dev)
    ∧ forecast_collection frequency db'
      = upsert_all (filter (λ doc, failure doc = None) docs)
          (forecast_collection frequency db)
    ∧ (frequency = "hourly" → daily_forecasts_1 db' = daily_forecasts_1 db)
    ∧ (frequency = "daily" → hourly_forecasts_1 db' = hourly_forecasts_1 db)
    ∧ log = omap (λ doc, (λ e, (doc_device_id doc, e)) <$> failure doc) docs.
Proof.
  intros Hdev Hsite Hpm Hts Hlen Hnull Hfreq docs.
  assert (Hdocs : mapM_result (forecast_doc data created_at) (unique dev) = Ok docs).
  { apply mapM_result_fmap. intros i Hi.
    apply (proj1 (unique_elem_of _ _)) in Hi.
    apply forecast_doc_ok; try done. by intros ->. }
  unfold save_forecasts_to_mongo. rewrite Hdev. simpl. rewrite Hdocs. simpl.
  rewrite !write_forecasts_spec. unfold forecast_collection.
  destruct Hfreq as [-> | ->]; simpl; eexists _, _; (split; [reflexivity|]);
    simpl; split_and!; try done;
    by unfold docs; rewrite length_fmap.
Qed.

(** The first site of a device is the site of one of its rows. *)
Lemma first_site (d : Cell) (dev : Column) : ∀ site : Column,
  d ∈ dev → d ≠ CNull → length dev ≤ length site →
  ∃ i0, dev !! i0 = Some d
        ∧ head (mask_select (eq_mask d dev) site) = site !! i0.
Proof.
  unfold eq_mask.
  induction dev as [|x dev IH]; intros [|s site] Hin Hnull Hlen;
    try (by apply elem_of_nil in Hin); try (simpl in Hlen; lia).
  csimpl. destruct (decide (x = d)) as [->|Hne].
  - exists 0. rewrite bool_decide_eq_true_2 by done.
    split; [done|]. by destruct d.
  - apply elem_of_cons in Hin as [->|Hin]; [done|].
    rewrite bool_decide_eq_false_2, andb_false_r by done.
    destruct (IH site Hin Hnull) as (i0 & Hi0 & Hhead); [simpl in Hlen; lia|].
    exists (S i0). by split.
Qed.

Lemma zip_graph {A B} (f : A → B) (xs : list A) (ys : list B) :
  length xs = length ys →
  (∀ i x y, xs !! i = Some x → ys !! i = Some y → f x = y) →
  zip xs ys = (λ x, (x, f x)) <$> xs.
Proof.
  revert ys. induction xs as [|x xs IH]; intros [|y ys] Hlen Hf; try done.
  simpl. rewrite (Hf 0 x y) by done. f_equal.
  apply IH; [by injection Hlen|]. intros i x' y' Hx Hy. by apply (Hf (S i)).
Qed.

Lemma unique_fmap_inj {A B} `{EqDecision A} `{EqDecision B} (f : A → B) (l : list A) :
  Inj (=) (=) f → unique (f <$> l) = f <$> unique l.
Proof.
  intros Hinj. induction l as [|x l IH]; [done|].
  rewrite fmap_cons. cbn [unique]. rewrite fmap_cons. f_equal.
  rewrite IH. clear IH.
  induction (unique l) as [|y r IHr]; [done|].
  rewrite fmap_cons, !filter_cons.
  destruct (decide (y ≠ x)) as [Hne|Heq].
  - rewrite decide_True by (intros Hc; by apply Hne, Hinj).
    rewrite fmap_cons. by rewrite IHr.
  - rewrite decide_False by (intros Hc; apply Heq; intros ->; done). done.
Qed.

(** In a table with one site per device, the distinct pairs of device
    and site are the distinct devices with their first sites, and the
    rows of a pair are the rows of its device. *)
Lemma pairs_of_devices (dev site : Column) :
  length dev = length site → CNull ∉ dev → one_site_per_device dev site →
  let site_of d := default CNull (head (mask_select (eq_mask d dev) site)) in
  unique (zip dev site) = (λ d, (d, site_of d)) <$> unique dev
  ∧ ∀ d, d ∈ dev → pair_mask (d, site_of d) dev site = eq_mask d dev.
Proof.
  intros Hlen Hnull Hone site_of.
  assert (Hsite : ∀ i x y, dev !! i = Some x → site !! i = Some y → site_of x = y).
  { intros i x y Hx Hy.
    destruct (first_site x dev site) as (i0 & Hi0 & Hhead).
    - by eapply list_elem_of_lookup_2.
    - intros ->. apply Hnull. by eapply list_elem_of_lookup_2.
    - lia.
    - unfold site_of. rewrite Hhead, (Hone i0 i x Hi0 Hx), Hy. done. }
  assert (Hzip : zip dev site = (λ d, (d, site_of d)) <$> dev).
  { by apply zip_graph. }
  split.
  - rewrite Hzip. apply unique_fmap_inj. by intros x y [= ->].
  - intros d Hd. unfold pair_mask, eq_mask. rewrite Hzip, <- list_fmap_compose.
    apply list_fmap_ext. intros i x Hx. simpl.
    assert (Hnx : notna x = true).
    { destruct x; try done. exfalso. apply Hnull. by eapply list_elem_of_lookup_2. }
    rewrite Hnx. simpl.
    destruct (decide (x = d)) as [->|Hne].
    + by rewrite !bool_decide_eq_true_2.
    + rewrite !bool_decide_eq_false_2; [done|done|]. by intros [= ->].
Qed.

Lemma one_site_fmap (f : Cell → Cell) (dev : Column) :
  one_site_per_device dev (f <$> dev).
Proof. intros i j x Hi Hj. by rewrite !list_lookup_fmap, Hi, Hj. Qed.

(** C7.  The forecast table that reaches the sink is the one returned by
    [generate_forecasts], in which every device has one site.  On such a
    table, with the four columns of one length, no missing device and a
    valid frequency, the sink returns normally whatever the driver does.
    It builds one document per distinct pair of device and site,
    carrying the values and timestamps of the rows of the pair, in order
    of first appearance; the documents whose write does not fail are
    upserted in that order into the collection of the frequency, the
    other collection is untouched, and every failed write leaves one
    line in the log while the remaining documents are still written.
    Each upsert is keyed by the device and the site of its document: it
    replaces the three fields wholesale in the first document with that
    device and site, or appends a new document. *)
Theorem save_forecasts_upserts_one_document_per_pair
    (db : Database) (failure : ForecastDoc → option string)
    (created_at : string) (data : Frame) (frequency : string)
    (dev site pm ts : Column) :
  getcol "device_id" data = Some dev →
  getcol "site_id" data = Some site →
  getcol "pm2_5" data = Some pm →
  getcol "timestamp" data = Some ts →
  length dev = length site →
  CNull ∉ dev →
  one_site_per_device dev site →
  frequency = "hourly" ∨ frequency = "daily" →
  let pairs := unique (zip dev site) in
  let docs := pair_doc created_at dev site pm ts <$> pairs in
  ∃ db' log,
    save_forecasts_to_mongo db failure created_at data frequency = Ok (db', log)
    ∧ pairs = spec_forecast_groups data
    ∧ length docs = length pairs
    ∧ forecast_collection frequency db'
      = upsert_all (filter (λ doc, failure doc = None) docs)
          (forecast_collection frequency db)
    ∧ (frequency = "hourly" → daily_forecasts_1 db' = daily_forecasts_1 db)
    ∧ (frequency = "daily" → hourly_forecasts_1 db' = hourly_forecasts_1 db)
    ∧ log = omap (λ doc, (λ e, (doc_device_id doc, e)) <$> failure doc) docs
    ∧ ∀ doc collection,
        replaces_wholesale doc collection
          (upsert_all [doc] collection).
Proof.
  intros Hdev Hsite Hpm Hts Hlen Hnull Hone Hfreq pairs docs.
  destruct (pairs_of_devices dev site Hlen Hnull Hone) as [Hpairs Hmask].
  cbv zeta in Hpairs, Hmask.
  assert (Hdocs : docs = device_doc created_at dev site pm ts <$> unique dev).
  { unfold docs, pairs. rewrite Hpairs, <- list_fmap_compose.
    apply list_fmap_ext. intros i d Hd.
    apply list_elem_of_lookup_2 in Hd. apply (proj1 (unique_elem_of _ _)) in Hd.
    unfold pair_doc, device_doc. simpl. by rewrite (Hmask d Hd). }
  destruct (save_forecasts_by_device db failure created_at data frequency
              dev site pm ts Hdev Hsite Hpm Hts ltac:(lia) Hnull Hfreq)
    as (db' & log & Hrun & Hlen' & Hcoll & Hd & Hh & Hlog).
  cbv zeta in Hlen', Hcoll, Hlog. rewrite <- Hdocs in Hlen', Hcoll, Hlog.
  exists db', log. split_and!; try done.
  - unfold spec_forecast_groups. by rewrite Hdev, Hsite.
  - unfold docs. by rewrite length_fmap.
  - intros doc collection. apply update_one_spec.
Qed.

Lemma save_forecasts_upserts_one_document_per_pair_witness :
  ∃ db' log,
    save_forecasts_to_mongo empty_database sample_failure "2024-01-01T00:00:00"
      sample_forecasts "hourly" = Ok (db', log)
    ∧ spec_forecast_groups sample_forecasts
      = [(CStr "a", CStr "s1"); (CStr "b", CStr "s3")]
    ∧ (hourly_forecasts_1 db' !! 0 ≫= (.!! "pm2_5"))
      = Some (VList [num 10; num 20])
    ∧ length (hourly_forecasts_1 db') = 1
    ∧ daily_forecasts_1 db' = []
    ∧ log = [(CStr "b", "timed out")].
Proof.
  destruct (save_forecasts_upserts_one_document_per_pair empty_database
              sample_failure "2024-01-01T00:00:00" sample_forecasts "hourly"
              _ _ _ _ eq_refl eq_refl eq_refl eq_refl)
    as (db' & log & Hrun & Hpairs & _ & Hcoll & Hdaily & _ & Hlog & _).
  - reflexivity.
  - apply (bool_decide_unpack _). vm_compute. exact I.
  - exact (one_site_fmap
             (λ d, if decide (d = CStr "a") then CStr "s1" else CStr "s3")
             [CStr "a"; CStr "a"; CStr "b"; CStr "b"]).
  - by left.
  - exists db', log. split; [done|]. rewrite Hlog.
    unfold forecast_collection in Hcoll. simpl in Hcoll. rewrite Hcoll.
    rewrite (Hdaily eq_refl). split_and!; vm_compute; reflexivity.
Defined.

(** A table in which a device has two sites is not one that
    [generate_forecasts] returns.  On such a table the sink loops over
    the devices: started on an empty database with a driver that never
    fails, it files device [a] under its first site, with the rows of
    both sites. *)
Example sink_on_a_device_with_two_sites :
  let run :=
    save_forecasts_to_mongo empty_database (λ _, None) "2024-01-01T00:00:00"
      sample_two_sites "hourly" in
  length (spec_forecast_groups sample_two_sites) = 3
  ∧ (length ∘ hourly_forecasts_1 ∘ fst <$> run) = Ok 2
  ∧ ((λ r, hourly_forecasts_1 r.1 !! 0 ≫= (.!! "site_id")) <$> run)
    = Ok (Some (VCell (CStr "s1")))
  ∧ ((λ r, hourly_forecasts_1 r.1 !! 0 ≫= (.!! "pm2_5")) <$> run)
    = Ok (Some (VList [num 10; num 20])).
Proof. cbv zeta. split_and!; vm_compute; reflexivity. Qed.

(** ** The fill rule on daily data *)

Lemma group_fill_rule_interpolate keys pm :
  length keys = length pm → is_numeric pm = true →
  group_fill_rule keys pm (group_transform interpolate keys pm).
Proof.
  intros Hlk Hnum. unfold group_fill_rule. split_and!.
  - by rewrite length_group_transform.
  - intros t k Ht Hnull. by apply group_transform_lookup_null with (k := k).
  - intros t k Ht Hnull.
    set (s := group_series k keys pm). set (r := group_rank k keys t).
    assert (Hsr : s !! r = pm !! t) by (by apply group_series_lookup_rank).
    split; [done|].
    assert (Hr : r < length s).
    { apply lookup_lt_is_Some. rewrite Hsr. apply lookup_lt_is_Some.
      apply lookup_lt_Some in Ht. lia. }
    assert (Hsnum : is_numeric s = true) by (by apply is_numeric_group_series).
    destruct (interpolate_fill_rule s r Hsnum Hr) as (x & Hx & Hrule).
    exists x. split_and!; [|done|].
    + rewrite (group_transform_lookup _ _ _ t k) by done.
      fold s r. by rewrite Hx.
    + intros [j Hj]. destruct (interpolate_filled s r j Hsnum Hj Hr) as [q Hq].
      rewrite Hx in Hq. injection Hq as ->. eauto.
Qed.

Lemma getcol_app_notin n (a b : Frame) :
  n ∉ columns a → getcol n (a ++ b) = getcol n b.
Proof.
  induction a as [|[m c] a IH]; [done|]. rewrite columns_cons. intros Hn.
  apply not_elem_of_cons in Hn as [Hne Hn]. simpl.
  rewrite decide_False by done. by apply IH.
Qed.

Lemma getcol_fmap_filter n c (P : string * Column → Prop)
    `{∀ p, Decision (P p)} (g : string * Column → Column) (df : Frame) :
  getcol n df = Some c → P (n, c) →
  getcol n ((λ p, (p.1, g p)) <$> filter P df) = Some (g (n, c)).
Proof.
  intros Hc HP. induction df as [|[m c0] df IH]; [done|].
  simpl in Hc. rewrite filter_cons. destruct (decide (m = n)) as [->|Hne].
  - injection Hc as ->. rewrite decide_True by done. csimpl.
    by rewrite decide_True.
  - destruct (decide (P (m, c0))); [|by apply IH].
    csimpl. rewrite decide_False by done. by apply IH.
Qed.

Lemma is_numeric_app a b : is_numeric (a ++ b) = is_numeric a && is_numeric b.
Proof. unfold is_numeric. apply forallb_app. Qed.

Lemma nanmean_numeric xs : nanmean xs = CNull ∨ ∃ q, nanmean xs = CNum q.
Proof. unfold nanmean. destruct (omap as_num xs); eauto. Qed.

Lemma is_numeric_means {K D} (groups : list K) (bins : K → list D)
    (cells : K → D → list Cell) :
  is_numeric (flat_map (λ k, (λ d, nanmean (cells k d)) <$> bins k) groups) = true.
Proof.
  induction groups as [|k groups IH]; [done|].
  simpl. rewrite is_numeric_app, IH, andb_true_r.
  induction (bins k) as [|d ds IHd]; [done|].
  csimpl. rewrite IHd, andb_true_r.
  by destruct (nanmean_numeric (cells k d)) as [-> | [q ->]].
Qed.

Lemma length_flat_map_bins {K D B} (groups : list K) (bins : K → list D)
    (x : K → Cell) (f : K → D → B) :
  length (flat_map (λ k, replicate (length (bins k)) (x k)) groups)
  = length (flat_map (λ k, f k <$> bins k) groups).
Proof.
  induction groups as [|k groups IH]; [done|].
  simpl. by rewrite !length_app, length_replicate, length_fmap, IH.
Qed.

(** The levels of an index that shares no name with the columns become
    the leading columns. *)
Lemma reset_index_ok (idx vals : Frame) :
  NoDup (columns idx) → (∀ n, n ∈ columns idx → n ∉ columns vals) →
  foldr insert_level (Ok vals) idx = Ok (idx ++ vals).
Proof.
  induction idx as [|[n c] idx IH]; intros Hnd Hdis; [done|].
  rewrite columns_cons in Hnd, Hdis. apply NoDup_cons in Hnd as [Hn Hnd].
  cbn [foldr]. rewrite IH; [|done|].
  - unfold insert_level. cbn [mbind Result_bind fst].
    rewrite decide_False; [done|].
    unfold columns. rewrite fmap_app. intros Hin.
    apply elem_of_app in Hin as [Hin|Hin]; [done|].
    by apply (Hdis n); [apply list_elem_of_here|].
  - intros m Hm. apply Hdis. by apply list_elem_of_further.
Qed.

Lemma text_keys_spec (by_ : list string) (df : Frame) :
  forallb (λ n, match getcol n df with
                | Some c => negb (is_numeric c)
                | None => true
                end) by_ = true →
  text_keys by_ df.
Proof.
  rewrite forallb_forall. intros Hall n c Hn Hc.
  apply list_elem_of_In in Hn. specialize (Hall n Hn). rewrite Hc in Hall.
  by apply negb_true_iff.
Qed.

Lemma has_columns_column_keys by_ df keys :
  column_keys by_ df = Some keys → has_columns by_ df = true.
Proof.
  intros Hk. apply has_columns_spec. intros n Hn.
  by apply (column_keys_has_columns _ _ _ _ Hk).
Qed.

Lemma columns_fmap_value (value : string * Column → Column) (df : Frame) :
  columns ((λ p, (p.1, value p)) <$> df) = columns df.
Proof. unfold columns. rewrite <- list_fmap_compose. by apply list_fmap_ext. Qed.

(** The daily table of a frame whose grouping columns hold text: the
    levels of the index are the grouping columns and the day, the values
    the means of the numeric columns, and [reset_index] succeeds. *)
Lemma resampled_facts by_ d2 keys ts G :
  (by_ = ["device_id"; "site_id"]) ∨ (by_ = ["device_id"]) →
  wf_frame d2 → column_keys by_ d2 = Some keys → text_keys by_ d2 →
  getcol "timestamp" d2 = Some ts →
  getcol "pm2_5" d2 = Some G → is_numeric G = true →
  ∃ r table keys' pm',
    groupby_resample_mean by_ d2 = Some r
    ∧ reset_index r = Ok table
    ∧ table = rs_index r ++ rs_values r
    ∧ columns (rs_index r) = by_ ++ ["timestamp"]
    ∧ rs_values r
      = (λ p, (p.1, (λ p : string * Column,
                 flat_map (λ k, (λ d, nanmean (bin_cells k d keys ts p.2))
                                <$> day_range (group_days k keys ts))
                   (sort_keys (unique (filter (λ k, null_key k = false) keys)))) p))
        <$> filter (λ p, (p.1 ≠ "timestamp") ∧ is_numeric p.2 = true) d2
    ∧ column_keys by_ table = Some keys'
    ∧ getcol "pm2_5" table = Some pm'
    ∧ is_numeric pm' = true
    ∧ length pm' = nrows table.
Proof.
  intros Hby Hwf Hk Htext Hts HG Hnum.
  pose proof (has_columns_column_keys _ _ _ Hk) as Hhas.
  unfold groupby_resample_mean.
  rewrite (row_keys_columns _ _ Hhas), Hk, Hts. cbn [mbind option_bind].
  rewrite Hhas.
  set (groups := sort_keys _).
  set (bins := λ k, day_range (group_days k keys ts)).
  set (value := λ p : string * Column,
         flat_map (λ k, (λ d, nanmean (bin_cells k d keys ts p.2)) <$> bins k) groups).
  set (vals := (λ p, (p.1, value p))
                 <$> filter (λ p, (p.1 ≠ "timestamp") ∧ is_numeric p.2 = true) d2).
  assert (Hvals : ∀ n, n ∈ columns vals →
            n ≠ "timestamp" ∧ ∃ c, getcol n d2 = Some c ∧ is_numeric c = true).
  { intros n Hn. unfold vals in Hn. rewrite columns_fmap_value in Hn.
    apply list_elem_of_fmap in Hn as ([m c] & -> & Hin).
    apply list_elem_of_filter in Hin as [[Hne Hc] Hin]. simpl in *.
    split; [done|]. exists c. split; [|done].
    apply elem_getcol; [apply Hwf|done]. }
  assert (Hdis : ∀ n, n ∈ by_ ++ ["timestamp"] → n ∉ columns vals).
  { intros n Hn Hin. destruct (Hvals n Hin) as (Hne & c & Hc & Hcn).
    apply elem_of_app in Hn as [Hn|Hn].
    - by rewrite (Htext n c Hn Hc) in Hcn.
    - by apply list_elem_of_singleton in Hn. }
  assert (Hpmv : getcol "pm2_5" vals = Some (value ("pm2_5", G))).
  { apply (getcol_fmap_filter _ _ _ value); [done|]. by split. }
  destruct Hby as [-> | ->];
    (eexists _, _, _, (value ("pm2_5", G)); split; [reflexivity|];
     unfold reset_index; cbn [rs_index rs_values imap app]; fold vals;
     split; [apply reset_index_ok;
             [apply (bool_decide_unpack _); vm_compute; exact I|exact Hdis]|];
     split; [reflexivity|]; split; [reflexivity|]; split; [reflexivity|];
     split_and!;
     [ unfold column_keys; simpl; reflexivity
     | simpl; exact Hpmv
     | apply is_numeric_means
     | simpl; symmetry; apply (length_flat_map_bins groups bins) ]).
Qed.

Section PreprocessDaily.
Context `{Externals}.

(** The run of [preprocess_data] on daily data: the caller's table gets
    the converted timestamps and the filled values; the per-day means of
    each group go to a new table, are filled again, and the rows with a
    value go to the table that is returned. *)
Lemma preprocess_data_daily_run (σ : Store) (data : loc) (d : Frame)
    (job_type : string) (keys : list Key) (pm ts : Column) :
  σ !! data = Some d → wf_frame d →
  getcol "pm2_5" d = Some pm → is_numeric pm = true →
  timestamp_to_datetime d = Ok ts →
  column_keys (group_columns job_type) d = Some keys →
  text_keys (group_columns job_type) d →
  let d2 := interpolated d keys pm ts in
  ∃ r resampled keys' pm',
    groupby_resample_mean (group_columns job_type) d2 = Some r
    ∧ reset_index r = Ok resampled
    ∧ resampled = rs_index r ++ rs_values r
    ∧ column_keys (group_columns job_type) resampled = Some keys'
    ∧ getcol "pm2_5" resampled = Some pm'
    ∧ is_numeric pm' = true
    ∧ length keys' = length pm'
    ∧ let filled := group_transform interpolate keys' pm' in
      let table := setitem "pm2_5" filled resampled in
      preprocess_data data "daily" job_type σ
      = (Ok (S (length σ)),
         <[data := d2]> σ ++ [table; filter_rows (notna <$> filled) table]).
Proof.
  intros Hd Hwf Hpm Hnum Hts Hck Htext d2.
  pose proof (has_columns_column_keys _ _ _ Hck) as Hhas.
  assert (Hk : row_keys (group_columns job_type) d = Some keys)
    by (by rewrite row_keys_columns).
  destruct (interpolated_facts d job_type keys pm ts Hwf Hpm Hts Hk)
    as (Hlk & Hn1 & Hk1 & Hpm1 & Hn2 & Hwf2 & Hk2 & Hpm2).
  destruct (timestamp_to_datetime_inv _ _ Hts) as (c0 & Hc0 & Hconv).
  destruct (group_columns_not_target job_type) as [Hgp Hgt].
  fold d2 in Hn2, Hwf2, Hk2, Hpm2.
  assert (Hts2 : getcol "timestamp" d2 = Some ts).
  { unfold d2, interpolated. rewrite getcol_setitem_ne by done.
    apply getcol_setitem_eq. }
  assert (Hg2 : ∀ n, n ∈ group_columns job_type → getcol n d2 = getcol n d).
  { intros n Hn. unfold d2, interpolated.
    rewrite !getcol_setitem_ne; [done|by intros <-..]. }
  assert (Hck2 : column_keys (group_columns job_type) d2 = Some keys).
  { unfold d2, interpolated.
    rewrite column_keys_setitem;
      [|done|unfold d2, interpolated in Hn2; by rewrite Hn2, Hn1].
    by rewrite column_keys_setitem. }
  assert (Htext2 : text_keys (group_columns job_type) d2).
  { intros n c Hn Hc. rewrite (Hg2 n Hn) in Hc. by apply (Htext n c). }
  destruct (resampled_facts _ d2 keys ts _ (group_columns_cases job_type)
              Hwf2 Hck2 Htext2 Hts2 Hpm2)
    as (r & resampled & keys' & pm' & Hr & Hreset & Hres & _ & _ & Hck' & Hpm'
        & Hnum' & Hlen');
    [by apply is_numeric_group_transform_interpolate|].
  assert (Hk' : row_keys (group_columns job_type) resampled = Some keys').
  { rewrite row_keys_columns; [done|]. by eapply has_columns_column_keys. }
  assert (Hlk' : length keys' = length pm').
  { rewrite Hlen'. by apply row_keys_length in Hk'. }
  exists r, resampled, keys', pm'. split_and!; try done.
  intros filled table.
  assert (Hcols : has_columns ["device_id"; "pm2_5"; "timestamp"] d = true).
  { apply has_columns_spec. intros n Hn.
    repeat (apply elem_of_cons in Hn as [->|Hn]).
    - apply (column_keys_has_columns _ _ _ _ Hck), group_columns_device.
    - apply getcol_is_Some. eauto.
    - apply getcol_is_Some. eauto.
    - by apply elem_of_nil in Hn. }
  unfold preprocess_data.
  rewrite run_bind, (run_load _ _ _ Hd), Hcols. cbn [negb].
  rewrite Hc0. cbn [mbind option_bind]. rewrite Hconv.
  rewrite run_bind, (run_setitem_at _ _ _ _ _ Hd).
  pose proof (store_lookup_insert _ _ _ (setitem "timestamp" ts d) Hd) as Hd1.
  rewrite run_bind, (run_load _ _ _ Hd1).
  rewrite run_bind, (interpolate_groups_ok _ _ _ _ Hk1 Hpm1 Hnum), run_lift.
  rewrite run_bind, (run_setitem_at _ _ _ _ _ Hd1).
  rewrite list_insert_insert_eq. fold (interpolated d keys pm ts). fold d2.
  rewrite decide_True by done.
  pose proof (store_lookup_insert _ _ _ d2 Hd) as Hd2.
  rewrite run_bind, run_bind, (run_load _ _ _ Hd2).
  rewrite run_bind, Hr, run_lift. cbn [need].
  rewrite run_bind, Hreset, run_lift.
  rewrite run_alloc, length_insert.
  set (σ2 := <[data := d2]> σ).
  assert (Hl2 : length σ2 = length σ) by apply length_insert.
  assert (HR : (σ2 ++ [resampled]) !! length σ = Some resampled).
  { rewrite lookup_app_r by lia. by rewrite Hl2, Nat.sub_diag. }
  rewrite run_bind, (run_load _ _ _ HR).
  rewrite run_bind, (interpolate_groups_ok _ _ _ _ Hk' Hpm' Hnum'), run_lift.
  rewrite run_bind, (run_setitem_at _ _ _ _ _ HR).
  rewrite insert_app_r_alt by lia. rewrite Hl2, Nat.sub_diag. cbn [insert list_insert].
  fold filled. fold table.
  assert (HT : (σ2 ++ [table]) !! length σ = Some table).
  { rewrite lookup_app_r by lia. by rewrite Hl2, Nat.sub_diag. }
  rewrite run_bind, (run_load _ _ _ HT).
  rewrite (dropna_single "pm2_5" table filled).
  - rewrite run_bind, run_lift. cbn [need]. rewrite run_alloc.
    rewrite length_app, Hl2. cbn [length].
    rewrite <- app_assoc. cbn [app]. do 2 f_equal. lia.
  - apply getcol_setitem_eq.
  - unfold table. rewrite nrows_setitem.
    + unfold filled. rewrite length_group_transform. by apply row_keys_length in Hk'.
    + apply (columns_nonempty "pm2_5"), getcol_is_Some. eauto.
    + unfold filled. rewrite length_group_transform. by apply row_keys_length in Hk'.
Qed.

(** The run of [preprocess_data] on either frequency. *)
Lemma preprocess_data_run
    (σ : Store) (data : loc) (d : Frame) (data_frequency job_type : string)
    (keys : list Key) (pm ts : Column) :
  σ !! data = Some d → wf_frame d →
  getcol "pm2_5" d = Some pm → is_numeric pm = true →
  timestamp_to_datetime d = Ok ts →
  column_keys (group_columns job_type) d = Some keys →
  (data_frequency = "daily" → text_keys (group_columns job_type) d) →
  let by_ := group_columns job_type in
  ∃ σ' l table keys' pm',
    let filled := group_transform interpolate keys' pm' in
    preprocess_data data data_frequency job_type σ = (Ok l, σ')
    ∧ σ' !! l = Some (filter_rows (notna <$> filled) (setitem "pm2_5" filled table))
    ∧ (if decide (data_frequency = "daily")
       then ∃ r, groupby_resample_mean by_ (interpolated d keys pm ts) = Some r
                 ∧ reset_index r = Ok table
       else table = setitem "timestamp" ts d ∧ keys' = keys ∧ pm' = pm)
    ∧ column_keys by_ table = Some keys'
    ∧ getcol "pm2_5" table = Some pm'
    ∧ is_numeric pm' = true
    ∧ length keys' = length pm'.
Proof.
  intros Hd Hwf Hpm Hnum Hts Hck Htext by_.
  pose proof (has_columns_column_keys _ _ _ Hck) as Hhas.
  assert (Hk : row_keys (group_columns job_type) d = Some keys)
    by (by rewrite row_keys_columns).
  destruct (interpolated_facts d job_type keys pm ts Hwf Hpm Hts Hk)
    as (Hlk & Hn1 & Hk1 & Hpm1 & _).
  destruct (group_columns_not_target job_type) as [Hgp Hgt].
  destruct (decide (data_frequency = "daily")) as [-> | Hfreq].
  - destruct (preprocess_data_daily_run σ data d job_type keys pm ts
                Hd Hwf Hpm Hnum Hts Hck (Htext eq_refl))
      as (r & resampled & keys' & pm' & Hr & Hreset & _ & Hk' & Hpm' & Hnum'
          & Hlk' & Hrun).
    cbv zeta in Hrun.
    eexists _, _, resampled, keys', pm'. cbv zeta.
    split; [exact Hrun|]. split_and!; try done.
    + rewrite lookup_app_r by (rewrite length_insert; lia).
      rewrite length_insert.
      replace (S (length σ) - length σ) with 1 by lia. done.
    + by exists r.
  - assert (Hdevc : "device_id" ∈ columns d).
    { apply (column_keys_has_columns _ _ _ _ Hck), group_columns_device. }
    pose proof (preprocess_data_hourly_run σ data d data_frequency job_type
                  keys pm ts Hfreq Hd Hwf Hdevc Hpm Hnum Hts Hk) as Hrun.
    cbv zeta in Hrun.
    eexists _, _, (setitem "timestamp" ts d), keys, pm. cbv zeta.
    split; [exact Hrun|]. split_and!; try done.
    + rewrite lookup_app_r by (rewrite length_insert; lia).
      by rewrite length_insert, Nat.sub_diag.
    + by rewrite column_keys_setitem.
Qed.

(** C8 (amended).  On a table with numeric [pm2_5], convertible
    timestamps and the group columns (holding text on daily data),
    [preprocess_data] returns a new table.  The values are first filled
    per group in the caller's table.  The table whose values are filled
    last is, on daily data, the table of per-day means of each group and
    otherwise the caller's table; the returned table keeps its rows whose
    filled value is not missing.  Both fills follow the fill rule: an
    observed value stays; a gap bounded on both sides lies on the line
    through the two nearest observed values; a leading gap takes the
    first observed value of the group and a trailing gap the last one.
    So every row of a group that has an observed value is kept, and only
    the rows of a group without any observed value, or without a group,
    are dropped. *)
Theorem interpolation_fills_leading_and_trailing_gaps
    (σ : Store) (data : loc) (d : Frame) (data_frequency job_type : string)
    (keys : list Key) (pm ts : Column) :
  σ !! data = Some d → wf_frame d →
  getcol "pm2_5" d = Some pm → is_numeric pm = true →
  timestamp_to_datetime d = Ok ts →
  column_keys (group_columns job_type) d = Some keys →
  (data_frequency = "daily" → text_keys (group_columns job_type) d) →
  let by_ := group_columns job_type in
  ∃ σ' l out table keys' pm' filled,
    preprocess_data data data_frequency job_type σ = (Ok l, σ')
    ∧ σ' !! l = Some out
    ∧ group_fill_rule keys pm (group_transform interpolate keys pm)
    ∧ (if decide (data_frequency = "daily")
       then ∃ r, groupby_resample_mean by_ (interpolated d keys pm ts) = Some r
                 ∧ reset_index r = Ok table
       else table = setitem "timestamp" ts d)
    ∧ column_keys by_ table = Some keys'
    ∧ getcol "pm2_5" table = Some pm'
    ∧ group_fill_rule keys' pm' filled
    ∧ out = filter_rows (notna <$> filled) (setitem "pm2_5" filled table).
Proof.
  intros Hd Hwf Hpm Hnum Hts Hck Htext by_.
  destruct (preprocess_data_run σ data d data_frequency job_type keys pm ts
              Hd Hwf Hpm Hnum Hts Hck Htext)
    as (σ' & l & table & keys' & pm' & Hrun & Hout & Htable & Hk' & Hpm' & Hnum'
        & Hlk').
  eexists σ', l, _, table, keys', pm', (group_transform interpolate keys' pm').
  split; [exact Hrun|]. split; [exact Hout|].
  split_and!; try done.
  - apply group_fill_rule_interpolate; [|done].
    rewrite (column_keys_length _ _ _ Hck).
    symmetry. by eapply wf_frame_getcol_length.
  - destruct (decide (data_frequency = "daily")); [done|]. by destruct Htable.
  - by apply group_fill_rule_interpolate.
Qed.

(** C10.  On a table with numeric [pm2_5], convertible timestamps and the
    group columns (holding text on daily data), [preprocess_data] returns
    a table: it is the table whose values were interpolated last, without
    the rows whose value is still missing, so every column keeps the
    cells of the rows with a value, and [pm2_5] has no missing cell.  On
    data that are not daily the interpolated table is the caller's table
    with the values filled by group.  And whatever the input and the
    outcome, a table that [preprocess_data] returns has no missing
    [pm2_5]. *)
Theorem preprocess_data_target_not_missing
    (σ : Store) (data : loc) (d : Frame) (data_frequency job_type : string)
    (keys : list Key) (pm ts : Column) :
  σ !! data = Some d → wf_frame d →
  getcol "pm2_5" d = Some pm → is_numeric pm = true →
  timestamp_to_datetime d = Ok ts →
  column_keys (group_columns job_type) d = Some keys →
  (data_frequency = "daily" → text_keys (group_columns job_type) d) →
  (∃ σ' l table filled out,
     preprocess_data data data_frequency job_type σ = (Ok l, σ')
     ∧ σ' !! l = Some out
     ∧ getcol "pm2_5" table = Some filled
     ∧ (data_frequency ≠ "daily" →
          table = interpolated d keys pm ts
          ∧ filled = group_transform interpolate keys pm)
     ∧ out = filter_rows (notna <$> filled) table
     ∧ (∀ n c, getcol n table = Some c →
          getcol n out = Some (mask_select (notna <$> filled) c))
     ∧ getcol "pm2_5" out = Some (filter (λ x, x ≠ CNull) filled)
     ∧ Forall (λ x, x ≠ CNull) (filter (λ x, x ≠ CNull) filled))
  ∧ ∀ σ0 data0 frequency0 job_type0 l0 σ1,
      preprocess_data data0 frequency0 job_type0 σ0 = (Ok l0, σ1) →
      ∃ out0 pm0,
        σ1 !! l0 = Some out0
        ∧ getcol "pm2_5" out0 = Some pm0
        ∧ Forall (λ x, x ≠ CNull) pm0.
Proof.
  intros Hd Hwf Hpm Hnum Hts Hck Htext. split.
  - destruct (preprocess_data_run σ data d data_frequency job_type keys pm ts
                Hd Hwf Hpm Hnum Hts Hck Htext)
      as (σ' & l & table & keys' & pm' & Hrun & Hout & Htable & _).
    set (filled := group_transform interpolate keys' pm') in *.
    eexists σ', l, (setitem "pm2_5" filled table), filled, _.
    split; [exact Hrun|]. split; [exact Hout|].
    assert (Hsel : ∀ n c, getcol n (setitem "pm2_5" filled table) = Some c →
              getcol n (filter_rows (notna <$> filled)
                          (setitem "pm2_5" filled table))
              = Some (mask_select (notna <$> filled) c)).
    { intros n c Hc. by rewrite getcol_filter_rows, Hc. }
    split_and!; try done.
    + apply getcol_setitem_eq.
    + intros Hfreq. rewrite decide_False in Htable by done.
      destruct Htable as (-> & Hk' & Hp'). unfold filled. by rewrite Hk', Hp'.
    + rewrite (Hsel "pm2_5" filled) by apply getcol_setitem_eq.
      by rewrite mask_select_notna.
    + apply Forall_forall. intros x Hx. by apply list_elem_of_filter in Hx as [Hx _].
  - intros σ0 data0 frequency0 job_type0 l0 σ1.
    apply preprocess_data_dropna_last.
Qed.
End PreprocessDaily.

Lemma interpolation_fills_leading_and_trailing_gaps_witness :
  ∃ σ' out,
    preprocess_data 0 "daily" "train" [sample_daily_gaps] = (Ok 2, σ')
    ∧ σ' !! 2 = Some out
    ∧ getcol "timestamp" out
      = Some [hour 0; hour 24; hour 48; hour 72; hour 96]
    ∧ getcol "pm2_5" out = Some [num 4; num 5; num 6; num 7; num 7].
Proof.
  destruct (interpolation_fills_leading_and_trailing_gaps [sample_daily_gaps] 0
              sample_daily_gaps "daily" "train"
              ((λ x, [x]) <$> [CStr "a"; CStr "a"; CStr "a"; CStr "a"; CStr "a"])
              [CNull; num 4; num 6; num 7; CNull]
              [hour 1; hour 25; hour 26; hour 73; hour 97])
    as (σ' & l & out & table & keys' & pm' & filled & Hrun & Hout & _).
  - reflexivity.
  - split; [by apply (bool_decide_unpack _)|repeat constructor].
  - reflexivity.
  - reflexivity.
  - reflexivity.
  - reflexivity.
  - intros _. apply text_keys_spec. reflexivity.
  - vm_compute in Hrun. injection Hrun as <- <-.
    vm_compute in Hout. injection Hout as <-.
    eexists _, _. split_and!; vm_compute; reflexivity.
Defined.

Lemma preprocess_data_target_not_missing_witness :
  ∃ σ' out,
    preprocess_data 0 "hourly" "prediction" [sample_observations] = (Ok 1, σ')
    ∧ σ' !! 1 = Some out
    ∧ getcol "device_id" out = Some [CStr "a"; CStr "a"; CStr "a"; CStr "a"]
    ∧ getcol "pm2_5" out = Some [num 8; num 4; num 8; num 4].
Proof.
  destruct (preprocess_data_target_not_missing [sample_observations] 0
              sample_observations "hourly" "prediction"
              (zip_with (λ x y, [x; y])
                 [CStr "a"; CStr "a"; CStr "b"; CStr "a"; CStr "b"; CStr "a"]
                 [CStr "s1"; CStr "s2"; CStr "s1"; CStr "s1"; CStr "s1"; CStr "s2"])
              [CNull; num 4; CNull; num 8; CNull; CNull]
              [hour 0; hour 1; hour 1; hour 2; hour 2; hour 3])
    as [(σ' & l & table & filled & out & Hrun & Hout & _) _].
  - reflexivity.
  - split; [by apply (bool_decide_unpack _)|repeat constructor].
  - reflexivity.
  - reflexivity.
  - reflexivity.
  - reflexivity.
  - intros Hc. discriminate Hc.
  - vm_compute in Hrun. injection Hrun as <- <-.
    vm_compute in Hout. injection Hout as <-.
    eexists _, _. split_and!; vm_compute; reflexivity.
Defined.

(** ** The temporal split over all devices *)

Lemma foldM_Ok {A B} (f : A → B → Result A) (g : A → B → A) bs a :
  (∀ a b, b ∈ bs → f a b = Ok (g a b)) → foldM f a bs = Ok (foldl g a bs).
Proof.
  revert a. induction bs as [|b bs IH]; intros a Hf; [done|].
  simpl. rewrite (Hf a b) by left. simpl.
  apply IH. intros a' b' Hb'. apply Hf. by right.
Qed.

Section SplitAll.
Context `{Externals}.

Lemma split_device_parts (device_df : Frame) (ts : Column) :
  getcol "timestamp" device_df = Some ts →
  split_device device_df = Ok (device_parts device_df (dt_column dt_month ts)).
Proof. intros Hts. unfold split_device, month_column. by rewrite Hts. Qed.

(** On a training table whose rows with a device have convertible
    timestamps, the temporal split returns normally, and its train,
    validation and test tables are the concatenations, device by device in
    order of first appearance, of the three parts of each device's rows. *)
Lemma train_and_save_forecast_models_split_by_device
    (training_data d0 : Frame) (ts dev : Column) :
  dropna ["device_id"] training_data = Some d0 →
  timestamp_to_datetime d0 = Ok ts →
  getcol "device_id" d0 = Some dev →
  let data := setitem "timestamp" ts d0 in
  train_and_save_forecast_models_split training_data
  = Ok (foldl (λ acc device,
                 let parts := device_parts (device_rows device dev data)
                                (device_months device dev ts) in
                 (concat2 acc.1.1 parts.1.1,
                  concat2 acc.1.2 parts.1.2,
                  concat2 acc.2 parts.2))
              ([], [], []) (unique dev)).
Proof.
  intros Hdrop Hts Hdev data.
  unfold train_and_save_forecast_models_split.
  rewrite Hdrop. cbn [need mbind Result_bind]. rewrite Hts.
  cbn [mbind Result_bind]. fold data.
  assert (Hdev' : getcol "device_id" data = Some dev).
  { unfold data. by rewrite getcol_setitem_ne. }
  rewrite Hdev'. cbn [need mbind Result_bind].
  apply foldM_Ok. intros acc device _.
  rewrite (split_device_parts _ (mask_select (eq_mask device dev) ts)).
  - done.
  - unfold filter_rows, data. by rewrite getcol_map_columns, getcol_setitem_eq.
Qed.
End SplitAll.

Example train_and_save_forecast_models_split_sample :
  ∃ train_data validation_data test_data,
    train_and_save_forecast_models_split sample_ten_months
    = Ok (train_data, validation_data, test_data)
    ∧ nrows train_data = 9 ∧ nrows validation_data = 1 ∧ nrows test_data = 1.
Proof.
  pose proof (train_and_save_forecast_models_split_by_device sample_ten_months
                sample_ten_months
                ((month_start 2024 <$> [1; 2; 3; 4; 5; 6; 7; 8; 9; 10]%Z)
                 ++ [CTime (days_from_civil 2024 1 15 * DAY_NS)])
                (replicate 11 (CStr "a")) eq_refl eq_refl eq_refl) as Hrun.
  cbv zeta in Hrun. eexists _, _, _. rewrite Hrun.
  split_and!; vm_compute; reflexivity.
Qed.

(** ** The forecast loop *)

Lemma filter_notin_self {A} `{EqDecision A} (l : list A) :
  filter (λ n, n ∉ l) l = [].
Proof.
  assert (Hall : ∀ ys : list A, (∀ x, x ∈ ys → x ∈ l) → filter (λ n, n ∉ l) ys = []).
  { induction ys as [|y ys IH]; intros Hin; [done|].
    rewrite filter_cons, decide_False by (intros Hy; apply Hy, Hin; left).
    apply IH. intros x Hx. apply Hin. by right. }
  by apply Hall.
Qed.

Lemma fmap_getcol_columns (g : string → option Column → Column) (df : Frame) :
  NoDup (columns df) →
  (λ n, (n, g n (getcol n df))) <$> columns df
  = (λ p, (p.1, g p.1 (Some p.2))) <$> df.
Proof.
  induction df as [|[m c] df IH]; [done|].
  rewrite columns_cons. intros [Hm Hnd]%NoDup_cons.
  rewrite !fmap_cons. simpl. rewrite decide_True by done. f_equal.
  rewrite <- IH by done. apply list_fmap_ext. intros i n Hn.
  rewrite decide_False; [done|]. intros ->.
  apply Hm. by eapply list_elem_of_lookup_2.
Qed.

(** [pd.concat([df, df.iloc[-1:]])] repeats the last row. *)
Lemma concat2_tail (df : Frame) :
  NoDup (columns df) →
  concat2 df (tail 1 df) = map_columns (λ c, c ++ drop (nrows df - 1) c) df.
Proof.
  intros Hnd. unfold concat2, tail, drop_rows.
  rewrite columns_map_columns, filter_notin_self, app_nil_r.
  etrans; [|exact (fmap_getcol_columns
    (λ n o, default (replicate (nrows df) CNull) o
            ++ default (replicate (nrows (map_columns (drop (nrows df - 1)) df)) CNull)
                 (drop (nrows df - 1) <$> o)) df Hnd)].
  apply list_fmap_ext. intros i n Hn. by rewrite getcol_map_columns.
Qed.

Lemma wf_frame_map_columns (f : Column → Column) (m : nat) (df : Frame) :
  wf_frame df → df ≠ [] →
  (∀ c, length c = nrows df → length (f c) = m) →
  wf_frame (map_columns f df) ∧ nrows (map_columns f df) = m.
Proof.
  intros [Hnd Hlen] Hne Hf.
  assert (Hn : nrows (map_columns f df) = m).
  { destruct df as [|[n c] df]; [done|]. simpl. apply Hf.
    by apply Forall_cons in Hlen as [Hc _]. }
  split; [|done]. split.
  - by rewrite columns_map_columns.
  - rewrite Hn. unfold map_columns. apply Forall_fmap.
    eapply Forall_impl; [exact Hlen|]. intros [n c] Hc. simpl in *. by apply Hf.
Qed.

Lemma getcol_filter_notin n (names : list string) (df : Frame) :
  n ∉ names → getcol n (filter (λ p, p.1 ∉ names) df) = getcol n df.
Proof.
  intros Hn. induction df as [|[m c] df IH]; [done|].
  rewrite filter_cons. simpl. destruct (decide (m = n)) as [->|Hne].
  - rewrite decide_True by done. simpl. by rewrite decide_True.
  - destruct (decide (m ∉ names)); [|done]. simpl. by rewrite decide_False.
Qed.

Lemma drop_columns_Some names df :
  (∀ n, n ∈ names → n ∈ columns df) →
  drop_columns names df = Some (filter (λ p, p.1 ∉ names) df).
Proof.
  intros Hin. unfold drop_columns.
  replace (forallb _ names) with true; [done|].
  symmetry. apply forallb_forall. intros n Hn%list_elem_of_In.
  apply bool_decide_eq_true. by apply Hin.
Qed.

Lemma columns_assign_incl m l df : m ∈ columns df → m ∈ columns (assign l df).
Proof.
  revert df. induction l as [|[n c] l IH]; intros df Hm; [done|].
  rewrite assign_cons. by apply IH, columns_setitem_incl.
Qed.

Lemma is_numeric_snoc c x :
  is_numeric c = true → (x = CNull ∨ ∃ q, x = CNum q) →
  is_numeric (c ++ [x]) = true.
Proof.
  intros Hc Hx. rewrite is_numeric_app, Hc. simpl.
  by destruct Hx as [-> | [q ->]].
Qed.

Lemma drop_pred_last {A} (l : list A) x :
  last l = Some x → drop (length l - 1) l = [x].
Proof.
  intros Hx. destruct l as [|a l _] using rev_ind; [done|].
  rewrite last_snoc in Hx. injection Hx as ->.
  rewrite length_app. simpl.
  replace (length l + 1 - 1) with (length l + 0) by lia.
  by rewrite drop_app_add.
Qed.

Lemma is_datetime_app a b : is_datetime (a ++ b) = is_datetime a && is_datetime b.
Proof. unfold is_datetime. apply forallb_app. Qed.

Lemma is_datetime_drop k c : is_datetime c = true → is_datetime (drop k c) = true.
Proof.
  unfold is_datetime. rewrite !forallb_forall. intros Hc x Hx.
  apply Hc. apply list_elem_of_In. apply list_elem_of_In in Hx.
  by apply (subseteq_drop k c).
Qed.

Lemma is_datetime_last c x :
  is_datetime c = true → last c = Some x → is_datetime [x] = true.
Proof.
  intros Hc Hx. rewrite <- (drop_pred_last c x Hx). by apply is_datetime_drop.
Qed.

Lemma is_datetime_add_timedelta d x :
  is_datetime [x] = true → is_datetime [add_timedelta d x] = true.
Proof. by destruct x. Qed.

Lemma is_datetime_next_timestamp frequency x :
  is_datetime [x] = true → is_datetime [next_timestamp frequency x] = true.
Proof.
  intros Hx. unfold next_timestamp.
  repeat case_decide; try done; by apply is_datetime_add_timedelta.
Qed.

(** ** Numeric columns *)

Lemma numeric_features_spec (df : Frame) :
  forallb (λ p : string * Column,
             bool_decide (p.1 ∈ no_ts_columns) || is_numeric p.2) df = true →
  numeric_features df.
Proof.
  rewrite forallb_forall. intros Hall n c Hn Hc.
  apply getcol_Some_elem, list_elem_of_In in Hc. specialize (Hall _ Hc).
  simpl in Hall. apply orb_true_iff in Hall as [Hin|Hnum]; [|done].
  by apply bool_decide_eq_true in Hin.
Qed.

Lemma numeric_features_setitem n c (df : Frame) :
  numeric_features df → (n ∉ no_ts_columns → is_numeric c = true) →
  numeric_features (setitem n c df).
Proof.
  intros Hdf Hc m c' Hm. destruct (decide (n = m)) as [->|Hne].
  - rewrite getcol_setitem_eq. intros [= <-]. by apply Hc.
  - rewrite getcol_setitem_ne by done. by apply Hdf.
Qed.

Lemma numeric_features_assign l : ∀ df : Frame,
  numeric_features df → Forall (λ p : string * Column, is_numeric p.2 = true) l →
  numeric_features (assign l df).
Proof.
  induction l as [|[n c] l IH]; intros df Hdf Hl; [done|].
  apply Forall_cons in Hl as [Hc Hl]. rewrite assign_cons.
  apply IH; [|done]. by apply numeric_features_setitem.
Qed.

Lemma numeric_features_map_columns (f : Column → Column) (df : Frame) :
  numeric_features df → (∀ c, is_numeric c = true → is_numeric (f c) = true) →
  numeric_features (map_columns f df).
Proof.
  intros Hdf Hf n c Hn. rewrite getcol_map_columns.
  destruct (getcol n df) as [c0|] eqn:Hc0; [|done]. intros [= <-].
  by apply Hf, (Hdf n).
Qed.

(** The windows of the loop run over a frame of numbers. *)
Lemma rolling_frame_check_ok (df : Frame) :
  NoDup (columns df) → numeric_features df →
  rolling_frame_check (filter (λ p : string * Column, p.1 ∉ no_ts_columns) df)
  = Ok ().
Proof.
  intros Hnd Hdf. unfold rolling_frame_check.
  destruct (filter _ (filter _ df)) as [|p rest] eqn:Hf; [done|].
  assert (Hp : p ∈ filter (λ p : string * Column, is_numeric p.2 = false)
                     (filter (λ p : string * Column, p.1 ∉ no_ts_columns) df))
    by (rewrite Hf; apply list_elem_of_here).
  apply list_elem_of_filter in Hp as [Hnum Hp].
  apply list_elem_of_filter in Hp as [Hn Hp].
  destruct p as [n c]. simpl in *.
  rewrite (Hdf n c Hn) in Hnum; [done|]. by apply elem_getcol.
Qed.


Section ForecastLoop.
Context `{Externals}.

Lemma forecast_columns_names u lags windows functions c :
  (forecast_columns u lags windows functions c).*1
  = feature_names u lags windows functions.
Proof.
  unfold forecast_columns, feature_names.
  rewrite fmap_app. f_equal.
  - rewrite <- list_fmap_compose. by apply list_fmap_ext.
  - induction windows as [|s windows IH]; [done|].
    rewrite !bind_cons, fmap_app, IH. f_equal.
    rewrite <- list_fmap_compose. by apply list_fmap_ext.
Qed.

Lemma forecast_columns_length u lags windows functions c :
  Forall (λ p, length p.2 = length c) (forecast_columns u lags windows functions c).
Proof.
  unfold forecast_columns. apply Forall_app. split.
  - apply Forall_fmap, Forall_forall. intros s _. simpl. apply length_shift.
  - apply Forall_forall. intros p Hp.
    apply list_elem_of_bind in Hp as (s & Hp & _).
    apply list_elem_of_fmap in Hp as (f & -> & _). simpl.
    by rewrite length_rolling, length_shift.
Qed.

(** The feature pass of the loop assigns the lag and rolling columns of
    the frame's [pm2_5] column and raises nothing. *)
Lemma is_numeric_shift p c : is_numeric c = true → is_numeric (shift p c) = true.
Proof.
  rewrite !is_numeric_Forall. intros Hc. unfold shift.
  apply Forall_take, Forall_app. split; [|done].
  apply Forall_replicate. by left.
Qed.

Lemma is_numeric_rolling s f xs : is_numeric (rolling s f xs) = true.
Proof.
  rewrite is_numeric_Forall. unfold rolling. apply Forall_fmap, Forall_forall.
  intros t _. simpl. unfold rolling_at.
  destruct (decide _); [|by left]. destruct (mapM _ _); [right; eauto|by left].
Qed.

Lemma forecast_columns_numeric u lags windows functions c :
  is_numeric c = true →
  Forall (λ p : string * Column, is_numeric p.2 = true)
    (forecast_columns u lags windows functions c).
Proof.
  intros Hc. unfold forecast_columns. apply Forall_app. split.
  - apply Forall_fmap, Forall_forall. intros s _. simpl. by apply is_numeric_shift.
  - apply Forall_forall. intros p Hp.
    apply list_elem_of_bind in Hp as (s & Hp & _).
    apply list_elem_of_fmap in Hp as (f & -> & _). simpl.
    apply is_numeric_rolling.
Qed.

Lemma forecast_features_ok u lags windows functions no_ts df c :
  getcol "pm2_5" df = Some c → getcol "pm2_5" no_ts = Some c →
  rolling_frame_check no_ts = Ok () →
  "pm2_5" ∉ feature_names u lags windows functions →
  forecast_features u lags windows functions no_ts df
  = Ok (assign (forecast_columns u lags windows functions c) df).
Proof.
  intros Hc Hno Hnum Hnames. unfold forecast_features, forecast_columns.
  destruct (foldM_assign (forecast_lag u) (λ s, (lag_name s u, shift s c))
              (λ d, getcol "pm2_5" d = Some c) lags df Hc) as [-> _].
  { intros d s Hs Hd. unfold forecast_lag. rewrite Hd. simpl. split; [done|].
    rewrite getcol_setitem_ne; [done|]. intros Heq. apply Hnames.
    unfold feature_names. apply elem_of_app. left.
    apply list_elem_of_fmap. exists s. by rewrite Heq. }
  simpl.
  destruct (foldM_assigns
              (λ d s, foldM (forecast_roll u no_ts s) d functions)
              (λ s, (λ f, (roll_name f s u, rolling s f (shift 1 c))) <$> functions)
              (λ _, True) windows
              (assign ((λ s, (lag_name s u, shift s c)) <$> lags) df) I) as [-> _].
  { intros d s Hs _. split; [|done].
    destruct (foldM_assign (forecast_roll u no_ts s)
                (λ f, (roll_name f s u, rolling s f (shift 1 c)))
                (λ _, True) functions d I) as [-> _]; [|done].
    intros d' f Hf _. unfold forecast_roll. by rewrite Hnum, Hno. }
  by rewrite assign_app.
Qed.
Lemma is_numeric_drop k c : is_numeric c = true → is_numeric (drop k c) = true.
Proof. rewrite !is_numeric_Forall. apply Forall_drop. Qed.

Lemma is_numeric_insert i q c :
  is_numeric c = true → is_numeric (<[i := CNum q]> c) = true.
Proof.
  rewrite !is_numeric_Forall. intros Hc. apply Forall_insert; eauto.
Qed.


(** The end of a pass: the prediction goes to the last row's [pm2_5]. *)
Lemma forecast_predict_ok (forecast_model : Model) (df2 : Frame) (pm1 ts2 : Column) :
  wf_frame df2 → 0 < nrows df2 →
  (∀ n, n ∈ excluded_columns → n ∈ columns df2) →
  numeric_features df2 →
  getcol "pm2_5" df2 = Some pm1 → is_numeric pm1 = true →
  getcol "timestamp" df2 = Some ts2 → is_datetime ts2 = true →
  ∃ df3,
    (ts ← need "timestamp" (getcol "timestamp" df2);
     if is_datetime ts then
       features ← need "excluded columns" (drop_columns excluded_columns df2);
       pm ← need "pm2_5" (getcol "pm2_5" df2);
       match set_last (CNum (predict forecast_model (last_row features))) pm with
       | Some pm => Ok (setitem "pm2_5" pm df2)
       | None => Raise (IndexError "index -1 is out of bounds")
       end
     else Raise (AttributeError "Can only use .dt accessor with datetimelike values"))
    = Ok df3
    ∧ forecast_frame df3 ∧ nrows df3 = nrows df2
    ∧ getcol "timestamp" df3 = Some ts2
    ∧ (∀ n, n ≠ "pm2_5" → getcol n df3 = getcol n df2)
    ∧ ∃ q, getcol "pm2_5" df3 = Some (<[length pm1 - 1 := CNum q]> pm1).
Proof.
  intros Hwf Hpos Hcols Hnf Hpm Hnum Hts Hdt.
  rewrite Hts. cbn [need mbind Result_bind]. rewrite Hdt.
  rewrite (drop_columns_Some _ _ Hcols), Hpm. simpl.
  pose proof (wf_frame_getcol_length _ _ _ Hwf Hpm) as Hlen.
  assert (Hne : df2 ≠ []) by (apply nrows_nonzero_nonempty; lia).
  destruct pm1 as [|y pm1]; [simpl in Hlen; lia|].
  unfold set_last. eexists. split; [reflexivity|].
  set (pm2 := <[_ := _]> (y :: pm1)).
  assert (Hlen2 : length pm2 = nrows df2) by (unfold pm2; by rewrite length_insert).
  split_and!.
  - split_and!.
    + by apply wf_frame_setitem.
    + by rewrite nrows_setitem.
    + intros n Hn. by apply columns_setitem_incl, Hcols.
    + apply numeric_features_setitem; [done|]. intros _.
      by apply is_numeric_insert.
    + exists pm2. split; [apply getcol_setitem_eq|].
      by apply is_numeric_insert.
  - by apply nrows_setitem.
  - by rewrite getcol_setitem_ne.
  - intros n Hn. by rewrite getcol_setitem_ne.
  - eexists. apply getcol_setitem_eq.
Qed.

Lemma feature_names_hour :
  ("pm2_5" ∉ feature_names "hour" [1; 2; 6; 12] [3; 6; 12; 24] [Mean; Std; Median; Skew])
  ∧ ("timestamp" ∉ feature_names "hour" [1; 2; 6; 12] [3; 6; 12; 24]
                     [Mean; Std; Median; Skew]).
Proof. split; apply (bool_decide_unpack _); vm_compute; exact I. Qed.

Lemma feature_names_day :
  ("pm2_5" ∉ feature_names "day" [1; 2; 3; 7] [2; 3; 7] [Mean; Std; Max; Min])
  ∧ ("timestamp" ∉ feature_names "day" [1; 2; 3; 7] [2; 3; 7] [Mean; Std; Max; Min]).
Proof. split; apply (bool_decide_unpack _); vm_compute; exact I. Qed.

(** After the feature pass the frame has the same rows, its earlier
    columns, and the same [pm2_5] and [timestamp]. *)
Lemma forecast_features_frame u lags windows functions no_ts df c ts :
  wf_frame df → 0 < nrows df → numeric_features df →
  getcol "pm2_5" df = Some c → getcol "pm2_5" no_ts = Some c →
  rolling_frame_check no_ts = Ok () →
  is_numeric c = true → getcol "timestamp" df = Some ts →
  "pm2_5" ∉ feature_names u lags windows functions →
  "timestamp" ∉ feature_names u lags windows functions →
  ∃ df2,
    forecast_features u lags windows functions no_ts df = Ok df2
    ∧ wf_frame df2 ∧ nrows df2 = nrows df
    ∧ numeric_features df2
    ∧ (∀ n, n ∈ columns df → n ∈ columns df2)
    ∧ getcol "pm2_5" df2 = Some c
    ∧ getcol "timestamp" df2 = Some ts
    ∧ (∀ n, n ∉ feature_names u lags windows functions →
         getcol n df2 = getcol n df).
Proof.
  intros Hwf Hpos Hnf Hc Hno Hchk Hnum Hts Hn1 Hn2.
  rewrite (forecast_features_ok _ _ _ _ _ _ _ Hc Hno Hchk Hn1).
  eexists. split; [reflexivity|].
  assert (Hne : df ≠ []) by (apply nrows_nonzero_nonempty; lia).
  assert (Hlen : Forall (λ p, length p.2 = nrows df)
                   (forecast_columns u lags windows functions c)).
  { rewrite <- (wf_frame_getcol_length _ _ _ Hwf Hc).
    apply forecast_columns_length. }
  split_and!.
  - by apply wf_frame_assign.
  - by apply nrows_assign.
  - apply numeric_features_assign; [done|]. by apply forecast_columns_numeric.
  - intros n Hn. by apply columns_assign_incl.
  - rewrite getcol_assign_notin; [done|]. by rewrite forecast_columns_names.
  - rewrite getcol_assign_notin; [done|]. by rewrite forecast_columns_names.
  - intros n Hn. rewrite getcol_assign_notin; [done|].
    by rewrite forecast_columns_names.
Qed.
(** One pass of the loop never raises on a frame of the loop; it adds one
    row, whose timestamp is [next_timestamp] of the last one. *)
Lemma forecast_step_ok (forecast_model : Model) (frequency : string)
    (df : Frame) (ts : Column) (x : Cell) :
  forecast_frame df → getcol "timestamp" df = Some ts →
  is_datetime ts = true → last ts = Some x →
  ∃ df',
    forecast_step forecast_model frequency df = Ok df'
    ∧ forecast_frame df' ∧ nrows df' = S (nrows df)
    ∧ getcol "timestamp" df' = Some (ts ++ [next_timestamp frequency x])
    ∧ is_datetime (ts ++ [next_timestamp frequency x]) = true
    ∧ (∀ n, n ∉ "timestamp" :: "pm2_5" :: step_feature_names frequency →
         getcol n df' = (λ c, c ++ drop (nrows df - 1) c) <$> getcol n df)
    ∧ (∀ pm0, getcol "pm2_5" df = Some pm0 →
         ∃ q, getcol "pm2_5" df' = Some (pm0 ++ [CNum q])).
Proof.
  intros (Hwf & Hpos & Hcols & Hnf & pm & Hpm & Hnum) Hts Hdt Hx.
  pose proof (is_datetime_last _ _ Hdt Hx) as Hdx.
  assert (Hne : df ≠ []) by (apply nrows_nonzero_nonempty; lia).
  pose proof (wf_frame_getcol_length _ _ _ Hwf Hts) as Hlts.
  unfold forecast_step. rewrite concat2_tail by apply Hwf.
  set (df1 := map_columns _ df).
  destruct (wf_frame_map_columns (λ c, c ++ drop (nrows df - 1) c)
              (S (nrows df)) df Hwf Hne) as [Hwf1 Hn1].
  { intros c Hc. rewrite length_app, length_drop. lia. }
  fold df1 in Hwf1, Hn1.
  assert (Hcols1 : ∀ n, n ∈ excluded_columns → n ∈ columns df1).
  { intros n Hn. unfold df1. rewrite columns_map_columns. by apply Hcols. }
  assert (Hpm1 : getcol "pm2_5" df1 = Some (pm ++ drop (nrows df - 1) pm)).
  { unfold df1. by rewrite getcol_map_columns, Hpm. }
  assert (Hnum1 : is_numeric (pm ++ drop (nrows df - 1) pm) = true).
  { by rewrite is_numeric_app, Hnum, is_numeric_drop. }
  assert (Hts1 : getcol "timestamp" df1 = Some (ts ++ [x])).
  { unfold df1. rewrite getcol_map_columns, Hts. simpl.
    by rewrite <- Hlts, (drop_pred_last _ _ Hx). }
  assert (Hnf1 : numeric_features df1).
  { apply numeric_features_map_columns; [done|]. intros c Hc.
    by rewrite is_numeric_app, Hc, is_numeric_drop. }
  rewrite drop_columns_Some.
  2:{ intros n Hn. apply Hcols1.
      repeat (apply elem_of_cons in Hn as [->|Hn]);
        [..|by apply elem_of_nil in Hn];
        apply (bool_decide_unpack _); vm_compute; exact I. }
  cbn [need mbind Result_bind].
  set (no_ts := filter _ df1).
  assert (Hno : getcol "pm2_5" no_ts = Some (pm ++ drop (nrows df - 1) pm)).
  { unfold no_ts. rewrite getcol_filter_notin; [done|].
    apply (bool_decide_unpack _). vm_compute. exact I. }
  assert (Hchk : rolling_frame_check no_ts = Ok ()).
  { apply rolling_frame_check_ok; [apply Hwf1|done]. }
  assert (Hne1 : df1 ≠ []) by (apply nrows_nonzero_nonempty; lia).
  match goal with |- ∃ df', ?m ≫= _ = _ ∧ _ => set (mid := m) end.
  assert (Hmid : ∃ df2, wf_frame df2 ∧ nrows df2 = S (nrows df)
            ∧ numeric_features df2
            ∧ (∀ n, n ∈ excluded_columns → n ∈ columns df2)
            ∧ getcol "pm2_5" df2 = Some (pm ++ drop (nrows df - 1) pm)
            ∧ getcol "timestamp" df2 = Some (ts ++ [next_timestamp frequency x])
            ∧ (∀ n, n ∉ "timestamp" :: step_feature_names frequency →
                 getcol n df2 = getcol n df1)
            ∧ mid = Ok df2).
  { unfold mid, next_timestamp, step_feature_names.
    destruct (decide (frequency = "daily")) as [-> | Hday].
    - unfold tail, drop_rows. rewrite getcol_map_columns, Hts1.
      cbn [fmap option_fmap option_map need mbind Result_bind].
      rewrite is_datetime_drop by (by rewrite is_datetime_app, Hdt, Hdx).
      rewrite length_app. cbn [length].
      replace (length ts + 1 - 1) with (length ts + 0) by lia.
      rewrite alter_app_r. cbn [alter list_alter].
      set (df1' := setitem "timestamp" _ df1).
      assert (Hl1 : length (ts ++ [add_timedelta DAY_NS x]) = nrows df1).
      { rewrite length_app. simpl. lia. }
      destruct feature_names_day as [Hf1 Hf2].
      destruct (forecast_features_frame "day" [1; 2; 3; 7] [2; 3; 7]
                  [Mean; Std; Max; Min] no_ts df1'
                  (pm ++ drop (nrows df - 1) pm)
                  (ts ++ [add_timedelta DAY_NS x]))
        as (df2 & -> & Hwf2 & Hn2 & Hnf2 & Hc2 & Hpm2 & Hts2 & Hoth2); try done.
      + by apply wf_frame_setitem.
      + unfold df1'. rewrite nrows_setitem by done. lia.
      + apply numeric_features_setitem; [done|]. intros Hn. exfalso. apply Hn.
        apply (bool_decide_unpack _). vm_compute. exact I.
      + unfold df1'. by rewrite getcol_setitem_ne.
      + apply getcol_setitem_eq.
      + exists df2. split_and!; try done.
        * rewrite Hn2. unfold df1'. rewrite nrows_setitem by done. lia.
        * intros n Hn. by apply Hc2, columns_setitem_incl, Hcols1.
        * intros n Hn. apply not_elem_of_cons in Hn as [Hn1' Hn2'].
          rewrite (Hoth2 n Hn2'). unfold df1'. by rewrite getcol_setitem_ne.
    - destruct (decide (frequency = "hourly")) as [-> | Hhour].
      + rewrite Hts1. cbn [need mbind Result_bind].
        rewrite length_app. cbn [length].
        replace (length ts + 1 - 2) with (length ts - 1) by lia.
        rewrite lookup_app_l by lia.
        rewrite last_lookup in Hx.
        replace (length ts - 1) with (pred (length ts)) by lia.
        rewrite Hx. destruct (decide (2 ≤ length ts + 1)) as [_|]; [|lia].
        rewrite Hdx. cbv zeta.
        replace (length ts + 1 - 1) with (length ts + 0) by lia.
        rewrite insert_app_r. cbn [insert list_insert].
        set (df1' := setitem "timestamp" _ df1).
        assert (Hl1 : length (ts ++ [add_timedelta HOUR_NS x]) = nrows df1).
        { rewrite length_app. simpl. lia. }
        destruct feature_names_hour as [Hf1 Hf2].
        destruct (forecast_features_frame "hour" [1; 2; 6; 12] [3; 6; 12; 24]
                    [Mean; Std; Median; Skew] no_ts df1'
                    (pm ++ drop (nrows df - 1) pm)
                    (ts ++ [add_timedelta HOUR_NS x]))
          as (df2 & -> & Hwf2 & Hn2 & Hnf2 & Hc2 & Hpm2 & Hts2 & Hoth2); try done.
        * by apply wf_frame_setitem.
        * unfold df1'. rewrite nrows_setitem by done. lia.
        * apply numeric_features_setitem; [done|]. intros Hn. exfalso. apply Hn.
          apply (bool_decide_unpack _). vm_compute. exact I.
        * unfold df1'. by rewrite getcol_setitem_ne.
        * apply getcol_setitem_eq.
        * exists df2. split_and!; try done.
          -- rewrite Hn2. unfold df1'. rewrite nrows_setitem by done. lia.
          -- intros n Hn. by apply Hc2, columns_setitem_incl, Hcols1.
          -- intros n Hn. apply not_elem_of_cons in Hn as [Hn1' Hn2'].
             rewrite (Hoth2 n Hn2'). unfold df1'. by rewrite getcol_setitem_ne.
      + exists df1. by split_and!. }
  destruct Hmid as (df2 & Hwf2 & Hn2 & Hnf2 & Hc2 & Hpm2 & Hts2 & Hoth2 & ->).
  cbn [mbind Result_bind].
  assert (Hdt2 : is_datetime (ts ++ [next_timestamp frequency x]) = true).
  { by rewrite is_datetime_app, Hdt, is_datetime_next_timestamp. }
  destruct (forecast_predict_ok forecast_model df2 _ _ Hwf2 ltac:(lia) Hc2 Hnf2
              Hpm2 Hnum1 Hts2 Hdt2) as (df3 & Hrun & Hinv & Hn3 & Hts3 & Hoth3 & q & Hpm3).
  exists df3. split_and!; try done; [lia| |].
  - intros n Hn. apply not_elem_of_cons in Hn as [Hn1' Hn].
    apply not_elem_of_cons in Hn as [Hn2' Hn3'].
    rewrite Hoth3 by done. rewrite Hoth2 by (by apply not_elem_of_cons).
    unfold df1. by rewrite getcol_map_columns.
  - intros pm0 Hpm0. rewrite Hpm in Hpm0. injection Hpm0 as <-.
    exists q. rewrite Hpm3. f_equal.
    pose proof (wf_frame_getcol_length _ _ _ Hwf Hpm) as Hlpm.
    destruct (last pm) as [y|] eqn:Hy.
    + rewrite <- Hlpm, (drop_pred_last _ _ Hy).
      rewrite length_app. cbn [length].
      replace (length pm + 1 - 1) with (length pm + 0) by lia.
      by rewrite insert_app_r.
    + apply last_None in Hy. subst pm. simpl in Hlpm. lia.
Qed.
(** The loop never raises on a frame of the loop; [n] passes add [n]
    rows, with the timestamps [next_timestamps]. *)
Lemma forecast_loop_ok (forecast_model : Model) (frequency : string) (n : nat) :
  ∀ (df : Frame) (ts : Column) (x : Cell),
    forecast_frame df → getcol "timestamp" df = Some ts →
    is_datetime ts = true → last ts = Some x →
    ∃ out,
      forecast_loop forecast_model frequency n df = Ok out
      ∧ forecast_frame out ∧ nrows out = nrows df + n
      ∧ getcol "timestamp" out = Some (ts ++ next_timestamps frequency n x)
      ∧ (∀ m c y, m ∉ "timestamp" :: "pm2_5" :: step_feature_names frequency →
           getcol m df = Some c → last c = Some y →
           getcol m out = Some (c ++ replicate n y))
      ∧ (∀ pm0, getcol "pm2_5" df = Some pm0 →
           ∃ preds, getcol "pm2_5" out = Some (pm0 ++ (CNum <$> preds))
                    ∧ length preds = n).
Proof.
  induction n as [|n IH]; intros df ts x Hinv Hts Hdt Hx.
  - exists df. simpl. rewrite app_nil_r. split_and!; try done.
    + intros m c y _ Hc _. by rewrite app_nil_r.
    + intros pm0 Hpm0. exists []. by rewrite app_nil_r.
  - destruct (forecast_step_ok forecast_model frequency df ts x Hinv Hts Hdt Hx)
      as (df' & Hstep & Hinv' & Hn' & Hts' & Hdt' & Hoth' & Hpm').
    destruct (IH df' _ (next_timestamp frequency x) Hinv' Hts' Hdt')
      as (out & Hloop & Hout & Hn & Htso & Hoth & Hpm); [by rewrite last_snoc|].
    exists out. simpl. rewrite Hstep. simpl. split_and!; try done; [lia| | |].
    + by rewrite Htso, <- app_assoc.
    + intros m c y Hm Hc Hy.
      assert (Hc' : getcol m df' = Some (c ++ [y])).
      { rewrite (Hoth' m Hm), Hc. simpl. f_equal. f_equal.
        destruct Hinv as (Hwf & _).
        rewrite <- (wf_frame_getcol_length _ _ _ Hwf Hc).
        by apply drop_pred_last. }
      rewrite (Hoth m _ y Hm Hc') by (by rewrite last_snoc).
      by rewrite <- app_assoc.
    + intros pm0 Hpm0. destruct (Hpm' pm0 Hpm0) as (q & Hq).
      destruct (Hpm _ Hq) as (preds & Hpreds & Hlen).
      exists (q :: preds). split; [|simpl; lia].
      by rewrite Hpreds, <- app_assoc.
Qed.
End ForecastLoop.

Lemma add_timedelta_add a b x :
  add_timedelta a (add_timedelta b x) = add_timedelta (b + a) x.
Proof. destruct x; simpl; try done. f_equal. lia. Qed.

(** A branch that adds a step gives the timestamps of the
    specification. *)
Lemma next_timestamps_step frequency (step : Z) n :
  (∀ y, next_timestamp frequency y = add_timedelta step y) →
  ∀ x, next_timestamps frequency n x
       = spec_forecast_timestamps step x (Z.of_nat n).
Proof.
  intros Hstep. unfold spec_forecast_timestamps.
  induction n as [|n IH]; intros x; [done|].
  rewrite seqZ_cons by lia. cbn [next_timestamps]. rewrite fmap_cons.
  rewrite Hstep. f_equal; [f_equal; lia|].
  rewrite IH. replace (Z.pred (Z.of_nat (S n))) with (Z.of_nat n) by lia.
  rewrite <- (fmap_add_seqZ 1 1), <- list_fmap_compose.
  apply list_fmap_ext. intros i k _. cbn [compose].
  rewrite add_timedelta_add.
  by replace (step + k * step)%Z with ((1 + k) * step)%Z by lia.
Qed.

Lemma next_timestamps_hourly n x :
  next_timestamps "hourly" n x = spec_forecast_timestamps HOUR_NS x (Z.of_nat n).
Proof. by apply next_timestamps_step. Qed.

Lemma next_timestamps_daily n x :
  next_timestamps "daily" n x = spec_forecast_timestamps DAY_NS x (Z.of_nat n).
Proof. by apply next_timestamps_step. Qed.

(** Every other frequency repeats the seed's last timestamp. *)
Lemma next_timestamps_other frequency n x :
  frequency ≠ "hourly" → frequency ≠ "daily" →
  next_timestamps frequency n x = replicate n x.
Proof.
  intros Hh Hd. induction n as [|n IH]; [done|].
  cbn [next_timestamps]. unfold next_timestamp at 1 2.
  rewrite !decide_False by done. by rewrite IH.
Qed.

Section Forecasts.
Context `{Externals}.

(** X1.  The recursive forecast of one device.  On a seed with columns of one
    length, at least one row, the columns set aside before predicting, a
    numeric [pm2_5], numbers in every column that reaches the rolling
    aggregates and datetimes for timestamps, and for a positive horizon,
    [get_forecasts] returns normally, with exactly [horizon] rows.  On
    hourly data their timestamps are one hour apart, the first one hour
    after the seed's last timestamp; on daily data they are one day apart,
    the first one day after the seed's last timestamp; on any other
    frequency every returned row carries the seed's last timestamp. *)
Theorem get_forecasts_rows_and_timestamps (forecast_model : Model)
    (frequency : string) (df : Frame) (ts : Column) (x : Cell) (horizon : Z) :
  forecast_frame df → getcol "timestamp" df = Some ts →
  is_datetime ts = true → last ts = Some x →
  (0 < horizon)%Z →
  ∃ out,
    get_forecasts df forecast_model frequency horizon = Ok out
    ∧ Z.of_nat (nrows out) = horizon
    ∧ (frequency = "hourly" →
         getcol "timestamp" out = Some (spec_forecast_timestamps HOUR_NS x horizon))
    ∧ (frequency = "daily" →
         getcol "timestamp" out = Some (spec_forecast_timestamps DAY_NS x horizon))
    ∧ (frequency ≠ "hourly" → frequency ≠ "daily" →
         getcol "timestamp" out = Some (replicate (Z.to_nat horizon) x)).
Proof.
  intros Hinv Hts Hdt Hx Hh.
  destruct (forecast_loop_ok forecast_model frequency (Z.to_nat horizon)
              df ts x Hinv Hts Hdt Hx) as (out & Hloop & Hout & Hn & Htso & _).
  unfold get_forecasts. rewrite Hloop. cbn [mbind Result_bind].
  eexists. split; [reflexivity|].
  unfold iloc_from. rewrite (proj2 (Z.ltb_lt _ _)) by lia.
  replace (Z.to_nat (Z.max 0 (Z.of_nat (nrows out) + - horizon)))
    with (nrows df) by lia.
  unfold drop_rows.
  destruct Hout as (Hwf & Hpos & _).
  destruct Hinv as (Hwf0 & _).
  pose proof (wf_frame_getcol_length _ _ _ Hwf0 Hts) as Hlts.
  assert (Hne : out ≠ []) by (apply nrows_nonzero_nonempty; lia).
  destruct (wf_frame_map_columns (drop (nrows df)) (Z.to_nat horizon) out Hwf Hne)
    as [_ Hrows].
  { intros c Hc. rewrite length_drop. lia. }
  assert (Hnew : getcol "timestamp" (map_columns (drop (nrows df)) out)
                 = Some (next_timestamps frequency (Z.to_nat horizon) x)).
  { rewrite getcol_map_columns, Htso. simpl. by rewrite drop_app_length'. }
  split_and!.
  - rewrite Hrows. lia.
  - intros ->. rewrite Hnew, next_timestamps_hourly. do 2 f_equal. lia.
  - intros ->. rewrite Hnew, next_timestamps_daily. do 2 f_equal. lia.
  - intros Hf Hd. by rewrite Hnew, next_timestamps_other.
Qed.
End Forecasts.

Lemma get_forecasts_rows_and_timestamps_witness :
  ∃ out,
    get_forecasts sample_seed sample_model "daily" 3 = Ok out
    ∧ Z.of_nat (nrows out) = 3%Z
    ∧ getcol "timestamp" out
      = Some [day 19725; day 19726; day 19727].
Proof.
  destruct (get_forecasts_rows_and_timestamps sample_model "daily" sample_seed
              [day 19723; day 19724] (day 19724) 3)
    as (out & Hrun & Hrows & _ & Hday & _).
  - split_and!.
    + split; [by apply (bool_decide_unpack _)|repeat constructor].
    + simpl. lia.
    + intros n Hn. apply (bool_decide_unpack _).
      repeat (apply elem_of_cons in Hn as [->|Hn]);
        [..|by apply elem_of_nil in Hn]; vm_compute; exact I.
    + apply numeric_features_spec. reflexivity.
    + eexists. split; reflexivity.
  - reflexivity.
  - reflexivity.
  - reflexivity.
  - lia.
  - exists out. split_and!; [done..|].
    rewrite (Hday eq_refl). vm_compute. reflexivity.
Defined.


(** ** Forecasts of one device and of all devices *)

Lemma map_columns_id (f : Column → Column) (df : Frame) :
  (∀ c, f c = c) → map_columns f df = df.
Proof.
  intros Hf. unfold map_columns. induction df as [|[n c] df IH]; [done|].
  csimpl. by rewrite Hf, IH.
Qed.

Section DeviceForecasts.
Context `{Externals}.

(** The forecast of one device in full: the returned rows are the new
    ones; the columns that the loop does not assign repeat the seed's
    last cell, and [pm2_5] holds the predictions. *)
Lemma get_forecasts_ok (forecast_model : Model) (frequency : string)
    (df : Frame) (ts : Column) (x : Cell) (horizon : Z) :
  forecast_frame df → getcol "timestamp" df = Some ts →
  is_datetime ts = true → last ts = Some x → (0 < horizon)%Z →
  ∃ out,
    get_forecasts df forecast_model frequency horizon = Ok out
    ∧ wf_frame out ∧ nrows out = Z.to_nat horizon
    ∧ getcol "timestamp" out
      = Some (next_timestamps frequency (Z.to_nat horizon) x)
    ∧ (∀ m c y, m ∉ "timestamp" :: "pm2_5" :: step_feature_names frequency →
         getcol m df = Some c → last c = Some y →
         getcol m out = Some (replicate (Z.to_nat horizon) y))
    ∧ ∃ preds, getcol "pm2_5" out = Some (CNum <$> preds)
               ∧ length preds = Z.to_nat horizon.
Proof.
  intros Hinv Hts Hdt Hx Hh.
  destruct (forecast_loop_ok forecast_model frequency (Z.to_nat horizon)
              df ts x Hinv Hts Hdt Hx)
    as (out & Hloop & Hout & Hn & Htso & Hoth & Hpm).
  unfold get_forecasts. rewrite Hloop. cbn [mbind Result_bind].
  eexists. split; [reflexivity|].
  unfold iloc_from. rewrite (proj2 (Z.ltb_lt _ _)) by lia.
  replace (Z.to_nat (Z.max 0 (Z.of_nat (nrows out) + - horizon)))
    with (nrows df) by lia.
  unfold drop_rows.
  destruct Hout as (Hwf & Hpos & _).
  destruct Hinv as (Hwf0 & _ & _ & _ & pm0 & Hpm0 & _).
  assert (Hne : out ≠ []) by (apply nrows_nonzero_nonempty; lia).
  destruct (wf_frame_map_columns (drop (nrows df)) (Z.to_nat horizon) out Hwf Hne)
    as [Hwf' Hrows].
  { intros c Hc. rewrite length_drop. lia. }
  split_and!; try done.
  - rewrite getcol_map_columns, Htso. simpl.
    rewrite drop_app_length'; [done|].
    symmetry. by eapply wf_frame_getcol_length.
  - intros m c y Hm Hc Hy.
    rewrite getcol_map_columns, (Hoth m c y Hm Hc Hy). simpl.
    rewrite drop_app_length'; [done|].
    symmetry. by eapply wf_frame_getcol_length.
  - destruct (Hpm pm0 Hpm0) as (preds & Hpreds & Hlen).
    exists preds. split; [|done].
    rewrite getcol_map_columns, Hpreds. simpl.
    rewrite drop_app_length'; [done|].
    symmetry. by eapply wf_frame_getcol_length.
Qed.

(** X2.  With a horizon that is not positive the loop makes no pass and
    [iloc[-horizon:]] selects seed rows: horizon 0 gives back the whole
    seed, and horizon [-k] the seed without its first [k] rows. *)
Theorem get_forecasts_nonpositive_horizon (forecast_model : Model)
    (frequency : string) (df : Frame) (horizon : Z) :
  (horizon ≤ 0)%Z →
  get_forecasts df forecast_model frequency horizon
  = Ok (drop_rows (Nat.min (nrows df) (Z.to_nat (- horizon))) df)
  ∧ (horizon = 0%Z → get_forecasts df forecast_model frequency horizon = Ok df).
Proof.
  intros Hh.
  assert (Hrun : get_forecasts df forecast_model frequency horizon
                 = Ok (drop_rows (Nat.min (nrows df) (Z.to_nat (- horizon))) df)).
  { unfold get_forecasts. replace (Z.to_nat horizon) with 0 by lia.
    cbn [forecast_loop mbind Result_bind]. unfold iloc_from.
    rewrite (proj2 (Z.ltb_ge _ _)) by lia. do 2 f_equal. lia. }
  split; [done|]. intros ->. rewrite Hrun.
  replace (Nat.min (nrows df) (Z.to_nat (- 0))) with 0 by lia.
  unfold drop_rows. by rewrite map_columns_id.
Qed.
End DeviceForecasts.

Lemma get_forecasts_nonpositive_horizon_witness :
  get_forecasts sample_seed sample_model "hourly" 0 = Ok sample_seed
  ∧ (nrows <$> get_forecasts sample_seed sample_model "daily" (-1)) = Ok 1.
Proof.
  split.
  - apply (get_forecasts_nonpositive_horizon sample_model "hourly" sample_seed 0);
      [lia|reflexivity].
  - rewrite (proj1 (get_forecasts_nonpositive_horizon sample_model "daily"
                      sample_seed (-1) ltac:(lia))).
    reflexivity.
Defined.

(** ** Forecasts of all devices *)

Lemma length_mask_select_eq {A B} mask (c : list A) (c' : list B) :
  length c = length c' → length (mask_select mask c) = length (mask_select mask c').
Proof.
  revert c c'. induction mask as [|b mask IH]; intros [|x c] [|y c'] Hlen;
    try done. simpl in *. destruct b; simpl; auto.
Qed.

Lemma wf_frame_filter_rows mask df : wf_frame df → wf_frame (filter_rows mask df).
Proof.
  intros [Hnd Hlen]. split.
  - unfold filter_rows. by rewrite columns_map_columns.
  - destruct df as [|[n c] df]; [constructor|].
    unfold filter_rows, map_columns. apply Forall_fmap.
    eapply Forall_impl; [exact Hlen|]. intros [m c'] Hc. simpl in *.
    by apply length_mask_select_eq.
Qed.

Lemma is_numeric_mask_select mask c :
  is_numeric c = true → is_numeric (mask_select mask c) = true.
Proof.
  rewrite !is_numeric_Forall, !Forall_forall. intros Hall x Hx.
  apply Hall. by apply mask_select_sublist in Hx.
Qed.

Lemma numeric_features_filter_rows mask (df : Frame) :
  numeric_features df → numeric_features (filter_rows mask df).
Proof.
  intros Hnf. apply numeric_features_map_columns; [done|].
  intros c. apply is_numeric_mask_select.
Qed.

Lemma is_datetime_mask_select mask c :
  is_datetime c = true → is_datetime (mask_select mask c) = true.
Proof.
  unfold is_datetime. rewrite !forallb_forall. intros Hc x Hx%list_elem_of_In.
  apply Hc, list_elem_of_In. by apply mask_select_sublist in Hx.
Qed.

Lemma mask_select_mapM {A B} (f : A → option B) mask c r :
  mapM f c = Some r → mapM f (mask_select mask c) = Some (mask_select mask r).
Proof.
  revert c r. induction mask as [|b mask IH]; intros [|x c] r Hr; try done.
  - by destruct r.
  - simpl in Hr. destruct (f x) as [y|] eqn:Hy; [|done]. simpl in Hr.
    destruct (mapM f c) as [r'|] eqn:Hr'; [|done]. simpl in Hr.
    injection Hr as <-. simpl. destruct b; simpl.
    + by rewrite Hy, (IH c r' Hr').
    + by apply IH.
Qed.

Lemma mask_select_eq_mask_all (d : Cell) (dev : Column) x :
  x ∈ mask_select (eq_mask d dev) dev → x = d.
Proof.
  unfold eq_mask. induction dev as [|y dev IH]; [by intros ?%elem_of_nil|].
  csimpl. destruct (notna y && bool_decide (y = d)) eqn:Hy.
  - intros [->|Hx]%elem_of_cons; [|by apply IH].
    apply andb_true_iff in Hy as [_ Hy]. by apply bool_decide_eq_true in Hy.
  - apply IH.
Qed.

Lemma getcol_fmap_names (F : string → Column) (names : list string) n :
  n ∈ names → getcol n ((λ m, (m, F m)) <$> names) = Some (F n).
Proof.
  induction names as [|m names IH]; [by intros ?%elem_of_nil|].
  csimpl. destruct (decide (m = n)) as [->|Hne]; [done|].
  intros [->|Hn]%elem_of_cons; [done|by apply IH].
Qed.

(** [pd.concat([a, b])] on a column that one of the frames has. *)
Lemma getcol_concat2 n (a b : Frame) :
  n ∈ columns a ∨ n ∈ columns b →
  getcol n (concat2 a b)
  = Some (default (replicate (nrows a) CNull) (getcol n a)
          ++ default (replicate (nrows b) CNull) (getcol n b)).
Proof.
  intros Hn. unfold concat2.
  apply (getcol_fmap_names
    (λ m, default (replicate (nrows a) CNull) (getcol m a)
          ++ default (replicate (nrows b) CNull) (getcol m b))).
  apply elem_of_app. destruct (decide (n ∈ columns a)); [by left|right].
  apply list_elem_of_filter. split; [done|]. by destruct Hn.
Qed.

Lemma fmap_strip_id (df : Frame) :
  (∀ n, n ∈ columns df → strip n = n) → (λ p, (strip p.1, p.2)) <$> df = df.
Proof.
  induction df as [|[m c] df IH]; [done|]. rewrite columns_cons. intros Hs.
  csimpl. rewrite (Hs m) by left. f_equal. apply IH.
  intros n Hn. apply Hs. by right.
Qed.

(** A fold that keeps an invariant of the elements seen so far. *)
Lemma foldM_prefix {A B} (f : A → B → Result A) (I : list B → A → Prop) bs :
  ∀ ds a,
    I ds a →
    (∀ ds' a' b, I ds' a' → b ∈ bs → ∃ a'', f a' b = Ok a'' ∧ I (ds' ++ [b]) a'') →
    ∃ a', foldM f a bs = Ok a' ∧ I (ds ++ bs) a'.
Proof.
  induction bs as [|b bs IH]; intros ds a Ha Hf.
  - exists a. by rewrite app_nil_r.
  - destruct (Hf ds a b Ha) as (a1 & Hfa & Ha1); [left|].
    destruct (IH (ds ++ [b]) a1 Ha1) as (a' & Hfold & Ha').
    { intros ds' a2 b' Ha2 Hb'. apply Hf; [done|by right]. }
    exists a'. simpl. rewrite Hfa. simpl. by rewrite <- app_assoc in Ha'.
Qed.

Lemma last_is_Some {A} (l : list A) : l ≠ [] → ∃ x, last l = Some x.
Proof.
  intros Hl. destruct (last l) as [x|] eqn:Hx; [by exists x|].
  by apply last_None in Hx.
Qed.

Section AllDevices.
Context `{Externals}.

Lemma to_datetime_is_datetime c ts : to_datetime c = Some ts → is_datetime ts = true.
Proof.
  unfold to_datetime. intros Hc. apply mapM_Some in Hc.
  induction Hc as [|x y c ts Hxy _ IH]; [done|].
  simpl. rewrite IH, andb_true_r.
  destruct x; simplify_eq/=; try done;
    by destruct (parse_timestamp _) as [[t|]|]; simplify_eq/=.
Qed.

(** The rows of one device of a table that [generate_forecasts] has
    prepared make a frame of the loop. *)
Lemma device_rows_frame (d1 : Frame) (dev pm ts : Column) (d : Cell) :
  wf_frame d1 → (∀ n, n ∈ excluded_columns → n ∈ columns d1) →
  numeric_features d1 →
  getcol "device_id" d1 = Some dev →
  getcol "pm2_5" d1 = Some pm → is_numeric pm = true →
  getcol "timestamp" d1 = Some ts → is_datetime ts = true →
  d ∈ dev → d ≠ CNull →
  forecast_frame (filter_rows (eq_mask d dev) d1)
  ∧ getcol "timestamp" (filter_rows (eq_mask d dev) d1)
    = Some (mask_select (eq_mask d dev) ts)
  ∧ is_datetime (mask_select (eq_mask d dev) ts) = true
  ∧ (∀ n c, getcol n d1 = Some c →
       getcol n (filter_rows (eq_mask d dev) d1)
       = Some (mask_select (eq_mask d dev) c)
       ∧ last (mask_select (eq_mask d dev) c) = Some (device_last d dev c)).
Proof.
  intros Hwf Hcols Hnf Hdev Hpm Hnum Hts Hdt Hd Hnull.
  pose proof (wf_frame_getcol_length _ _ _ Hwf Hdev) as Hldev.
  assert (Hne : ∀ n c, getcol n d1 = Some c → mask_select (eq_mask d dev) c ≠ []).
  { intros n c Hc. apply eq_mask_select_nonempty; [done..|].
    rewrite Hldev, (wf_frame_getcol_length _ _ _ Hwf Hc). lia. }
  split_and!.
  - split_and!.
    + by apply wf_frame_filter_rows.
    + destruct d1 as [|[n c] d1]; [done|].
      simpl. specialize (Hne n c). simpl in Hne. rewrite decide_True in Hne by done.
      specialize (Hne eq_refl). destruct (mask_select _ c); [done|simpl; lia].
    + intros n Hn. unfold filter_rows. rewrite columns_map_columns. by apply Hcols.
    + by apply numeric_features_filter_rows.
    + exists (mask_select (eq_mask d dev) pm). split.
      * by rewrite getcol_filter_rows, Hpm.
      * by apply is_numeric_mask_select.
  - by rewrite getcol_filter_rows, Hts.
  - by apply is_datetime_mask_select.
  - intros n c Hc. split; [by rewrite getcol_filter_rows, Hc|].
    unfold device_last. destruct (last_is_Some _ (Hne n c Hc)) as [x ->]. done.
Qed.
End AllDevices.

Lemma step_feature_names_keys frequency n :
  n ∈ ["device_id"; "site_id"] →
  n ∉ "timestamp" :: "pm2_5" :: step_feature_names frequency.
Proof.
  intros Hn. unfold step_feature_names.
  repeat (apply elem_of_cons in Hn as [->|Hn]); [..|by apply elem_of_nil in Hn];
    repeat case_decide; apply (bool_decide_unpack _); vm_compute; exact I.
Qed.

Lemma is_numeric_CNum (qs : list Q) : is_numeric (CNum <$> qs) = true.
Proof. induction qs as [|q qs IH]; [done|]. csimpl. by rewrite IH. Qed.

Lemma length_filter_rows_col mask (df : Frame) n (c c' : Column) :
  wf_frame df → getcol n df = Some c → length c' = length c →
  length (mask_select mask c') = nrows (filter_rows mask df).
Proof.
  intros Hwf Hc Hlen.
  rewrite (length_mask_select_eq mask c' c Hlen).
  apply (wf_frame_getcol_length n); [by apply wf_frame_filter_rows|].
  by rewrite getcol_filter_rows, Hc.
Qed.

Lemma filter_rows_nonempty mask (df : Frame) : df ≠ [] → filter_rows mask df ≠ [].
Proof. by destruct df. Qed.

Section Generate.
Context `{Externals}.

(** The forecast table.  On a prepared table and with a model in the
    registry, [generate_forecasts] forecasts every device that occurs in
    a row, in order of first appearance. *)
Lemma generate_forecasts_ok (configuration : Configuration)
    (fs : gmap string Model) (forecast_model : Model) (data : Frame)
    (project_name bucket_name frequency : string)
    (dev0 site0 pm0 ts0 : Column) :
  wf_frame data →
  (∀ n, n ∈ excluded_columns → n ∈ columns data) →
  (∀ n, n ∈ columns data → strip n = n) →
  numeric_features data →
  getcol "device_id" data = Some dev0 →
  getcol "site_id" data = Some site0 →
  getcol "pm2_5" data = Some pm0 → is_numeric pm0 = true →
  timestamp_to_datetime data = Ok ts0 →
  fs !! (bucket_name +:+ "/" +:+ frequency +:+ "_forecast_model.pkl")
  = Some forecast_model →
  (0 < forecast_horizon configuration frequency)%Z →
  let keep := notna <$> dev0 in
  let dev := mask_select keep dev0 in
  let site := mask_select keep site0 in
  let ts := mask_select keep ts0 in
  let h := Z.to_nat (forecast_horizon configuration frequency) in
  (unique dev = [] →
     generate_forecasts configuration fs data project_name bucket_name frequency
     = Raise (KeyError "pm2_5"))
  ∧ (unique dev ≠ [] →
       ∃ preds,
         generate_forecasts configuration fs data project_name bucket_name
           frequency
         = Ok (forecast_rows frequency h dev site ts ++ [("pm2_5", CNum <$> preds)])
         ∧ length preds = h * length (unique dev)).
Proof.
  intros Hwf Hcols Hstrip Hnf Hdev Hsite Hpm Hnum Hts Hfs Hh keep dev site ts h.
  destruct (timestamp_to_datetime_inv _ _ Hts) as (c0 & Hc0 & Hconv).
  assert (Hne : data ≠ []) by (eapply columns_nonempty, getcol_is_Some; eauto).
  set (d0 := filter_rows keep data).
  assert (Hwf0 : wf_frame d0) by (by apply wf_frame_filter_rows).
  assert (Hdrop : dropna ["device_id"] data = Some d0).
  { rewrite (dropna_single "device_id" data dev0 Hdev); [done|].
    by eapply wf_frame_getcol_length. }
  assert (Hts0 : timestamp_to_datetime d0 = Ok ts).
  { unfold timestamp_to_datetime, d0. rewrite getcol_filter_rows, Hc0.
    cbn [fmap option_fmap option_map mbind option_bind].
    unfold to_datetime in *. by rewrite (mask_select_mapM _ keep _ _ Hconv). }
  set (d1 := setitem "timestamp" ts d0).
  assert (Hlts : length ts = nrows d0).
  { apply (length_filter_rows_col keep data "timestamp" c0); [done..|].
    by apply to_datetime_length in Hconv. }
  assert (Hne0 : d0 ≠ []) by (by apply filter_rows_nonempty).
  assert (Hwf1 : wf_frame d1) by (by apply wf_frame_setitem).
  assert (Hcol1 : columns d1 = columns data).
  { unfold d1. rewrite columns_setitem_in.
    - unfold d0, filter_rows. by rewrite columns_map_columns.
    - unfold d0, filter_rows. rewrite columns_map_columns.
      apply getcol_is_Some. eauto. }
  assert (Hother : ∀ n c, n ≠ "timestamp" → getcol n data = Some c →
            getcol n d1 = Some (mask_select keep c)).
  { intros n c Hn Hc. unfold d1, d0.
    by rewrite getcol_setitem_ne, getcol_filter_rows, Hc. }
  assert (Hts1 : getcol "timestamp" d1 = Some ts) by apply getcol_setitem_eq.
  assert (Hdt1 : is_datetime ts = true).
  { apply is_datetime_mask_select. by eapply to_datetime_is_datetime. }
  pose proof (Hother "device_id" dev0 ltac:(done) Hdev) as Hdev1.
  pose proof (Hother "site_id" site0 ltac:(done) Hsite) as Hsite1.
  pose proof (Hother "pm2_5" pm0 ltac:(done) Hpm) as Hpm1.
  fold dev in Hdev1. fold site in Hsite1.
  assert (Hnum1 : is_numeric (mask_select keep pm0) = true)
    by (by apply is_numeric_mask_select).
  assert (Hcols1 : ∀ n, n ∈ excluded_columns → n ∈ columns d1).
  { intros n Hn. rewrite Hcol1. by apply Hcols. }
  assert (Hnull : ∀ d, d ∈ dev → d ≠ CNull).
  { intros d Hd. unfold dev, keep in Hd. rewrite mask_select_notna in Hd.
    by apply list_elem_of_filter in Hd as [Hd _]. }
  assert (Hnf1 : numeric_features d1).
  { apply numeric_features_setitem; [by apply numeric_features_filter_rows|].
    intros Hn. exfalso. apply Hn. unfold no_ts_columns. set_solver. }
  (* the run up to the loop over the devices *)
  unfold generate_forecasts. rewrite Hdrop. cbn [need mbind Result_bind].
  rewrite Hts0. cbn [mbind Result_bind]. fold d1.
  rewrite fmap_strip_id by (intros n Hn; apply Hstrip; by rewrite <- Hcol1).
  unfold get_trained_model_from_gcs. rewrite Hfs. cbn [mbind Result_bind].
  rewrite Hdev1. cbn [need mbind Result_bind].
  fold (forecast_horizon configuration frequency).
  (* the loop *)
  pose (Inv := λ (ds : list Cell) (acc : Frame),
          (ds = [] ∧ acc = [])
          ∨ (ds ≠ []
             ∧ getcol "device_id" acc = Some (ds ≫= λ d, replicate h d)
             ∧ getcol "site_id" acc
               = Some (ds ≫= λ d, replicate h (device_last d dev site))
             ∧ getcol "timestamp" acc
               = Some (ds ≫= λ d, next_timestamps frequency h (device_last d dev ts))
             ∧ ∃ preds, getcol "pm2_5" acc = Some (CNum <$> preds)
                        ∧ length preds = h * length ds)).
  destruct (foldM_prefix
              (λ forecasts device,
                 device_forecasts ←
                   get_forecasts (filter_rows (eq_mask device dev) d1)
                     forecast_model frequency
                     (forecast_horizon configuration frequency);
                 Ok (concat2 forecasts device_forecasts))
              Inv (unique dev) [] []) as (acc & Hfold & Hacc).
  { by left. }
  { intros ds acc b Hinv Hb.
    apply (proj1 (unique_elem_of _ _)) in Hb.
    destruct (device_rows_frame d1 dev _ ts b Hwf1 Hcols1 Hnf1 Hdev1 Hpm1 Hnum1
                Hts1 Hdt1 Hb (Hnull b Hb)) as (Hframe & Htsb & Hdtb & Hcolsb).
    destruct (Hcolsb _ _ Hts1) as [_ Hlast_ts].
    destruct (get_forecasts_ok forecast_model frequency _ _ _
                (forecast_horizon configuration frequency)
                Hframe Htsb Hdtb Hlast_ts Hh)
      as (out & -> & Hwfo & Hno & Htso & Hoth & preds & Hpo & Hlp).
    fold h in Hno, Htso, Hoth, Hlp.
    destruct (Hcolsb _ _ Hdev1) as [Hdevb Hlast_dev].
    destruct (Hcolsb _ _ Hsite1) as [Hsiteb Hlast_site].
    pose proof (Hoth _ _ _ (step_feature_names_keys frequency "device_id"
                  ltac:(apply (bool_decide_unpack _); vm_compute; exact I))
                  Hdevb Hlast_dev) as Hdo.
    pose proof (Hoth _ _ _ (step_feature_names_keys frequency "site_id"
                  ltac:(apply (bool_decide_unpack _); vm_compute; exact I))
                  Hsiteb Hlast_site) as Hso.
    assert (Hbd : device_last b dev dev = b).
    { destruct (last_is_Some (mask_select (eq_mask b dev) dev)) as [x Hx].
      - apply eq_mask_select_nonempty; [done|by apply Hnull|lia].
      - unfold device_last. rewrite Hx. simpl.
        apply (mask_select_eq_mask_all b dev).
        apply last_Some in Hx as [l' ->]. apply elem_of_app. right. left. }
    rewrite Hbd in Hdo.
    eexists. split; [reflexivity|]. right.
    assert (Hin : ∀ n c, getcol n out = Some c → n ∈ columns acc ∨ n ∈ columns out).
    { intros n c Hc. right. apply getcol_is_Some. eauto. }
    split; [by destruct ds|].
    rewrite !bind_app. cbn [mbind list_bind]. rewrite !app_nil_r.
    rewrite (getcol_concat2 "device_id") by eauto.
    rewrite (getcol_concat2 "site_id") by eauto.
    rewrite (getcol_concat2 "timestamp") by eauto.
    rewrite (getcol_concat2 "pm2_5") by eauto.
    rewrite Hdo, Hso, Htso, Hpo. cbn [default].
    destruct Hinv as [[-> ->] | (Hds & Ha1 & Ha2 & Ha3 & pa & Ha4 & Hla)].
    - simpl. split_and!; try done. exists preds. split; [done|]. simpl. lia.
    - rewrite Ha1, Ha2, Ha3, Ha4. cbn [default]. split_and!; try done.
      exists (pa ++ preds). split; [by rewrite fmap_app|].
      rewrite !length_app. simpl. lia. }
  rewrite Hfold. cbn [mbind Result_bind]. simpl in Hacc.
  split.
  - intros Hnil. rewrite Hnil in Hacc.
    destruct Hacc as [[_ ->] | [? _]]; done.
  - intros Hdevs.
    destruct Hacc as [[? _] | (_ & Ha1 & Ha2 & Ha3 & preds & Ha4 & Hla)]; [done|].
    exists preds. split; [|done].
    rewrite Ha4. cbn [need mbind Result_bind]. rewrite is_numeric_CNum.
    unfold select_columns. cbn [mapM]. rewrite Ha1, Ha2, Ha3, Ha4. done.
Qed.
End Generate.

Lemma length_next_timestamps frequency n x :
  length (next_timestamps frequency n x) = n.
Proof. revert x. induction n as [|n IH]; intros x; simpl; [done|by rewrite IH]. Qed.

Lemma length_bind_blocks {A B} (F : A → list B) (h : nat) (ds : list A) :
  (∀ d, length (F d) = h) → length (ds ≫= F) = h * length ds.
Proof.
  intros HF. induction ds as [|d ds IH]; [simpl; lia|].
  rewrite bind_cons, length_app, HF, IH. simpl. lia.
Qed.

Lemma filter_replicate_eq {A} `{EqDecision A} (h : nat) (d d' : A) :
  filter (λ x, x = d) (replicate h d') = if decide (d' = d) then replicate h d' else [].
Proof.
  induction h as [|h IH]; simpl; [by case_decide|].
  rewrite filter_cons, IH. by repeat case_decide.
Qed.

(** In a column made of one block of [h] cells per device, every device
    has [h] cells. *)
Lemma count_bind_replicate {A} `{EqDecision A} (h : nat) (ds : list A) d :
  NoDup ds → d ∈ ds →
  length (filter (λ x, x = d) (ds ≫= λ d', replicate h d')) = h.
Proof.
  intros Hnd Hd. induction ds as [|d' ds IH]; [by apply elem_of_nil in Hd|].
  apply NoDup_cons in Hnd as [Hd' Hnd].
  rewrite bind_cons, filter_app, length_app, filter_replicate_eq.
  destruct (decide (d' = d)) as [->|Hne].
  - rewrite length_replicate.
    assert (Hnone : filter (λ x, x = d) (ds ≫= λ d', replicate h d') = []).
    { clear IH Hnd Hd. induction ds as [|e ds IH]; [done|].
      apply not_elem_of_cons in Hd' as [Hne Hd'].
      rewrite bind_cons, filter_app, filter_replicate_eq.
      rewrite decide_False by done. by rewrite IH. }
    rewrite Hnone. simpl. lia.
  - apply elem_of_cons in Hd as [->|Hd]; [done|]. by rewrite IH.
Qed.

Section GenerateRows.
Context `{Externals}.

(** X3.  On a table with columns of one length and stripped names, the
    columns [device_id], [site_id], [pm2_5], [timestamp], [latitude] and
    [longitude], numbers in [pm2_5] and in every column other than
    [timestamp], [device_id] and [site_id], and convertible timestamps,
    with a model in the registry under the key of the frequency and a
    positive horizon, [generate_forecasts] returns a table with exactly the
    columns [device_id], [site_id], [timestamp], [pm2_5]: one block of
    [horizon] rows for every device of a row that has one, in order of
    first appearance, with the device, its last site, numeric forecasts
    and, on hourly data, the hours that follow the device's last
    timestamp, on daily data the days that follow it.  Rows without a
    device are left out, and a table without any device raises a
    [KeyError]. *)
Theorem generate_forecasts_rows_per_device (configuration : Configuration)
    (fs : gmap string Model) (forecast_model : Model) (data : Frame)
    (project_name bucket_name frequency : string)
    (dev0 site0 pm0 ts0 : Column) :
  wf_frame data →
  (∀ n, n ∈ excluded_columns → n ∈ columns data) →
  (∀ n, n ∈ columns data → strip n = n) →
  numeric_features data →
  getcol "device_id" data = Some dev0 →
  getcol "site_id" data = Some site0 →
  getcol "pm2_5" data = Some pm0 → is_numeric pm0 = true →
  timestamp_to_datetime data = Ok ts0 →
  fs !! (bucket_name +:+ "/" +:+ frequency +:+ "_forecast_model.pkl")
  = Some forecast_model →
  (0 < forecast_horizon configuration frequency)%Z →
  let keep := notna <$> dev0 in
  let dev := mask_select keep dev0 in
  let site := mask_select keep site0 in
  let ts := mask_select keep ts0 in
  let horizon := forecast_horizon configuration frequency in
  let run :=
    generate_forecasts configuration fs data project_name bucket_name frequency in
  (dev = [] → run = Raise (KeyError "pm2_5"))
  ∧ (dev ≠ [] →
       ∃ out device_id preds,
         run = Ok out
         ∧ columns out = ["device_id"; "site_id"; "timestamp"; "pm2_5"]
         ∧ Z.of_nat (nrows out) = (horizon * Z.of_nat (length (unique dev)))%Z
         ∧ getcol "device_id" out = Some device_id
         ∧ device_id = (unique dev ≫= λ d, replicate (Z.to_nat horizon) d)
         ∧ (∀ d, d ∈ dev →
              Z.of_nat (length (filter (λ x, x = d) device_id)) = horizon)
         ∧ (CNull ∉ device_id)
         ∧ getcol "site_id" out
           = Some (unique dev ≫= λ d,
                     replicate (Z.to_nat horizon) (device_last d dev site))
         ∧ getcol "pm2_5" out = Some (CNum <$> preds)
         ∧ length preds = length device_id
         ∧ (frequency = "hourly" →
              getcol "timestamp" out
              = Some (unique dev ≫= λ d,
                        spec_forecast_timestamps HOUR_NS (device_last d dev ts)
                          horizon))
         ∧ (frequency = "daily" →
              getcol "timestamp" out
              = Some (unique dev ≫= λ d,
                        spec_forecast_timestamps DAY_NS (device_last d dev ts)
                          horizon))).
Proof.
  intros Hwf Hcols Hstrip Hnf Hdev Hsite Hpm Hnum Hts Hfs Hh keep dev site ts
    horizon run.
  destruct (generate_forecasts_ok configuration fs forecast_model data
              project_name bucket_name frequency dev0 site0 pm0 ts0
              Hwf Hcols Hstrip Hnf Hdev Hsite Hpm Hnum Hts Hfs Hh) as [Hnone Hsome].
  fold keep dev site ts in Hnone, Hsome. fold run in Hnone, Hsome.
  split.
  - intros Hnil. apply Hnone. by rewrite Hnil.
  - intros Hne.
    assert (Hu : unique dev ≠ []).
    { destruct dev as [|d dev']; [done|]. done. }
    destruct (Hsome Hu) as (preds & Hrun & Hlen).
    eexists _, _, preds. split; [exact Hrun|].
    unfold forecast_rows. fold horizon. cbn [app].
    split_and!; try done.
    + cbn [nrows]. rewrite (length_bind_blocks _ (Z.to_nat horizon)); [lia|].
      intros d. apply length_replicate.
    + intros d Hd. rewrite count_bind_replicate; [lia|apply unique_NoDup|].
      by apply unique_elem_of.
    + intros Hin. apply list_elem_of_bind in Hin as (d & Hin & Hd).
      apply elem_of_replicate in Hin as [<- _].
      apply (proj1 (unique_elem_of _ _)) in Hd.
      unfold dev, keep in Hd. rewrite mask_select_notna in Hd.
      by apply list_elem_of_filter in Hd as [Hd _].
    + rewrite Hlen. symmetry. apply length_bind_blocks.
      intros d. apply length_replicate.
    + intros ->. simpl. f_equal.
      apply list_bind_ext; [|done]. intros d.
      rewrite next_timestamps_hourly. unfold horizon.
      by rewrite Z2Nat.id by lia.
    + intros ->. simpl. f_equal.
      apply list_bind_ext; [|done]. intros d.
      rewrite next_timestamps_daily. unfold horizon.
      by rewrite Z2Nat.id by lia.
Qed.
End GenerateRows.

Lemma generate_forecasts_rows_per_device_witness :
  ∃ out,
    generate_forecasts sample_configuration sample_models sample_two_devices
      "airqo" "models" "hourly" = Ok out
    ∧ columns out = ["device_id"; "site_id"; "timestamp"; "pm2_5"]
    ∧ getcol "device_id" out = Some [CStr "a"; CStr "a"; CStr "b"; CStr "b"]
    ∧ getcol "timestamp" out = Some [hour 12; hour 13; hour 11; hour 12].
Proof.
  destruct (generate_forecasts_rows_per_device sample_configuration sample_models
              sample_model sample_two_devices "airqo" "models" "hourly"
              [CStr "a"; CStr "b"; CNull; CStr "a"]
              [CStr "s1"; CStr "s2"; CStr "s3"; CStr "s1"]
              [num 10; num 30; num 50; num 12]
              [hour 10; hour 10; hour 11; hour 11]) as [_ Hrun].
  - split; [by apply (bool_decide_unpack _)|repeat constructor].
  - intros n Hn. apply (bool_decide_unpack _).
    repeat (apply elem_of_cons in Hn as [->|Hn]);
      [..|by apply elem_of_nil in Hn]; vm_compute; exact I.
  - intros n Hn. unfold sample_two_devices in Hn. rewrite !columns_cons in Hn.
    repeat (apply elem_of_cons in Hn as [->|Hn]);
      [..|by apply elem_of_nil in Hn]; reflexivity.
  - apply numeric_features_spec. reflexivity.
  - reflexivity.
  - reflexivity.
  - reflexivity.
  - reflexivity.
  - reflexivity.
  - reflexivity.
  - reflexivity.
  - cbv zeta in Hrun.
    destruct Hrun as (out & device_id & preds & Hrun & Hcols & _ & Hdev & Hd
                      & _ & _ & _ & _ & _ & Hts & _); [done|].
    exists out. split_and!; [done|done| |].
    + rewrite Hdev, Hd. reflexivity.
    + rewrite (Hts eq_refl). reflexivity.
Defined.

(** ** Repeated runs of the sink *)

Lemma matches_set_fields doc e (d : gmap string Value) :
  matches (filter_query doc) (set_fields (update_query e) d)
  = matches (filter_query doc) d.
Proof.
  apply eq_true_iff_eq. rewrite !matches_filter_query.
  by rewrite !set_fields_update_query.
Qed.

Lemma document_of_Some doc collection i d :
  document_of doc collection = Some (i, d)
  ↔ collection !! i = Some d ∧ matches (filter_query doc) d = true
    ∧ ∀ j dj, collection !! j = Some dj → j < i →
        matches (filter_query doc) dj ≠ true.
Proof.
  unfold document_of.
  apply (list_find_Some (λ d, matches (filter_query doc) d = true)).
Qed.

Lemma update_one_found doc e collection i d :
  document_of e collection = Some (i, d) →
  update_one (filter_query e) (update_query doc) collection
  = <[i := set_fields (update_query doc) d]> collection.
Proof. unfold document_of, update_one. by intros ->. Qed.

Lemma update_one_new doc e collection :
  document_of e collection = None →
  update_one (filter_query e) (update_query doc) collection
  = collection ++ [set_fields (update_query doc) (set_fields (filter_query e) ∅)].
Proof. unfold document_of, update_one. by intros ->. Qed.

(** After its upsert a document of [doc] is there and carries [doc]. *)
Lemma update_one_carries doc collection :
  ∃ i d, document_of doc (update_one (filter_query doc) (update_query doc) collection)
         = Some (i, d)
         ∧ carries doc d
         ∧ length (update_one (filter_query doc) (update_query doc) collection)
           = (if document_of doc collection is Some _ then length collection
              else S (length collection)).
Proof.
  destruct (document_of doc collection) as [[i d]|] eqn:Hfind.
  - rewrite (update_one_found _ _ _ _ _ Hfind).
    apply document_of_Some in Hfind as (Hi & Hd & Hfirst).
    exists i, (set_fields (update_query doc) d). split_and!.
    + apply document_of_Some. split_and!.
      * apply list_lookup_insert_eq. by eapply lookup_lt_Some.
      * by rewrite matches_set_fields.
      * intros j dj Hj Hlt. rewrite list_lookup_insert_ne in Hj by lia.
        by apply (Hfirst j).
    + unfold carries. by rewrite !set_fields_update_query.
    + by rewrite length_insert.
  - rewrite (update_one_new _ _ _ Hfind).
    apply list_find_None in Hfind.
    exists (length collection),
      (set_fields (update_query doc) (set_fields (filter_query doc) ∅)).
    split_and!.
    + apply document_of_Some. split_and!.
      * rewrite lookup_app_r by lia. by rewrite Nat.sub_diag.
      * rewrite matches_set_fields. apply matches_filter_query.
        unfold set_fields, filter_query. simpl.
        by rewrite lookup_insert_ne, !lookup_insert_eq.
      * intros j dj Hj Hlt. rewrite lookup_app_l in Hj by lia.
        rewrite Forall_forall in Hfind. apply Hfind.
        by eapply list_elem_of_lookup_2.
    + unfold carries. by rewrite !set_fields_update_query.
    + rewrite length_app. simpl. lia.
Qed.

(** The upsert of a document of another device leaves the document of
    [doc] in its place and as it was. *)
Lemma update_one_other doc e collection i d :
  doc_device_id e ≠ doc_device_id doc →
  document_of doc collection = Some (i, d) →
  document_of doc (update_one (filter_query e) (update_query e) collection)
  = Some (i, d).
Proof.
  intros Hne Hfind.
  apply document_of_Some in Hfind as Hfind'. destruct Hfind' as (Hi & Hd & Hfirst).
  destruct (document_of e collection) as [[j dj]|] eqn:He.
  - rewrite (update_one_found _ _ _ _ _ He).
    apply document_of_Some in He as (Hj & Hdj & _).
    assert (Hij : i ≠ j).
    { intros ->. rewrite Hi in Hj. injection Hj as ->.
      apply matches_filter_query in Hd as [Hd _].
      apply matches_filter_query in Hdj as [Hdj _].
      rewrite Hd in Hdj. by injection Hdj. }
    apply document_of_Some. split_and!; [|done|].
    + by rewrite list_lookup_insert_ne.
    + intros k dk Hk Hlt. destruct (decide (k = j)) as [->|Hkj].
      * rewrite list_lookup_insert_eq in Hk by (by eapply lookup_lt_Some).
        assert (Hdk : dk = set_fields (update_query e) dj) by congruence.
        rewrite Hdk, matches_set_fields. by apply (Hfirst j).
      * rewrite list_lookup_insert_ne in Hk by done. by apply (Hfirst k).
  - rewrite (update_one_new _ _ _ He).
    apply document_of_Some. split_and!; [|done|].
    + rewrite lookup_app_l; [done|]. by eapply lookup_lt_Some.
    + intros k dk Hk Hlt. rewrite lookup_app_l in Hk.
      * by apply (Hfirst k).
      * apply lookup_lt_Some in Hi. lia.
Qed.

Lemma upsert_all_other doc docs collection i d :
  Forall (λ e, doc_device_id e ≠ doc_device_id doc) docs →
  document_of doc collection = Some (i, d) →
  document_of doc (upsert_all docs collection) = Some (i, d).
Proof.
  revert collection. induction docs as [|e docs IH]; intros collection Hne Hfind;
    [done|].
  apply Forall_cons in Hne as [He Hne]. simpl.
  apply IH; [done|]. by apply update_one_other.
Qed.

(** After the upserts of documents of different devices, each has its
    document, which carries it. *)
Lemma upsert_all_carries docs collection doc :
  NoDup (doc_device_id <$> docs) → doc ∈ docs →
  ∃ i d, document_of doc (upsert_all docs collection) = Some (i, d) ∧ carries doc d.
Proof.
  revert collection. induction docs as [|e docs IH]; intros collection Hnd Hdoc;
    [by apply elem_of_nil in Hdoc|].
  rewrite fmap_cons in Hnd. apply NoDup_cons in Hnd as [He Hnd].
  apply elem_of_cons in Hdoc as [->|Hdoc].
  - destruct (update_one_carries e collection) as (i & d & Hfind & Hcarries & _).
    exists i, d. split; [|done]. simpl. apply upsert_all_other; [|done].
    apply Forall_forall. intros e' He' Heq. apply He.
    rewrite <- Heq. apply list_elem_of_fmap. by exists e'.
  - simpl. by apply IH.
Qed.

(** Upserts of documents that all have a document already add none. *)
Lemma upsert_all_length docs collection :
  Forall (λ doc, is_Some (document_of doc collection)) docs →
  length (upsert_all docs collection) = length collection.
Proof.
  revert collection. induction docs as [|e docs IH]; intros collection Hall;
    [done|].
  apply Forall_cons in Hall as [[[i d] He] Hall]. simpl.
  rewrite IH.
  - rewrite (update_one_found _ _ _ _ _ He). apply length_insert.
  - eapply Forall_impl; [exact Hall|]. intros doc [[j dj] Hdoc].
    destruct (decide (doc_device_id e = doc_device_id doc)) as [Heq|Hne].
    + (* the same device: the same document may be the one updated *)
      rewrite (update_one_found _ _ _ _ _ He).
      apply document_of_Some in Hdoc as (Hj & Hdj & Hfirst).
      apply (list_find_elem_of _ _ (if decide (j = i)
               then set_fields (update_query e) d else dj)).
      * apply list_elem_of_lookup. exists j. case_decide as Hji.
        -- subst j. apply list_lookup_insert_eq. by eapply lookup_lt_Some.
        -- by rewrite list_lookup_insert_ne.
      * case_decide as Hji; [|done]. subst j.
        rewrite matches_set_fields.
        apply document_of_Some in He as (Hi & _ & _).
        rewrite Hi in Hj. by injection Hj as ->.
    + exists (j, dj). by apply update_one_other.
Qed.

Lemma device_doc_devices created_at dev site pm ts (ds : list Cell) :
  doc_device_id <$> (device_doc created_at dev site pm ts <$> ds) = ds.
Proof. rewrite <- list_fmap_compose. by rewrite <- (list_fmap_id ds) at 2. Qed.

(** A run of the sink on a table with the four columns and no missing
    device: the documents of the devices are upserted in order, except
    those whose write fails, which are logged. *)
Lemma save_forecasts_run (db : Database) (failure : ForecastDoc → option string)
    (created_at : string) (data : Frame) (frequency : string)
    (dev site pm ts : Column) :
  getcol "device_id" data = Some dev →
  getcol "site_id" data = Some site →
  getcol "pm2_5" data = Some pm →
  getcol "timestamp" data = Some ts →
  length dev ≤ length site →
  CNull ∉ dev →
  frequency = "hourly" ∨ frequency = "daily" →
  let docs := device_doc created_at dev site pm ts <$> unique dev in
  ∃ db',
    save_forecasts_to_mongo db failure created_at data frequency
    = Ok (db', omap (λ doc, (λ e, (doc_device_id doc, e)) <$> failure doc) docs)
    ∧ forecast_collection frequency db'
      = upsert_all (filter (λ doc, failure doc = None) docs)
          (forecast_collection frequency db).
Proof.
  intros Hdev Hsite Hpm Hts Hlen Hnull Hfreq docs.
  assert (Hdocs : mapM_result (forecast_doc data created_at) (unique dev) = Ok docs).
  { apply mapM_result_fmap. intros i Hi.
    apply (proj1 (unique_elem_of _ _)) in Hi.
    apply forecast_doc_ok; try done. by intros ->. }
  unfold save_forecasts_to_mongo. rewrite Hdev. simpl. rewrite Hdocs. simpl.
  rewrite !write_forecasts_spec. unfold forecast_collection.
  destruct Hfreq as [-> | ->]; simpl; eexists; (split; [reflexivity|]); done.
Qed.

Lemma filter_all {A} (P : A → Prop) `{∀ x, Decision (P x)} (l : list A) :
  (∀ x, P x) → filter P l = l.
Proof.
  intros HP. induction l as [|x l IH]; [done|].
  by rewrite filter_cons, decide_True, IH.
Qed.

Lemma omap_none {A B} (l : list A) : omap (λ _ : A, @None B) l = [].
Proof. by induction l. Qed.

(** X4.  A second run of the sink for the same devices and sites, with a
    driver that does not fail, adds no document: every device's document
    is updated in place and afterwards carries the values, timestamps and
    creation time of the second run. *)
Theorem sink_rerun_updates_in_place (db : Database)
    (created_at created_at' : string) (data data' : Frame) (frequency : string)
    (dev site pm ts pm' ts' : Column) :
  getcol "device_id" data = Some dev →
  getcol "site_id" data = Some site →
  getcol "pm2_5" data = Some pm →
  getcol "timestamp" data = Some ts →
  getcol "device_id" data' = Some dev →
  getcol "site_id" data' = Some site →
  getcol "pm2_5" data' = Some pm' →
  getcol "timestamp" data' = Some ts' →
  length dev ≤ length site →
  CNull ∉ dev →
  frequency = "hourly" ∨ frequency = "daily" →
  ∃ db1 db2,
    save_forecasts_to_mongo db (λ _, None) created_at data frequency
    = Ok (db1, [])
    ∧ save_forecasts_to_mongo db1 (λ _, None) created_at' data' frequency
      = Ok (db2, [])
    ∧ length (forecast_collection frequency db2)
      = length (forecast_collection frequency db1)
    ∧ ∀ device, device ∈ dev →
        ∃ i d,
          document_of (device_doc created_at' dev site pm' ts' device)
            (forecast_collection frequency db2) = Some (i, d)
          ∧ d !! "device_id" = Some (VCell device)
          ∧ carries (device_doc created_at' dev site pm' ts' device) d.
Proof.
  intros Hdev Hsite Hpm Hts Hdev' Hsite' Hpm' Hts' Hlen Hnull Hfreq.
  destruct (save_forecasts_run db (λ _, None) created_at data frequency
              dev site pm ts Hdev Hsite Hpm Hts Hlen Hnull Hfreq)
    as (db1 & Hrun1 & Hc1).
  destruct (save_forecasts_run db1 (λ _, None) created_at' data' frequency
              dev site pm' ts' Hdev' Hsite' Hpm' Hts' Hlen Hnull Hfreq)
    as (db2 & Hrun2 & Hc2).
  cbv zeta in *. cbn [fmap option_fmap option_map] in Hrun1, Hrun2.
  rewrite omap_none in Hrun1, Hrun2.
  rewrite filter_all in Hc1, Hc2 by done.
  exists db1, db2. split_and!; [done|done| |].
  - rewrite Hc2. apply upsert_all_length.
    apply Forall_fmap, Forall_forall. intros device Hd. simpl.
    destruct (upsert_all_carries
                (device_doc created_at dev site pm ts <$> unique dev)
                (forecast_collection frequency db)
                (device_doc created_at dev site pm ts device))
      as (i & d & Hfind & _).
    + rewrite device_doc_devices. apply unique_NoDup.
    + apply list_elem_of_fmap. by exists device.
    + exists (i, d). rewrite Hc1. exact Hfind.
  - intros device Hd.
    destruct (upsert_all_carries
                (device_doc created_at' dev site pm' ts' <$> unique dev)
                (forecast_collection frequency db1)
                (device_doc created_at' dev site pm' ts' device))
      as (i & d & Hfind & Hcarries).
    + rewrite device_doc_devices. apply unique_NoDup.
    + apply list_elem_of_fmap. exists device. split; [done|].
      by apply unique_elem_of.
    + exists i, d. rewrite Hc2. split_and!; [done| |done].
      apply document_of_Some in Hfind as (_ & Hm & _).
      by apply matches_filter_query in Hm as [Hm _].
Qed.

Lemma sink_rerun_updates_in_place_witness :
  ∃ db1 db2,
    save_forecasts_to_mongo empty_database (λ _, None) "2024-01-01T00:00:00"
      sample_two_sites "hourly" = Ok (db1, [])
    ∧ save_forecasts_to_mongo db1 (λ _, None) "2024-01-02T00:00:00"
        sample_two_sites_later "hourly" = Ok (db2, [])
    ∧ length (hourly_forecasts_1 db1) = 2
    ∧ length (hourly_forecasts_1 db2) = 2
    ∧ (hourly_forecasts_1 db2 !! 0 ≫= (.!! "created_at"))
      = Some (VStr "2024-01-02T00:00:00").
Proof.
  destruct (sink_rerun_updates_in_place empty_database "2024-01-01T00:00:00"
              "2024-01-02T00:00:00" sample_two_sites sample_two_sites_later
              "hourly" _ _ _ _ _ _ eq_refl eq_refl eq_refl eq_refl
              eq_refl eq_refl eq_refl eq_refl)
    as (db1 & db2 & Hrun1 & Hrun2 & Hlen & _).
  - simpl. lia.
  - apply (bool_decide_unpack _). vm_compute. exact I.
  - by left.
  - exists db1, db2. split; [done|]. split; [done|].
    vm_compute in Hrun1. injection Hrun1 as <-.
    vm_compute in Hrun2. injection Hrun2 as <-.
    split_and!; vm_compute; reflexivity.
Defined.

(** ** From the forecast table to the sink *)

Lemma eq_mask_app d (a b : Column) : eq_mask d (a ++ b) = eq_mask d a ++ eq_mask d b.
Proof. unfold eq_mask. apply fmap_app. Qed.

Lemma mask_select_app {A} (m1 m2 : list bool) (c1 c2 : list A) :
  length m1 = length c1 →
  mask_select (m1 ++ m2) (c1 ++ c2) = mask_select m1 c1 ++ mask_select m2 c2.
Proof.
  revert c1. induction m1 as [|b m1 IH]; intros [|x c1] Hlen; try done.
  simpl in *. destruct b; simpl; rewrite IH by lia; done.
Qed.

Lemma eq_mask_replicate h (d d' : Cell) :
  eq_mask d (replicate h d')
  = replicate h (notna d' && bool_decide (d' = d)).
Proof. unfold eq_mask. by rewrite fmap_replicate. Qed.

Lemma mask_select_true {A} (c : list A) :
  mask_select (replicate (length c) true) c = c.
Proof. induction c as [|x c IH]; simpl; [done|by rewrite IH]. Qed.

Lemma mask_select_false_all {A} (c : list A) :
  mask_select (replicate (length c) false) c = [].
Proof. induction c as [|x c IH]; simpl; [done|by rewrite IH]. Qed.

(** In columns made of one block of [h] cells per device, the rows of a
    device are its block. *)
Lemma mask_select_block {A} (F : Cell → list A) (h : nat) (ds : list Cell) d :
  (∀ x, length (F x) = h) → NoDup ds → d ∈ ds → d ≠ CNull →
  mask_select (eq_mask d (ds ≫= λ x, replicate h x)) (ds ≫= F) = F d.
Proof.
  intros HF Hnd Hd Hnull.
  assert (Hout : ∀ es, d ∉ es →
            mask_select (eq_mask d (es ≫= λ x, replicate h x)) (es ≫= F) = []).
  { induction es as [|e es IH]; intros He; [done|].
    apply not_elem_of_cons in He as [Hne He].
    rewrite !bind_cons, eq_mask_app, mask_select_app
      by (unfold eq_mask; by rewrite length_fmap, length_replicate, HF).
    rewrite IH, app_nil_r by done. rewrite eq_mask_replicate.
    rewrite (bool_decide_eq_false_2 (e = d)) by done. rewrite andb_false_r.
    rewrite <- (HF e). apply mask_select_false_all. }
  induction ds as [|e ds IH]; [by apply elem_of_nil in Hd|].
  apply NoDup_cons in Hnd as [He Hnd].
  rewrite !bind_cons, eq_mask_app, mask_select_app
    by (unfold eq_mask; by rewrite length_fmap, length_replicate, HF).
  rewrite eq_mask_replicate.
  destruct (decide (e = d)) as [->|Hne].
  - rewrite Hout, app_nil_r by done.
    rewrite bool_decide_eq_true_2 by done.
    replace (notna d && true) with true by (by destruct d).
    rewrite <- (HF d) at 1. apply mask_select_true.
  - apply elem_of_cons in Hd as [->|Hd]; [done|].
    rewrite (bool_decide_eq_false_2 (e = d)) by done. rewrite andb_false_r.
    rewrite <- (HF e) at 1. rewrite mask_select_false_all. simpl. by apply IH.
Qed.

Lemma filter_ne_notin {A} `{EqDecision A} (x : A) (l : list A) :
  x ∉ l → filter (λ y, y ≠ x) l = l.
Proof.
  induction l as [|y l IH]; intros Hx; [done|].
  apply not_elem_of_cons in Hx as [Hne Hx].
  rewrite filter_cons, decide_True by done. by rewrite IH.
Qed.

Lemma unique_NoDup_id {A} `{EqDecision A} (l : list A) : NoDup l → unique l = l.
Proof.
  induction l as [|x l IH]; intros Hnd; [done|].
  apply NoDup_cons in Hnd as [Hx Hnd]. simpl.
  rewrite IH by done. by rewrite filter_ne_notin.
Qed.

Lemma unique_app_replicate {A} `{EqDecision A} (h : nat) (x : A) (l : list A) :
  0 < h → unique (replicate h x ++ l) = x :: filter (λ y, y ≠ x) (unique l).
Proof.
  intros Hh. destruct h as [|h]; [lia|]. clear Hh.
  induction h as [|h IH]; [done|].
  change (replicate (S (S h)) x ++ l) with (x :: (replicate (S h) x ++ l)).
  cbn [unique]. rewrite IH. rewrite filter_cons, decide_False by (by intros ?).
  f_equal. rewrite list_filter_filter. apply list_filter_iff. tauto.
Qed.

(** The devices of a column made of blocks are the devices of the blocks. *)
Lemma unique_bind_replicate {A} `{EqDecision A} (h : nat) (ds : list A) :
  0 < h → NoDup ds → unique (ds ≫= λ x, replicate h x) = ds.
Proof.
  intros Hh Hnd. induction ds as [|d ds IH]; [done|].
  apply NoDup_cons in Hnd as [Hd Hnd].
  rewrite bind_cons, unique_app_replicate, IH by done.
  by rewrite filter_ne_notin.
Qed.

Lemma bind_replicate_fmap {A B} (f : A → B) (h : nat) (ds : list A) :
  f <$> (ds ≫= λ x, replicate h x) = ds ≫= λ x, replicate h (f x).
Proof.
  induction ds as [|d ds IH]; [done|].
  by rewrite !bind_cons, fmap_app, fmap_replicate, IH.
Qed.

(** Upserts of documents of distinct devices, none of which has a
    document yet, add one document each. *)
Lemma upsert_all_new docs collection :
  NoDup (doc_device_id <$> docs) →
  Forall (λ doc, document_of doc collection = None) docs →
  length (upsert_all docs collection) = length collection + length docs.
Proof.
  revert collection. induction docs as [|e docs IH]; intros collection Hnd Hall;
    [simpl; lia|].
  rewrite fmap_cons in Hnd. apply NoDup_cons in Hnd as [He Hnd].
  apply Forall_cons in Hall as [Hnone Hall]. simpl.
  rewrite IH; [|done|].
  - rewrite (update_one_new _ _ _ Hnone), length_app. simpl. lia.
  - rewrite (update_one_new _ _ _ Hnone).
    apply Forall_forall. intros doc Hdoc.
    rewrite Forall_forall in Hall. specialize (Hall doc Hdoc).
    unfold document_of in *. apply list_find_None.
    apply list_find_None in Hall. apply Forall_app. split; [done|].
    apply Forall_singleton. rewrite matches_set_fields.
    intros Hm. apply matches_filter_query in Hm as [Hm _].
    unfold set_fields, filter_query in Hm. simpl in Hm.
    rewrite lookup_insert_ne, lookup_insert_eq in Hm by done.
    apply He. apply list_elem_of_fmap. exists doc. split; [congruence|done].
Qed.

Section ForecastEngine.
Context `{Externals}.

(** C1.  The recursive forecast engine, on hourly and on daily data.
    [get_forecasts] on the feature rows of one device (columns of one
    length, at least one row, the columns set aside before predicting,
    numbers in every column that reaches the rolling aggregates, datetimes
    for timestamps) and a positive horizon returns exactly [horizon] rows,
    whose timestamps are one step of the frequency apart, the first one
    step after the seed's last timestamp.  [generate_forecasts] on a
    prepared feature table returns, for every device of the table, exactly
    [horizon] rows, and the timestamps of these rows are one step apart,
    the first one step after the last timestamp of the device's rows. *)
Theorem forecasts_continue_the_seed (configuration : Configuration)
    (fs : gmap string Model) (forecast_model : Model) (data : Frame)
    (project_name bucket_name frequency : string)
    (dev0 site0 pm0 ts0 : Column) :
  frequency = "hourly" ∨ frequency = "daily" →
  let step := if decide (frequency = "hourly") then HOUR_NS else DAY_NS in
  (∀ (df : Frame) (ts : Column) (x : Cell) (horizon : Z),
     forecast_frame df → getcol "timestamp" df = Some ts →
     is_datetime ts = true → last ts = Some x → (0 < horizon)%Z →
     ∃ out,
       get_forecasts df forecast_model frequency horizon = Ok out
       ∧ Z.of_nat (nrows out) = horizon
       ∧ getcol "timestamp" out = Some (spec_forecast_timestamps step x horizon))
  ∧ (wf_frame data →
     (∀ n, n ∈ excluded_columns → n ∈ columns data) →
     (∀ n, n ∈ columns data → strip n = n) →
     numeric_features data →
     getcol "device_id" data = Some dev0 →
     getcol "site_id" data = Some site0 →
     getcol "pm2_5" data = Some pm0 → is_numeric pm0 = true →
     timestamp_to_datetime data = Ok ts0 →
     fs !! (bucket_name +:+ "/" +:+ frequency +:+ "_forecast_model.pkl")
     = Some forecast_model →
     (0 < forecast_horizon configuration frequency)%Z →
     let keep := notna <$> dev0 in
     let dev := mask_select keep dev0 in
     let ts := mask_select keep ts0 in
     let horizon := forecast_horizon configuration frequency in
     dev ≠ [] →
     ∃ out device_id,
       generate_forecasts configuration fs data project_name bucket_name
         frequency = Ok out
       ∧ getcol "device_id" out = Some device_id
       ∧ ∀ device, device ∈ dev →
           let rows := filter_rows (eq_mask device device_id) out in
           Z.of_nat (nrows rows) = horizon
           ∧ getcol "timestamp" rows
             = Some (spec_forecast_timestamps step (device_last device dev ts)
                       horizon)).
Proof.
  intros Hfreq step.
  assert (Hstep : ∀ n x, next_timestamps frequency n x
                         = spec_forecast_timestamps step x (Z.of_nat n)).
  { intros n x. unfold step.
    destruct Hfreq as [-> | ->]; simpl;
      [apply next_timestamps_hourly|apply next_timestamps_daily]. }
  split.
  - intros df ts x horizon Hinv Hts Hdt Hx Hh.
    destruct (get_forecasts_ok forecast_model frequency df ts x horizon
                Hinv Hts Hdt Hx Hh) as (out & Hrun & _ & Hrows & Htso & _).
    exists out. split_and!; [done|lia|].
    rewrite Htso, Hstep. do 2 f_equal. lia.
  - intros Hwf Hcols Hstrip Hnf Hdev Hsite Hpm Hnum Hts Hfs Hh keep dev ts
      horizon Hne.
    destruct (generate_forecasts_ok configuration fs forecast_model data
                project_name bucket_name frequency dev0 site0 pm0 ts0
                Hwf Hcols Hstrip Hnf Hdev Hsite Hpm Hnum Hts Hfs Hh)
      as [_ Hsome].
    fold keep dev ts horizon in Hsome.
    assert (Hu : unique dev ≠ []) by (by destruct dev).
    destruct (Hsome Hu) as (preds & Hrun & Hlen). clear Hsome.
    set (h := Z.to_nat horizon) in *.
    eexists _, _. split; [exact Hrun|]. split; [reflexivity|].
    intros device Hd rows.
    assert (Hud : device ∈ unique dev) by (by apply unique_elem_of).
    assert (Hnn : device ≠ CNull).
    { intros ->. unfold dev, keep in Hd. rewrite mask_select_notna in Hd.
      by apply list_elem_of_filter in Hd as [Hd _]. }
    split.
    + unfold rows, forecast_rows. cbn [app filter_rows map_columns fmap list_fmap
                                        nrows fst snd].
      rewrite (mask_select_block _ h) by
        (first [done | apply unique_NoDup | intros; apply length_replicate]).
      rewrite length_replicate. unfold h, horizon. lia.
    + unfold rows. rewrite getcol_filter_rows. unfold forecast_rows.
      cbn [app getcol]. simpl.
      rewrite (mask_select_block _ h) by
        (first [done | apply unique_NoDup | intros; apply length_next_timestamps]).
      rewrite Hstep. do 2 f_equal. unfold h, horizon. lia.
Qed.
End ForecastEngine.

Lemma forecasts_continue_the_seed_witness :
  (∃ out,
     get_forecasts sample_seed sample_model "daily" 2 = Ok out
     ∧ getcol "timestamp" out = Some [day 19725; day 19726])
  ∧ ∃ out,
      generate_forecasts sample_configuration sample_models sample_two_devices
        "airqo" "models" "daily" = Ok out
      ∧ getcol "device_id" out = Some [CStr "a"; CStr "a"; CStr "b"; CStr "b"]
      ∧ getcol "timestamp" out
        = Some [hour 35; hour 59; hour 34; hour 58].
Proof.
  destruct (forecasts_continue_the_seed sample_configuration sample_models
              sample_model sample_two_devices "airqo" "models" "daily"
              [CStr "a"; CStr "b"; CNull; CStr "a"]
              [CStr "s1"; CStr "s2"; CStr "s3"; CStr "s1"]
              [num 10; num 30; num 50; num 12]
              [hour 10; hour 10; hour 11; hour 11]) as [Hone Hall].
  - by right.
  - split.
    + destruct (Hone sample_seed [day 19723; day 19724] (day 19724) 2%Z)
        as (out & Hrun & _ & Hts).
      * split_and!.
        -- split; [by apply (bool_decide_unpack _)|repeat constructor].
        -- simpl. lia.
        -- intros n Hn. apply (bool_decide_unpack _).
           repeat (apply elem_of_cons in Hn as [->|Hn]);
             [..|by apply elem_of_nil in Hn]; vm_compute; exact I.
        -- apply numeric_features_spec. reflexivity.
        -- eexists. split; reflexivity.
      * reflexivity.
      * reflexivity.
      * reflexivity.
      * lia.
      * exists out. split; [done|]. rewrite Hts. vm_compute. reflexivity.
    + cbv zeta in Hall.
      destruct Hall as (out & device_id & Hrun & Hdev & _).
      * split; [by apply (bool_decide_unpack _)|repeat constructor].
      * intros n Hn. apply (bool_decide_unpack _).
        repeat (apply elem_of_cons in Hn as [->|Hn]);
          [..|by apply elem_of_nil in Hn]; vm_compute; exact I.
      * intros n Hn. unfold sample_two_devices in Hn. rewrite !columns_cons in Hn.
        repeat (apply elem_of_cons in Hn as [->|Hn]);
          [..|by apply elem_of_nil in Hn]; reflexivity.
      * apply numeric_features_spec. reflexivity.
      * reflexivity.
      * reflexivity.
      * reflexivity.
      * reflexivity.
      * reflexivity.
      * reflexivity.
      * reflexivity.
      * done.
      * exists out. split; [done|].
        vm_compute in Hrun. injection Hrun as <-.
        split; vm_compute; reflexivity.
Defined.

Section ForecastsToSink.
Context `{Externals}.

(** X5.  The last two tasks of the forecast job, on hourly and on daily
    data.  The table that [generate_forecasts] returns on a prepared
    feature table (numbers in [pm2_5] and in every column other than
    [timestamp], [device_id] and [site_id]) has no missing device and one
    site per device, and is accepted by the sink: with a driver that does
    not fail nothing is logged, and afterwards every device of the feature
    table has a document with its last site, [horizon] numeric forecasts
    and the creation time of the run; an hourly document has the hours
    that follow the device's last timestamp, a daily document has the
    days that follow it.  Into an empty collection the run puts exactly
    one document per device. *)
Theorem forecasts_reach_the_sink (configuration : Configuration)
    (fs : gmap string Model) (forecast_model : Model) (data : Frame)
    (project_name bucket_name frequency created_at : string)
    (db : Database) (dev0 site0 pm0 ts0 : Column) :
  wf_frame data →
  (∀ n, n ∈ excluded_columns → n ∈ columns data) →
  (∀ n, n ∈ columns data → strip n = n) →
  numeric_features data →
  getcol "device_id" data = Some dev0 →
  getcol "site_id" data = Some site0 →
  getcol "pm2_5" data = Some pm0 → is_numeric pm0 = true →
  timestamp_to_datetime data = Ok ts0 →
  fs !! (bucket_name +:+ "/" +:+ frequency +:+ "_forecast_model.pkl")
  = Some forecast_model →
  (0 < forecast_horizon configuration frequency)%Z →
  frequency = "hourly" ∨ frequency = "daily" →
  let keep := notna <$> dev0 in
  let dev := mask_select keep dev0 in
  let site := mask_select keep site0 in
  let ts := mask_select keep ts0 in
  let horizon := forecast_horizon configuration frequency in
  let step := if decide (frequency = "hourly") then HOUR_NS else DAY_NS in
  dev ≠ [] →
  ∃ out db' device_id site_id,
    generate_forecasts configuration fs data project_name bucket_name frequency
    = Ok out
    ∧ getcol "device_id" out = Some device_id
    ∧ getcol "site_id" out = Some site_id
    ∧ length device_id = length site_id
    ∧ (CNull ∉ device_id)
    ∧ one_site_per_device device_id site_id
    ∧ save_forecasts_to_mongo db (λ _, None) created_at out frequency
      = Ok (db', [])
    ∧ (forecast_collection frequency db = [] →
       length (forecast_collection frequency db') = length (unique dev))
    ∧ ∀ device, device ∈ dev →
        ∃ d preds,
          d ∈ forecast_collection frequency db'
          ∧ d !! "device_id" = Some (VCell device)
          ∧ d !! "site_id" = Some (VCell (device_last device dev site))
          ∧ d !! "pm2_5" = Some (VList (CNum <$> preds))
          ∧ Z.of_nat (length preds) = horizon
          ∧ d !! "created_at" = Some (VStr created_at)
          ∧ d !! "timestamp"
            = Some (VList (spec_forecast_timestamps step
                             (device_last device dev ts) horizon)).
Proof.
  intros Hwf Hcols Hstrip Hnf Hdev Hsite Hpm Hnum Hts Hfs Hh Hfreq keep dev site ts
    horizon step Hne.
  destruct (generate_forecasts_ok configuration fs forecast_model data
              project_name bucket_name frequency dev0 site0 pm0 ts0
              Hwf Hcols Hstrip Hnf Hdev Hsite Hpm Hnum Hts Hfs Hh) as [_ Hsome].
  fold keep dev site ts horizon in Hsome.
  assert (Hu : unique dev ≠ []) by (by destruct dev).
  destruct (Hsome Hu) as (preds & Hrun & Hlen). clear Hsome.
  set (h := Z.to_nat horizon) in *.
  assert (Hhpos : 0 < h) by (unfold h, horizon; lia).
  set (D := unique dev ≫= λ d, replicate h d).
  set (S := unique dev ≫= λ d, replicate h (device_last d dev site)).
  set (T := unique dev ≫= λ d, next_timestamps frequency h (device_last d dev ts)).
  set (out := forecast_rows frequency h dev site ts ++ [("pm2_5", CNum <$> preds)])
    in *.
  assert (HlenD : length D = h * length (unique dev)).
  { apply length_bind_blocks. intros d. apply length_replicate. }
  assert (HnullD : CNull ∉ D).
  { intros Hin. apply list_elem_of_bind in Hin as (d & Hin & Hd).
    apply elem_of_replicate in Hin as [<- _].
    apply (proj1 (unique_elem_of _ _)) in Hd.
    unfold dev, keep in Hd. rewrite mask_select_notna in Hd.
    by apply list_elem_of_filter in Hd as [Hd _]. }
  destruct (save_forecasts_run db (λ _, None) created_at out frequency
              D S (CNum <$> preds) T eq_refl eq_refl eq_refl eq_refl)
    as (db' & Hsave & Hcoll); [|done|done|].
  { rewrite HlenD. unfold S.
    rewrite (length_bind_blocks _ h); [done|]. intros d. apply length_replicate. }
  cbv zeta in Hsave, Hcoll.
  cbn [fmap option_fmap option_map] in Hsave. rewrite omap_none in Hsave.
  rewrite filter_all in Hcoll by done.
  assert (HuD : unique D = unique dev).
  { unfold D. apply unique_bind_replicate; [done|apply unique_NoDup]. }
  rewrite HuD in Hcoll.
  assert (HlenS : length S = h * length (unique dev)).
  { apply length_bind_blocks. intros d. apply length_replicate. }
  exists out, db', D, S. split_and!; [done|done|done|lia|done| |done| |].
  - unfold S. rewrite <- (bind_replicate_fmap (λ d, device_last d dev site)).
    apply one_site_fmap.
  - intros Hempty. rewrite Hcoll, Hempty.
    rewrite upsert_all_new.
    + by rewrite length_fmap.
    + rewrite device_doc_devices. apply unique_NoDup.
    + by apply Forall_forall.
  - intros device Hd.
    assert (Hud : device ∈ unique dev) by (by apply unique_elem_of).
    assert (Hnn : device ≠ CNull).
    { intros ->. unfold dev, keep in Hd. rewrite mask_select_notna in Hd.
      by apply list_elem_of_filter in Hd as [Hd _]. }
    destruct (upsert_all_carries
                (device_doc created_at D S (CNum <$> preds) T <$> unique dev)
                (forecast_collection frequency db)
                (device_doc created_at D S (CNum <$> preds) T device))
      as (i & d & Hfind & Hpm' & Hts' & Hcreated).
    { rewrite device_doc_devices. apply unique_NoDup. }
    { apply list_elem_of_fmap. by exists device. }
    rewrite <- Hcoll in Hfind.
    apply document_of_Some in Hfind as (Hi & Hm & _).
    apply matches_filter_query in Hm as [Hmd Hms].
    cbn [device_doc doc_device_id doc_site_id doc_pm2_5 doc_timestamp
         doc_created_at] in *.
    exists d, (mask_select (eq_mask device D) preds).
    split_and!.
    + by eapply list_elem_of_lookup_2.
    + done.
    + rewrite Hms. do 2 f_equal. unfold D, S.
      rewrite (mask_select_block _ h) by
        (first [done | apply unique_NoDup | intros; apply length_replicate]).
      unfold device_last. by destruct h; [lia|].
    + by rewrite Hpm', mask_select_fmap.
    + rewrite (length_mask_select_eq _ preds D) by lia.
      unfold D. rewrite (mask_select_block _ h) by
        (first [done | apply unique_NoDup | intros; apply length_replicate]).
      rewrite length_replicate. unfold h, horizon. lia.
    + done.
    + rewrite Hts'. do 2 f_equal. unfold D, T.
      rewrite (mask_select_block _ h) by
        (first [done | apply unique_NoDup | intros; apply length_next_timestamps]).
      unfold step. destruct Hfreq as [-> | ->]; simpl.
      * rewrite next_timestamps_hourly. unfold h.
        by rewrite Z2Nat.id by (unfold horizon; lia).
      * rewrite next_timestamps_daily. unfold h.
        by rewrite Z2Nat.id by (unfold horizon; lia).
Qed.
End ForecastsToSink.

Lemma forecasts_reach_the_sink_witness :
  ∃ out db',
    generate_forecasts sample_configuration sample_models sample_two_devices
      "airqo" "models" "hourly" = Ok out
    ∧ save_forecasts_to_mongo empty_database (λ _, None) "2024-01-01T00:00:00"
        out "hourly" = Ok (db', [])
    ∧ length (hourly_forecasts_1 db') = 2
    ∧ (hourly_forecasts_1 db' !! 0 ≫= (.!! "timestamp"))
      = Some (VList [hour 12; hour 13])
    ∧ (hourly_forecasts_1 db' !! 1 ≫= (.!! "timestamp"))
      = Some (VList [hour 11; hour 12]).
Proof.
  destruct (forecasts_reach_the_sink sample_configuration sample_models
              sample_model sample_two_devices "airqo" "models" "hourly"
              "2024-01-01T00:00:00" empty_database
              [CStr "a"; CStr "b"; CNull; CStr "a"]
              [CStr "s1"; CStr "s2"; CStr "s3"; CStr "s1"]
              [num 10; num 30; num 50; num 12]
              [hour 10; hour 10; hour 11; hour 11])
    as (out & db' & device_id & site_id & Hrun & _ & _ & _ & _ & _ & Hsave & _).
  - split; [by apply (bool_decide_unpack _)|repeat constructor].
  - intros n Hn. apply (bool_decide_unpack _).
    repeat (apply elem_of_cons in Hn as [->|Hn]);
      [..|by apply elem_of_nil in Hn]; vm_compute; exact I.
  - intros n Hn. unfold sample_two_devices in Hn. rewrite !columns_cons in Hn.
    repeat (apply elem_of_cons in Hn as [->|Hn]);
      [..|by apply elem_of_nil in Hn]; reflexivity.
  - apply numeric_features_spec. reflexivity.
  - reflexivity.
  - reflexivity.
  - reflexivity.
  - reflexivity.
  - reflexivity.
  - reflexivity.
  - reflexivity.
  - by left.
  - done.
  - exists out, db'. split; [done|]. split; [done|].
    vm_compute in Hrun. injection Hrun as <-.
    vm_compute in Hsave. injection Hsave as <-.
    split_and!; vm_compute; reflexivity.
Defined.

(** ** Training, the registry and the forecasts *)

Section RegistryKeys.
Context {A : Type}.
Implicit Types (fs : gmap string A).

(** A save changes the model key and the backup key only. *)
Lemma upload_lookup_other (trained_model : A)
    (project_name bucket_name source_blob_name now : string) fs k :
  k ≠ bucket_name +:+ "/" +:+ source_blob_name →
  k ≠ bucket_name +:+ "/" +:+ now +:+ "-" +:+ source_blob_name →
  (upload_trained_model_to_gcs trained_model project_name bucket_name
     source_blob_name now fs).1 !! k = fs !! k.
Proof.
  intros Hk Hb. unfold upload_trained_model_to_gcs. cbn [fst].
  rewrite lookup_insert_ne by done.
  destruct (fs !! (bucket_name +:+ "/" +:+ source_blob_name)) as [old|] eqn:Hold.
  - rewrite (fs_rename_Some _ _ _ _ Hold). simpl.
    rewrite lookup_insert_ne by done. by rewrite lookup_delete_ne.
  - by rewrite (fs_rename_None _ _ _ Hold).
Qed.

Lemma upload_lookup_key (trained_model : A)
    (project_name bucket_name source_blob_name now : string) fs :
  (upload_trained_model_to_gcs trained_model project_name bucket_name
     source_blob_name now fs).1 !! (bucket_name +:+ "/" +:+ source_blob_name)
  = Some trained_model.
Proof. unfold upload_trained_model_to_gcs. cbn [fst]. by rewrite lookup_insert_eq. Qed.
End RegistryKeys.

(** The keys of the two forecast models, and the backups of one, are
    apart. *)
Lemma forecast_model_keys_apart (bucket frequency other now : string) :
  frequency ∈ ["hourly"; "daily"] → other ∈ ["hourly"; "daily"] →
  other ≠ frequency →
  bucket +:+ "/" +:+ other +:+ "_forecast_model.pkl"
  ≠ bucket +:+ "/" +:+ frequency +:+ "_forecast_model.pkl"
  ∧ bucket +:+ "/" +:+ other +:+ "_forecast_model.pkl"
    ≠ bucket +:+ "/" +:+ now +:+ "-" +:+ frequency +:+ "_forecast_model.pkl".
Proof.
  intros Hf Ho Hne.
  assert (Hcases : (frequency = "hourly" ∧ other = "daily")
                   ∨ (frequency = "daily" ∧ other = "hourly")).
  { rewrite !elem_of_cons, elem_of_nil in Hf, Ho.
    destruct Hf as [->|[->|[]]], Ho as [->|[->|[]]]; try done;
      first [by left | by right]. }
  split; intros Heq; apply (inj (String.append bucket)) in Heq;
    apply (inj (String.append "/")) in Heq.
  - destruct Hcases as [[-> ->]|[-> ->]]; discriminate.
  - destruct Hcases as [[-> ->]|[-> ->]].
    + apply (f_equal String.length) in Heq.
      rewrite !length_app_string in Heq. simpl in Heq. lia.
    + destruct now as [|a now]; [discriminate|].
      apply (f_equal String.length) in Heq.
      rewrite !length_app_string in Heq. simpl in Heq. lia.
Qed.

Section TrainedModel.
Context `{Externals}.

(** [generate_forecasts] reads one key of the registry. *)
Lemma generate_forecasts_registry (configuration : Configuration)
    (fs fs' : gmap string Model) (data : Frame)
    (project_name bucket_name frequency : string) :
  fs !! (bucket_name +:+ "/" +:+ frequency +:+ "_forecast_model.pkl")
  = fs' !! (bucket_name +:+ "/" +:+ frequency +:+ "_forecast_model.pkl") →
  generate_forecasts configuration fs data project_name bucket_name frequency
  = generate_forecasts configuration fs' data project_name bucket_name frequency.
Proof.
  intros Hkey. unfold generate_forecasts.
  destruct (need "device_id" (dropna ["device_id"] data)) as [d0|e]; [|done].
  cbn [mbind Result_bind].
  destruct (timestamp_to_datetime d0) as [ts|e]; [|done].
  cbn [mbind Result_bind].
  unfold get_trained_model_from_gcs. by rewrite Hkey.
Qed.

(** X6.  Training and forecasting meet at one key of the registry.  After
    the save that ends a training run for a frequency, the forecasts of
    that frequency are those of the newly fitted regressor, whatever the
    registry held before; the forecasts of the other frequency are what
    they were before the save. *)
Theorem forecasts_use_the_trained_model (configuration : Configuration)
    (fs : gmap string Model) (clf : Model) (data : Frame)
    (project_id bucket frequency other now : string) :
  frequency ∈ ["hourly"; "daily"] → other ∈ ["hourly"; "daily"] →
  other ≠ frequency →
  let saved := (save_forecast_model clf project_id bucket frequency now fs).1 in
  generate_forecasts configuration saved data project_id bucket frequency
  = generate_forecasts configuration
      {[ bucket +:+ "/" +:+ frequency +:+ "_forecast_model.pkl" := clf ]}
      data project_id bucket frequency
  ∧ generate_forecasts configuration saved data project_id bucket other
    = generate_forecasts configuration fs data project_id bucket other.
Proof.
  intros Hf Ho Hne saved. unfold saved, save_forecast_model. split.
  - apply generate_forecasts_registry.
    by rewrite upload_lookup_key, lookup_singleton_eq.
  - apply generate_forecasts_registry.
    destruct (forecast_model_keys_apart bucket frequency other now Hf Ho Hne)
      as [Hkey Hbackup].
    by apply upload_lookup_other.
Qed.
End TrainedModel.

Lemma forecasts_use_the_trained_model_witness :
  let saved :=
    (save_forecast_model sample_model_retrained "airqo" "models" "hourly"
       "2024-01-01 00:00:00.000000" sample_models).1 in
  (generate_forecasts sample_configuration saved sample_two_devices
     "airqo" "models" "hourly" ≫= λ out, need "pm2_5" (getcol "pm2_5" out))
  = Ok [num 7; num 7; num 7; num 7]
  ∧ (generate_forecasts sample_configuration sample_models sample_two_devices
       "airqo" "models" "hourly" ≫= λ out, need "pm2_5" (getcol "pm2_5" out))
    = Ok [num 12; num 12; num 30; num 30]
  ∧ generate_forecasts sample_configuration saved sample_two_devices
      "airqo" "models" "daily"
    = generate_forecasts sample_configuration sample_models sample_two_devices
        "airqo" "models" "daily".
Proof.
  cbv zeta.
  destruct (forecasts_use_the_trained_model sample_configuration sample_models
              sample_model_retrained sample_two_devices "airqo" "models"
              "hourly" "daily" "2024-01-01 00:00:00.000000") as [Hsame Hother].
  - apply (bool_decide_unpack _). vm_compute. exact I.
  - apply (bool_decide_unpack _). vm_compute. exact I.
  - done.
  - split_and!; [|vm_compute; reflexivity|exact Hother].
    cbv zeta in Hsame. rewrite Hsame. vm_compute. reflexivity.
Defined.

(** ** Errors of the feature engineer *)

Lemma has_columns_false names df :
  has_columns names df = false ↔ ¬ ∀ n, n ∈ names → n ∈ columns df.
Proof. rewrite <- has_columns_spec. by destruct (has_columns names df). Qed.

Lemma empty_true d : nrows d = 0 → empty d = true.
Proof. intros Hd. by apply bool_decide_eq_true. Qed.

Lemma empty_false d : nrows d ≠ 0 → empty d = false.
Proof. intros Hd. by apply bool_decide_eq_false. Qed.

Section FeatureErrors.
Context `{Externals}.

(** X7.  The checks of [get_lag_and_roll_features], in their order.  An
    empty table is reported first, then a missing column, both before
    the caller's table is touched.  The frequency is looked at last: with
    a frequency other than [daily] and [hourly] the call raises, and by
    then the caller's [timestamp] column has been converted. *)
Theorem get_lag_and_roll_features_errors (σ : Store) (df : loc) (d : Frame)
    (target_col freq : string) :
  σ !! df = Some d →
  let run := get_lag_and_roll_features df target_col freq σ in
  (nrows d = 0 → run = (Raise (ValueError "Empty dataframe provided"), σ))
  ∧ (nrows d ≠ 0 →
     target_col ∉ columns d ∨ "timestamp" ∉ columns d ∨ "device_id" ∉ columns d →
     run = (Raise (ValueError "Required columns missing"), σ))
  ∧ (∀ ts, nrows d ≠ 0 →
       target_col ∈ columns d → "device_id" ∈ columns d →
       timestamp_to_datetime d = Ok ts →
       freq ≠ "daily" → freq ≠ "hourly" →
       run = (Raise (ValueError "Invalid frequency"),
              <[df := setitem "timestamp" ts d]> σ)).
Proof.
  intros Hd run. unfold run, get_lag_and_roll_features. split_and!.
  - intros Hrows. rewrite run_bind, (run_load _ _ _ Hd).
    by rewrite (empty_true _ Hrows).
  - intros Hrows Hmiss. rewrite run_bind, (run_load _ _ _ Hd).
    rewrite (empty_false _ Hrows).
    assert (Hcols : has_columns [target_col; "timestamp"; "device_id"] d = false).
    { apply has_columns_false. intros Hall.
      destruct Hmiss as [Hm|[Hm|Hm]]; apply Hm, Hall;
        rewrite !elem_of_cons; auto. }
    by rewrite Hcols.
  - intros ts Hrows Htarget Hdev Hts Hdaily Hhourly.
    destruct (timestamp_to_datetime_inv _ _ Hts) as (c0 & Hc0 & Hconv).
    rewrite run_bind, (run_load _ _ _ Hd).
    rewrite (empty_false _ Hrows).
    assert (Hcols : has_columns [target_col; "timestamp"; "device_id"] d = true).
    { apply has_columns_spec. intros n Hn.
      repeat (apply elem_of_cons in Hn as [->|Hn]); [done| |done|].
      - apply getcol_is_Some. by eauto.
      - by apply elem_of_nil in Hn. }
    rewrite Hcols. cbn [negb].
    rewrite run_bind, Hts, run_lift.
    rewrite run_bind, (run_setitem_at _ _ _ _ _ Hd).
    rewrite run_bind, (run_load _ _ _ (store_lookup_insert _ _ _ _ Hd)).
    by rewrite !decide_False by done.
Qed.

(** The checks of [get_time_features]. *)
Lemma get_time_features_raises (σ : Store) (df : loc) (d : Frame) (freq : string) :
  σ !! df = Some d →
  let run := get_time_features df freq σ in
  (nrows d = 0 → run = (Raise (ValueError "Empty dataframe provided"), σ))
  ∧ (nrows d ≠ 0 → "timestamp" ∉ columns d →
     run = (Raise (ValueError "Required columns missing"), σ))
  ∧ (∀ ts, nrows d ≠ 0 → timestamp_to_datetime d = Ok ts →
       freq ≠ "daily" → freq ≠ "hourly" →
       run = (Raise (ValueError "Invalid frequency"),
              <[df := setitem "timestamp" ts d]> σ)).
Proof.
  intros Hd run. unfold run, get_time_features. split_and!.
  - intros Hrows. rewrite run_bind, (run_load _ _ _ Hd).
    by rewrite (empty_true _ Hrows).
  - intros Hrows Hmiss. rewrite run_bind, (run_load _ _ _ Hd).
    rewrite (empty_false _ Hrows).
    assert (Hcols : has_columns ["timestamp"] d = false).
    { apply has_columns_false. intros Hall. apply Hmiss, Hall.
      rewrite !elem_of_cons; auto. }
    by rewrite Hcols.
  - intros ts Hrows Hts Hdaily Hhourly.
    destruct (timestamp_to_datetime_inv _ _ Hts) as (c0 & Hc0 & Hconv).
    rewrite run_bind, (run_load _ _ _ Hd).
    rewrite (empty_false _ Hrows).
    assert (Hcols : has_columns ["timestamp"] d = true).
    { apply has_columns_spec. intros n Hn.
      apply elem_of_cons in Hn as [->|Hn]; [|by apply elem_of_nil in Hn].
      apply getcol_is_Some. by eauto. }
    rewrite Hcols. cbn [negb].
    rewrite run_bind, Hts, run_lift.
    rewrite run_bind, (run_setitem_at _ _ _ _ _ Hd).
    rewrite bool_decide_eq_false_2; [done|].
    rewrite !elem_of_cons, elem_of_nil. tauto.
Qed.

(** X8.  The checks of [get_time_features], which [get_cyclic_features]
    inherits by calling it first: an empty table, then a missing
    [timestamp] column, are reported before the caller's table is
    touched; a frequency other than [daily] and [hourly] is reported
    after the caller's [timestamp] column has been converted. *)
Theorem calendar_features_errors (σ : Store) (df : loc) (d : Frame)
    (freq : string) :
  σ !! df = Some d →
  ∀ run, run = get_time_features df freq σ
         ∨ run = get_cyclic_features df freq σ →
  (nrows d = 0 → run = (Raise (ValueError "Empty dataframe provided"), σ))
  ∧ (nrows d ≠ 0 → "timestamp" ∉ columns d →
     run = (Raise (ValueError "Required columns missing"), σ))
  ∧ (∀ ts, nrows d ≠ 0 → timestamp_to_datetime d = Ok ts →
       freq ≠ "daily" → freq ≠ "hourly" →
       run = (Raise (ValueError "Invalid frequency"),
              <[df := setitem "timestamp" ts d]> σ)).
Proof.
  intros Hd run Hrun.
  destruct (get_time_features_raises σ df d freq Hd) as (He & Hm & Hf).
  destruct Hrun as [-> | ->]; [done|].
  unfold get_cyclic_features. rewrite run_bind. split_and!.
  - intros Hrows. by rewrite (He Hrows).
  - intros Hrows Hmiss. by rewrite (Hm Hrows Hmiss).
  - intros ts Hrows Hts Hdaily Hhourly. by rewrite (Hf ts Hrows Hts Hdaily Hhourly).
Qed.

(** X9.  The checks of [get_location_features].  An empty table is
    reported first; then the first of [timestamp], [latitude],
    [longitude] that is missing, by name; in both cases the caller's
    table is untouched.  A latitude or longitude column that is not
    numeric raises a [TypeError] after the caller's [timestamp] column
    has been converted, and no coordinate column has been added. *)
Theorem get_location_features_errors (σ : Store) (df : loc) (d : Frame) :
  σ !! df = Some d →
  let run := get_location_features df σ in
  (nrows d = 0 → run = (Raise (ValueError "Empty dataframe provided"), σ))
  ∧ (nrows d ≠ 0 → "timestamp" ∉ columns d →
     run = (Raise (ValueError "timestamp column is missing"), σ))
  ∧ (nrows d ≠ 0 → "timestamp" ∈ columns d → "latitude" ∉ columns d →
     run = (Raise (ValueError "latitude column is missing"), σ))
  ∧ (nrows d ≠ 0 → "timestamp" ∈ columns d → "latitude" ∈ columns d →
     "longitude" ∉ columns d →
     run = (Raise (ValueError "longitude column is missing"), σ))
  ∧ (∀ ts lat lon, nrows d ≠ 0 → timestamp_to_datetime d = Ok ts →
       getcol "latitude" d = Some lat → getcol "longitude" d = Some lon →
       is_numeric lat && is_numeric lon = false →
       ∃ message,
         run = (Raise (TypeError message), <[df := setitem "timestamp" ts d]> σ)).
Proof.
  intros Hd run. unfold run, get_location_features. split_and!.
  - intros Hrows. rewrite run_bind, (run_load _ _ _ Hd).
    by rewrite (empty_true _ Hrows).
  - intros Hrows Hts. rewrite run_bind, (run_load _ _ _ Hd).
    rewrite (empty_false _ Hrows).
    by rewrite filter_cons, decide_True by done.
  - intros Hrows Hts Hlat. rewrite run_bind, (run_load _ _ _ Hd).
    rewrite (empty_false _ Hrows).
    rewrite filter_cons, decide_False by (by intros Hn; apply Hn).
    by rewrite filter_cons, decide_True by done.
  - intros Hrows Hts Hlat Hlon. rewrite run_bind, (run_load _ _ _ Hd).
    rewrite (empty_false _ Hrows).
    rewrite filter_cons, decide_False by (by intros Hn; apply Hn).
    rewrite filter_cons, decide_False by (by intros Hn; apply Hn).
    by rewrite filter_cons, decide_True by done.
  - intros ts lat lon Hrows Hts Hlat Hlon Hnum.
    destruct (timestamp_to_datetime_inv _ _ Hts) as (c0 & Hc0 & Hconv).
    assert (Hin : ∀ n c, getcol n d = Some c → n ∈ columns d).
    { intros n c Hn. apply getcol_is_Some. by eauto. }
    rewrite run_bind, (run_load _ _ _ Hd).
    rewrite (empty_false _ Hrows).
    rewrite filter_cons, decide_False by (intros Hn; apply Hn; by eapply Hin).
    rewrite filter_cons, decide_False by (intros Hn; apply Hn; by eapply Hin).
    rewrite filter_cons, decide_False by (intros Hn; apply Hn; by eapply Hin).
    rewrite filter_nil.
    rewrite run_bind, Hts, run_lift.
    rewrite run_bind, (run_setitem_at _ _ _ _ _ Hd).
    rewrite run_bind, (run_load _ _ _ (store_lookup_insert _ _ _ _ Hd)).
    rewrite !getcol_setitem_ne, Hlat, Hlon by done.
    rewrite run_bind, run_lift. cbn [need].
    rewrite run_bind, run_lift. cbn [need].
    rewrite run_bind, run_lift. unfold np_map at 1.
    destruct (is_numeric lat); [|by eexists].
    rewrite run_bind, run_lift. unfold np_map at 1.
    destruct (is_numeric lon); [done|by eexists].
Qed.

(** X10.  The checks of [preprocess_data].  A table without one of
    [device_id], [pm2_5], [timestamp] raises a [ValueError], and so does
    one whose timestamps cannot be converted, both before the caller's
    table is touched.  The check of the columns does not look for
    [site_id].  A prediction job on a table without it raises a
    [KeyError] after the caller's [timestamp] column has been converted,
    unless the table has exactly two rows: the two names of the grouping
    then stand for the labels of the two rows, every row is a group of
    its own, and an hourly run returns normally. *)
Theorem preprocess_data_errors (σ : Store) (data : loc) (d : Frame)
    (data_frequency job_type : string) :
  σ !! data = Some d →
  let run := preprocess_data data data_frequency job_type σ in
  ("device_id" ∉ columns d ∨ "pm2_5" ∉ columns d ∨ "timestamp" ∉ columns d →
   ∃ message, run = (Raise (ValueError message), σ))
  ∧ (∀ c, "device_id" ∈ columns d → "pm2_5" ∈ columns d →
       getcol "timestamp" d = Some c → to_datetime c = None →
       run = (Raise (ValueError
                "datetime conversion error, please provide timestamp in valid format"),
              σ))
  ∧ (∀ ts, wf_frame d → "device_id" ∈ columns d → "pm2_5" ∈ columns d →
       timestamp_to_datetime d = Ok ts →
       job_type = "prediction" → "site_id" ∉ columns d → nrows d ≠ 2 →
       ∃ message,
         run = (Raise (KeyError message), <[data := setitem "timestamp" ts d]> σ))
  ∧ (∀ ts pm, wf_frame d → "device_id" ∈ columns d →
       getcol "pm2_5" d = Some pm → is_numeric pm = true →
       timestamp_to_datetime d = Ok ts →
       job_type = "prediction" → "site_id" ∉ columns d → nrows d = 2 →
       data_frequency ≠ "daily" →
       let keys := [[CStr "device_id"]; [CStr "site_id"]] in
       let d2 := interpolated d keys pm ts in
       run = (Ok (length σ),
              <[data := d2]> σ
              ++ [filter_rows (notna <$> group_transform interpolate keys pm) d2])).
Proof.
  intros Hd run. unfold run.
  assert (Hg : group_columns "prediction" = ["device_id"; "site_id"]) by done.
  split_and!.
  - intros Hmiss. unfold preprocess_data. rewrite run_bind, (run_load _ _ _ Hd).
    assert (Hcols : has_columns ["device_id"; "pm2_5"; "timestamp"] d = false).
    { apply has_columns_false. intros Hall.
      destruct Hmiss as [Hm|[Hm|Hm]]; apply Hm, Hall;
        rewrite !elem_of_cons; auto. }
    rewrite Hcols. by eexists.
  - intros c Hdev Hpm Hc Hconv. unfold preprocess_data. rewrite run_bind, (run_load _ _ _ Hd).
    assert (Hcols : has_columns ["device_id"; "pm2_5"; "timestamp"] d = true).
    { apply has_columns_spec. intros n Hn.
      repeat (apply elem_of_cons in Hn as [->|Hn]); [done|done| |].
      - apply getcol_is_Some. by eauto.
      - by apply elem_of_nil in Hn. }
    rewrite Hcols, Hc. cbn [negb mbind option_bind]. by rewrite Hconv.
  - intros ts Hwf Hdev Hpm Hts -> Hsite Hrows.
    destruct (timestamp_to_datetime_inv _ _ Hts) as (c0 & Hc0 & Hconv).
    unfold preprocess_data. rewrite run_bind, (run_load _ _ _ Hd).
    assert (Hcols : has_columns ["device_id"; "pm2_5"; "timestamp"] d = true).
    { apply has_columns_spec. intros n Hn.
      repeat (apply elem_of_cons in Hn as [->|Hn]); [done|done| |].
      - apply getcol_is_Some. by eauto.
      - by apply elem_of_nil in Hn. }
    rewrite Hcols, Hc0. cbn [negb mbind option_bind]. rewrite Hconv.
    rewrite run_bind, (run_setitem_at _ _ _ _ _ Hd).
    rewrite run_bind, (run_load _ _ _ (store_lookup_insert _ _ _ _ Hd)).
    rewrite run_bind, run_lift. unfold interpolate_groups.
    assert (Hne : d ≠ []) by (by apply (columns_nonempty "pm2_5")).
    assert (Hno : has_columns ["device_id"; "site_id"] d = false).
    { apply has_columns_false. intros Hall. apply Hsite, Hall.
      apply list_elem_of_further, list_elem_of_here. }
    assert (Hn1 : nrows (setitem "timestamp" ts d) = nrows d).
    { apply nrows_setitem; [done|].
      rewrite (to_datetime_length _ _ Hconv).
      by apply wf_frame_getcol_length with (n := "timestamp"). }
    assert (Hnt : "timestamp" ∉ ["device_id"; "site_id"]).
    { apply (bool_decide_unpack _). vm_compute. exact I. }
    rewrite Hg, (row_keys_setitem _ _ _ _ Hnt Hn1), (row_keys_labels _ _ Hno).
    rewrite decide_False by (cbn [length]; lia). by eexists.
  - intros ts pm Hwf Hdev Hpm Hnum Hts -> Hsite Hrows Hfreq.
    apply (preprocess_data_hourly_run σ data d data_frequency "prediction"
             [[CStr "device_id"]; [CStr "site_id"]] pm ts); try done.
    assert (Hno : has_columns ["device_id"; "site_id"] d = false).
    { apply has_columns_false. intros Hall. apply Hsite, Hall.
      apply list_elem_of_further, list_elem_of_here. }
    rewrite Hg, (row_keys_labels _ _ Hno).
    by rewrite decide_True by (cbn [length]; lia).
Qed.
End FeatureErrors.

(** A frequency that the feature engineer does not know. *)
Lemma get_lag_and_roll_features_errors_witness :
  get_lag_and_roll_features 0 "pm2_5" "weekly" [sample_raw]
  = (Raise (ValueError "Invalid frequency"),
     [setitem "timestamp" [hour 473352; hour 473353] sample_raw]).
Proof.
  destruct (get_lag_and_roll_features_errors [sample_raw] 0 sample_raw
              "pm2_5" "weekly" eq_refl) as (_ & _ & Hfreq).
  apply (Hfreq [hour 473352; hour 473353]); try done.
  - apply (bool_decide_unpack _). vm_compute. exact I.
  - apply (bool_decide_unpack _). vm_compute. exact I.
Defined.

Lemma calendar_features_errors_witness :
  get_cyclic_features 0 "weekly" [sample_raw]
  = (Raise (ValueError "Invalid frequency"),
     [setitem "timestamp" [hour 473352; hour 473353] sample_raw]).
Proof.
  destruct (calendar_features_errors [sample_raw] 0 sample_raw "weekly" eq_refl
              (get_cyclic_features 0 "weekly" [sample_raw]))
    as (_ & _ & Hfreq); [by right|].
  by apply (Hfreq [hour 473352; hour 473353]).
Defined.

Lemma get_location_features_errors_witness :
  get_location_features 0 [sample_two_sites]
  = (Raise (ValueError "latitude column is missing"), [sample_two_sites]).
Proof.
  destruct (get_location_features_errors [sample_two_sites] 0 sample_two_sites
              eq_refl) as (_ & _ & Hlat & _).
  apply Hlat; [done| |]; apply (bool_decide_unpack _); vm_compute; exact I.
Defined.

Lemma preprocess_data_errors_witness :
  (∃ message,
     preprocess_data 0 "hourly" "prediction" [sample_ten_months]
     = (Raise (KeyError message), [sample_ten_months]))
  ∧ preprocess_data 0 "hourly" "prediction" [sample_two_rows]
    = (Ok 1, [sample_two_rows;
              [("device_id", [CStr "a"]);
               ("timestamp", [CTime HOUR_NS]);
               ("pm2_5", [CNum 9])]]).
Proof.
  split.
  - destruct (preprocess_data_errors [sample_ten_months] 0 sample_ten_months
                "hourly" "prediction" eq_refl) as (_ & _ & Hsite & _).
    destruct (Hsite (default [] (getcol "timestamp" sample_ten_months)))
      as [message Hrun]; try done.
    + split; [by apply (bool_decide_unpack _)|repeat constructor].
    + apply (bool_decide_unpack _). vm_compute. exact I.
    + apply (bool_decide_unpack _). vm_compute. exact I.
    + apply (bool_decide_unpack _). vm_compute. exact I.
    + exists message. rewrite Hrun. f_equal.
  - destruct (preprocess_data_errors [sample_two_rows] 0 sample_two_rows
                "hourly" "prediction" eq_refl) as (_ & _ & _ & Hrows).
    rewrite (Hrows [CTime 0; CTime HOUR_NS] [CNull; CNum 9]); try done.
    + split; [by apply (bool_decide_unpack _)|repeat constructor].
    + apply (bool_decide_unpack _). vm_compute. exact I.
    + apply (bool_decide_unpack _). vm_compute. exact I.
Defined.

(** ** Calendar and cyclic features *)

Lemma setitem_same n c (df : Frame) : getcol n df = Some c → setitem n c df = df.
Proof.
  induction df as [|[m c0] df IH]; [done|]. simpl.
  destruct (decide (m = n)) as [->|Hne]; [by intros [= ->]|].
  intros Hc. by rewrite IH.
Qed.

Lemma assign_same l (df : Frame) :
  (∀ n c, (n, c) ∈ l → getcol n df = Some c) → assign l df = df.
Proof.
  induction l as [|[m c] l IH]; intros Hl; [done|].
  rewrite assign_cons, setitem_same.
  - apply IH. intros n c' Hn. apply Hl. by apply list_elem_of_further.
  - apply Hl, list_elem_of_here.
Qed.

Lemma calendar_columns_names freq ts :
  (calendar_columns freq ts).*1 = calendar_names freq.
Proof.
  unfold calendar_columns, calendar_names.
  rewrite fmap_app, <- list_fmap_compose. done.
Qed.

Lemma calendar_names_NoDup freq : NoDup (calendar_names freq).
Proof.
  unfold calendar_names, time_attributes.
  case_decide; apply (bool_decide_unpack _); vm_compute; exact I.
Qed.

Lemma calendar_columns_length freq ts :
  Forall (λ p, length p.2 = length ts) (calendar_columns freq ts).
Proof.
  unfold calendar_columns. apply Forall_app. split.
  - apply Forall_fmap, Forall_forall. intros a _. simpl. apply length_dt_column.
  - apply Forall_singleton. simpl. apply length_dt_column.
Qed.

Lemma cyclic_name_not_calendar freq (a : Attr) (suffix : string) :
  suffix = "_sin" ∨ suffix = "_cos" →
  (attr_name a +:+ suffix ∉ calendar_names freq)
  ∧ ("week" +:+ suffix ∉ calendar_names freq).
Proof.
  intros Hs. unfold calendar_names, time_attributes.
  destruct Hs as [-> | ->]; case_decide; destruct a;
    split; apply (bool_decide_unpack _); vm_compute; exact I.
Qed.

Lemma timestamp_not_calendar freq : "timestamp" ∉ calendar_names freq.
Proof.
  unfold calendar_names, time_attributes.
  case_decide; apply (bool_decide_unpack _); vm_compute; exact I.
Qed.

Section Calendar.
Context `{Externals}.

Lemma to_datetime_datetime ts : is_datetime ts = true → to_datetime ts = Some ts.
Proof.
  unfold to_datetime. intros Hts. apply mapM_Some.
  induction ts as [|x ts IH]; [constructor|].
  simpl in Hts. apply andb_true_iff in Hts as [Hx Hts].
  constructor; [|by apply IH]. by destruct x.
Qed.

(** A successful run of [get_time_features]. *)
Lemma get_time_features_run (σ : Store) (df : loc) (d : Frame) (freq : string)
    (ts : Column) :
  σ !! df = Some d → nrows d ≠ 0 → timestamp_to_datetime d = Ok ts →
  freq = "hourly" ∨ freq = "daily" →
  get_time_features df freq σ
  = (Ok (length σ),
     <[df := setitem "timestamp" ts d]> σ
     ++ [assign (calendar_columns freq ts) (setitem "timestamp" ts d)]).
Proof.
  intros Hd Hrows Hts Hfreq.
  destruct (timestamp_to_datetime_inv _ _ Hts) as (c0 & Hc0 & Hconv).
  unfold get_time_features.
  rewrite run_bind, (run_load _ _ _ Hd), (empty_false _ Hrows).
  assert (Hcols : has_columns ["timestamp"] d = true).
  { apply has_columns_spec. intros n Hn.
    apply elem_of_cons in Hn as [->|Hn]; [|by apply elem_of_nil in Hn].
    apply getcol_is_Some. by eauto. }
  rewrite Hcols. cbn [negb].
  rewrite run_bind, Hts, run_lift.
  rewrite run_bind, (run_setitem_at _ _ _ _ _ Hd).
  rewrite bool_decide_eq_true_2
    by (rewrite !elem_of_cons; destruct Hfreq; auto).
  cbn [negb].
  rewrite run_bind, (run_load _ _ _ (store_lookup_insert _ _ _ _ Hd)).
  rewrite run_alloc, length_insert. do 3 f_equal.
  unfold calendar_columns. rewrite assign_app. unfold assign at 1. simpl.
  f_equal. unfold assign. by rewrite foldl_fmap.
Qed.

(** A successful run of [get_cyclic_features]. *)
Lemma get_cyclic_features_run (σ : Store) (df : loc) (d : Frame) (freq : string)
    (ts : Column) :
  σ !! df = Some d → nrows d ≠ 0 → timestamp_to_datetime d = Ok ts →
  freq = "hourly" ∨ freq = "daily" →
  get_cyclic_features df freq σ
  = (Ok (length σ),
     <[df := setitem "timestamp" ts d]> σ
     ++ [filter (λ p, p.1 ∉ calendar_names freq)
           (assign (cyclic_columns freq ts)
              (assign (calendar_columns freq ts) (setitem "timestamp" ts d)))]).
Proof.
  intros Hd Hrows Hts Hfreq.
  unfold get_cyclic_features.
  rewrite run_bind, (get_time_features_run σ df d freq ts Hd Hrows Hts Hfreq).
  set (σ1 := <[df := setitem "timestamp" ts d]> σ).
  set (d1 := assign (calendar_columns freq ts) (setitem "timestamp" ts d)).
  assert (Hl : length σ1 = length σ) by apply length_insert.
  assert (Hd1 : (σ1 ++ [d1]) !! length σ = Some d1).
  { rewrite lookup_app_r by lia. by rewrite Hl, Nat.sub_diag. }
  rewrite run_bind, (run_load _ _ _ Hd1).
  set (I := λ d' : Frame,
         ∀ n c, (n, c) ∈ calendar_columns freq ts → getcol n d' = Some c).
  assert (HI1 : I d1).
  { intros n c Hn. apply getcol_assign_in; [|done].
    rewrite calendar_columns_names. apply calendar_names_NoDup. }
  assert (Hkeep : ∀ d' n c, I d' → n ∉ calendar_names freq → I (setitem n c d')).
  { intros d' n c HI Hn m c' Hm. rewrite getcol_setitem_ne; [by apply HI|].
    intros ->. apply Hn. rewrite <- (calendar_columns_names freq ts).
    apply list_elem_of_fmap. by exists (m, c'). }
  destruct (foldM_assigns
              (λ d a, add_cyclic (attr_name a) (max_val a) d)
              (λ a, [(attr_name a +:+ "_sin",
                      cyclic np_sin (max_val a) (dt_column (dt_attr a) ts));
                     (attr_name a +:+ "_cos",
                      cyclic np_cos (max_val a) (dt_column (dt_attr a) ts))])
              I (time_attributes freq) d1 HI1) as [Hfold HI2].
  { intros d' a Ha HI.
    assert (Ha' : getcol (attr_name a) d' = Some (dt_column (dt_attr a) ts)).
    { apply HI. unfold calendar_columns. apply elem_of_app. left.
      apply list_elem_of_fmap. by exists a. }
    unfold add_cyclic. rewrite Ha'. cbn [need mbind Result_bind].
    split; [done|]. unfold assign. cbn [foldl fst snd].
    apply Hkeep; [apply Hkeep; [done|]|];
      apply (cyclic_name_not_calendar freq a); auto. }
  rewrite run_bind, run_lift, Hfold.
  set (d2 := assign (time_attributes freq ≫= _) d1) in *.
  assert (Hweek : getcol "week" d2 = Some (dt_column dt_isoweek ts)).
  { apply HI2. unfold calendar_columns. apply elem_of_app. right.
    apply list_elem_of_here. }
  rewrite run_bind, run_lift. unfold add_cyclic. rewrite Hweek.
  cbn [need mbind Result_bind].
  set (d3 := setitem _ _ (setitem _ _ d2)).
  assert (HI3 : I d3).
  { apply Hkeep; [apply Hkeep; [done|]|];
      apply (cyclic_name_not_calendar freq Year); auto. }
  rewrite run_bind, run_lift.
  fold (calendar_names freq).
  rewrite drop_columns_Some.
  2:{ intros n Hn. rewrite <- (calendar_columns_names freq ts) in Hn.
      apply list_elem_of_fmap in Hn as ([m c] & -> & Hm).
      apply getcol_is_Some. cbn [fst]. rewrite (HI3 _ _ Hm). by eauto. }
  cbn [need].
  rewrite run_bind. unfold store at 1. rewrite run_ret.
  f_equal.
  rewrite insert_app_r_alt by lia. rewrite Hl, Nat.sub_diag. simpl.
  do 3 f_equal. unfold d3, d2, cyclic_columns. by rewrite assign_app.
Qed.

Lemma cyclic_columns_names freq ts :
  (cyclic_columns freq ts).*1
  = (time_attributes freq ≫= λ a, [attr_name a +:+ "_sin"; attr_name a +:+ "_cos"])
    ++ ["week_sin"; "week_cos"].
Proof. unfold cyclic_columns, time_attributes. by case_decide. Qed.

Lemma cyclic_columns_NoDup freq ts : NoDup (cyclic_columns freq ts).*1.
Proof.
  rewrite cyclic_columns_names. unfold time_attributes.
  case_decide; apply (bool_decide_unpack _); vm_compute; exact I.
Qed.

Lemma cyclic_columns_not_calendar freq ts n :
  n ∈ (cyclic_columns freq ts).*1 → n ∉ calendar_names freq.
Proof.
  rewrite cyclic_columns_names. intros Hn.
  apply elem_of_app in Hn as [Hn|Hn].
  - apply list_elem_of_bind in Hn as (a & Hn & _).
    rewrite !elem_of_cons, elem_of_nil in Hn.
    destruct Hn as [->|[->|[]]]; apply (cyclic_name_not_calendar freq a); auto.
  - rewrite !elem_of_cons, elem_of_nil in Hn.
    destruct Hn as [->|[->|[]]];
      [apply (cyclic_name_not_calendar freq Year "_sin")
      |apply (cyclic_name_not_calendar freq Year "_cos")]; auto.
Qed.

Lemma timestamp_not_cyclic freq ts : "timestamp" ∉ (cyclic_columns freq ts).*1.
Proof.
  rewrite cyclic_columns_names. unfold time_attributes.
  case_decide; apply (bool_decide_unpack _); vm_compute; exact I.
Qed.

(** X11.  What leaves [get_cyclic_features].  On a table with rows and
    convertible timestamps, the returned table has no column named
    [year], [month], [day], [dayofweek], [week] or (on hourly data)
    [hour], whether the input had one or not; it has the sine and cosine
    columns and the converted timestamps, and every other column of the
    input as it was.  In the forecast job the task before it,
    [get_time_features], is therefore without effect: running it first
    gives the same table. *)
Theorem cyclic_features_drop_the_calendar (σ : Store) (df : loc) (d : Frame)
    (freq : string) (ts : Column) :
  σ !! df = Some d → wf_frame d → nrows d ≠ 0 →
  timestamp_to_datetime d = Ok ts →
  freq = "hourly" ∨ freq = "daily" →
  ∃ out,
    returned_frame (get_cyclic_features df freq σ) = Some out
    ∧ returned_frame
        ((get_time_features df freq ≫= λ df1, get_cyclic_features df1 freq) σ)
      = Some out
    ∧ (∀ n, n ∈ calendar_names freq → n ∉ columns out)
    ∧ (∀ n c, (n, c) ∈ cyclic_columns freq ts → getcol n out = Some c)
    ∧ getcol "timestamp" out = Some ts
    ∧ (∀ n, n ∉ calendar_names freq → n ∉ (cyclic_columns freq ts).*1 →
         n ≠ "timestamp" → getcol n out = getcol n d).
Proof.
  intros Hd Hwf Hrows Hts Hfreq.
  destruct (timestamp_to_datetime_inv _ _ Hts) as (c0 & Hc0 & Hconv).
  set (σ1 := <[df := setitem "timestamp" ts d]> σ).
  set (d1 := assign (calendar_columns freq ts) (setitem "timestamp" ts d)).
  set (out := filter (λ p : string * Column, p.1 ∉ calendar_names freq)
                (assign (cyclic_columns freq ts) d1)).
  assert (Hl : length σ1 = length σ) by apply length_insert.
  assert (Hne : d ≠ []) by (by apply nrows_nonzero_nonempty).
  assert (Hlts : length ts = nrows d).
  { rewrite (to_datetime_length _ _ Hconv).
    by apply wf_frame_getcol_length with (n := "timestamp"). }
  assert (Hrows1 : nrows d1 = nrows d).
  { unfold d1. rewrite nrows_assign.
    - by apply nrows_setitem.
    - apply setitem_nonempty.
    - rewrite nrows_setitem by done. rewrite <- Hlts.
      apply calendar_columns_length. }
  assert (Hts1 : getcol "timestamp" d1 = Some ts).
  { unfold d1. rewrite getcol_assign_notin.
    - apply getcol_setitem_eq.
    - rewrite calendar_columns_names. apply timestamp_not_calendar. }
  assert (Hcal1 : ∀ n c, (n, c) ∈ calendar_columns freq ts → getcol n d1 = Some c).
  { intros n c Hn. apply getcol_assign_in; [|done].
    rewrite calendar_columns_names. apply calendar_names_NoDup. }
  exists out. split_and!.
  - rewrite (get_cyclic_features_run σ df d freq ts Hd Hrows Hts Hfreq).
    unfold returned_frame. cbn [fst snd]. fold σ1 d1 out.
    rewrite lookup_app_r by lia. by rewrite Hl, Nat.sub_diag.
  - rewrite run_bind, (get_time_features_run σ df d freq ts Hd Hrows Hts Hfreq).
    fold σ1 d1.
    assert (Hd1 : (σ1 ++ [d1]) !! length σ = Some d1).
    { rewrite lookup_app_r by lia. by rewrite Hl, Nat.sub_diag. }
    rewrite (get_cyclic_features_run (σ1 ++ [d1]) (length σ) d1 freq ts Hd1);
      [|lia| |done].
    + rewrite (setitem_same _ _ _ Hts1), (assign_same _ _ Hcal1). fold out.
      unfold returned_frame. cbn [fst snd].
      rewrite lookup_app_r by (rewrite length_insert; lia).
      by rewrite length_insert, Nat.sub_diag.
    + unfold timestamp_to_datetime. rewrite Hts1. simpl.
      by rewrite (to_datetime_datetime ts (to_datetime_is_datetime _ _ Hconv)).
  - intros n Hn Hin. apply list_elem_of_fmap in Hin as ([m c] & -> & Hm).
    by apply list_elem_of_filter in Hm as [Hm _].
  - intros n c Hn. unfold out. rewrite getcol_filter_notin.
    + apply getcol_assign_in; [apply cyclic_columns_NoDup|done].
    + apply (cyclic_columns_not_calendar freq ts).
      apply list_elem_of_fmap. by exists (n, c).
  - unfold out. rewrite getcol_filter_notin by apply timestamp_not_calendar.
    by rewrite getcol_assign_notin by apply timestamp_not_cyclic.
  - intros n Hcal Hcyc Hn. unfold out, d1.
    rewrite getcol_filter_notin by done.
    rewrite getcol_assign_notin by done.
    rewrite getcol_assign_notin by (by rewrite calendar_columns_names).
    by rewrite getcol_setitem_ne.
Qed.
End Calendar.

Lemma cyclic_features_drop_the_calendar_witness :
  ∃ out,
    returned_frame (get_cyclic_features 0 "hourly" [sample_raw]) = Some out
    ∧ returned_frame
        ((get_time_features 0 "hourly" ≫= λ df1, get_cyclic_features df1 "hourly")
           [sample_raw]) = Some out
    ∧ columns out
      = ["device_id"; "site_id"; "timestamp"; "pm2_5"; "latitude"; "longitude";
         "year_sin"; "year_cos"; "month_sin"; "month_cos"; "day_sin"; "day_cos";
         "dayofweek_sin"; "dayofweek_cos"; "hour_sin"; "hour_cos";
         "week_sin"; "week_cos"].
Proof.
  destruct (cyclic_features_drop_the_calendar [sample_raw] 0 sample_raw "hourly"
              [hour 473352; hour 473353] eq_refl)
    as (out & Hdirect & Hstaged & _).
  - split; [by apply (bool_decide_unpack _)|repeat constructor].
  - done.
  - reflexivity.
  - by left.
  - exists out. split; [done|]. split; [done|].
    vm_compute in Hdirect. injection Hdirect as <-. reflexivity.
Defined.

(** ** Lags by city *)

Lemma lag_columns_names u lags keys c :
  (lag_columns u lags keys c).*1 = (λ s, lag_name s u) <$> lags.
Proof. unfold lag_columns. by rewrite <- list_fmap_compose. Qed.

(** The loop of [lag_features] on a table that [groupby(["city"])]
    accepts, with the target column. *)
Lemma for_each_lag_feature_run (data : loc) (target_col u : string)
    (keys : list Key) (c : Column) (lags : list nat) : ∀ (σ : Store) (d : Frame),
  σ !! data = Some d → wf_frame d →
  row_keys ["city"] d = Some keys → getcol target_col d = Some c →
  (∀ s, s ∈ lags → lag_name s u ≠ target_col ∧ lag_name s u ≠ "city") →
  for_each (lag_feature data target_col u) lags σ
  = (Ok (), <[data := assign (lag_columns u lags keys c) d]> σ).
Proof.
  induction lags as [|s lags IH]; intros σ d Hd Hwf Hkeys Hc Hnames.
  - simpl. rewrite run_ret. by rewrite list_insert_id.
  - destruct (Hnames s) as [Hnt Hnc]; [apply list_elem_of_here|].
    assert (Hne : d ≠ []).
    { eapply columns_nonempty, getcol_is_Some. by eauto. }
    assert (Hlen : length (group_shift s keys c) = nrows d).
    { rewrite length_group_shift. by apply row_keys_length in Hkeys. }
    cbn [for_each]. rewrite run_bind. unfold lag_feature at 1.
    rewrite run_bind, (run_load _ _ _ Hd).
    rewrite run_bind, run_lift, Hkeys. cbn [need].
    rewrite run_bind, run_lift, Hc. cbn [need].
    rewrite (run_setitem_at _ _ _ _ _ Hd).
    rewrite (IH _ (setitem (lag_name s u) (group_shift s keys c) d)).
    + by rewrite list_insert_insert_eq.
    + by eapply store_lookup_insert.
    + by apply wf_frame_setitem.
    + rewrite row_keys_setitem; [done| |by apply nrows_setitem].
      by intros ?%list_elem_of_singleton.
    + by rewrite getcol_setitem_ne.
    + intros s' Hs'. apply Hnames. by apply list_elem_of_further.
Qed.

(** A lag of a table of one row, which is a group of its own, is
    missing. *)
Lemma group_shift_one_row k (label x : Cell) :
  0 < k → label ≠ CNull → group_shift k [[label]] [x] = [CNull].
Proof. intros Hk Hl. destruct k as [|k]; [lia|]. by destruct label. Qed.

Lemma spec_lags_positive freq k : k ∈ spec_lags freq → 0 < k.
Proof.
  unfold spec_lags. case_decide; intros Hk;
    repeat (apply elem_of_cons in Hk as [->|Hk]); try lia;
    by apply elem_of_nil in Hk.
Qed.

Lemma lag_name_ne_city s u : lag_name s u ≠ "city".
Proof. unfold lag_name. discriminate. Qed.

Lemma spec_lag_names_NoDup freq :
  NoDup ((λ s, lag_name s (spec_unit freq)) <$> spec_lags freq).
Proof.
  unfold spec_unit, spec_lags.
  case_decide; apply (bool_decide_unpack _); vm_compute; exact I.
Qed.

(** X12.  [SatelliteUtils.lag_features] works on the caller's table and
    hands it back.  With a frequency other than [hourly] and [daily] it
    raises before anything is changed.  With a [city] column the table
    gets the four lag columns, named after [pm2_5] whatever the target
    column is; row [t] of the lag by [k] holds the target of the row [k]
    places back among the rows of the same city, whatever their device,
    and is missing when the city has fewer rows before [t].  Without a
    [city] column the call raises a [KeyError] before anything is
    changed, unless the table has exactly one row: the name then stands
    for the label of that row, and the four lag columns are missing. *)
Theorem lag_features_follow_city_series (σ : Store) (data : loc) (d : Frame)
    (frequency target_col : string) :
  σ !! data = Some d →
  let run := lag_features data frequency target_col σ in
  let names := (λ s, lag_name s (spec_unit frequency)) <$> spec_lags frequency in
  (frequency ≠ "hourly" → frequency ≠ "daily" →
   run = (Raise (ValueError "freq must be daily or hourly"), σ))
  ∧ (frequency = "hourly" ∨ frequency = "daily" → "city" ∉ columns d →
     nrows d ≠ 1 →
     ∃ message, run = (Raise (KeyError message), σ))
  ∧ (∀ c x,
       frequency = "hourly" ∨ frequency = "daily" → wf_frame d →
       "city" ∉ columns d → getcol target_col d = Some c → c = [x] →
       target_col ∉ names →
       ∃ d',
         run = (Ok data, <[data := d']> σ)
         ∧ columns d' = columns d ++ filter (λ n, n ∉ columns d) names
         ∧ (∀ n, n ∉ names → getcol n d' = getcol n d)
         ∧ ∀ k, k ∈ spec_lags frequency →
             getcol (lag_name k (spec_unit frequency)) d' = Some [CNull])
  ∧ (∀ city c,
       frequency = "hourly" ∨ frequency = "daily" → wf_frame d →
       getcol "city" d = Some city → getcol target_col d = Some c →
       target_col ∉ names →
       ∃ d',
         run = (Ok data, <[data := d']> σ)
         ∧ columns d' = columns d ++ filter (λ n, n ∉ columns d) names
         ∧ (∀ n, n ∉ names → getcol n d' = getcol n d)
         ∧ ∀ k t x,
             k ∈ spec_lags frequency → city !! t = Some x → x ≠ CNull →
             getcol (lag_name k (spec_unit frequency)) d' ≫= (.!! t)
             = Some (if decide (k ≤ device_rank x city t)
                     then default CNull
                            (device_series x city c !! (device_rank x city t - k))
                     else CNull)).
Proof.
  intros Hd run names.
  assert (Hrun : ∀ keys c,
            frequency = "hourly" ∨ frequency = "daily" → wf_frame d →
            row_keys ["city"] d = Some keys → getcol target_col d = Some c →
            target_col ∉ names →
            let cols :=
              lag_columns (spec_unit frequency) (spec_lags frequency) keys c in
            run = (Ok data, <[data := assign cols d]> σ)
            ∧ columns (assign cols d)
              = columns d ++ filter (λ n, n ∉ columns d) names
            ∧ (∀ n, n ∉ names → getcol n (assign cols d) = getcol n d)
            ∧ ∀ k, k ∈ spec_lags frequency →
                getcol (lag_name k (spec_unit frequency)) (assign cols d)
                = Some (group_shift k keys c)).
  { intros keys c Hfreq Hwf Hkeys Hc Htarget cols.
    assert (Hnames : cols.*1 = names) by apply lag_columns_names.
    assert (Hloop : for_each (lag_feature data target_col (spec_unit frequency))
                      (spec_lags frequency) σ
                    = (Ok (), <[data := assign cols d]> σ)).
    { apply for_each_lag_feature_run; try done.
      intros s Hs. split; [|apply lag_name_ne_city].
      intros Heq. apply Htarget. rewrite <- Heq.
      apply list_elem_of_fmap. by exists s. }
    split_and!.
    - unfold run, lag_features.
      destruct Hfreq as [-> | ->].
      + rewrite decide_True by done.
        change (for_each (lag_feature data target_col "hour") [1; 2; 6; 12])
          with (for_each (lag_feature data target_col (spec_unit "hourly"))
                  (spec_lags "hourly")).
        by rewrite run_bind, Hloop.
      + rewrite decide_False, decide_True by done.
        change (for_each (lag_feature data target_col "day") [1; 2; 3; 7])
          with (for_each (lag_feature data target_col (spec_unit "daily"))
                  (spec_lags "daily")).
        by rewrite run_bind, Hloop.
    - rewrite columns_assign, Hnames; [done|].
      rewrite Hnames. apply spec_lag_names_NoDup.
    - intros n Hn. apply getcol_assign_notin. by rewrite Hnames.
    - intros k Hk. apply getcol_assign_in.
      + rewrite Hnames. apply spec_lag_names_NoDup.
      + unfold cols, lag_columns. apply list_elem_of_fmap. by exists k. }
  assert (Hno : "city" ∉ columns d → has_columns ["city"] d = false).
  { intros Hcity. apply has_columns_false. intros Hall. apply Hcity, Hall.
    apply list_elem_of_here. }
  split_and!.
  - intros Hh Hday. unfold run, lag_features. by rewrite !decide_False by done.
  - intros Hfreq Hcity Hrows. unfold run, lag_features.
    assert (Hkeys : row_keys ["city"] d = None).
    { rewrite (row_keys_labels _ _ (Hno Hcity)).
      by rewrite decide_False by (cbn [length]; lia). }
    destruct Hfreq as [-> | ->].
    + rewrite decide_True by done. rewrite run_bind. cbn [for_each].
      rewrite run_bind. unfold lag_feature at 1.
      rewrite run_bind, (run_load _ _ _ Hd), run_bind, run_lift, Hkeys.
      by eexists.
    + rewrite decide_False, decide_True by done. rewrite run_bind. cbn [for_each].
      rewrite run_bind. unfold lag_feature at 1.
      rewrite run_bind, (run_load _ _ _ Hd), run_bind, run_lift, Hkeys.
      by eexists.
  - intros c x Hfreq Hwf Hcity Hc -> Htarget.
    assert (Hrows : nrows d = 1).
    { by rewrite <- (wf_frame_getcol_length _ _ _ Hwf Hc). }
    assert (Hkeys : row_keys ["city"] d = Some [[CStr "city"]]).
    { rewrite (row_keys_labels _ _ (Hno Hcity)).
      by rewrite decide_True by (cbn [length]; lia). }
    destruct (Hrun _ _ Hfreq Hwf Hkeys Hc Htarget) as (Hr & Hcols & Hother & Hlag).
    eexists. split_and!; [exact Hr|exact Hcols|exact Hother|].
    intros k Hk. rewrite (Hlag k Hk).
    rewrite group_shift_one_row; [done| |done].
    by eapply spec_lags_positive.
  - intros city c Hfreq Hwf Hcity Hc Htarget.
    pose proof (row_keys_single _ _ _ Hwf Hcity) as Hkeys.
    destruct (Hrun _ _ Hfreq Hwf Hkeys Hc Htarget) as (Hr & Hcols & Hother & Hlag).
    set (keys := (λ x, [x]) <$> city) in *.
    eexists. split_and!; [exact Hr|exact Hcols|exact Hother|].
    intros k t x Hk Ht Hx. rewrite (Hlag k Hk).
    cbn [mbind option_bind].
    rewrite (group_shift_lookup k keys c t [x]).
    + unfold keys. by rewrite device_series_group, device_rank_group.
    + unfold keys. rewrite length_fmap.
      rewrite (wf_frame_getcol_length _ _ _ Hwf Hcity).
      by rewrite (wf_frame_getcol_length _ _ _ Hwf Hc).
    + unfold keys. by rewrite list_lookup_fmap, Ht.
    + by destruct x.
Qed.

Lemma lag_features_follow_city_series_witness :
  (∃ d',
     lag_features 0 "hourly" "pm2_5" [sample_cities] = (Ok 0, [d'])
     ∧ columns d'
       = ["city"; "device_id"; "pm2_5"; "pm2_5_last_1_hour"; "pm2_5_last_2_hour";
          "pm2_5_last_6_hour"; "pm2_5_last_12_hour"]
     ∧ getcol "pm2_5_last_1_hour" d'
       = Some [CNull; CNull; num 10; num 11; num 20])
  ∧ ∃ message,
      lag_features 0 "hourly" "pm2_5" [sample_two_rows]
      = (Raise (KeyError message), [sample_two_rows]).
Proof.
  split.
  - destruct (lag_features_follow_city_series [sample_cities] 0 sample_cities
                "hourly" "pm2_5" eq_refl) as (_ & _ & _ & Hrun).
    destruct (Hrun (default [] (getcol "city" sample_cities))
                (default [] (getcol "pm2_5" sample_cities)))
      as (d' & Hd' & _).
    + by left.
    + split; [by apply (bool_decide_unpack _)|repeat constructor].
    + reflexivity.
    + reflexivity.
    + apply (bool_decide_unpack _). vm_compute. exact I.
    + exists d'. split; [done|].
      vm_compute in Hd'. injection Hd' as <-. split; reflexivity.
  - destruct (lag_features_follow_city_series [sample_two_rows] 0 sample_two_rows
                "hourly" "pm2_5" eq_refl) as (_ & Hcity & _).
    apply Hcity.
    + by left.
    + apply (bool_decide_unpack _). vm_compute. exact I.
    + simpl. lia.
Defined.

(** ** Fault sequences *)

Lemma count_true_cons b m :
  count_true (b :: m) = (if b then 1 else 0) + count_true m.
Proof. unfold count_true. rewrite filter_cons. by destruct b. Qed.

Lemma count_true_app m1 m2 : count_true (m1 ++ m2) = count_true m1 + count_true m2.
Proof. unfold count_true. by rewrite filter_app, length_app. Qed.

Lemma count_true_zero m : count_true m = 0 ↔ ∀ s b, m !! s = Some b → b = false.
Proof.
  induction m as [|b m IH]; [done|]. rewrite count_true_cons. split.
  - intros Hz [|s] b' Hs; simpl in Hs.
    + injection Hs as <-. destruct b; [lia|done].
    + apply (proj1 IH) with s; [destruct b; lia|done].
  - intros Hall. rewrite (Hall 0 b eq_refl). simpl. apply IH.
    intros s b' Hs. by apply (Hall (S s)).
Qed.

Lemma length_cumsum_from acc m : length (cumsum_from acc m) = length m.
Proof. revert acc. induction m as [|b m IH]; intros acc; simpl; [done|by rewrite IH]. Qed.

Lemma cumsum_from_lookup m : ∀ acc t,
  t < length m →
  cumsum_from acc m !! t = Some (acc + count_true (take (S t) m)).
Proof.
  induction m as [|b m IH]; intros acc t Ht; [simpl in Ht; lia|].
  destruct t as [|t]; simpl.
  - rewrite take_0, count_true_cons. unfold count_true. simpl.
    f_equal. destruct b; lia.
  - simpl in Ht. rewrite IH by lia. rewrite (count_true_cons b).
    f_equal. destruct b; lia.
Qed.

Lemma length_align mask values : length (align mask values) = length mask.
Proof.
  revert values. induction mask as [|b mask IH]; intros values; [done|].
  destruct b, values; simpl; by rewrite IH.
Qed.

Lemma align_lookup mask : ∀ values t (b : bool),
  mask !! t = Some b →
  align mask values !! t
  = Some (if b then default CNull (values !! count_true (take t mask)) else CNull).
Proof.
  induction mask as [|b0 mask IH]; intros values t b Ht; [done|].
  destruct t as [|t].
  - injection Ht as <-. destruct b0, values; done.
  - simpl in Ht. cbn [take]. rewrite count_true_cons.
    destruct b0, values as [|v vs]; simpl; rewrite (IH _ _ _ Ht); done.
Qed.

Lemma take_mask_select {A} mask : ∀ (xs : list A) t,
  take (count_true (take t mask)) (mask_select mask xs)
  = mask_select (take t mask) (take t xs).
Proof.
  induction mask as [|b mask IH]; intros xs t.
  - by rewrite take_nil.
  - destruct t as [|t]; [done|].
    destruct xs as [|x xs]; [simpl; by rewrite take_nil|].
    cbn [take]. rewrite count_true_cons. destruct b; simpl.
    + by rewrite IH.
    + apply IH.
Qed.

Lemma mask_select_lookup_rank {A} mask : ∀ (xs : list A) t,
  mask !! t = Some true → length mask = length xs →
  mask_select mask xs !! count_true (take t mask) = xs !! t.
Proof.
  induction mask as [|b mask IH]; intros xs t Ht Hlen; [done|].
  destruct xs as [|x xs]; [done|]. simpl in Hlen.
  destruct t as [|t].
  - injection Ht as ->. done.
  - simpl in Ht. cbn [take]. rewrite count_true_cons.
    destruct b; simpl; apply IH; (done || lia).
Qed.

Lemma mask_select_zip_with {A B C} (f : A → B → C) mask : ∀ xs ys,
  mask_select mask (zip_with f xs ys)
  = zip_with f (mask_select mask xs) (mask_select mask ys).
Proof.
  induction mask as [|b mask IH]; intros xs ys; [done|].
  destruct xs as [|x xs], ys as [|y ys]; try done.
  - simpl. symmetry. destruct b; [done|]. apply zip_with_nil_r.
  - simpl. destruct b; simpl; by rewrite IH.
Qed.

Lemma length_changes a : length (changes a) = length a.
Proof.
  unfold changes, ne_mask. rewrite length_zip_with, length_shift. lia.
Qed.

Lemma changes_lookup a t :
  t < length a →
  changes a !! t
  = Some (negb (cell_eqb (default CNull (a !! t))
                  (if decide (1 ≤ t) then default CNull (a !! (t - 1)) else CNull))).
Proof.
  intros Ht. unfold changes, ne_mask. rewrite lookup_zip_with.
  destruct (lookup_lt_is_Some_2 a t Ht) as [x Hx]. rewrite Hx. simpl.
  by rewrite (shift_lookup 1 a t Ht).
Qed.

Lemma cumsum_changes_lookup a t :
  t < length a → cumsum (changes a) !! t = Some (count_cell (group_of a t)).
Proof.
  intros Ht. unfold cumsum. rewrite list_lookup_fmap.
  by rewrite cumsum_from_lookup by (by rewrite length_changes).
Qed.

Lemma group_of_split a t' t :
  t' ≤ t →
  group_of a t
  = group_of a t' + count_true (take (t - t') (drop (S t') (changes a))).
Proof.
  intros Hle. unfold group_of. rewrite <- count_true_app. f_equal.
  replace (S t) with (S t' + (t - t')) by lia. symmetry. apply take_take_drop.
Qed.

Lemma group_of_le a t' t : t' ≤ t → group_of a t' ≤ group_of a t.
Proof. intros Hle. rewrite (group_of_split a t' t Hle). lia. Qed.

(** Two rows are in one group when the value does not change between
    them. *)
Lemma group_of_eq a t' t :
  t' ≤ t → t < length a →
  group_of a t' = group_of a t
  ↔ ∀ s, t' < s ≤ t → changes a !! s = Some false.
Proof.
  intros Hle Ht. rewrite (group_of_split a t' t Hle).
  split.
  - intros Heq s Hs.
    assert (Hz : count_true (take (t - t') (drop (S t') (changes a))) = 0) by lia.
    destruct (lookup_lt_is_Some_2 (changes a) s) as [b Hb];
      [rewrite length_changes; lia|].
    rewrite Hb. f_equal.
    apply (proj1 (count_true_zero _) Hz (s - S t')).
    rewrite lookup_take_lt by lia. rewrite lookup_drop.
    by replace (S t' + (s - S t')) with s by lia.
  - intros Hall.
    assert (Hz : count_true (take (t - t') (drop (S t') (changes a))) = 0); [|lia].
    apply count_true_zero. intros k b Hk.
    apply lookup_take_Some in Hk as [Hk Hlt]. rewrite lookup_drop in Hk.
    rewrite (Hall (S t' + k)) in Hk by lia. by injection Hk as <-.
Qed.

Lemma anomalous_eqb a s :
  1 ≤ s → s < length a → anomalous a s →
  changes a !! s = Some false ↔ anomalous a (s - 1).
Proof.
  intros Hs Hlt (q & Hq & Hm). rewrite (changes_lookup a s Hlt).
  rewrite decide_True by done. rewrite Hq. simpl. split.
  - intros [= Heq]. apply negb_false_iff in Heq.
    destruct (a !! (s - 1)) as [[| |q'|]|] eqn:Hp; simpl in Heq; try done.
    exists q'. split; [done|]. apply Qeq_bool_iff in Heq.
    by rewrite <- Heq.
  - intros (q' & Hq' & Hm'). rewrite Hq'. simpl. f_equal.
    apply negb_false_iff, Qeq_bool_iff. by rewrite Hm, Hm'.
Qed.

(** From an anomalous row backwards, the group is the run. *)
Lemma group_of_run a t' t :
  t' ≤ t → t < length a → anomalous a t →
  group_of a t' = group_of a t ↔ anomaly_run a t' t.
Proof.
  intros Hle Ht Hanom. rewrite (group_of_eq a t' t Hle Ht). split.
  - intros Hall. split; [done|].
    assert (Hdown : ∀ k, k ≤ t - t' → anomalous a (t - k)).
    { induction k as [|k IH]; intros Hk.
      - by rewrite Nat.sub_0_r.
      - replace (t - S k) with (t - k - 1) by lia.
        apply anomalous_eqb; [lia|lia|apply IH; lia|apply Hall; lia]. }
    intros s Hs. replace s with (t - (t - s)) by lia. apply Hdown. lia.
  - intros [_ Hrun] s Hs.
    apply anomalous_eqb; [lia|lia|apply Hrun; lia|apply Hrun; lia].
Qed.

Lemma eq_scalar_lookup a t :
  eq_scalar (-1) a !! t = Some true ↔ anomalous a t.
Proof.
  unfold eq_scalar, anomalous. rewrite list_lookup_fmap. split.
  - destruct (a !! t) as [[| |q|]|]; simpl; try done.
    intros [= Hq]. exists q. split; [done|]. by apply Qeq_bool_iff.
  - intros (q & -> & Hq). simpl. f_equal. by apply Qeq_bool_iff.
Qed.

Lemma eq_scalar_lookup_false a t :
  t < length a → ¬ anomalous a t → eq_scalar (-1) a !! t = Some false.
Proof.
  intros Ht Hn.
  destruct (lookup_lt_is_Some_2 (eq_scalar (-1) a) t) as [b Hb];
    [unfold eq_scalar; by rewrite length_fmap|].
  destruct b; [|done]. by apply eq_scalar_lookup in Hb.
Qed.

Lemma group_of_S_change a t :
  changes a !! S t = Some true → group_of a (S t) = S (group_of a t).
Proof.
  intros Hc. rewrite (group_of_split a t (S t)) by lia.
  replace (S t - t) with 1 by lia.
  rewrite (take_S_r _ 0 true) by (by rewrite lookup_drop, Nat.add_0_r).
  rewrite take_0. change (count_true ([] ++ [true])) with 1. lia.
Qed.

(** The start of the run that ends in an anomalous row. *)
Lemma run_start a t :
  t < length a → anomalous a t →
  ∃ st, st ≤ t ∧ anomaly_run a st t
        ∧ (∀ t', t' < st → group_of a t' < group_of a t)
        ∧ ∀ i, anomaly_run a i t → st ≤ i.
Proof.
  intros Ht Hanom.
  assert (Hst : ∃ st, st ≤ t ∧ anomaly_run a st t
                      ∧ ∀ t', t' < st → group_of a t' < group_of a t).
  { induction t as [|t IH].
    - exists 0. split_and!; [done| |lia].
      split; [done|]. intros s Hs. by replace s with 0 by lia.
    - destruct (lookup_lt_is_Some_2 (changes a) (S t)) as [b Hb];
        [by rewrite length_changes|].
      destruct b.
      + exists (S t). split_and!; [done| |].
        * split; [done|]. intros s Hs. by replace s with (S t) by lia.
        * intros t' Ht'. rewrite (group_of_S_change a t Hb).
          pose proof (group_of_le a t' t). lia.
      + assert (Hprev : anomalous a t).
        { replace t with (S t - 1) by lia.
          apply anomalous_eqb; [lia|done|done|done]. }
        destruct IH as (st & Hle & [_ Hrun] & Hlow); [lia|done|].
        assert (Heq : group_of a t = group_of a (S t)).
        { apply group_of_eq; [lia|done|]. intros s Hs.
          by replace s with (S t) by lia. }
        exists st. split_and!; [lia| |].
        * split; [lia|]. intros s Hs.
          destruct (decide (s = S t)) as [->|Hne]; [done|]. apply Hrun. lia.
        * intros t' Ht'. rewrite <- Heq. by apply Hlow. }
  destruct Hst as (st & Hle & Hrun & Hlow).
  exists st. split_and!; [done..|].
  intros i [Hi Hrun']. destruct (decide (st ≤ i)) as [|Hlt]; [done|].
  assert (Heq : group_of a i = group_of a t).
  { apply group_of_run; [done|done|done|]. by split. }
  specialize (Hlow i). lia.
Qed.

Lemma Qred_inject_Z z : Qred (inject_Z z) = inject_Z z.
Proof.
  unfold Qred, inject_Z.
  pose proof (Z.ggcd_gcd z 1) as Hg.
  pose proof (Z.ggcd_correct_divisors z 1) as Hd.
  destruct (Z.ggcd z 1) as [g [zz dd]]. simpl in Hg, Hd.
  rewrite Z.gcd_1_r in Hg. subst g. destruct Hd as [Hz Hd].
  replace dd with 1%Z by lia. replace zz with z by lia. done.
Qed.

Lemma add_one_count_cell n :
  Qred (inject_Z (Z.of_nat n) + 1) = inject_Z (Z.of_nat (S n)).
Proof.
  rewrite <- (Qred_inject_Z (Z.of_nat (S n))).
  apply Qred_complete. unfold Qeq, inject_Z. simpl. lia.
Qed.

Lemma count_cell_inj n m : count_cell n = count_cell m → n = m.
Proof. unfold count_cell, inject_Z. intros [= Heq]. lia. Qed.

Lemma group_keys_lookup (dev a : Column) t x :
  length dev = length a → t < length a → dev !! t = Some x →
  zip_with (λ y g, [y; g]) dev (cumsum (changes a)) !! t
  = Some [x; count_cell (group_of a t)].
Proof.
  intros Hlen Ht Hx. rewrite lookup_zip_with, Hx. simpl.
  by rewrite (cumsum_changes_lookup a t Ht).
Qed.

(** Within one group the rows with the key of a device are the rows of
    the device. *)
Lemma count_in_group (dev a : Column) st x g : ∀ j,
  length dev = length a → st ≤ j → j ≤ length a →
  (∀ s, st ≤ s < j → group_of a s = g) →
  length (filter (λ k, k = [x; count_cell g])
            (drop st (take j (zip_with (λ y g, [y; g]) dev (cumsum (changes a))))))
  = length (filter (λ y, y = x) (drop st (take j dev))).
Proof.
  intros j Hlen. induction j as [|j IH]; intros Hst Hj Hg.
  - by rewrite !take_0, !drop_nil.
  - destruct (decide (st = S j)) as [->|Hne].
    + rewrite !drop_ge; [done| |].
      * rewrite length_take. lia.
      * rewrite length_take. lia.
    + destruct (lookup_lt_is_Some_2 dev j) as [y Hy]; [lia|].
      rewrite (take_S_r dev j y Hy).
      rewrite (take_S_r _ j _ (group_keys_lookup dev a j y Hlen ltac:(lia) Hy)).
      rewrite !drop_app_le by (rewrite length_take; try rewrite length_zip_with;
                               try (unfold cumsum; rewrite length_fmap,
                                      length_cumsum_from, length_changes); lia).
      rewrite !filter_app, !length_app, IH by (try lia; intros; apply Hg; lia).
      f_equal. rewrite !filter_cons, !filter_nil.
      rewrite (Hg j) by lia.
      destruct (decide (y = x)) as [->|Hyx].
      * by rewrite decide_True.
      * rewrite decide_False; [done|]. by intros [= ?].
Qed.

Lemma mask_select_all_true {A} (mask : list bool) (xs : list A) :
  (∀ i b, mask !! i = Some b → b = true) → length mask = length xs →
  mask_select mask xs = xs.
Proof.
  revert xs. induction mask as [|b mask IH]; intros [|x xs] Hall Hlen; try done.
  rewrite (Hall 0 b eq_refl). simpl. f_equal. apply IH.
  - intros i b' Hi. by apply (Hall (S i)).
  - simpl in Hlen. lia.
Qed.

Lemma filter_none {A} (P : A → Prop) `{∀ x, Decision (P x)} (l : list A) :
  (∀ x, x ∈ l → ¬ P x) → filter P l = [].
Proof.
  induction l as [|x l IH]; intros Hall; [done|].
  rewrite filter_cons, decide_False by (apply Hall, list_elem_of_here).
  apply IH. intros y Hy. by apply Hall, list_elem_of_further.
Qed.

Lemma rows_between_last x dev st t :
  st ≤ t → dev !! t = Some x →
  rows_between x dev st t = S (length (filter (λ y, y = x) (drop st (take t dev)))).
Proof.
  intros Hst Hx. unfold rows_between. rewrite take_drop_commute.
  replace (st + (S t - st)) with (S t) by lia.
  rewrite (take_S_r dev t x Hx).
  rewrite drop_app_le by (rewrite length_take; apply lookup_lt_Some in Hx; lia).
  rewrite filter_app, length_app, filter_cons, decide_True by done.
  simpl. lia.
Qed.

Lemma rows_between_other x y dev st t :
  st ≤ t → dev !! t = Some y → y ≠ x →
  rows_between x dev st t = length (filter (λ y, y = x) (drop st (take t dev))).
Proof.
  intros Hst Hy Hne. unfold rows_between. rewrite take_drop_commute.
  replace (st + (S t - st)) with (S t) by lia.
  rewrite (take_S_r dev t y Hy).
  rewrite drop_app_le by (rewrite length_take; apply lookup_lt_Some in Hy; lia).
  rewrite filter_app, length_app, filter_cons, decide_False by done.
  simpl. lia.
Qed.

(** The sequence length of an anomalous row: the number of rows of its
    device from the start of its run up to the row. *)
Lemma sequence_length_anomalous (dev a : Column) t x :
  length dev = length a → t < length a → anomalous a t →
  dev !! t = Some x → x ≠ CNull →
  let selected := eq_scalar (-1) a in
  let keys := zip_with (λ y g, [y; g]) dev (cumsum (changes a)) in
  ∃ st, st ≤ t ∧ anomaly_run a st t
        ∧ (∀ i, anomaly_run a i t → st ≤ i)
        ∧ align selected (add_scalar 1 (cumcount (mask_select selected keys))) !! t
          = Some (count_cell (rows_between x dev st t)).
Proof.
  intros Hlen Ht Hanom Hx Hnull selected keys.
  destruct (run_start a t Ht Hanom) as (st & Hle & Hrun & Hlow & Hmin).
  exists st. split_and!; [done..|].
  assert (Hsel : selected !! t = Some true) by (by apply eq_scalar_lookup).
  assert (Hlsel : length selected = length a)
    by (unfold selected, eq_scalar; by rewrite length_fmap).
  assert (Hlkeys : length keys = length a).
  { unfold keys, cumsum.
    rewrite length_zip_with, length_fmap, length_cumsum_from, length_changes. lia. }
  set (k := [x; count_cell (group_of a t)]).
  assert (Hk : keys !! t = Some k) by (by apply group_keys_lookup).
  rewrite (align_lookup _ _ _ _ Hsel).
  unfold add_scalar, cumcount. rewrite list_lookup_fmap, list_lookup_imap.
  rewrite (mask_select_lookup_rank _ _ _ Hsel) by lia. rewrite Hk.
  assert (Hnk : null_key k = false) by (by destruct x).
  cbn [fmap option_fmap option_map default]. rewrite Hnk.
  rewrite (rows_between_last x dev st t Hle Hx).
  unfold count_cell. rewrite add_one_count_cell.
  apply (f_equal (λ n, Some (CNum (inject_Z (Z.of_nat (S n)))))).
  unfold group_rank. rewrite take_mask_select.
  rewrite <- (take_drop st (take t selected)), <- (take_drop st (take t keys)).
  rewrite mask_select_app by (rewrite !length_take; lia).
  rewrite filter_app, length_app.
  rewrite (filter_none _ (mask_select (take st (take t selected)) _)).
  - simpl. rewrite mask_select_all_true.
    + unfold keys, k. apply count_in_group; [done|done|lia|].
      intros s Hs. apply group_of_run; [lia|done|done|].
      split; [lia|]. intros u Hu. apply Hrun. lia.
    + intros i b Hi. rewrite lookup_drop in Hi.
      apply lookup_take_Some in Hi as [Hi Hlt].
      assert (Htrue : selected !! (st + i) = Some true).
      { apply eq_scalar_lookup, Hrun. lia. }
      rewrite Htrue in Hi. by injection Hi as <-.
    + rewrite !length_drop, !length_take. lia.
  - intros k' Hin%mask_select_sublist Heq. subst k'.
    apply list_elem_of_lookup in Hin as [i Hi].
    apply lookup_take_Some in Hi as [Hi Hlt].
    apply lookup_take_Some in Hi as [Hi _].
    destruct (lookup_lt_is_Some_2 dev i) as [y Hy]; [lia|].
    unfold keys in Hi.
    rewrite (group_keys_lookup dev a i y Hlen ltac:(lia) Hy) in Hi.
    injection Hi as _ Hg.
    specialize (Hlow i Hlt). lia.
Qed.

Lemma sequence_length_other (a : Column) (values : Column) t :
  t < length a → ¬ anomalous a t →
  align (eq_scalar (-1) a) values !! t = Some CNull.
Proof.
  intros Ht Hn. by rewrite (align_lookup _ _ _ _ (eq_scalar_lookup_false a t Ht Hn)).
Qed.

Lemma elem_of_mask_select {A} (mask : list bool) (c : list A) x :
  x ∈ mask_select mask c ↔ ∃ t, mask !! t = Some true ∧ c !! t = Some x.
Proof.
  revert c. induction mask as [|b mask IH]; intros c.
  - simpl. split; [by intros ?%elem_of_nil|by intros (t & ? & _)].
  - destruct c as [|y c].
    + simpl. split; [by intros ?%elem_of_nil|by intros (t & _ & ?)].
    + simpl. destruct b.
      * rewrite elem_of_cons, IH. split.
        -- intros [->|(t & Hm & Hc)]; [by exists 0|by exists (S t)].
        -- intros ([|t] & Hm & Hc); [left; by injection Hc|right; by exists t].
      * rewrite IH. split.
        -- intros (t & Hm & Hc). by exists (S t).
        -- intros ([|t] & Hm & Hc); [done|by exists t].
Qed.

Lemma mask_select_NoDup {A} (mask : list bool) (c : list A) :
  NoDup c → NoDup (mask_select mask c).
Proof.
  revert c. induction mask as [|b mask IH]; intros c Hnd; [constructor|].
  destruct c as [|y c]; [constructor|].
  apply NoDup_cons in Hnd as [Hy Hnd]. simpl. destruct b; [|by apply IH].
  apply NoDup_cons. split; [|by apply IH].
  intros Hin. by apply mask_select_sublist in Hin.
Qed.

Lemma elem_of_insert_key k k' ks : k' ∈ insert_key k ks ↔ k' = k ∨ k' ∈ ks.
Proof.
  induction ks as [|k0 ks IH]; simpl.
  - rewrite list_elem_of_singleton, elem_of_nil. tauto.
  - destruct (key_leb k k0).
    + by rewrite elem_of_cons.
    + rewrite !elem_of_cons, IH. tauto.
Qed.

Lemma elem_of_sort_keys k ks : k ∈ sort_keys ks ↔ k ∈ ks.
Proof.
  unfold sort_keys. induction ks as [|k0 ks IH]; [done|].
  simpl. rewrite elem_of_insert_key, elem_of_cons, IH. done.
Qed.

Lemma NoDup_insert_key k ks : k ∉ ks → NoDup ks → NoDup (insert_key k ks).
Proof.
  induction ks as [|k0 ks IH]; intros Hk Hnd; simpl.
  - apply NoDup_singleton.
  - destruct (key_leb k k0); [by apply NoDup_cons|].
    apply NoDup_cons in Hnd as [Hk0 Hnd].
    apply not_elem_of_cons in Hk as [Hne Hk].
    apply NoDup_cons. split; [|by apply IH].
    rewrite elem_of_insert_key. intros [->|?]; done.
Qed.

Lemma NoDup_sort_keys ks : NoDup ks → NoDup (sort_keys ks).
Proof.
  unfold sort_keys. induction ks as [|k0 ks IH]; intros Hnd; [constructor|].
  apply NoDup_cons in Hnd as [Hk Hnd]. simpl.
  apply NoDup_insert_key; [|by apply IH].
  by rewrite (elem_of_sort_keys k0 ks).
Qed.

Lemma row_keys_pair n1 n2 (df : Frame) c1 c2 :
  wf_frame df → getcol n1 df = Some c1 → getcol n2 df = Some c2 →
  row_keys [n1; n2] df = Some (zip_with (λ x y, [x; y]) c1 c2).
Proof.
  intros Hwf H1 H2. rewrite row_keys_columns.
  2:{ apply has_columns_spec. intros n Hn. apply getcol_is_Some.
      repeat (apply elem_of_cons in Hn as [->|Hn]); [by eauto..|].
      by apply elem_of_nil in Hn. }
  unfold column_keys. simpl. rewrite H1, H2. simpl. f_equal.
  pose proof (wf_frame_getcol_length _ _ _ Hwf H1) as Hl1.
  pose proof (wf_frame_getcol_length _ _ _ Hwf H2) as Hl2.
  rewrite <- Hl1.
  apply list_eq. intros i. rewrite list_lookup_fmap, lookup_zip_with.
  destruct (decide (i < length c1)) as [Hlt|Hge].
  - rewrite lookup_seq_lt by done. simpl.
    destruct (lookup_lt_is_Some_2 c1 i Hlt) as [x Hx].
    destruct (lookup_lt_is_Some_2 c2 i) as [y Hy]; [lia|].
    by rewrite Hx, Hy.
  - rewrite lookup_seq_ge by lia. simpl.
    by rewrite (lookup_ge_None_2 c1 i) by lia.
Qed.

(** The maximum of a group of counts. *)
Lemma foldl_max_counts (ms : list nat) : ∀ v,
  foldl (λ m q, if Qle_bool m q then q else m) (inject_Z (Z.of_nat v))
    ((λ m, inject_Z (Z.of_nat m)) <$> ms)
  = inject_Z (Z.of_nat (foldl Nat.max v ms)).
Proof.
  induction ms as [|m ms IH]; intros v; [done|].
  simpl. destruct (Qle_bool _ _) eqn:Hle.
  - apply Qle_bool_iff in Hle. unfold Qle in Hle. simpl in Hle.
    rewrite IH. by replace (v `max` m) with m by lia.
  - assert (¬ (inject_Z (Z.of_nat v) <= inject_Z (Z.of_nat m))%Q) as Hn.
    { intros Hq. apply Qle_bool_iff in Hq. congruence. }
    unfold Qle in Hn. simpl in Hn.
    rewrite IH. by replace (v `max` m) with v by lia.
Qed.

Lemma foldl_max_spec (ms : list nat) : ∀ v,
  foldl Nat.max v ms ∈ v :: ms ∧ ∀ m, m ∈ v :: ms → m ≤ foldl Nat.max v ms.
Proof.
  induction ms as [|m ms IH]; intros v.
  - simpl. split; [apply list_elem_of_here|].
    intros m Hm. apply list_elem_of_singleton in Hm. lia.
  - simpl. destruct (IH (v `max` m)) as [Hin Hmax]. split.
    + apply elem_of_cons in Hin as [Heq|Hin].
      * rewrite Heq. destruct (Nat.max_spec v m) as [[_ ->]|[_ ->]].
        -- apply list_elem_of_further, list_elem_of_here.
        -- apply list_elem_of_here.
      * by do 2 apply list_elem_of_further.
    + intros m' Hm'. rewrite !elem_of_cons in Hm'.
      destruct Hm' as [->|[->|Hm']].
      * specialize (Hmax (v `max` m) ltac:(apply list_elem_of_here)). lia.
      * specialize (Hmax (v `max` m) ltac:(apply list_elem_of_here)). lia.
      * apply Hmax. by apply list_elem_of_further.
Qed.

Lemma omap_as_num_counts (xs : list Cell) :
  (∀ c, c ∈ xs → c = CNull ∨ ∃ m, c = count_cell m) →
  ∃ ms, omap as_num xs = (λ m, inject_Z (Z.of_nat m)) <$> ms
        ∧ ∀ m, m ∈ ms ↔ count_cell m ∈ xs.
Proof.
  induction xs as [|c xs IH]; intros Hall.
  - exists []. split; [done|]. intros m. by rewrite !elem_of_nil.
  - destruct IH as (ms & Hms & Hin).
    { intros c' Hc'. by apply Hall, list_elem_of_further. }
    destruct (Hall c) as [->|[m ->]]; [apply list_elem_of_here| |].
    + exists ms. split; [done|]. intros m. rewrite Hin, elem_of_cons.
      split; [tauto|]. by intros [?|?].
    + exists (m :: ms). split.
      { change (omap as_num (count_cell m :: xs))
          with (inject_Z (Z.of_nat m) :: omap as_num xs). by rewrite Hms. }
      intros m'. rewrite !elem_of_cons, Hin. split.
      * intros [->|?]; tauto.
      * intros [Heq|?]; [left; by apply count_cell_inj|tauto].
Qed.

Lemma nanmax_counts (xs : list Cell) :
  (∀ c, c ∈ xs → c = CNull ∨ ∃ m, c = count_cell m) →
  (nanmax xs = CNull ∧ ∀ m, count_cell m ∉ xs)
  ∨ ∃ m, nanmax xs = count_cell m ∧ count_cell m ∈ xs
         ∧ ∀ m', count_cell m' ∈ xs → m' ≤ m.
Proof.
  intros Hall. destruct (omap_as_num_counts xs Hall) as (ms & Hms & Hin).
  unfold nanmax. rewrite Hms. destruct ms as [|v ms].
  - left. split; [done|]. intros m Hm. apply Hin in Hm. by apply elem_of_nil in Hm.
  - right. rewrite fmap_cons. rewrite foldl_max_counts.
    destruct (foldl_max_spec ms v) as [Hmem Hmax].
    exists (foldl Nat.max v ms). split_and!; [done|by apply Hin|].
    intros m' Hm'. apply Hmax. by apply Hin.
Qed.

Lemma length_cumsum mask : length (cumsum mask) = length mask.
Proof. unfold cumsum. by rewrite length_fmap, length_cumsum_from. Qed.

Lemma length_fillna v c : length (fillna v c) = length c.
Proof. unfold fillna. by rewrite length_fmap. Qed.

(** A run of [process_faulty_devices_fault_sequence] on a table with the
    two columns. *)
Lemma process_faulty_devices_fault_sequence_run (copy_on_write : bool)
    (σ : Store) (df : loc) (d : Frame) (dev a : Column) :
  σ !! df = Some d → wf_frame d →
  getcol "device_id" d = Some dev → getcol "anomaly_value" d = Some a →
  let selected := eq_scalar (-1) a in
  let keys := zip_with (λ y g, [y; g]) dev (cumsum (changes a)) in
  let v := align selected (add_scalar 1 (cumcount (mask_select selected keys))) in
  let c := if copy_on_write then v else fillna 0 v in
  let keys1 := (λ y, [y]) <$> dev in
  let groups := sort_keys (unique (filter (λ k, null_key k = false) keys1)) in
  let maxima := (λ k, nanmax (group_series k keys1 c)) <$> groups in
  process_faulty_devices_fault_sequence copy_on_write df σ
  = (Ok (length σ),
     <[df := setitem "anomaly_sequence_length" c
               (setitem "group" (cumsum (changes a)) d)]> σ
     ++ [[("device_id",
           mask_select (ge_scalar 80 maxima)
             ((λ k : list Cell, default CNull (k !! 0)) <$> groups));
          ("fault_count", mask_select (ge_scalar 80 maxima) maxima)]]).
Proof.
  intros Hd Hwf Hdev Ha selected keys v c keys1 groups maxima.
  assert (Hne : d ≠ []) by (eapply columns_nonempty, getcol_is_Some; eauto).
  pose proof (wf_frame_getcol_length _ _ _ Hwf Hdev) as Hldev.
  pose proof (wf_frame_getcol_length _ _ _ Hwf Ha) as Hla.
  set (G := cumsum (changes a)).
  assert (HlG : length G = nrows d).
  { unfold G. by rewrite length_cumsum, length_changes. }
  set (d2 := setitem "group" G d).
  assert (Hwf2 : wf_frame d2) by (by apply wf_frame_setitem).
  assert (Hrows2 : nrows d2 = nrows d) by (by apply nrows_setitem).
  assert (Hlv : length v = nrows d).
  { unfold v. rewrite length_align. unfold selected, eq_scalar.
    by rewrite length_fmap. }
  assert (Hlc : length c = nrows d).
  { unfold c. destruct copy_on_write; [done|by rewrite length_fillna]. }
  unfold process_faulty_devices_fault_sequence.
  rewrite run_bind, (run_load _ _ _ Hd).
  rewrite run_bind, run_lift, Ha. cbn [need].
  rewrite run_bind, (run_setitem_at _ _ _ _ _ Hd).
  change (cumsum (ne_mask a (shift 1 a))) with G. fold d2.
  assert (Hd2 : <[df := d2]> σ !! df = Some d2) by (by eapply store_lookup_insert).
  rewrite run_bind, (run_load _ _ _ Hd2).
  assert (Ha2 : getcol "anomaly_value" d2 = Some a)
    by (unfold d2; by rewrite getcol_setitem_ne).
  assert (Hdev2 : getcol "device_id" d2 = Some dev)
    by (unfold d2; by rewrite getcol_setitem_ne).
  assert (HG2 : getcol "group" d2 = Some G) by apply getcol_setitem_eq.
  rewrite run_bind, run_lift, Ha2. cbn [need]. fold selected.
  rewrite run_bind, run_lift.
  rewrite (row_keys_pair "device_id" "group" (filter_rows selected d2)
             (mask_select selected dev) (mask_select selected G));
    [|by apply wf_frame_filter_rows
     |by rewrite getcol_filter_rows, Hdev2
     |by rewrite getcol_filter_rows, HG2].
  cbn [need]. rewrite <- mask_select_zip_with. fold keys v.
  rewrite run_bind, (run_setitem_at _ _ _ _ _ Hd2).
  rewrite list_insert_insert_eq.
  set (d3 := setitem "anomaly_sequence_length" v d2).
  assert (Hd3 : <[df := d3]> σ !! df = Some d3) by (by eapply store_lookup_insert).
  assert (Hwf3 : wf_frame d3).
  { apply wf_frame_setitem; [done|apply setitem_nonempty|]. by rewrite Hrows2. }
  set (d4 := setitem "anomaly_sequence_length" c d2).
  assert (Hwf4 : wf_frame d4).
  { apply wf_frame_setitem; [done|apply setitem_nonempty|]. by rewrite Hrows2. }
  assert (Hfill : ∀ (A : Type) (k : unit → M A),
            ((if copy_on_write then mret ()
              else
                d ← load df;
                c ← lift (need "anomaly_sequence_length"
                            (getcol "anomaly_sequence_length" d));
                setitem_at df "anomaly_sequence_length" (fillna 0 c)) ≫= k)
              (<[df := d3]> σ)
            = k () (<[df := d4]> σ)).
  { intros A k. rewrite run_bind. unfold d4, c. destruct copy_on_write.
    - by rewrite run_ret.
    - rewrite run_bind, (run_load _ _ _ Hd3).
      rewrite run_bind, run_lift. unfold d3 at 1. rewrite getcol_setitem_eq.
      cbn [need]. rewrite (run_setitem_at _ _ _ _ _ Hd3).
      rewrite list_insert_insert_eq. unfold d3. by rewrite setitem_setitem. }
  rewrite Hfill.
  assert (Hd4 : <[df := d4]> σ !! df = Some d4) by (by eapply store_lookup_insert).
  rewrite run_bind, (run_load _ _ _ Hd4).
  assert (Hdev4 : getcol "device_id" d4 = Some dev)
    by (unfold d4; by rewrite getcol_setitem_ne).
  rewrite run_bind, run_lift, (column_keys_single _ _ _ Hwf4 Hdev4). cbn [need].
  rewrite run_bind, run_lift. unfold d4 at 1. rewrite getcol_setitem_eq.
  cbn [need]. fold keys1 groups maxima.
  rewrite run_alloc, length_insert. done.
Qed.

Lemma elem_of_align mask : ∀ values y,
  y ∈ align mask values → y = CNull ∨ y ∈ values.
Proof.
  induction mask as [|b mask IH]; intros values y Hy; [by apply elem_of_nil in Hy|].
  destruct b, values as [|v vs]; simpl in Hy;
    apply elem_of_cons in Hy as [->|Hy]; try (by left).
  - apply IH in Hy as [?|Hy]; [by left|by apply elem_of_nil in Hy].
  - right. apply list_elem_of_here.
  - apply IH in Hy as [?|Hy]; [by left|right; by apply list_elem_of_further].
  - by apply IH.
  - by apply IH.
Qed.

Lemma elem_of_add_one_cumcount keys y :
  y ∈ add_scalar 1 (cumcount keys) → y = CNull ∨ ∃ m, y = count_cell m.
Proof.
  unfold add_scalar, cumcount. intros Hy.
  apply list_elem_of_fmap in Hy as (z & -> & Hz).
  apply list_elem_of_lookup in Hz as [i Hi].
  rewrite list_lookup_imap in Hi.
  destruct (keys !! i) as [k|]; [|done]. simpl in Hi. injection Hi as <-.
  destruct (null_key k); [by left|]. right.
  exists (S (group_rank k keys i)). unfold count_cell.
  by rewrite add_one_count_cell.
Qed.

(** The cells of the sequence length column, with or without the fill. *)
Lemma sequence_length_cells (copy_on_write : bool) (dev a : Column) :
  length dev = length a →
  let selected := eq_scalar (-1) a in
  let keys := zip_with (λ y g, [y; g]) dev (cumsum (changes a)) in
  let v := align selected (add_scalar 1 (cumcount (mask_select selected keys))) in
  let c := if copy_on_write then v else fillna 0 v in
  (∀ t x, t < length a → anomalous a t → dev !! t = Some x → x ≠ CNull →
     ∃ st, st ≤ t ∧ anomaly_run a st t
           ∧ (∀ i, anomaly_run a i t → st ≤ i)
           ∧ c !! t = Some (count_cell (rows_between x dev st t)))
  ∧ (∀ t, t < length a → ¬ anomalous a t →
       c !! t = Some CNull ∨ c !! t = Some (count_cell 0))
  ∧ (∀ t y, c !! t = Some y → y = CNull ∨ ∃ m, y = count_cell m).
Proof.
  intros Hlen selected keys v c. split_and!.
  - intros t x Ht Hanom Hx Hnull.
    destruct (sequence_length_anomalous dev a t x Hlen Ht Hanom Hx Hnull)
      as (st & Hle & Hrun & Hmin & Hv).
    exists st. split_and!; [done..|].
    unfold c. destruct copy_on_write; [done|].
    unfold fillna. rewrite list_lookup_fmap. fold selected keys v in Hv.
    by rewrite Hv.
  - intros t Ht Hn.
    pose proof (sequence_length_other a
                  (add_scalar 1 (cumcount (mask_select selected keys))) t Ht Hn)
      as Hv.
    fold selected v in Hv. unfold c. destruct copy_on_write; [by left|].
    right. unfold fillna. rewrite list_lookup_fmap, Hv. done.
  - intros t y Hy.
    assert (Hv : ∀ z, v !! t = Some z → z = CNull ∨ ∃ m, z = count_cell m).
    { intros z Hz. apply list_elem_of_lookup_2 in Hz.
      apply elem_of_align in Hz as [?|Hz]; [by left|].
      by apply elem_of_add_one_cumcount in Hz. }
    unfold c in Hy. destruct copy_on_write; [by apply Hv|].
    unfold fillna in Hy. rewrite list_lookup_fmap in Hy.
    destruct (v !! t) as [z|] eqn:Hz; [|done]. injection Hy as <-.
    destruct (Hv z eq_refl) as [->|[m ->]]; right; [by exists 0|by exists m].
Qed.

Lemma length_filter_drop {A} (P : A → Prop) `{∀ x, Decision (P x)} n (l : list A) :
  length (filter P (drop n l)) ≤ length (filter P l).
Proof.
  rewrite <- (take_drop n l) at 2. rewrite filter_app, length_app. lia.
Qed.

Lemma rows_between_start x dev st i j :
  st ≤ i → i ≤ j → j < length dev →
  rows_between x dev i j ≤ rows_between x dev st j.
Proof.
  intros Hst Hij Hj. unfold rows_between. rewrite !take_drop_commute.
  replace (i + (S j - i)) with (S j) by lia.
  replace (st + (S j - st)) with (S j) by lia.
  replace i with (st + (i - st)) at 1 by lia.
  rewrite <- drop_drop. apply length_filter_drop.
Qed.

Lemma anomaly_run_lt a i j : anomaly_run a i j → j < length a.
Proof.
  intros [Hij Hrun]. destruct (Hrun j) as (q & Hq & _); [lia|].
  by apply lookup_lt_Some in Hq.
Qed.

(** A bound on the sequence lengths of a device bounds its rows in
    every run. *)
Lemma rows_between_bound x (dev a : Column) M :
  length dev = length a →
  (∀ t st, dev !! t = Some x → anomaly_run a st t →
     (∀ i, anomaly_run a i t → st ≤ i) → rows_between x dev st t ≤ M) →
  ∀ j i, anomaly_run a i j → rows_between x dev i j ≤ M.
Proof.
  intros Hlen Hbound j. induction j as [|j IH]; intros i Hrun.
  - pose proof (anomaly_run_lt a i 0 Hrun) as Hlt.
    destruct Hrun as [Hi0 Hrun]. assert (i = 0) as -> by lia.
    destruct (lookup_lt_is_Some_2 dev 0) as [y Hy]; [lia|].
    destruct (decide (y = x)) as [->|Hne].
    + destruct (run_start a 0 Hlt (Hrun 0 ltac:(lia))) as (st & Hle & Hr & _ & Hmin).
      assert (st = 0) as -> by lia. by apply Hbound.
    + rewrite (rows_between_other x y dev 0 0) by done.
      rewrite take_0. simpl. lia.
  - pose proof (anomaly_run_lt a i (S j) Hrun) as Hlt.
    destruct (lookup_lt_is_Some_2 dev (S j)) as [y Hy]; [lia|].
    destruct (decide (y = x)) as [->|Hne].
    + destruct Hrun as [Hij Hrun].
      destruct (run_start a (S j) Hlt (Hrun (S j) ltac:(lia)))
        as (st & Hle & Hr & _ & Hmin).
      assert (Hsti : st ≤ i) by (apply Hmin; by split).
      etrans; [apply (rows_between_start x dev st i (S j)); lia|].
      by apply Hbound.
    + destruct Hrun as [Hij Hrun].
      destruct (decide (i = S j)) as [->|Hlt'].
      * rewrite (rows_between_other x y dev (S j) (S j)) by done.
        rewrite drop_ge by (rewrite length_take; lia). simpl. lia.
      * rewrite (rows_between_other x y dev i (S j)) by (done || lia).
        assert (Hprev : anomaly_run a i j).
        { split; [lia|]. intros t Ht. apply Hrun. lia. }
        specialize (IH i Hprev).
        destruct (lookup_lt_is_Some_2 dev j) as [z Hz]; [lia|].
        destruct (decide (z = x)) as [->|Hzx].
        -- rewrite (rows_between_last x dev i j) in IH by (done || lia).
           rewrite (take_S_r dev j x Hz).
           rewrite drop_app_le by (rewrite length_take; lia).
           rewrite filter_app, length_app, filter_cons, decide_True by done.
           simpl. lia.
        -- rewrite (rows_between_other x z dev i j) in IH by (done || lia).
           rewrite (take_S_r dev j z Hz).
           rewrite drop_app_le by (rewrite length_take; lia).
           rewrite filter_app, length_app, filter_cons, decide_False by done.
           simpl. lia.
Qed.

(** A run with rows of a device has a last row of the device. *)
Lemma rows_between_last_row x (dev : Column) i : ∀ j,
  i ≤ j → j < length dev → 0 < rows_between x dev i j →
  ∃ t, i ≤ t ≤ j ∧ dev !! t = Some x
       ∧ rows_between x dev i t = rows_between x dev i j.
Proof.
  induction j as [|j IH]; intros Hij Hj Hpos.
  - assert (i = 0) as -> by lia.
    destruct (lookup_lt_is_Some_2 dev 0 Hj) as [y Hy].
    destruct (decide (y = x)) as [->|Hne]; [exists 0; split; [lia|by split]|].
    rewrite (rows_between_other x y dev 0 0) in Hpos by done.
    rewrite take_0 in Hpos. simpl in Hpos. lia.
  - destruct (lookup_lt_is_Some_2 dev (S j) Hj) as [y Hy].
    destruct (decide (y = x)) as [->|Hne];
      [exists (S j); split; [lia|by split]|].
    destruct (decide (i = S j)) as [->|Hlt].
    + rewrite (rows_between_other x y dev (S j) (S j)) in Hpos by done.
      rewrite drop_ge in Hpos by (rewrite length_take; lia). simpl in Hpos. lia.
    + assert (Heq : rows_between x dev i (S j) = rows_between x dev i j).
      { rewrite (rows_between_other x y dev i (S j)) by (done || lia).
        unfold rows_between. rewrite take_drop_commute.
        by replace (i + (S j - i)) with (S j) by lia. }
      destruct IH as (t & Ht & Hx & Hrb); [lia|lia|lia|].
      exists t. split; [lia|]. split; [done|]. by rewrite Heq.
Qed.

Lemma anomalous_dec a t : anomalous a t ∨ ¬ anomalous a t.
Proof.
  destruct (eq_scalar (-1) a !! t) as [[|]|] eqn:Hs.
  - left. by apply eq_scalar_lookup.
  - right. intros Hanom. apply eq_scalar_lookup in Hanom. congruence.
  - right. intros Hanom. apply eq_scalar_lookup in Hanom. congruence.
Qed.

Lemma ge_count_cell (n : nat) :
  Qle_bool 80 (inject_Z (Z.of_nat n)) = true ↔ 80 ≤ n.
Proof. rewrite Qle_bool_iff. unfold Qle. simpl. lia. Qed.

Lemma elem_of_group_series_single x (dev c : Column) y :
  y ∈ group_series [x] ((λ z, [z]) <$> dev) c
  ↔ ∃ t, dev !! t = Some x ∧ c !! t = Some y.
Proof.
  unfold group_series. rewrite elem_of_mask_select. split.
  - intros (t & Hm & Hc). exists t. split; [|done].
    rewrite !list_lookup_fmap in Hm.
    destruct (dev !! t) as [z|]; [|done]. simpl in Hm. injection Hm as Hm.
    apply bool_decide_eq_true in Hm. by injection Hm as ->.
  - intros (t & Hx & Hc). exists t. split; [|done].
    rewrite !list_lookup_fmap, Hx. simpl. f_equal. by apply bool_decide_eq_true.
Qed.

(** The maximum of a device's sequence lengths is the largest number of
    its rows in one run. *)
Lemma fault_count_spec (copy_on_write : bool) (dev a : Column) (x c : Cell) :
  length dev = length a → x ≠ CNull →
  let selected := eq_scalar (-1) a in
  let keys := zip_with (λ y g, [y; g]) dev (cumsum (changes a)) in
  let v := align selected (add_scalar 1 (cumcount (mask_select selected keys))) in
  let lengths := if copy_on_write then v else fillna 0 v in
  (c = nanmax (group_series [x] ((λ z, [z]) <$> dev) lengths)
   ∧ ∃ q, c = CNum q ∧ Qle_bool 80 q = true)
  ↔ ∃ n, c = count_cell n ∧ 80 ≤ n
         ∧ (∃ i j, anomaly_run a i j ∧ rows_between x dev i j = n)
         ∧ ∀ i j, anomaly_run a i j → rows_between x dev i j ≤ n.
Proof.
  intros Hlen Hx selected keys v lengths.
  destruct (sequence_length_cells copy_on_write dev a Hlen)
    as (Hanom & Hother & Hcells).
  fold selected keys v lengths in Hanom, Hother, Hcells.
  set (xs := group_series [x] ((λ z, [z]) <$> dev) lengths).
  assert (Hxs : ∀ y, y ∈ xs → y = CNull ∨ ∃ m, y = count_cell m).
  { intros y Hy. apply elem_of_group_series_single in Hy as (t & _ & Hy).
    by apply (Hcells t). }
  assert (Hlong : ∀ m, 0 < m → count_cell m ∈ xs →
            ∃ t st, dev !! t = Some x ∧ anomaly_run a st t
                    ∧ (∀ i, anomaly_run a i t → st ≤ i)
                    ∧ rows_between x dev st t = m).
  { intros m Hm Hin.
    apply elem_of_group_series_single in Hin as (t & Ht & Hc).
    assert (Hlt : t < length a) by (apply lookup_lt_Some in Ht; lia).
    destruct (anomalous_dec a t) as [Ha|Hn].
    - destruct (Hanom t x Hlt Ha Ht Hx) as (st & Hle & Hrun & Hmin & Hc').
      exists t, st. split_and!; [done..|].
      rewrite Hc in Hc'. apply count_cell_inj. congruence.
    - destruct (Hother t Hlt Hn) as [Hc'|Hc']; rewrite Hc in Hc';
        [done|]. assert (m = 0) by (apply count_cell_inj; congruence). lia. }
  assert (Hin : ∀ t st, dev !! t = Some x → anomaly_run a st t →
            (∀ i, anomaly_run a i t → st ≤ i) →
            count_cell (rows_between x dev st t) ∈ xs).
  { intros t st Ht Hrun Hmin.
    assert (Hlt : t < length a) by (by eapply anomaly_run_lt).
    assert (Ha : anomalous a t) by (destruct Hrun as [? Hrun]; apply Hrun; lia).
    destruct (Hanom t x Hlt Ha Ht Hx) as (st' & Hle & Hrun' & Hmin' & Hc).
    assert (st' = st) as -> by (specialize (Hmin st' Hrun');
                                 specialize (Hmin' st Hrun); lia).
    apply elem_of_group_series_single. by exists t. }
  split.
  - intros [-> (q & Hq & Hge)].
    destruct (nanmax_counts xs Hxs) as [[Hnull _]|(m & Hm & Hmem & Hmax)];
      fold xs in Hq; [by rewrite Hnull in Hq|].
    rewrite Hm in Hq. injection Hq as <-. apply ge_count_cell in Hge.
    exists m. fold xs. split_and!; [done|done| |].
    + destruct (Hlong m ltac:(lia) Hmem) as (t & st & _ & Hrun & _ & Hrb).
      by exists st, t.
    + intros i j Hrun.
      apply (rows_between_bound x dev a m Hlen); [|done].
      intros t st Ht Hr Hmin. apply Hmax. by apply Hin.
  - intros (n & -> & Hn & (i & j & Hrun & Hrb) & Hbound).
    pose proof (anomaly_run_lt a i j Hrun) as Hj.
    destruct (rows_between_last_row x dev i j) as (t & Ht & Hxt & Hrbt);
      [by destruct Hrun|lia|lia|].
    assert (Hrun_t : anomaly_run a i t).
    { destruct Hrun as [_ Hrun]. split; [lia|]. intros s Hs. apply Hrun. lia. }
    assert (Hlt : t < length a) by lia.
    destruct (run_start a t Hlt ltac:(destruct Hrun_t as [_ Hr]; apply Hr; lia))
      as (st & Hle & Hrun_st & _ & Hmin).
    assert (Hst : rows_between x dev st t = n).
    { pose proof (rows_between_start x dev st i t (Hmin i Hrun_t)
                    ltac:(lia) ltac:(lia)).
      specialize (Hbound st t Hrun_st). lia. }
    assert (Hmem : count_cell n ∈ xs).
    { rewrite <- Hst. by apply Hin. }
    destruct (nanmax_counts xs Hxs) as [[_ Hnone]|(m & Hm & Hmem' & Hmax)];
      [by apply Hnone in Hmem|].
    specialize (Hmax n Hmem).
    destruct (Hlong m ltac:(lia) Hmem') as (t' & st' & _ & Hrun' & _ & Hrb').
    specialize (Hbound st' t' Hrun').
    assert (m = n) as -> by lia.
    split; [done|]. eexists. split; [done|]. by apply ge_count_cell.
Qed.

(** X13.  Which devices [process_faulty_devices_fault_sequence] reports.
    On a table with [device_id] and [anomaly_value] the function adds the
    columns [group] and [anomaly_sequence_length] to the caller's table
    and returns a new table with one row per reported device.  A device
    is reported, with its count, exactly when the count is at least 80
    and is the largest number of the device's rows inside one run of
    consecutive anomalous rows of the table: the runs are those of the
    table as it is ordered, so that rows of other devices inside a run do
    not break it, and a row that is not anomalous does, whatever its
    device.  The returned table does not depend on whether the in-place
    fill reaches the caller's table. *)
Theorem fault_sequences_are_runs_of_the_table (copy_on_write : bool)
    (σ : Store) (df : loc) (d : Frame) (dev a : Column) :
  σ !! df = Some d → wf_frame d →
  getcol "device_id" d = Some dev → getcol "anomaly_value" d = Some a →
  ∃ d' devices counts,
    process_faulty_devices_fault_sequence copy_on_write df σ
    = (Ok (length σ),
       <[df := d']> σ ++ [[("device_id", devices); ("fault_count", counts)]])
    ∧ (∀ n, n ∉ ["group"; "anomaly_sequence_length"] → getcol n d' = getcol n d)
    ∧ NoDup devices
    ∧ length devices = length counts
    ∧ ∀ x c,
        (x, c) ∈ zip devices counts
        ↔ ∃ n, c = count_cell n ∧ x ≠ CNull ∧ 80 ≤ n
               ∧ (∃ i j, anomaly_run a i j ∧ rows_between x dev i j = n)
               ∧ ∀ i j, anomaly_run a i j → rows_between x dev i j ≤ n.
Proof.
  intros Hd Hwf Hdev Ha.
  pose proof (process_faulty_devices_fault_sequence_run copy_on_write σ df d
                dev a Hd Hwf Hdev Ha) as Hrun.
  cbv zeta in Hrun.
  set (selected := eq_scalar (-1) a) in *.
  set (keys := zip_with (λ y g, [y; g]) dev (cumsum (changes a))) in *.
  set (v := align selected (add_scalar 1 (cumcount (mask_select selected keys))))
    in *.
  set (lengths := if copy_on_write then v else fillna 0 v) in *.
  set (keys1 := (λ y, [y]) <$> dev) in *.
  set (groups := sort_keys (unique (filter (λ k, null_key k = false) keys1))) in *.
  set (maxima := (λ k, nanmax (group_series k keys1 lengths)) <$> groups) in *.
  set (devs := (λ k : list Cell, default CNull (k !! 0)) <$> groups) in *.
  assert (Hlen : length dev = length a).
  { rewrite (wf_frame_getcol_length _ _ _ Hwf Hdev).
    by rewrite (wf_frame_getcol_length _ _ _ Hwf Ha). }
  assert (Hgroups : ∀ k, k ∈ groups ↔ ∃ y, k = [y] ∧ y ∈ dev ∧ y ≠ CNull).
  { intros k. unfold groups.
    rewrite elem_of_sort_keys, unique_elem_of, list_elem_of_filter.
    unfold keys1. rewrite list_elem_of_fmap. split.
    - intros [Hnull (y & -> & Hy)]. exists y. split_and!; [done..|].
      by intros ->.
    - intros (y & -> & Hy & Hnull). split; [by destruct y|by exists y]. }
  eexists _, _, _. split; [exact Hrun|]. split_and!.
  - intros n Hn. rewrite !not_elem_of_cons in Hn. destruct Hn as (? & ? & _).
    by rewrite !getcol_setitem_ne.
  - apply mask_select_NoDup. unfold devs.
    apply NoDup_fmap_2_strong.
    + intros k1 k2 Hk1 Hk2 Heq.
      apply Hgroups in Hk1 as (y1 & -> & _). apply Hgroups in Hk2 as (y2 & -> & _).
      simpl in Heq. by rewrite Heq.
    + apply NoDup_sort_keys, unique_NoDup.
  - apply length_mask_select_eq. unfold devs, maxima. by rewrite !length_fmap.
  - intros x c.
    change (zip ?l ?k) with (zip_with pair l k).
    rewrite <- mask_select_zip_with, elem_of_mask_select. split.
    + intros (p & Hge & Hp).
      apply lookup_zip_with_Some in Hp as (x' & c' & [= <- <-] & Hx' & Hc').
      unfold devs in Hx'. unfold maxima in Hc'.
      rewrite list_lookup_fmap in Hx', Hc'.
      unfold ge_scalar, maxima in Hge. rewrite !list_lookup_fmap in Hge.
      destruct (groups !! p) as [k|] eqn:Hk; [|done].
      injection Hx' as <-. injection Hc' as <-. simpl in Hge.
      apply list_elem_of_lookup_2, Hgroups in Hk as (y & -> & Hy & Hnull).
      cbn [lookup list_lookup default].
      destruct (proj1 (fault_count_spec copy_on_write dev a y
                         (nanmax (group_series [y] keys1 lengths)) Hlen Hnull))
        as (n & Hc & Hn & Hex & Hbound).
      { split; [done|].
        destruct (nanmax (group_series [y] keys1 lengths)) as [| |q|];
          try done. exists q. split; [done|]. by injection Hge. }
      exists n. by split_and!.
    + intros (n & -> & Hx & Hn & (i & j & Hij & Hrb) & Hbound).
      destruct (rows_between_last_row x dev i j) as (t & _ & Hxt & _);
        [by destruct Hij|apply anomaly_run_lt in Hij; lia|lia|].
      assert (Hk : [x] ∈ groups).
      { apply Hgroups. exists x. split_and!; [done| |done].
        by eapply list_elem_of_lookup_2. }
      apply list_elem_of_lookup in Hk as [p Hp].
      destruct (proj2 (fault_count_spec copy_on_write dev a x (count_cell n)
                         Hlen Hx)) as (Hmax & q & Hq & Hge).
      { exists n. split_and!; [done|done|by exists i, j|done]. }
      fold selected keys v lengths keys1 in Hmax.
      exists p. split.
      * unfold ge_scalar, maxima. rewrite !list_lookup_fmap, Hp. simpl.
        rewrite <- Hmax, Hq. by rewrite Hge.
      * rewrite lookup_zip_with. unfold devs, maxima.
        rewrite !list_lookup_fmap, Hp. simpl. by rewrite <- Hmax.
Qed.

Lemma fault_sequences_are_runs_of_the_table_witness :
  ∃ d',
    process_faulty_devices_fault_sequence true 0 [sample_anomalies]
    = (Ok 1, [d'; [("device_id", [CStr "a"]); ("fault_count", [num 80])]]).
Proof.
  destruct (fault_sequences_are_runs_of_the_table true [sample_anomalies] 0
              sample_anomalies
              (default [] (getcol "device_id" sample_anomalies))
              (default [] (getcol "anomaly_value" sample_anomalies)))
    as (d' & devices & counts & Hrun & _).
  - reflexivity.
  - split; [by apply (bool_decide_unpack _)|repeat constructor].
  - reflexivity.
  - reflexivity.
  - exists d'. rewrite Hrun.
    assert (Hout : returned_frame
                     (process_faulty_devices_fault_sequence true 0 [sample_anomalies])
                   = Some [("device_id", [CStr "a"]); ("fault_count", [num 80])])
      by (vm_compute; reflexivity).
    rewrite Hrun in Hout. unfold returned_frame in Hout. cbn [fst snd] in Hout.
    change (length [sample_anomalies]) with 1 in Hout.
    change (<[0:=d']> [sample_anomalies]) with [d'] in *.
    simpl in Hout. injection Hout as <- <-. reflexivity.
Defined.

(** ** Rule-based faults *)

Lemma count_true_le m : count_true m ≤ length m.
Proof. unfold count_true. apply length_filter. Qed.

Lemma count_true_all m :
  count_true m = length m ↔ ∀ i b, m !! i = Some b → b = true.
Proof.
  induction m as [|b m IH]; [done|]. rewrite count_true_cons. simpl. split.
  - intros Heq. pose proof (count_true_le m) as Hle.
    destruct b; [|lia]. intros [|i] b' Hi; simpl in Hi; [by injection Hi|].
    apply (proj1 IH) with i; [lia|done].
  - intros Hall. rewrite (Hall 0 b eq_refl).
    rewrite (proj2 IH); [done|]. intros i b' Hi. by apply (Hall (S i)).
Qed.

Lemma length_rolling_sum w mask : length (rolling_sum w mask) = length mask.
Proof. unfold rolling_sum. by rewrite length_imap. Qed.

Lemma ge_threshold_count_cell (w n : nat) :
  Qle_bool (inject_Z (Z.of_nat w)) (inject_Z (Z.of_nat n)) = true ↔ w ≤ n.
Proof. rewrite Qle_bool_iff. unfold Qle. simpl. lia. Qed.

(** A rolling count of missing cells reaches the window when the window
    is a gap. *)
Lemma rolling_sum_gap (c : Column) :
  existsb id (ge_scalar 60 (rolling_sum 60 (isna c))) = true ↔ has_gap 60 c.
Proof.
  rewrite existsb_exists. split.
  - intros (b & Hin & Hb). unfold id in Hb. subst b.
    apply list_elem_of_In, list_elem_of_lookup in Hin as [t Ht].
    unfold ge_scalar, rolling_sum in Ht.
    rewrite list_lookup_fmap, list_lookup_imap in Ht.
    destruct (isna c !! t) as [b|] eqn:Hb; [|done]. simpl in Ht.
    destruct (decide (60 ≤ S t)) as [Hle|]; [|done].
    injection Ht as Ht.
    apply (ge_threshold_count_cell 60) in Ht.
    change (t - 59) with (S t - 60) in Ht.
    set (window := take 60 (drop (S t - 60) (isna c))) in *.
    assert (Hlen : length window ≤ 60) by (unfold window; rewrite length_take; lia).
    pose proof (count_true_le window) as Hcount.
    assert (Hall : ∀ i b, window !! i = Some b → b = true).
    { apply count_true_all. lia. }
    exists (S t - 60). intros k Hk.
    assert (Hk' : k < length window) by lia.
    destruct (lookup_lt_is_Some_2 window k Hk') as [b' Hb'].
    pose proof (Hall k b' Hb') as ->.
    unfold window in Hb'. rewrite lookup_take_lt, lookup_drop in Hb' by done.
    unfold isna in Hb'. rewrite list_lookup_fmap in Hb'.
    destruct (c !! (S t - 60 + k)) as [x|]; [|done].
    simpl in Hb'. injection Hb' as Hx. by destruct x.
  - intros (i & Hgap). exists true. split; [|done].
    apply list_elem_of_In, list_elem_of_lookup. exists (i + 59).
    assert (Hlt : i + 59 < length c).
    { apply lookup_lt_is_Some. rewrite (Hgap 59) by lia. by eexists. }
    unfold ge_scalar, rolling_sum. rewrite list_lookup_fmap, list_lookup_imap.
    destruct (lookup_lt_is_Some_2 (isna c) (i + 59)) as [b Hb];
      [unfold isna; by rewrite length_fmap|].
    rewrite Hb. simpl. rewrite decide_True by lia. f_equal.
    apply (ge_threshold_count_cell 60).
    replace (i + 59 - 59) with i by lia.
    set (window := take 60 (drop i (isna c))).
    assert (Hlen : length window = 60).
    { unfold window, isna. rewrite length_take, length_drop, length_fmap. lia. }
    assert (Hall : count_true window = length window).
    { apply count_true_all. intros k b' Hk.
      assert (k < 60) by (apply lookup_lt_Some in Hk; lia).
      unfold window, isna in Hk.
      rewrite lookup_take_lt, lookup_drop, list_lookup_fmap in Hk by done.
      rewrite (Hgap k) in Hk by done. by injection Hk as <-. }
    lia.
Qed.

Lemma count_cell_is_one (n : nat) :
  cell_eqb (count_cell n) (CNum 1) = true ↔ n = 1.
Proof.
  unfold count_cell. simpl. rewrite Qeq_bool_iff. unfold Qeq. simpl. lia.
Qed.

Lemma correlation_fault_is_one (cv : option Q) :
  match cv with
  | Some q => if Qle_bool (9 # 10) q then 0 else 1
  | None => 0
  end = 1
  ↔ ∃ q, cv = Some q ∧ (q < 9 # 10)%Q.
Proof.
  destruct cv as [q|]; [|split; [done|by intros (q & ? & _)]].
  destruct (Qle_bool (9 # 10) q) eqn:Hle; split.
  - done.
  - intros (q' & [= <-] & Hlt). apply Qle_bool_iff in Hle.
    by apply Qlt_not_le in Hlt.
  - intros _. exists q. split; [done|]. apply Qnot_le_lt. intros Hq.
    apply Qle_bool_iff in Hq. congruence.
  - done.
Qed.

Lemma missing_data_fault_is_one (s1 s2 : Column) :
  (if existsb (λ col, existsb id (ge_scalar 60 (rolling_sum 60 (isna col))))
        [s1; s2]
   then 1 else 0) = 1
  ↔ has_gap 60 s1 ∨ has_gap 60 s2.
Proof.
  cbn [existsb]. rewrite orb_false_r, <- !rolling_sum_gap.
  destruct (existsb id (ge_scalar 60 (rolling_sum 60 (isna s1))));
    destruct (existsb id (ge_scalar 60 (rolling_sum 60 (isna s2))));
    simpl; split; (done || tauto || (intros [?|?]; done) || auto).
Qed.

(** X14.  Which devices [flag_rule_based_faults] reports.  Without one
    of the columns [device_id], [s1_pm2_5], [s2_pm2_5] the function
    raises a [ValueError].  Otherwise, when the correlation can be
    computed for every device, it returns a table of four columns in
    which a device of the input appears, once, exactly when the
    correlation of its two sensors is a number below 0.9, or one of the
    two sensor columns is missing on 60 consecutive rows of the device.
    A device whose correlation is not a number is not reported for it,
    and gaps are counted per sensor, over the device's own rows. *)
Theorem rule_based_faults_flag_gaps_and_disagreement
    (corr : Column → Column → Result (option Q)) (df : Frame) :
  ("device_id" ∉ columns df ∨ "s1_pm2_5" ∉ columns df ∨ "s2_pm2_5" ∉ columns df →
   flag_rule_based_faults corr df
   = Raise (ValueError
       "Input must have the following columns: ['device_id', 's1_pm2_5', 's2_pm2_5']"))
  ∧ ∀ dev s1 s2,
      getcol "device_id" df = Some dev →
      getcol "s1_pm2_5" df = Some s1 →
      getcol "s2_pm2_5" df = Some s2 →
      let rows x c := mask_select (eq_mask x dev) c in
      (∀ x, x ∈ dev → ∃ r, corr (rows x s1) (rows x s2) = Ok r) →
      ∃ out devices,
        flag_rule_based_faults corr df = Ok out
        ∧ columns out
          = ["device_id"; "correlation_fault"; "correlation_value";
             "missing_data_fault"]
        ∧ getcol "device_id" out = Some devices
        ∧ NoDup devices
        ∧ ∀ x, x ∈ devices
               ↔ x ∈ dev
                 ∧ (sensors_disagree corr (rows x s1) (rows x s2)
                    ∨ has_gap 60 (rows x s1) ∨ has_gap 60 (rows x s2)).
Proof.
  split.
  - intros Hmiss. unfold flag_rule_based_faults.
    assert (Hcols : has_columns ["device_id"; "s1_pm2_5"; "s2_pm2_5"] df = false).
    { apply has_columns_false. intros Hall.
      destruct Hmiss as [Hm|[Hm|Hm]]; apply Hm, Hall;
        rewrite !elem_of_cons; auto. }
    by rewrite Hcols.
  - intros dev s1 s2 Hdev Hs1 Hs2 rows Hcorr.
    assert (Hcols : has_columns ["device_id"; "s1_pm2_5"; "s2_pm2_5"] df = true).
    { apply has_columns_spec. intros n Hn. apply getcol_is_Some.
      repeat (apply elem_of_cons in Hn as [->|Hn]); [by eauto..|].
      by apply elem_of_nil in Hn. }
    set (fault x :=
           match corr (rows x s1) (rows x s2) with
           | Ok (Some q) => if Qle_bool (9 # 10) q then 0 else 1
           | _ => 0
           end).
    set (value x :=
           match corr (rows x s1) (rows x s2) with
           | Ok (Some q) => CNum q
           | _ => CNull
           end).
    set (missing x :=
           if existsb (λ col, existsb id (ge_scalar 60 (rolling_sum 60 (isna col))))
                [rows x s1; rows x s2]
           then 1 else 0).
    set (row x := [x; count_cell (fault x); value x; count_cell (missing x)]).
    assert (Hrows : mapM_result (flag_device corr df) (unique dev)
                    = Ok (row <$> unique dev)).
    { apply mapM_result_fmap. intros x Hx.
      apply (proj1 (unique_elem_of _ _)) in Hx.
      unfold flag_device. rewrite Hdev. cbn [need mbind Result_bind].
      rewrite !getcol_filter_rows, Hs1, Hs2.
      cbn [fmap option_fmap option_map need mbind Result_bind].
      fold (rows x s1) (rows x s2).
      destruct (Hcorr x Hx) as [r Hr]. unfold row, fault, value, missing.
      rewrite Hr. by destruct r. }
    unfold flag_rule_based_faults. rewrite Hcols. cbn [negb].
    rewrite Hdev. cbn [need mbind Result_bind]. rewrite Hrows.
    cbn [mbind Result_bind].
    rewrite <- !list_fmap_compose.
    set (mask := or_mask _ _).
    eexists _, _. split; [reflexivity|]. split; [done|]. split; [reflexivity|].
    assert (Hid : (λ row : list Cell, default CNull (row !! 0)) ∘ row <$> unique dev
                  = unique dev).
    { rewrite <- (list_fmap_id (unique dev)) at 2. by apply list_fmap_ext. }
    rewrite Hid. split; [apply mask_select_NoDup, unique_NoDup|].
    intros x. rewrite elem_of_mask_select. split.
    + intros (p & Hmask & Hp). cbn [snd] in Hp.
      assert (Hx : x ∈ dev).
      { apply unique_elem_of. by eapply list_elem_of_lookup_2. }
      split; [done|].
      unfold mask, or_mask, eq_scalar in Hmask.
      rewrite lookup_zip_with, !list_lookup_fmap, Hp in Hmask.
      simpl in Hmask. injection Hmask as Hmask.
      apply orb_true_iff in Hmask as [Hf|Hm].
      * left. apply count_cell_is_one in Hf. unfold fault in Hf.
        destruct (Hcorr x Hx) as [r Hr]. rewrite Hr in Hf.
        unfold sensors_disagree. rewrite Hr.
        apply correlation_fault_is_one in Hf as (q & -> & Hq). by exists q.
      * right. apply count_cell_is_one in Hm. unfold missing in Hm.
        by apply missing_data_fault_is_one in Hm.
    + intros [Hx Hfault].
      apply unique_elem_of, list_elem_of_lookup in Hx as [p Hp].
      exists p. cbn [snd]. split; [|done].
      unfold mask, or_mask, eq_scalar.
      rewrite lookup_zip_with, !list_lookup_fmap, Hp. simpl. f_equal.
      apply orb_true_iff. destruct Hfault as [(q & Hq & Hlt)|Hgap].
      * left. apply count_cell_is_one. unfold fault. rewrite Hq.
        apply (correlation_fault_is_one (Some q)). by exists q.
      * right. apply count_cell_is_one. unfold missing.
        by apply missing_data_fault_is_one.
Qed.

Lemma rule_based_faults_flag_gaps_and_disagreement_witness :
  flag_rule_based_faults (λ _ _, Ok (Some 1%Q)) sample_sensors
  = Ok [("device_id", [CStr "a"]); ("correlation_fault", [num 0]);
        ("correlation_value", [num 1]); ("missing_data_fault", [num 1])].
Proof.
  destruct (rule_based_faults_flag_gaps_and_disagreement
              (λ _ _, Ok (Some 1%Q)) sample_sensors) as [_ Hrun].
  destruct (Hrun (default [] (getcol "device_id" sample_sensors))
              (default [] (getcol "s1_pm2_5" sample_sensors))
              (default [] (getcol "s2_pm2_5" sample_sensors))
              eq_refl eq_refl eq_refl)
    as (out & devices & Hout & _).
  - intros x _. by eexists.
  - rewrite Hout. vm_compute in Hout. by injection Hout as <-.
Defined.

(** ** The columns of daily data *)

Lemma fmap_fst_imap {A B} (f : nat → A → A * B) (l : list A) :
  (∀ j n, (f j n).1 = n) → (imap f l).*1 = l.
Proof.
  revert f. induction l as [|x l IH]; intros f Hf; [done|].
  rewrite imap_cons, fmap_cons, Hf. f_equal. apply IH. intros j n. apply Hf.
Qed.

Lemma fmap_fst_fmap_pair {A B C} (g : A * B → C) (l : list (A * B)) :
  ((λ p, (p.1, g p)) <$> l).*1 = l.*1.
Proof. rewrite <- list_fmap_compose. by apply list_fmap_ext. Qed.

Section DailyColumns.
Context `{Externals}.

(** X15.  What daily preprocessing keeps, on a table whose grouping
    columns hold text.  The daily table has the grouping columns,
    [timestamp], [pm2_5] and the other numeric columns of the input, and
    no other column: a column of text that is not a grouping column, such
    as [site_id] in a training job, is gone.  Every timestamp of the daily
    table is the start of a day. *)
Theorem daily_preprocessing_keeps_numeric_columns
    (σ : Store) (data : loc) (d : Frame) (job_type : string)
    (keys : list Key) (pm ts : Column) :
  σ !! data = Some d → wf_frame d →
  getcol "pm2_5" d = Some pm → is_numeric pm = true →
  timestamp_to_datetime d = Ok ts →
  column_keys (group_columns job_type) d = Some keys →
  text_keys (group_columns job_type) d →
  ∃ σ' l out days,
    preprocess_data data "daily" job_type σ = (Ok l, σ')
    ∧ σ' !! l = Some out
    ∧ (∀ n, n ∈ columns out
            ↔ n ∈ group_columns job_type ∨ n = "timestamp" ∨ n = "pm2_5"
              ∨ ∃ c, getcol n d = Some c ∧ is_numeric c = true)
    ∧ getcol "timestamp" out = Some days
    ∧ ∀ x, x ∈ days → ∃ day, x = CTime (day * DAY_NS).
Proof.
  intros Hd Hwf Hpm Hnum Hts Hck Htext.
  pose proof (has_columns_column_keys _ _ _ Hck) as Hhas.
  assert (Hkeys : row_keys (group_columns job_type) d = Some keys)
    by (by rewrite row_keys_columns).
  destruct (interpolated_facts d job_type keys pm ts Hwf Hpm Hts Hkeys)
    as (Hlk & _ & _ & _ & _ & Hwf2 & Hkeys2 & Hpm2).
  destruct (preprocess_data_daily_run σ data d job_type keys pm ts
              Hd Hwf Hpm Hnum Hts Hck Htext)
    as (r & resampled & keys' & pm' & Hr & _ & Hres & Hkeys' & Hpm' & Hnum'
        & Hlen' & Hrun).
  cbv zeta in Hrun.
  destruct (group_columns_not_target job_type) as [Hgp Hgt].
  set (d2 := interpolated d keys pm ts) in *.
  set (by_ := group_columns job_type) in *.
  assert (Hts2 : getcol "timestamp" d2 = Some ts).
  { unfold d2, interpolated. rewrite getcol_setitem_ne by done.
    apply getcol_setitem_eq. }
  assert (Hhas2 : has_columns by_ d2 = true).
  { unfold d2, interpolated. by rewrite !has_columns_setitem. }
  unfold groupby_resample_mean in Hr. rewrite Hkeys2, Hts2, Hhas2 in Hr.
  cbn [mbind option_bind] in Hr. injection Hr as <-.
  cbn [rs_index rs_values] in Hres.
  set (groups := sort_keys _) in *.
  set (bins := λ k, day_range (group_days k keys ts)) in *.
  set (table := setitem "pm2_5" _ _) in Hrun.
  eexists _, _, _, _. split; [exact Hrun|].
  split.
  { rewrite lookup_app_r by (rewrite length_insert; lia).
    rewrite length_insert.
    by replace (S (length σ) - length σ) with 1 by lia. }
  assert (Hby : by_ = ["device_id"; "site_id"] ∨ by_ = ["device_id"])
    by apply group_columns_cases.
  assert (Hother : ∀ n, n ≠ "pm2_5" → n ≠ "timestamp" → getcol n d2 = getcol n d).
  { intros n H1 H2. unfold d2, interpolated. by rewrite !getcol_setitem_ne. }
  split_and!.
  - intros n. unfold filter_rows. rewrite columns_map_columns.
    unfold table. rewrite columns_setitem_in
      by (apply getcol_is_Some; rewrite Hpm'; by eauto).
    rewrite Hres.
    unfold columns. rewrite !fmap_app, !elem_of_app.
    rewrite fmap_fst_imap by done. rewrite fmap_fst_fmap_pair.
    cbn [fmap list_fmap fst]. rewrite list_elem_of_singleton.
    assert (Hvalues : n ∈ (filter (λ p : string * Column,
                             (p.1 ≠ "timestamp") ∧ is_numeric p.2 = true) d2).*1
                      ↔ n ≠ "timestamp"
                        ∧ ∃ c, getcol n d2 = Some c ∧ is_numeric c = true).
    { rewrite list_elem_of_fmap. split.
      - intros ([m c] & -> & Hin). apply list_elem_of_filter in Hin as [HP Hin].
        simpl in *. destruct HP as (? & ?). split; [done|].
        exists c. split; [|done]. apply elem_getcol; [by destruct Hwf2|done].
      - intros (Hn1 & c & Hc & Hcn). exists (n, c). split; [done|].
        apply list_elem_of_filter. split; [done|]. by apply getcol_Some_elem. }
    rewrite Hvalues. split.
    + intros [[Hn|Hn]|(Hn1 & c & Hc & Hcn)]; [by left|by right; left|].
      destruct (decide (n = "pm2_5")) as [->|Hne]; [by right; right; left|].
      do 3 right. exists c. by rewrite <- Hother.
    + intros [Hn|[Hn|[Hn|(c & Hc & Hcn)]]]; [by left; left|by left; right| |].
      * right. subst n. split; [done|].
        eexists. split; [exact Hpm2|]. by apply is_numeric_group_transform_interpolate.
      * destruct (decide (n = "timestamp")); [by left; right|].
        right. split; [done|].
        destruct (decide (n = "pm2_5")) as [->|Hne].
        -- eexists. split; [exact Hpm2|].
           by apply is_numeric_group_transform_interpolate.
        -- exists c. by rewrite Hother.
  - rewrite getcol_filter_rows. unfold table. rewrite getcol_setitem_ne by done.
    rewrite Hres.
    destruct Hby as [-> | ->]; reflexivity.
  - intros x Hx. apply mask_select_sublist in Hx.
    apply list_elem_of_In, in_flat_map in Hx as (k & _ & Hx).
    apply list_elem_of_In, list_elem_of_fmap in Hx as (day & -> & _).
    by exists day.
Qed.
End DailyColumns.

Lemma daily_preprocessing_keeps_numeric_columns_witness :
  ∃ σ' out,
    preprocess_data 0 "daily" "train" [sample_daily_gaps] = (Ok 2, σ')
    ∧ σ' !! 2 = Some out
    ∧ columns sample_daily_gaps = ["device_id"; "site_id"; "timestamp"; "pm2_5"]
    ∧ columns out = ["device_id"; "timestamp"; "pm2_5"].
Proof.
  destruct (daily_preprocessing_keeps_numeric_columns [sample_daily_gaps] 0
              sample_daily_gaps "train"
              (default [] (column_keys ["device_id"] sample_daily_gaps))
              (default [] (getcol "pm2_5" sample_daily_gaps))
              (default [] (getcol "timestamp" sample_daily_gaps)))
    as (σ' & l & out & days & Hrun & Hout & _).
  - reflexivity.
  - split; [by apply (bool_decide_unpack _)|repeat constructor].
  - reflexivity.
  - reflexivity.
  - reflexivity.
  - reflexivity.
  - apply text_keys_spec. reflexivity.
  - vm_compute in Hrun. injection Hrun as <- <-.
    vm_compute in Hout. injection Hout as <-.
    eexists _, _. split; [vm_compute; reflexivity|].
    split_and!; reflexivity.
Defined.

(** ** Errors of the sink *)

Lemma mapM_result_raise {A B} (f : A → Result B) (l1 l2 : list A) x e :
  (∀ y, y ∈ l1 → ∃ b, f y = Ok b) → f x = Raise e →
  mapM_result f (l1 ++ x :: l2) = Raise e.
Proof.
  intros Hok Hx. induction l1 as [|y l1 IH]; simpl.
  - by rewrite Hx.
  - destruct (Hok y) as [b Hb]; [apply list_elem_of_here|]. rewrite Hb. simpl.
    rewrite IH; [done|]. intros z Hz. by apply Hok, list_elem_of_further.
Qed.

Lemma eq_mask_null (c : Column) : eq_mask CNull c = replicate (length c) false.
Proof.
  unfold eq_mask. induction c as [|x c IH]; [done|]. csimpl. rewrite IH.
  by destruct x.
Qed.

(** X16.  When the sink gives up.  A table without a [device_id] column
    raises a [KeyError].  A table with the four columns in which some row
    has no device raises an [IndexError]: the documents are built before
    the first write, and the document of the missing device has no site.
    With every device present, a frequency other than [hourly] and [daily]
    raises a [ValueError]. *)
Theorem save_forecasts_to_mongo_errors (db : Database)
    (failure : ForecastDoc → option string) (created_at : string)
    (data : Frame) (frequency : string) :
  let run := save_forecasts_to_mongo db failure created_at data frequency in
  ("device_id" ∉ columns data → ∃ message, run = Raise (KeyError message))
  ∧ ∀ dev site pm ts,
      getcol "device_id" data = Some dev → getcol "site_id" data = Some site →
      getcol "pm2_5" data = Some pm → getcol "timestamp" data = Some ts →
      length dev ≤ length site →
      (CNull ∈ dev →
       run = Raise (IndexError "index 0 is out of bounds for axis 0 with size 0"))
      ∧ (CNull ∉ dev → frequency ≠ "hourly" → frequency ≠ "daily" →
         run = Raise (ValueError "Invalid frequency argument")).
Proof.
  intros run. split.
  - intros Hmiss. unfold run, save_forecasts_to_mongo.
    apply getcol_None in Hmiss. rewrite Hmiss. by eexists.
  - intros dev site pm ts Hdev Hsite Hpm Hts Hlen. split.
    + intros Hnull. unfold run, save_forecasts_to_mongo.
      rewrite Hdev. cbn [need mbind Result_bind].
      assert (Hu : CNull ∈ unique dev) by (by apply unique_elem_of).
      apply list_elem_of_split in Hu as (l1 & l2 & Hsplit).
      pose proof (unique_NoDup dev) as Hnd. rewrite Hsplit in Hnd.
      apply NoDup_app in Hnd as (_ & Hdisj & _).
      rewrite Hsplit.
      rewrite (mapM_result_raise _ l1 l2 CNull
                 (IndexError "index 0 is out of bounds for axis 0 with size 0"));
        [done| |].
      * intros y Hy. eexists. apply (forecast_doc_ok _ _ dev site pm ts); try done.
        -- apply unique_elem_of. rewrite Hsplit. apply elem_of_app. by left.
        -- intros ->. apply (Hdisj CNull Hy). apply list_elem_of_here.
      * unfold forecast_doc, filter_rows. rewrite Hdev.
        cbn [need mbind Result_bind].
        rewrite !getcol_map_columns, Hsite, Hpm, Hts.
        cbn [fmap option_fmap option_map need mbind Result_bind].
        by rewrite eq_mask_null, mask_select_false.
    + intros Hnull Hh Hd. unfold run, save_forecasts_to_mongo.
      rewrite Hdev. cbn [need mbind Result_bind].
      rewrite (mapM_result_fmap _ (device_doc created_at dev site pm ts)).
      * cbn [mbind Result_bind]. by rewrite !decide_False by done.
      * intros i Hi. apply (proj1 (unique_elem_of _ _)) in Hi.
        apply forecast_doc_ok; try done. by intros ->.
Qed.

Lemma save_forecasts_to_mongo_errors_witness :
  save_forecasts_to_mongo empty_database (λ _, None) "2024-01-01T00:00:00"
    sample_two_devices "hourly"
  = Raise (IndexError "index 0 is out of bounds for axis 0 with size 0").
Proof.
  destruct (save_forecasts_to_mongo_errors empty_database (λ _, None)
              "2024-01-01T00:00:00" sample_two_devices "hourly") as [_ Hrun].
  destruct (Hrun (default [] (getcol "device_id" sample_two_devices))
              (default [] (getcol "site_id" sample_two_devices))
              (default [] (getcol "pm2_5" sample_two_devices))
              (default [] (getcol "timestamp" sample_two_devices))
              eq_refl eq_refl eq_refl eq_refl) as [Hnull _].
  - simpl. lia.
  - apply Hnull. apply (bool_decide_unpack _). vm_compute. exact I.
Defined.

(** ** The forecast job, task by task *)

Lemma elem_of_columns_setitem n m c (df : Frame) :
  n ∈ columns (setitem m c df) → n = m ∨ n ∈ columns df.
Proof.
  destruct (decide (m ∈ columns df)) as [Hin|Hnin].
  - rewrite columns_setitem_in by done. by right.
  - rewrite columns_setitem_notin by done.
    rewrite elem_of_app, list_elem_of_singleton. tauto.
Qed.

Lemma job_frame_setitem (D : Frame) dev site pm lat lon ts n c :
  job_frame D dev site pm lat lon ts →
  n ∉ excluded_columns → strip n = n → length c = nrows D →
  job_frame (setitem n c D) dev site pm lat lon ts
  ∧ nrows (setitem n c D) = nrows D.
Proof.
  intros (Hwf & Hrows & Hstrip & Hdev & Hsite & Hpm & Hlat & Hlon & Hts)
    Hn Hs Hc.
  assert (Hne : D ≠ []) by (by apply nrows_nonzero_nonempty).
  assert (Hr : nrows (setitem n c D) = nrows D) by (by apply nrows_setitem).
  unfold excluded_columns in Hn. rewrite !not_elem_of_cons in Hn.
  destruct Hn as (? & ? & ? & ? & ? & ? & _).
  split; [|done]. split_and!.
  - by apply wf_frame_setitem.
  - by rewrite Hr.
  - intros m Hm. apply elem_of_columns_setitem in Hm as [->|Hm]; [done|].
    by apply Hstrip.
  - by rewrite getcol_setitem_ne.
  - by rewrite getcol_setitem_ne.
  - by rewrite getcol_setitem_ne.
  - by rewrite getcol_setitem_ne.
  - by rewrite getcol_setitem_ne.
  - by rewrite getcol_setitem_ne.
Qed.

Lemma job_frame_assign l : ∀ (D : Frame) dev site pm lat lon ts,
  job_frame D dev site pm lat lon ts →
  Forall (λ p : string * Column,
            (p.1 ∉ excluded_columns) ∧ strip p.1 = p.1 ∧ length p.2 = nrows D) l →
  job_frame (assign l D) dev site pm lat lon ts ∧ nrows (assign l D) = nrows D.
Proof.
  induction l as [|[n c] l IH]; intros D dev site pm lat lon ts HD Hl; [done|].
  apply Forall_cons in Hl as [(Hn & Hs & Hc) Hl]. simpl in Hn, Hs, Hc.
  destruct (job_frame_setitem D dev site pm lat lon ts n c HD Hn Hs Hc)
    as [HD' Hr].
  rewrite assign_cons. destruct (IH _ _ _ _ _ _ _ HD') as [HD'' Hr''].
  - eapply Forall_impl; [exact Hl|]. intros p (? & ? & ?). by rewrite Hr.
  - split; [done|]. by rewrite Hr''.
Qed.

Lemma job_frame_same_timestamp (D : Frame) dev site pm lat lon ts :
  job_frame D dev site pm lat lon ts → setitem "timestamp" ts D = D.
Proof. intros (_ & _ & _ & _ & _ & _ & _ & _ & Hts). by apply setitem_same. Qed.

Lemma job_frame_drop (D : Frame) dev site pm lat lon ts (names : list string) :
  job_frame D dev site pm lat lon ts →
  (∀ n, n ∈ excluded_columns → n ∉ names) →
  job_frame (filter (λ p : string * Column, p.1 ∉ names) D) dev site pm lat lon ts
  ∧ nrows (filter (λ p : string * Column, p.1 ∉ names) D) = nrows D.
Proof.
  intros (Hwf & Hrows & Hstrip & Hdev & Hsite & Hpm & Hlat & Hlon & Hts) Hnames.
  set (D' := filter (λ p : string * Column, p.1 ∉ names) D).
  assert (Hg : ∀ n, n ∈ excluded_columns → getcol n D' = getcol n D).
  { intros n Hn. apply getcol_filter_notin. by apply Hnames. }
  assert (Hsub : ∀ p, p ∈ D' → p ∈ D).
  { intros p Hp. by apply list_elem_of_filter in Hp as [_ Hp]. }
  destruct Hwf as [Hnd Hlen].
  assert (Hr : nrows D' = nrows D).
  { assert (Hd : getcol "device_id" D' = Some dev).
    { rewrite Hg; [done|]. apply list_elem_of_here. }
    destruct D' as [|[n c] D''] eqn:HD'; [done|]. simpl.
    rewrite Forall_forall in Hlen.
    apply (Hlen (n, c)), Hsub. apply list_elem_of_here. }
  split; [|done]. split_and!.
  - split.
    + unfold columns, D'. apply (NoDup_fmap_2_strong fst).
      * intros [n1 c1] [n2 c2] H1%Hsub H2%Hsub Heq. simpl in Heq. subst n2.
        f_equal. apply (elem_getcol _ _ _ Hnd) in H1, H2. congruence.
      * apply NoDup_filter. apply (NoDup_fmap_1 fst). exact Hnd.
    + rewrite Hr. apply Forall_forall. intros p Hp.
      rewrite Forall_forall in Hlen. by apply Hlen, Hsub.
  - by rewrite Hr.
  - intros n Hn. apply Hstrip. apply list_elem_of_fmap in Hn as (p & -> & Hp).
    apply list_elem_of_fmap. exists p. split; [done|]. by apply Hsub.
  - rewrite Hg; [done|]. apply (bool_decide_unpack _). vm_compute. exact I.
  - rewrite Hg; [done|]. apply (bool_decide_unpack _). vm_compute. exact I.
  - rewrite Hg; [done|]. apply (bool_decide_unpack _). vm_compute. exact I.
  - rewrite Hg; [done|]. apply (bool_decide_unpack _). vm_compute. exact I.
  - rewrite Hg; [done|]. apply (bool_decide_unpack _). vm_compute. exact I.
  - rewrite Hg; [done|]. apply (bool_decide_unpack _). vm_compute. exact I.
Qed.

Lemma store_snoc_lookup (σ : Store) (D : Frame) : (σ ++ [D]) !! length σ = Some D.
Proof. rewrite lookup_app_r by lia. by rewrite Nat.sub_diag. Qed.

Lemma feature_names_job freq :
  freq = "hourly" ∨ freq = "daily" →
  Forall (λ n, (n ∉ excluded_columns) ∧ strip n = n) (spec_feature_names freq).
Proof. intros [-> | ->]; apply (bool_decide_unpack _); vm_compute; exact I. Qed.

Lemma calendar_names_job freq :
  Forall (λ n, (n ∉ excluded_columns) ∧ strip n = n) (calendar_names freq).
Proof.
  unfold calendar_names, time_attributes.
  case_decide; apply (bool_decide_unpack _); vm_compute; exact I.
Qed.

Lemma job_columns (l : list (string * Column)) (k : nat) :
  Forall (λ n, (n ∉ excluded_columns) ∧ strip n = n) l.*1 →
  Forall (λ p : string * Column, length p.2 = k) l →
  Forall (λ p : string * Column,
            (p.1 ∉ excluded_columns) ∧ strip p.1 = p.1 ∧ length p.2 = k) l.
Proof.
  intros Hn Hl. rewrite Forall_fmap in Hn.
  rewrite Forall_forall in Hn, Hl. apply Forall_forall. intros p Hp.
  destruct (Hn p Hp) as [? ?]. split_and!; [done..|]. by apply Hl.
Qed.

Lemma np_map_numeric (f : Q → Q) (c : Column) :
  is_numeric c = true →
  np_map f c = Ok ((λ x, match x with CNum q => CNum (f q) | _ => CNull end) <$> c).
Proof. intros Hc. unfold np_map. by rewrite Hc. Qed.

Lemma is_numeric_take_cells idx c :
  is_numeric c = true → is_numeric (take_cells idx c) = true.
Proof.
  rewrite !is_numeric_Forall. intros Hc. unfold take_cells.
  apply Forall_fmap, Forall_forall. intros [i|] _; simpl; [|by left].
  destruct (c !! i) as [x|] eqn:Hx; simpl; [|by left].
  rewrite Forall_forall in Hc. by eapply Hc, list_elem_of_lookup_2.
Qed.

Lemma is_numeric_group_shift p keys c :
  is_numeric c = true → is_numeric (group_shift p keys c) = true.
Proof. apply is_numeric_take_cells. Qed.

Lemma is_numeric_dt_column f c : is_numeric (dt_column f c) = true.
Proof.
  rewrite is_numeric_Forall. unfold dt_column.
  apply Forall_fmap, Forall_forall. intros x _. simpl.
  destruct x; eauto.
Qed.

Lemma is_numeric_col_mul a b : is_numeric (col_mul a b) = true.
Proof.
  rewrite is_numeric_Forall. unfold col_mul. apply Forall_lookup.
  intros i x Hx. apply lookup_zip_with_Some in Hx as (y & z & -> & _ & _).
  destruct y, z; eauto.
Qed.

Lemma is_numeric_trig (g : Q → Q) (c : Column) :
  is_numeric ((λ x, match x with CNum q => CNum (g q) | _ => CNull end) <$> c)
  = true.
Proof.
  rewrite is_numeric_Forall. apply Forall_fmap, Forall_forall. intros x _. simpl.
  destruct x; eauto.
Qed.

Lemma calendar_columns_numeric freq ts :
  Forall (λ p : string * Column, is_numeric p.2 = true) (calendar_columns freq ts).
Proof.
  unfold calendar_columns. apply Forall_app. split.
  - apply Forall_fmap, Forall_forall. intros a _. apply is_numeric_dt_column.
  - repeat constructor. apply is_numeric_dt_column.
Qed.

(** Dropping columns keeps the other columns as they are. *)
Lemma numeric_features_drop (names : list string) (D : Frame) :
  NoDup (columns D) → numeric_features D →
  numeric_features (filter (λ p : string * Column, p.1 ∉ names) D).
Proof.
  intros Hnd Hnf n c Hn Hc. apply (Hnf n c Hn).
  apply getcol_Some_elem, list_elem_of_filter in Hc as [_ Hc].
  by apply elem_getcol.
Qed.

Section Job.
Context `{Externals}.

Lemma is_numeric_cyclic trig m c : is_numeric (cyclic trig m c) = true.
Proof. unfold cyclic. apply is_numeric_trig. Qed.

Lemma cyclic_columns_numeric freq ts :
  Forall (λ p : string * Column, is_numeric p.2 = true) (cyclic_columns freq ts).
Proof.
  unfold cyclic_columns. apply Forall_app. split.
  - apply Forall_forall. intros p Hp.
    apply list_elem_of_bind in Hp as (a & Hp & _).
    rewrite !elem_of_cons, elem_of_nil in Hp.
    destruct Hp as [->|[->|[]]]; apply is_numeric_cyclic.
  - repeat constructor; apply is_numeric_cyclic.
Qed.

Lemma lag_roll_columns_numeric u lags windows functions keys c :
  is_numeric c = true →
  Forall (λ p : string * Column, is_numeric p.2 = true)
    (lag_columns u lags keys c ++ roll_columns u windows functions keys c).
Proof.
  intros Hc. apply Forall_app. split.
  - unfold lag_columns. apply Forall_fmap, Forall_forall. intros s _. simpl.
    by apply is_numeric_group_shift.
  - unfold roll_columns. apply Forall_forall. intros p Hp.
    apply list_elem_of_bind in Hp as (s & Hp & _).
    apply list_elem_of_fmap in Hp as (f & -> & _). simpl.
    apply is_numeric_rolling.
Qed.

Lemma cyclic_names_job freq ts :
  Forall (λ n, (n ∉ excluded_columns) ∧ strip n = n) (cyclic_columns freq ts).*1.
Proof.
  rewrite cyclic_columns_names. unfold time_attributes.
  case_decide; apply (bool_decide_unpack _); vm_compute; exact I.
Qed.

Lemma cyclic_columns_length freq ts :
  Forall (λ p, length p.2 = length ts) (cyclic_columns freq ts).
Proof.
  unfold cyclic_columns. apply Forall_app. split.
  - apply Forall_forall. intros p Hp.
    apply list_elem_of_bind in Hp as (a & Hp & _).
    rewrite !elem_of_cons, elem_of_nil in Hp.
    destruct Hp as [->|[->|[]]]; simpl; unfold cyclic;
      by rewrite length_fmap, length_dt_column.
  - repeat constructor; simpl; unfold cyclic;
      by rewrite length_fmap, length_dt_column.
Qed.

Lemma lag_roll_columns_length u lags windows functions keys c :
  Forall (λ p, length p.2 = length keys)
    (lag_columns u lags keys c ++ roll_columns u windows functions keys c).
Proof.
  apply Forall_app. split.
  - unfold lag_columns. apply Forall_fmap, Forall_forall. intros s _. simpl.
    apply length_group_shift.
  - unfold roll_columns. apply Forall_forall. intros p Hp.
    apply list_elem_of_bind in Hp as (s & Hp & _).
    apply list_elem_of_fmap in Hp as (f & -> & _). simpl.
    by rewrite length_rolling, length_group_shift.
Qed.

Lemma job_frame_timestamps (D : Frame) dev site pm lat lon ts :
  job_frame D dev site pm lat lon ts → is_datetime ts = true →
  timestamp_to_datetime D = Ok ts.
Proof.
  intros (_ & _ & _ & _ & _ & _ & _ & _ & Hts) Hdt.
  unfold timestamp_to_datetime. rewrite Hts. simpl.
  by rewrite (to_datetime_datetime _ Hdt).
Qed.

(** The second task on such a table. *)
Lemma lag_task (σ : Store) (l : loc) (D : Frame) freq dev site pm lat lon ts :
  freq = "hourly" ∨ freq = "daily" →
  σ !! l = Some D → job_frame D dev site pm lat lon ts →
  numeric_features D →
  is_numeric pm = true → is_datetime ts = true →
  ∃ D', get_lag_and_roll_features l "pm2_5" freq σ = (Ok (length σ), σ ++ [D'])
        ∧ job_frame D' dev site pm lat lon ts
        ∧ numeric_features D'.
Proof.
  intros Hfreq Hl HD Hnf Hnum Hdt.
  pose proof (job_frame_timestamps _ _ _ _ _ _ _ HD Hdt) as Hts.
  pose proof (job_frame_same_timestamp _ _ _ _ _ _ _ HD) as Hsame.
  pose proof (feature_names_job freq Hfreq) as Hnames.
  destruct HD as (Hwf & Hrows & Hstrip & Hdev & Hsite & Hpm & Hlat & Hlon & Hc) eqn:E.
  clear E.
  eexists. split.
  - rewrite (get_lag_and_roll_features_run σ l D "pm2_5" freq dev pm ts);
      try done.
    + rewrite Hsame, list_insert_id by done. reflexivity.
    + intros Hin. rewrite Forall_forall in Hnames.
      destruct (Hnames _ Hin) as [Hex _]. apply Hex.
      apply (bool_decide_unpack _). vm_compute. exact I.
  - split.
    + apply job_frame_assign; [by split_and!|].
      apply job_columns.
      * unfold spec_feature_names in Hnames. by rewrite lag_roll_columns_names.
      * rewrite <- (wf_frame_getcol_length _ _ _ Hwf Hdev).
        rewrite <- (length_fmap (λ x, [x]) dev). apply lag_roll_columns_length.
    + apply numeric_features_assign; [done|].
      by apply lag_roll_columns_numeric.
Qed.

(** The third task. *)
Lemma time_task (σ : Store) (l : loc) (D : Frame) freq dev site pm lat lon ts :
  freq = "hourly" ∨ freq = "daily" →
  σ !! l = Some D → job_frame D dev site pm lat lon ts →
  numeric_features D →
  is_datetime ts = true →
  ∃ D', get_time_features l freq σ = (Ok (length σ), σ ++ [D'])
        ∧ job_frame D' dev site pm lat lon ts
        ∧ numeric_features D'.
Proof.
  intros Hfreq Hl HD Hnf Hdt.
  pose proof (job_frame_timestamps _ _ _ _ _ _ _ HD Hdt) as Hts.
  pose proof (job_frame_same_timestamp _ _ _ _ _ _ _ HD) as Hsame.
  assert (Hrows : nrows D ≠ 0) by apply HD.
  assert (Hlen : length ts = nrows D).
  { apply (wf_frame_getcol_length "timestamp"); apply HD. }
  eexists. split.
  - rewrite (get_time_features_run σ l D freq ts Hl Hrows Hts Hfreq).
    rewrite Hsame, list_insert_id by done. reflexivity.
  - split.
    + apply job_frame_assign; [done|]. apply job_columns.
      * rewrite calendar_columns_names. apply calendar_names_job.
      * rewrite <- Hlen. apply calendar_columns_length.
    + apply numeric_features_assign; [done|]. apply calendar_columns_numeric.
Qed.

(** The fourth task. *)
Lemma cyclic_task (σ : Store) (l : loc) (D : Frame) freq dev site pm lat lon ts :
  freq = "hourly" ∨ freq = "daily" →
  σ !! l = Some D → job_frame D dev site pm lat lon ts →
  numeric_features D →
  is_datetime ts = true →
  ∃ D', get_cyclic_features l freq σ = (Ok (length σ), σ ++ [D'])
        ∧ job_frame D' dev site pm lat lon ts
        ∧ numeric_features D'.
Proof.
  intros Hfreq Hl HD Hnf Hdt.
  pose proof (job_frame_timestamps _ _ _ _ _ _ _ HD Hdt) as Hts.
  pose proof (job_frame_same_timestamp _ _ _ _ _ _ _ HD) as Hsame.
  assert (Hrows : nrows D ≠ 0) by apply HD.
  assert (Hlen : length ts = nrows D).
  { apply (wf_frame_getcol_length "timestamp"); apply HD. }
  eexists. split.
  - rewrite (get_cyclic_features_run σ l D freq ts Hl Hrows Hts Hfreq).
    rewrite Hsame, list_insert_id by done. reflexivity.
  - destruct (job_frame_assign (calendar_columns freq ts) D dev site pm lat lon ts HD)
      as [HD1 Hr1].
    { apply job_columns.
      - rewrite calendar_columns_names. apply calendar_names_job.
      - rewrite <- Hlen. apply calendar_columns_length. }
    destruct (job_frame_assign (cyclic_columns freq ts) _ dev site pm lat lon ts HD1)
      as [HD2 Hr2].
    { apply job_columns.
      - apply cyclic_names_job.
      - rewrite Hr1, <- Hlen. apply cyclic_columns_length. }
    split.
    + apply job_frame_drop; [done|].
      intros n Hn Hc. pose proof (calendar_names_job freq) as Hcal.
      rewrite Forall_forall in Hcal. by destruct (Hcal n Hc).
    + apply numeric_features_drop; [apply HD2|].
      apply numeric_features_assign; [|apply cyclic_columns_numeric].
      apply numeric_features_assign; [done|apply calendar_columns_numeric].
Qed.

(** The fifth task, which writes into the table it is given. *)
Lemma location_task (σ : Store) (l : loc) (D : Frame) dev site pm lat lon ts :
  σ !! l = Some D → job_frame D dev site pm lat lon ts →
  numeric_features D →
  is_datetime ts = true → is_numeric lat = true → is_numeric lon = true →
  ∃ D', get_location_features l σ = (Ok l, <[l := D']> σ)
        ∧ job_frame D' dev site pm lat lon ts
        ∧ numeric_features D'.
Proof.
  intros Hl HD Hnf Hdt Hnlat Hnlon.
  pose proof (job_frame_timestamps _ _ _ _ _ _ _ HD Hdt) as Hts.
  pose proof (job_frame_same_timestamp _ _ _ _ _ _ _ HD) as Hsame.
  assert (Hrows : nrows D ≠ 0) by apply HD.
  assert (Hwf : wf_frame D) by apply HD.
  assert (Hlat : getcol "latitude" D = Some lat) by apply HD.
  assert (Hlon : getcol "longitude" D = Some lon) by apply HD.
  assert (Htc : getcol "timestamp" D = Some ts) by apply HD.
  assert (Hllat : length lat = nrows D) by (by eapply wf_frame_getcol_length).
  assert (Hllon : length lon = nrows D) by (by eapply wf_frame_getcol_length).
  assert (Hf : filter (λ n, n ∉ columns D) ["timestamp"; "latitude"; "longitude"]
               = []).
  { rewrite !filter_cons, filter_nil.
    rewrite !decide_False; [done|..]; intros Hn; apply Hn;
      apply getcol_is_Some; eauto. }
  set (cos_lat := (λ x, match x with CNum q => CNum (np_cos q) | _ => CNull end)
                    <$> lat).
  set (cos_lon := (λ x, match x with CNum q => CNum (np_cos q) | _ => CNull end)
                    <$> lon).
  set (sin_lon := (λ x, match x with CNum q => CNum (np_sin q) | _ => CNull end)
                    <$> lon).
  set (sin_lat := (λ x, match x with CNum q => CNum (np_sin q) | _ => CNull end)
                    <$> lat).
  set (cols := [("x_cord", col_mul cos_lat cos_lon);
                ("y_cord", col_mul cos_lat sin_lon);
                ("z_cord", sin_lat)]).
  exists (assign cols D). split_and!.
  - unfold get_location_features.
    rewrite run_bind, (run_load _ _ _ Hl), (empty_false _ Hrows), Hf.
    rewrite run_bind, Hts, run_lift.
    rewrite run_bind, (run_setitem_at _ _ _ _ _ Hl), Hsame.
    rewrite list_insert_id by done.
    rewrite run_bind, (run_load _ _ _ Hl).
    rewrite run_bind, run_lift, Hlat; cbn [need].
    rewrite run_bind, run_lift, Hlon; cbn [need].
    rewrite run_bind, run_lift, (np_map_numeric _ _ Hnlat).
    rewrite run_bind, run_lift, (np_map_numeric _ _ Hnlon).
    rewrite run_bind, (run_setitem_at _ _ _ _ _ Hl).
    fold cos_lat cos_lon.
    set (D1 := setitem "x_cord" (col_mul cos_lat cos_lon) D).
    pose proof (store_lookup_insert _ _ _ D1 Hl) as Hl1.
    assert (Hlat1 : getcol "latitude" D1 = Some lat)
      by (unfold D1; by rewrite getcol_setitem_ne).
    assert (Hlon1 : getcol "longitude" D1 = Some lon)
      by (unfold D1; by rewrite getcol_setitem_ne).
    rewrite run_bind, (run_load _ _ _ Hl1).
    rewrite run_bind, run_lift, Hlat1; cbn [need].
    rewrite run_bind, run_lift, Hlon1; cbn [need].
    rewrite run_bind, run_lift, (np_map_numeric _ _ Hnlat).
    rewrite run_bind, run_lift, (np_map_numeric _ _ Hnlon).
    rewrite run_bind, (run_setitem_at _ _ _ _ _ Hl1).
    rewrite list_insert_insert_eq.
    fold cos_lat sin_lon.
    set (D2 := setitem "y_cord" (col_mul cos_lat sin_lon) D1).
    pose proof (store_lookup_insert _ _ _ D2 Hl) as Hl2.
    assert (Hlat2 : getcol "latitude" D2 = Some lat)
      by (unfold D2; by rewrite getcol_setitem_ne).
    rewrite run_bind, (run_load _ _ _ Hl2).
    rewrite run_bind, run_lift, Hlat2; cbn [need].
    rewrite run_bind, run_lift, (np_map_numeric _ _ Hnlat).
    rewrite run_bind, (run_setitem_at _ _ _ _ _ Hl2).
    rewrite list_insert_insert_eq, run_ret. reflexivity.
  - apply job_frame_assign; [done|].
    assert (Hlen : ∀ (f g : Cell → Cell), length (col_mul (f <$> lat) (g <$> lon))
                                          = nrows D).
    { intros f g. unfold col_mul.
      rewrite length_zip_with, !length_fmap. lia. }
    repeat constructor; simpl;
      try (by apply (bool_decide_unpack _); vm_compute; exact I);
      try apply Hlen.
    unfold sin_lat. by rewrite length_fmap.
  - apply numeric_features_assign; [done|].
    repeat constructor; simpl;
      first [apply is_numeric_col_mul | apply is_numeric_trig].
Qed.

(** The first task on the raw table of an hourly job: the rows that have
    a [pm2_5] value after the interpolation by device and site. *)
Lemma preprocess_task (σ : Store) (data : loc) (d : Frame)
    (dev0 site0 pm0 lat0 lon0 ts0 : Column) :
  σ !! data = Some d → wf_frame d →
  (∀ n, n ∈ columns d → strip n = n) →
  getcol "device_id" d = Some dev0 → getcol "site_id" d = Some site0 →
  getcol "pm2_5" d = Some pm0 → getcol "latitude" d = Some lat0 →
  getcol "longitude" d = Some lon0 →
  is_numeric pm0 = true → timestamp_to_datetime d = Ok ts0 →
  numeric_features d →
  let keys := zip_with (λ x y, [x; y]) dev0 site0 in
  let pm1 := group_transform interpolate keys pm0 in
  let keep := notna <$> pm1 in
  ∃ σ' D',
    preprocess_data data "hourly" "prediction" σ = (Ok (length σ), σ' ++ [D'])
    ∧ length σ' = length σ
    ∧ numeric_features D'
    ∧ wf_frame D'
    ∧ nrows D' = length (mask_select keep dev0)
    ∧ (∀ n, n ∈ columns D' → strip n = n)
    ∧ getcol "device_id" D' = Some (mask_select keep dev0)
    ∧ getcol "site_id" D' = Some (mask_select keep site0)
    ∧ getcol "pm2_5" D' = Some (mask_select keep pm1)
    ∧ getcol "latitude" D' = Some (mask_select keep lat0)
    ∧ getcol "longitude" D' = Some (mask_select keep lon0)
    ∧ getcol "timestamp" D' = Some (mask_select keep ts0).
Proof.
  intros Hd Hwf Hstrip Hdev Hsite Hpm Hlat Hlon Hnum Hts Hnf keys pm1 keep.
  assert (Hk : row_keys (group_columns "prediction") d = Some keys).
  { change (group_columns "prediction") with ["device_id"; "site_id"].
    by apply row_keys_pair. }
  destruct (interpolated_facts d "prediction" keys pm0 ts0 Hwf Hpm Hts Hk)
    as (Hlk & Hn1 & Hk1 & Hpm1 & Hn2 & Hwf2 & Hk2 & Hpm2).
  set (d2 := interpolated d keys pm0 ts0) in *.
  assert (Hg : ∀ n, n ≠ "pm2_5" → n ≠ "timestamp" → getcol n d2 = getcol n d).
  { intros n H1 H2. unfold d2, interpolated.
    by rewrite !getcol_setitem_ne. }
  assert (Hcols : columns d2 = columns d).
  { unfold d2, interpolated. rewrite !columns_setitem_in; [done|..].
    - apply getcol_is_Some. destruct (timestamp_to_datetime_inv _ _ Hts)
        as (c0 & Hc0 & _). eauto.
    - apply columns_setitem_incl, getcol_is_Some. eauto. }
  assert (Hts2 : getcol "timestamp" d2 = Some ts0).
  { unfold d2, interpolated. rewrite getcol_setitem_ne by done.
    apply getcol_setitem_eq. }
  exists (<[data := d2]> σ), (filter_rows keep d2). split_and!.
  - apply (preprocess_data_hourly_run σ data d "hourly" "prediction" keys pm0 ts0);
      try done.
    apply getcol_is_Some. eauto.
  - apply length_insert.
  - apply numeric_features_filter_rows. unfold d2, interpolated.
    apply numeric_features_setitem.
    + apply numeric_features_setitem; [done|].
      intros Hn. exfalso. apply Hn. apply list_elem_of_here.
    + intros _. by apply is_numeric_group_transform_interpolate.
  - by apply wf_frame_filter_rows.
  - symmetry. apply (length_filter_rows_col keep d2 "device_id" dev0);
      [done| |done]. by rewrite Hg.
  - intros n. unfold filter_rows. rewrite columns_map_columns, Hcols. apply Hstrip.
  - by rewrite getcol_filter_rows, Hg, Hdev.
  - by rewrite getcol_filter_rows, Hg, Hsite.
  - by rewrite getcol_filter_rows, Hpm2.
  - by rewrite getcol_filter_rows, Hg, Hlat.
  - by rewrite getcol_filter_rows, Hg, Hlon.
  - by rewrite getcol_filter_rows, Hts2.
Qed.

(** A row that keeps a [pm2_5] value after the interpolation by device
    and site has a device. *)
Lemma kept_rows_have_device (dev0 site0 pm0 : Column) :
  length site0 = length dev0 →
  let keys := zip_with (λ x y, [x; y]) dev0 site0 in
  let keep := notna <$> group_transform interpolate keys pm0 in
  Forall (λ x, x ≠ CNull) (mask_select keep dev0).
Proof.
  intros Hlen keys keep. apply mask_select_Forall. intros i x Hi Hx ->.
  destruct (lookup_lt_is_Some_2 site0 i) as [y Hy].
  { rewrite Hlen. by apply lookup_lt_Some in Hx. }
  assert (Hk : keys !! i = Some [CNull; y]).
  { unfold keys. by rewrite lookup_zip_with, Hx, Hy. }
  unfold keep in Hi. rewrite list_lookup_fmap in Hi.
  by rewrite (group_transform_lookup_null _ _ _ _ _ Hk eq_refl) in Hi.
Qed.

Lemma mask_select_notna_all (dev c : Column) :
  Forall (λ x, x ≠ CNull) dev → length c = length dev →
  mask_select (notna <$> dev) c = c.
Proof.
  intros Hall Hlen. apply mask_select_all_true.
  - intros i b Hi. rewrite list_lookup_fmap in Hi.
    destruct (dev !! i) as [x|] eqn:Hx; [|done]. injection Hi as <-.
    rewrite Forall_forall in Hall.
    assert (x ≠ CNull) by (eapply Hall, list_elem_of_lookup_2; eauto).
    by destruct x.
  - by rewrite length_fmap.
Qed.

(** The last task on such a table without a missing device. *)
Lemma forecast_task (configuration : Configuration) (fs : gmap string Model)
    (forecast_model : Model) (D : Frame) (project_name bucket_name frequency : string)
    dev site pm lat lon ts :
  job_frame D dev site pm lat lon ts →
  numeric_features D →
  is_numeric pm = true → is_datetime ts = true →
  Forall (λ x, x ≠ CNull) dev →
  fs !! (bucket_name +:+ "/" +:+ frequency +:+ "_forecast_model.pkl")
  = Some forecast_model →
  (0 < forecast_horizon configuration frequency)%Z →
  let h := Z.to_nat (forecast_horizon configuration frequency) in
  ∃ preds,
    generate_forecasts configuration fs D project_name bucket_name frequency
    = Ok (forecast_rows frequency h dev site ts ++ [("pm2_5", CNum <$> preds)])
    ∧ length preds = h * length (unique dev).
Proof.
  intros HD Hnf Hnum Hdt Hall Hfs Hh h.
  pose proof (job_frame_timestamps _ _ _ _ _ _ _ HD Hdt) as Hts.
  destruct HD as (Hwf & Hrows & Hstrip & Hdev & Hsite & Hpm & Hlat & Hlon & Hc).
  assert (Hld : length dev = nrows D) by (by eapply wf_frame_getcol_length).
  assert (Hls : length site = nrows D) by (by eapply wf_frame_getcol_length).
  assert (Hlt : length ts = nrows D) by (by eapply wf_frame_getcol_length).
  destruct (generate_forecasts_ok configuration fs forecast_model D
              project_name bucket_name frequency dev site pm ts)
    as [_ Hsome]; try done.
  { intros n Hn. apply getcol_is_Some. unfold excluded_columns in Hn.
    rewrite !elem_of_cons, elem_of_nil in Hn.
    destruct Hn as [->|[->|[->|[->|[->|[->|[]]]]]]]; eauto. }
  cbv zeta in Hsome.
  rewrite !(mask_select_notna_all dev) in Hsome by (done || congruence).
  apply Hsome. destruct dev as [|x dev']; [|done].
  simpl in Hld. congruence.
Qed.

(** X17.  The hourly forecast job, from the raw table to the forecasts.
    The raw table has columns of one length and stripped names, the six
    columns that the job reads, numbers in [pm2_5], [latitude],
    [longitude] and every other column but [timestamp], [device_id] and
    [site_id], and convertible timestamps; a model is stored for hourly
    forecasts and the configured horizon is positive.  The rows that
    reach the forecasts are those with a [pm2_5] value after the
    interpolation by device and site; none of them lacks a device.  When
    no row is left, the second task raises [ValueError] for an empty
    table.  Otherwise each of the six tasks accepts the table that the
    task before it returned, and the job returns the forecast table:
    for every device of the kept rows, in order of first appearance, as
    many rows as the horizon, with the device's last site, numeric
    forecasts, and the hours that follow the device's last timestamp. *)
Theorem hourly_forecast_job_end_to_end (configuration : Configuration)
    (fs : gmap string Model) (forecast_model : Model)
    (σ : Store) (data : loc) (d : Frame) (project_id bucket : string)
    (dev0 site0 pm0 lat0 lon0 ts0 : Column) :
  σ !! data = Some d → wf_frame d →
  (∀ n, n ∈ columns d → strip n = n) →
  getcol "device_id" d = Some dev0 → getcol "site_id" d = Some site0 →
  getcol "pm2_5" d = Some pm0 → getcol "latitude" d = Some lat0 →
  getcol "longitude" d = Some lon0 →
  is_numeric pm0 = true → is_numeric lat0 = true → is_numeric lon0 = true →
  numeric_features d →
  timestamp_to_datetime d = Ok ts0 →
  fs !! (bucket +:+ "/" +:+ "hourly" +:+ "_forecast_model.pkl")
  = Some forecast_model →
  (0 < forecast_horizon configuration "hourly")%Z →
  let keys := zip_with (λ x y, [x; y]) dev0 site0 in
  let keep := notna <$> group_transform interpolate keys pm0 in
  let dev := mask_select keep dev0 in
  let site := mask_select keep site0 in
  let ts := mask_select keep ts0 in
  let horizon := forecast_horizon configuration "hourly" in
  let run := make_forecasts configuration fs project_id bucket "hourly" data σ in
  (CNull ∉ dev)
  ∧ (dev = [] → run.1 = Raise (ValueError "Empty dataframe provided"))
  ∧ (dev ≠ [] →
       ∃ out preds,
         run.1 = Ok out
         ∧ columns out = ["device_id"; "site_id"; "timestamp"; "pm2_5"]
         ∧ getcol "device_id" out
           = Some (unique dev ≫= λ x, replicate (Z.to_nat horizon) x)
         ∧ getcol "site_id" out
           = Some (unique dev ≫= λ x,
                     replicate (Z.to_nat horizon) (device_last x dev site))
         ∧ getcol "timestamp" out
           = Some (unique dev ≫= λ x,
                     spec_forecast_timestamps HOUR_NS (device_last x dev ts)
                       horizon)
         ∧ getcol "pm2_5" out = Some (CNum <$> preds)
         ∧ length preds = Z.to_nat horizon * length (unique dev)).
Proof.
  intros Hd Hwf Hstrip Hdev Hsite Hpm Hlat Hlon Hnpm Hnlat Hnlon Hnf Hts Hfs Hh
    keys keep dev site ts horizon run.
  assert (Hls : length site0 = length dev0).
  { rewrite (wf_frame_getcol_length _ _ _ Hwf Hsite).
    by rewrite (wf_frame_getcol_length _ _ _ Hwf Hdev). }
  pose proof (kept_rows_have_device dev0 site0 pm0 Hls) as Hall.
  fold keys keep dev in Hall.
  destruct (preprocess_task σ data d dev0 site0 pm0 lat0 lon0 ts0
              Hd Hwf Hstrip Hdev Hsite Hpm Hlat Hlon Hnpm Hts Hnf)
    as (σ' & D1 & Hrun1 & Hlen' & Hnf1 & Hwf1 & Hrows1 & Hstrip1 & Hdev1 & Hsite1
        & Hpm1 & Hlat1 & Hlon1 & Hts1).
  fold keys keep dev site ts in Hrows1, Hdev1, Hsite1, Hpm1, Hlat1, Hlon1, Hts1.
  assert (Hl1 : (σ' ++ [D1]) !! length σ = Some D1).
  { rewrite <- Hlen'. apply store_snoc_lookup. }
  destruct (timestamp_to_datetime_inv _ _ Hts) as (c0 & Hc0 & Hconv).
  assert (Hdt : is_datetime ts = true).
  { apply is_datetime_mask_select. by eapply to_datetime_is_datetime. }
  set (pm := mask_select keep (group_transform interpolate keys pm0)) in *.
  assert (Hnum : is_numeric pm = true).
  { apply is_numeric_mask_select.
    by apply is_numeric_group_transform_interpolate. }
  split_and!.
  - intros Hin. rewrite Forall_forall in Hall. by apply (Hall CNull).
  - intros Hnil. unfold run, make_forecasts.
    rewrite run_bind, Hrun1. rewrite run_bind.
    unfold get_lag_and_roll_features.
    rewrite run_bind, (run_load _ _ _ Hl1), empty_true; [done|].
    by rewrite Hrows1, Hnil.
  - intros Hne.
    assert (HD1 : job_frame D1 dev site pm (mask_select keep lat0)
                    (mask_select keep lon0) ts).
    { split_and!; try done. rewrite Hrows1. by destruct dev. }
    destruct (lag_task (σ' ++ [D1]) (length σ) D1 "hourly" _ _ _ _ _ _
                (or_introl eq_refl) Hl1 HD1 Hnf1 Hnum Hdt)
      as (D2 & Hrun2 & HD2 & Hnf2).
    set (σ1 := σ' ++ [D1]) in *.
    destruct (time_task (σ1 ++ [D2]) (length σ1) D2 "hourly" _ _ _ _ _ _
                (or_introl eq_refl) (store_snoc_lookup _ _) HD2 Hnf2 Hdt)
      as (D3 & Hrun3 & HD3 & Hnf3).
    set (σ2 := σ1 ++ [D2]) in *.
    destruct (cyclic_task (σ2 ++ [D3]) (length σ2) D3 "hourly" _ _ _ _ _ _
                (or_introl eq_refl) (store_snoc_lookup _ _) HD3 Hnf3 Hdt)
      as (D4 & Hrun4 & HD4 & Hnf4).
    set (σ3 := σ2 ++ [D3]) in *.
    destruct (location_task (σ3 ++ [D4]) (length σ3) D4 _ _ _ _ _ _
                (store_snoc_lookup _ _) HD4 Hnf4 Hdt
                (is_numeric_mask_select _ _ Hnlat)
                (is_numeric_mask_select _ _ Hnlon))
      as (D5 & Hrun5 & HD5 & Hnf5).
    destruct (forecast_task configuration fs forecast_model D5 project_id bucket
                "hourly" _ _ _ _ _ _ HD5 Hnf5 Hnum Hdt Hall Hfs Hh)
      as (preds & Hrun6 & Hlen).
    eexists _, preds. split.
    { unfold run, make_forecasts.
      rewrite run_bind, Hrun1. rewrite run_bind, Hrun2.
      rewrite run_bind, Hrun3. rewrite run_bind, Hrun4.
      rewrite run_bind, Hrun5.
      rewrite run_bind,
        (run_load _ _ _ (store_lookup_insert _ _ _ D5 (store_snoc_lookup σ3 D4))).
      rewrite run_lift. cbn [fst]. exact Hrun6. }
    unfold forecast_rows. fold horizon. cbn [app].
    split_and!; try done.
    simpl. f_equal. apply list_bind_ext; [|done]. intros x.
    rewrite next_timestamps_hourly. unfold horizon.
    by rewrite Z2Nat.id by lia.
Qed.

End Job.

Lemma hourly_forecast_job_end_to_end_witness :
  ∃ out,
    (make_forecasts sample_configuration sample_models "airqo" "models" "hourly"
       0 [sample_raw]).1 = Ok out
    ∧ columns out = ["device_id"; "site_id"; "timestamp"; "pm2_5"]
    ∧ getcol "device_id" out = Some [CStr "a"; CStr "a"]
    ∧ getcol "site_id" out = Some [CStr "s1"; CStr "s1"]
    ∧ getcol "timestamp" out = Some [hour 473354; hour 473355].
Proof.
  destruct (hourly_forecast_job_end_to_end sample_configuration sample_models
              sample_model [sample_raw] 0 sample_raw "airqo" "models"
              [CStr "a"; CStr "a"] [CStr "s1"; CStr "s1"] [CNull; num 9]
              [num 0; num 0] [num 0; num 0] [hour 473352; hour 473353])
    as (_ & _ & Hrun).
  - reflexivity.
  - split; [by apply (bool_decide_unpack _)|repeat constructor].
  - intros n Hn. unfold sample_raw in Hn. rewrite !columns_cons in Hn.
    repeat (apply elem_of_cons in Hn as [->|Hn]);
      [..|by apply elem_of_nil in Hn]; reflexivity.
  - reflexivity.
  - reflexivity.
  - reflexivity.
  - reflexivity.
  - reflexivity.
  - reflexivity.
  - reflexivity.
  - reflexivity.
  - apply numeric_features_spec. reflexivity.
  - vm_compute. reflexivity.
  - reflexivity.
  - reflexivity.
  - cbv zeta in Hrun.
    destruct Hrun as (out & preds & Hrun & Hcols & Hdev & Hsite & Hts & _).
    { vm_compute. discriminate. }
    exists out. split_and!; [done|done| | |].
    + rewrite Hdev. vm_compute. reflexivity.
    + rewrite Hsite. vm_compute. reflexivity.
    + rewrite Hts. vm_compute. reflexivity.
Defined.
